(** * IDJC source client: recorder and live AAC / WebM encoder back ends

    A shallow embedding of [recorder.c], [live_aac_encoder.c] and
    [live_webm_encoder.c] (with the packet model of [encoder.h]), and the
    properties of the packet protocol, the recorder state machine and the
    MP3 post-processing that follow from that code.

    Conventions of the embedding.
    - C [int] values are [Z]; the additions the code performs on serial
      numbers are written with their 32-bit wrap-around ([to_int]).
    - C [double] values are kept behind the interface [Double]; the IEEE
      binary64 instance [ieee_double] evaluates what the compiled C code
      evaluates, the instance [exact_double] is exact rational arithmetic.
    - Bytes are [Z] in [0, 256); files are lists of bytes held in a map from
      path names to contents; stdio streams are unbuffered.
    - Calls into code that is not part of these files (libavformat,
      libavcodec, the id3 writer, the packet ring buffers of encoder.c, the
      clock) take their results from an explicit environment argument.
    - A computation that the C code cannot finish (integer division by zero,
      [strcmp] on a null pointer) is [None]. *)

From Stdlib Require Import ZArith List String Ascii Lia Bool QArith Qround Floats.
From stdpp Require Import base option list strings gmap pretty.

Open Scope Z_scope.

(** ** C scalars *)

Definition INT_MAX : Z := 2147483647.
Definition INT_MIN : Z := -2147483648.

(** Conversion to a 32-bit two's complement [int]. *)
Definition to_int (z : Z) : Z := (z + 2147483648) mod 4294967296 - 2147483648.

(** [a / b] on C integers: truncation towards zero, no result for [b = 0]. *)
Definition idiv (a b : Z) : option Z :=
  if b =? 0 then None else Some (Z.quot a b).

(** [a % b] on C integers. *)
Definition imod (a b : Z) : option Z :=
  if b =? 0 then None else Some (Z.rem a b).

(** sourceclient.h is not among the files; the code only relies on
    [SUCCEEDED] being true and [FAILED] being false as C conditions. *)
Inductive retcode := SUCCEEDED | FAILED.

Definition retcode_true (r : retcode) : bool :=
  match r with SUCCEEDED => true | FAILED => false end.

(** ** encoder.h: enumerations and packet flags *)

Inductive jack_dataflow := JD_OFF | JD_ON | JD_FLUSH.
Inductive encoder_family :=
  ENCODER_FAMILY_UNHANDLED | ENCODER_FAMILY_MPEG | ENCODER_FAMILY_OGG | ENCODER_FAMILY_WEBM.
Inductive encoder_codec :=
  ENCODER_CODEC_UNHANDLED | ENCODER_CODEC_MP3 | ENCODER_CODEC_VORBIS | ENCODER_CODEC_FLAC
| ENCODER_CODEC_SPEEX | ENCODER_CODEC_OPUS | ENCODER_CODEC_MP2 | ENCODER_CODEC_AAC
| ENCODER_CODEC_AACPLUSV2.
Inductive encoder_state_t := ES_STOPPED | ES_STARTING | ES_RUNNING | ES_STOPPING | ES_PAUSED.

Definition PF_UNSET : Z := 0.
Definition PF_INITIAL : Z := 1.
Definition PF_FINAL : Z := 2.
Definition PF_OGG : Z := 4.
Definition PF_MP3 : Z := 8.
Definition PF_METADATA : Z := 16.
Definition PF_HEADER : Z := 32.
Definition PF_MP2 : Z := 64.
Definition PF_AAC : Z := 128.
Definition PF_AACP2 : Z := 256.
Definition PF_WEBM : Z := 512.

(** The C condition [flags & mask]. *)
Definition has_flag (fl mask : Z) : bool := negb (Z.land fl mask =? 0).

(** [flags &= ~mask] on the non-negative flag words of [enum packet_flags]. *)
Definition clear_flag (fl mask : Z) : Z := Z.ldiff fl mask.

(** ** C doubles *)

Class Double := {
  double : Type;
  d_of_int : Z -> double;              (* conversion of an integer value *)
  d_0_01 : double;                     (* the literal 0.01 *)
  d_0_5 : double;                      (* the literal 0.5 *)
  dadd : double -> double -> double;
  dsub : double -> double -> double;
  dmul : double -> double -> double;
  ddiv : double -> double -> double;
  dlt : double -> double -> bool;      (* x < y *)
  dleb : double -> double -> bool;     (* x <= y *)
  d_to_int : double -> Z               (* conversion to an integer type: truncation *)
}.

(** IEEE 754 binary64 with round-to-nearest-even, as the kernel's primitive floats. *)
Definition float_of_Z (z : Z) : float :=
  if 0 <=? z then PrimFloat.of_uint63 (Uint63.of_Z z)
  else PrimFloat.opp (PrimFloat.of_uint63 (Uint63.of_Z (- z))).

Definition float_trunc (x : float) : Z :=
  match Prim2SF x with
  | S754_finite s m e =>
      let v := if (0 <=? e)%Z then Z.pos m * 2 ^ e else Z.pos m / 2 ^ (- e) in
      if s then - v else v
  | _ => 0
  end.

#[export] Instance ieee_double : Double := {|
  double := float;
  d_of_int := float_of_Z;
  d_0_01 := 0x1.47ae147ae147bp-7%float;
  d_0_5 := 0.5%float;
  dadd := PrimFloat.add;
  dsub := PrimFloat.sub;
  dmul := PrimFloat.mul;
  ddiv := PrimFloat.div;
  dlt := PrimFloat.ltb;
  dleb := PrimFloat.leb;
  d_to_int := float_trunc
|}.

(** Exact rational arithmetic. *)
Definition Q_trunc (x : Q) : Z :=
  if Qle_bool 0 x then Qfloor x else Qceiling x.

Definition Q_ltb (x y : Q) : bool := negb (Qle_bool y x).

Definition exact_double : Double := {|
  double := Q;
  d_of_int := inject_Z;
  d_0_01 := (1 # 100)%Q;
  d_0_5 := (1 # 2)%Q;
  dadd := Qplus;
  dsub := Qminus;
  dmul := Qmult;
  ddiv := Qdiv;
  dlt := Q_ltb;
  dleb := Qle_bool;
  d_to_int := Q_trunc
|}.

Definition dgt `{Double} (x y : double) : bool := dlt y x.

(** ** encoder.h: packets *)

(** [struct encoder_op_packet_header]; [magic] and [data_format] are not
    written by the code embedded here. *)
Record encoder_op_packet_header `{Double} := {
  bit_rate : Z;
  sample_rate : Z;
  n_channels : Z;
  flags : Z;
  serial : Z;
  timestamp : double;
  data_size : Z
}.

Record encoder_op_packet `{Double} := {
  header : encoder_op_packet_header;
  data : list Z
}.

(** ** Bytes, text and the file system *)

Definition byte_of_ascii (c : ascii) : Z := Z.of_N (N_of_ascii c).

Fixpoint str_bytes (s : string) : list Z :=
  match s with
  | EmptyString => []
  | String c s' => byte_of_ascii c :: str_bytes s'
  end.

Definition ascii_of_byte (b : Z) : ascii := ascii_of_N (Z.to_N (b mod 256)).

Fixpoint bytes_str (l : list Z) : string :=
  match l with
  | [] => EmptyString
  | b :: l' => String (ascii_of_byte b) (bytes_str l')
  end.

(** The C string held in a buffer: the bytes before the first NUL. *)
Fixpoint c_str (l : list Z) : list Z :=
  match l with
  | [] => []
  | b :: l' => if b =? 0 then [] else b :: c_str l'
  end.

Record world := {
  files : gmap string (list Z);
  stderr : list string
}.

Definition elog (msg : string) (w : world) : world :=
  {| files := files w; stderr := stderr w ++ [msg] |}.

Definition file_content (path : string) (w : world) : list Z :=
  default [] (files w !! path).

(** An output stream: the device accepts [f_room] more bytes ([None]: any
    number) and the error indicator is sticky. *)
Record FILE := {
  f_path : string;
  f_room : option Z;
  f_error : bool
}.

(** Bytes a stream accepts out of [n] requested. *)
Definition accepted (f : FILE) (n : Z) : Z :=
  match f_room f with
  | None => n
  | Some room => Z.min n (Z.max 0 room)
  end.

(** The write underneath [fwrite] and [fputc]: returns the number of bytes written. *)
Definition write_bytes (buf : list Z) (f : FILE) (w : world) : Z * FILE * world :=
  let n := Z.of_nat (length buf) in
  let k := accepted f n in
  let f' := {| f_path := f_path f;
               f_room := (fun room => room - k) <$> f_room f;
               f_error := f_error f || (k <? n) |} in
  let w' := {| files := <[f_path f := file_content (f_path f) w ++ take (Z.to_nat k) buf]> (files w);
               stderr := stderr w |} in
  (k, f', w').

(** [fwrite(buf, size, nmemb, f)]: the number of complete items written. *)
Definition fwrite (buf : list Z) (size nmemb : Z) (f : FILE) (w : world) : Z * FILE * world :=
  let '(k, f', w') := write_bytes (take (Z.to_nat (size * nmemb)) buf) f w in
  (if size =? 0 then 0 else Z.quot k size, f', w').

Definition fputc (c : Z) (f : FILE) (w : world) : FILE * world :=
  let '(_, f', w') := write_bytes [c mod 256] f w in (f', w').

Definition ferror (f : FILE) : bool := f_error f.

(** Streams are opened with mode "w" or "w+" and only appended to. *)
Definition ftell (f : FILE) (w : world) : Z := Z.of_nat (length (file_content (f_path f) w)).

(** [fopen(path, "w")]: [ok] and [room] say whether the open succeeds and how
    much the device will take. *)
Definition fopen_w (path : string) (ok : bool) (room : option Z) (w : world) : option FILE * world :=
  if ok then
    (Some {| f_path := path; f_room := room; f_error := false |},
     {| files := <[path := []]> (files w); stderr := stderr w |})
  else (None, w).

Definition unlink (path : string) (w : world) : world :=
  {| files := delete path (files w); stderr := stderr w |}.

(** [rename(old, new)]: returns [true] on failure, as the C condition tests. *)
Definition rename (old new : string) (ok : bool) (w : world) : bool * world :=
  match files w !! old with
  | Some c =>
      if ok then (false, {| files := <[new := c]> (delete old (files w)); stderr := stderr w |})
      else (true, w)
  | None => (true, w)
  end.

(** A reader on a file of the map: [fopen(path, "r")], [fread], [rewind]. *)
Record RFILE := {
  rf_path : string;
  rf_pos : nat
}.

Definition fopen_r (path : string) (ok : bool) (w : world) : option RFILE :=
  match files w !! path with
  | Some _ => if ok then Some {| rf_path := path; rf_pos := 0 |} else None
  | None => None
  end.

(** [fread(buf, 1, n, f)]: the bytes read and the reader advanced past them. *)
Definition fread (n : nat) (f : RFILE) (w : world) : list Z * RFILE :=
  let got := take n (drop (rf_pos f) (file_content (rf_path f) w)) in
  (got, {| rf_path := rf_path f; rf_pos := (rf_pos f + length got)%nat |}).

Definition rewind (f : RFILE) : RFILE := {| rf_path := rf_path f; rf_pos := 0 |}.

(** [x |> f] applies the update [f] to the state [x]; updates read left to
    right in the order of the C assignments. *)
Notation "x |> f" := (f x) (at level 62, left associativity, only parsing).

(** ** recorder.c: data *)

Inductive record_mode_t := RM_STOPPED | RM_RECORDING | RM_PAUSED | RM_STOPPING.

(** What [recorder_start] reads through [self->encoder_op->encoder]. *)
Record encoder_op_t := {
  op_run_request_f : bool;
  op_family : encoder_family;
  op_codec : encoder_codec
}.

(** The lists [mi_first .. mi_last] and [mi2_first .. mi2_last] of
    [struct recorder] are Rocq lists: the first pointer is null when the list
    is empty and the last pointer is the last element. Fields of the
    lossless mode: [pcm_buffers] says that [left], [right] and [combined]
    are allocated, [input_rb] that both ring buffers exist, [sf] that the
    sound file is open. *)
Record metadata_item := {
  mi_artist : list Z;
  mi_title : list Z;
  mi_album : list Z;
  mi_time_offset : Z;
  mi_byte_offset : Z;
  mi_time_offset_end : Z;
  mi_byte_offset_end : Z
}.

Definition set_mi_time_offset_end (v : Z) (r : metadata_item) : metadata_item :=
  {| mi_artist := mi_artist r; mi_title := mi_title r; mi_album := mi_album r; mi_time_offset :=
     mi_time_offset r; mi_byte_offset := mi_byte_offset r; mi_time_offset_end := v;
     mi_byte_offset_end := mi_byte_offset_end r |}.

Definition set_mi_byte_offset_end (v : Z) (r : metadata_item) : metadata_item :=
  {| mi_artist := mi_artist r; mi_title := mi_title r; mi_album := mi_album r; mi_time_offset :=
     mi_time_offset r; mi_byte_offset := mi_byte_offset r; mi_time_offset_end :=
     mi_time_offset_end r; mi_byte_offset_end := v |}.

Record metadata_item2 := {
  mi2_start_offset_ms : Z;
  mi2_finish_offset_ms : Z;
  mi2_byte_offset : Z;
  mi2_size_bytes : Z;
  mi2_bit_rate : Z;
  mi2_sample_rate : Z
}.

Definition set_mi2_finish_offset_ms (v : Z) (r : metadata_item2) : metadata_item2 :=
  {| mi2_start_offset_ms := mi2_start_offset_ms r; mi2_finish_offset_ms := v; mi2_byte_offset :=
     mi2_byte_offset r; mi2_size_bytes := mi2_size_bytes r; mi2_bit_rate := mi2_bit_rate r;
     mi2_sample_rate := mi2_sample_rate r |}.

Definition set_mi2_size_bytes (v : Z) (r : metadata_item2) : metadata_item2 :=
  {| mi2_start_offset_ms := mi2_start_offset_ms r; mi2_finish_offset_ms := mi2_finish_offset_ms r;
     mi2_byte_offset := mi2_byte_offset r; mi2_size_bytes := v; mi2_bit_rate := mi2_bit_rate r;
     mi2_sample_rate := mi2_sample_rate r |}.

Record recorder `{Double} := {
  numeric_id : Z;
  thread_terminate_f : bool;
  record_mode : record_mode_t;
  encoder_op : option encoder_op_t;
  initial_serial : Z;
  final_serial : Z;
  fp : option FILE;
  fpcue : option FILE;
  pathname : option string;
  cuepathname : option string;
  rec_timestamp : option string;
  first_mp3_header : list Z;
  id3_mode : bool;
  include_xing_tag : bool;
  is_vbr : bool;
  oldbitrate : Z;
  oldsamplerate : Z;
  recording_length_s : Z;
  recording_length_ms : Z;
  accumulated_time : double;
  bytes_written : Z;
  mi : list metadata_item;
  mi2 : list metadata_item2;
  stop_request : bool;
  stop_pending : bool;
  pause_request : bool;
  pause_pending : bool;
  unpause_request : bool;
  pcm_buffers : bool;
  input_rb : bool;
  sf : bool;
  sf_samples : Z;
  sfinfo_samplerate : Z;
  jack_dataflow_control : jack_dataflow;
  new_artist_title : bool;
  artist : list Z;
  title : list Z;
  album : list Z;
  artist_title_writes : Z
}.

Definition set_thread_terminate_f `{Double} (v : bool) (r : recorder) : recorder :=
  {| numeric_id := numeric_id r; thread_terminate_f := v; record_mode := record_mode r; encoder_op
     := encoder_op r; initial_serial := initial_serial r; final_serial := final_serial r; fp := fp
     r; fpcue := fpcue r; pathname := pathname r; cuepathname := cuepathname r; rec_timestamp :=
     rec_timestamp r; first_mp3_header := first_mp3_header r; id3_mode := id3_mode r;
     include_xing_tag := include_xing_tag r; is_vbr := is_vbr r; oldbitrate := oldbitrate r;
     oldsamplerate := oldsamplerate r; recording_length_s := recording_length_s r;
     recording_length_ms := recording_length_ms r; accumulated_time := accumulated_time r;
     bytes_written := bytes_written r; mi := mi r; mi2 := mi2 r; stop_request := stop_request r;
     stop_pending := stop_pending r; pause_request := pause_request r; pause_pending :=
     pause_pending r; unpause_request := unpause_request r; pcm_buffers := pcm_buffers r; input_rb
     := input_rb r; sf := sf r; sf_samples := sf_samples r; sfinfo_samplerate := sfinfo_samplerate
     r; jack_dataflow_control := jack_dataflow_control r; new_artist_title := new_artist_title r;
     artist := artist r; title := title r; album := album r; artist_title_writes :=
     artist_title_writes r |}.

Definition set_record_mode `{Double} (v : record_mode_t) (r : recorder) : recorder :=
  {| numeric_id := numeric_id r; thread_terminate_f := thread_terminate_f r; record_mode := v;
     encoder_op := encoder_op r; initial_serial := initial_serial r; final_serial := final_serial
     r; fp := fp r; fpcue := fpcue r; pathname := pathname r; cuepathname := cuepathname r;
     rec_timestamp := rec_timestamp r; first_mp3_header := first_mp3_header r; id3_mode :=
     id3_mode r; include_xing_tag := include_xing_tag r; is_vbr := is_vbr r; oldbitrate :=
     oldbitrate r; oldsamplerate := oldsamplerate r; recording_length_s := recording_length_s r;
     recording_length_ms := recording_length_ms r; accumulated_time := accumulated_time r;
     bytes_written := bytes_written r; mi := mi r; mi2 := mi2 r; stop_request := stop_request r;
     stop_pending := stop_pending r; pause_request := pause_request r; pause_pending :=
     pause_pending r; unpause_request := unpause_request r; pcm_buffers := pcm_buffers r; input_rb
     := input_rb r; sf := sf r; sf_samples := sf_samples r; sfinfo_samplerate := sfinfo_samplerate
     r; jack_dataflow_control := jack_dataflow_control r; new_artist_title := new_artist_title r;
     artist := artist r; title := title r; album := album r; artist_title_writes :=
     artist_title_writes r |}.

Definition set_encoder_op `{Double} (v : option encoder_op_t) (r : recorder) : recorder :=
  {| numeric_id := numeric_id r; thread_terminate_f := thread_terminate_f r; record_mode :=
     record_mode r; encoder_op := v; initial_serial := initial_serial r; final_serial :=
     final_serial r; fp := fp r; fpcue := fpcue r; pathname := pathname r; cuepathname :=
     cuepathname r; rec_timestamp := rec_timestamp r; first_mp3_header := first_mp3_header r;
     id3_mode := id3_mode r; include_xing_tag := include_xing_tag r; is_vbr := is_vbr r;
     oldbitrate := oldbitrate r; oldsamplerate := oldsamplerate r; recording_length_s :=
     recording_length_s r; recording_length_ms := recording_length_ms r; accumulated_time :=
     accumulated_time r; bytes_written := bytes_written r; mi := mi r; mi2 := mi2 r; stop_request
     := stop_request r; stop_pending := stop_pending r; pause_request := pause_request r;
     pause_pending := pause_pending r; unpause_request := unpause_request r; pcm_buffers :=
     pcm_buffers r; input_rb := input_rb r; sf := sf r; sf_samples := sf_samples r;
     sfinfo_samplerate := sfinfo_samplerate r; jack_dataflow_control := jack_dataflow_control r;
     new_artist_title := new_artist_title r; artist := artist r; title := title r; album := album
     r; artist_title_writes := artist_title_writes r |}.

Definition set_initial_serial `{Double} (v : Z) (r : recorder) : recorder :=
  {| numeric_id := numeric_id r; thread_terminate_f := thread_terminate_f r; record_mode :=
     record_mode r; encoder_op := encoder_op r; initial_serial := v; final_serial := final_serial
     r; fp := fp r; fpcue := fpcue r; pathname := pathname r; cuepathname := cuepathname r;
     rec_timestamp := rec_timestamp r; first_mp3_header := first_mp3_header r; id3_mode :=
     id3_mode r; include_xing_tag := include_xing_tag r; is_vbr := is_vbr r; oldbitrate :=
     oldbitrate r; oldsamplerate := oldsamplerate r; recording_length_s := recording_length_s r;
     recording_length_ms := recording_length_ms r; accumulated_time := accumulated_time r;
     bytes_written := bytes_written r; mi := mi r; mi2 := mi2 r; stop_request := stop_request r;
     stop_pending := stop_pending r; pause_request := pause_request r; pause_pending :=
     pause_pending r; unpause_request := unpause_request r; pcm_buffers := pcm_buffers r; input_rb
     := input_rb r; sf := sf r; sf_samples := sf_samples r; sfinfo_samplerate := sfinfo_samplerate
     r; jack_dataflow_control := jack_dataflow_control r; new_artist_title := new_artist_title r;
     artist := artist r; title := title r; album := album r; artist_title_writes :=
     artist_title_writes r |}.

Definition set_final_serial `{Double} (v : Z) (r : recorder) : recorder :=
  {| numeric_id := numeric_id r; thread_terminate_f := thread_terminate_f r; record_mode :=
     record_mode r; encoder_op := encoder_op r; initial_serial := initial_serial r; final_serial
     := v; fp := fp r; fpcue := fpcue r; pathname := pathname r; cuepathname := cuepathname r;
     rec_timestamp := rec_timestamp r; first_mp3_header := first_mp3_header r; id3_mode :=
     id3_mode r; include_xing_tag := include_xing_tag r; is_vbr := is_vbr r; oldbitrate :=
     oldbitrate r; oldsamplerate := oldsamplerate r; recording_length_s := recording_length_s r;
     recording_length_ms := recording_length_ms r; accumulated_time := accumulated_time r;
     bytes_written := bytes_written r; mi := mi r; mi2 := mi2 r; stop_request := stop_request r;
     stop_pending := stop_pending r; pause_request := pause_request r; pause_pending :=
     pause_pending r; unpause_request := unpause_request r; pcm_buffers := pcm_buffers r; input_rb
     := input_rb r; sf := sf r; sf_samples := sf_samples r; sfinfo_samplerate := sfinfo_samplerate
     r; jack_dataflow_control := jack_dataflow_control r; new_artist_title := new_artist_title r;
     artist := artist r; title := title r; album := album r; artist_title_writes :=
     artist_title_writes r |}.

Definition set_fp `{Double} (v : option FILE) (r : recorder) : recorder :=
  {| numeric_id := numeric_id r; thread_terminate_f := thread_terminate_f r; record_mode :=
     record_mode r; encoder_op := encoder_op r; initial_serial := initial_serial r; final_serial
     := final_serial r; fp := v; fpcue := fpcue r; pathname := pathname r; cuepathname :=
     cuepathname r; rec_timestamp := rec_timestamp r; first_mp3_header := first_mp3_header r;
     id3_mode := id3_mode r; include_xing_tag := include_xing_tag r; is_vbr := is_vbr r;
     oldbitrate := oldbitrate r; oldsamplerate := oldsamplerate r; recording_length_s :=
     recording_length_s r; recording_length_ms := recording_length_ms r; accumulated_time :=
     accumulated_time r; bytes_written := bytes_written r; mi := mi r; mi2 := mi2 r; stop_request
     := stop_request r; stop_pending := stop_pending r; pause_request := pause_request r;
     pause_pending := pause_pending r; unpause_request := unpause_request r; pcm_buffers :=
     pcm_buffers r; input_rb := input_rb r; sf := sf r; sf_samples := sf_samples r;
     sfinfo_samplerate := sfinfo_samplerate r; jack_dataflow_control := jack_dataflow_control r;
     new_artist_title := new_artist_title r; artist := artist r; title := title r; album := album
     r; artist_title_writes := artist_title_writes r |}.

Definition set_fpcue `{Double} (v : option FILE) (r : recorder) : recorder :=
  {| numeric_id := numeric_id r; thread_terminate_f := thread_terminate_f r; record_mode :=
     record_mode r; encoder_op := encoder_op r; initial_serial := initial_serial r; final_serial
     := final_serial r; fp := fp r; fpcue := v; pathname := pathname r; cuepathname := cuepathname
     r; rec_timestamp := rec_timestamp r; first_mp3_header := first_mp3_header r; id3_mode :=
     id3_mode r; include_xing_tag := include_xing_tag r; is_vbr := is_vbr r; oldbitrate :=
     oldbitrate r; oldsamplerate := oldsamplerate r; recording_length_s := recording_length_s r;
     recording_length_ms := recording_length_ms r; accumulated_time := accumulated_time r;
     bytes_written := bytes_written r; mi := mi r; mi2 := mi2 r; stop_request := stop_request r;
     stop_pending := stop_pending r; pause_request := pause_request r; pause_pending :=
     pause_pending r; unpause_request := unpause_request r; pcm_buffers := pcm_buffers r; input_rb
     := input_rb r; sf := sf r; sf_samples := sf_samples r; sfinfo_samplerate := sfinfo_samplerate
     r; jack_dataflow_control := jack_dataflow_control r; new_artist_title := new_artist_title r;
     artist := artist r; title := title r; album := album r; artist_title_writes :=
     artist_title_writes r |}.

Definition set_pathname `{Double} (v : option string) (r : recorder) : recorder :=
  {| numeric_id := numeric_id r; thread_terminate_f := thread_terminate_f r; record_mode :=
     record_mode r; encoder_op := encoder_op r; initial_serial := initial_serial r; final_serial
     := final_serial r; fp := fp r; fpcue := fpcue r; pathname := v; cuepathname := cuepathname r;
     rec_timestamp := rec_timestamp r; first_mp3_header := first_mp3_header r; id3_mode :=
     id3_mode r; include_xing_tag := include_xing_tag r; is_vbr := is_vbr r; oldbitrate :=
     oldbitrate r; oldsamplerate := oldsamplerate r; recording_length_s := recording_length_s r;
     recording_length_ms := recording_length_ms r; accumulated_time := accumulated_time r;
     bytes_written := bytes_written r; mi := mi r; mi2 := mi2 r; stop_request := stop_request r;
     stop_pending := stop_pending r; pause_request := pause_request r; pause_pending :=
     pause_pending r; unpause_request := unpause_request r; pcm_buffers := pcm_buffers r; input_rb
     := input_rb r; sf := sf r; sf_samples := sf_samples r; sfinfo_samplerate := sfinfo_samplerate
     r; jack_dataflow_control := jack_dataflow_control r; new_artist_title := new_artist_title r;
     artist := artist r; title := title r; album := album r; artist_title_writes :=
     artist_title_writes r |}.

Definition set_cuepathname `{Double} (v : option string) (r : recorder) : recorder :=
  {| numeric_id := numeric_id r; thread_terminate_f := thread_terminate_f r; record_mode :=
     record_mode r; encoder_op := encoder_op r; initial_serial := initial_serial r; final_serial
     := final_serial r; fp := fp r; fpcue := fpcue r; pathname := pathname r; cuepathname := v;
     rec_timestamp := rec_timestamp r; first_mp3_header := first_mp3_header r; id3_mode :=
     id3_mode r; include_xing_tag := include_xing_tag r; is_vbr := is_vbr r; oldbitrate :=
     oldbitrate r; oldsamplerate := oldsamplerate r; recording_length_s := recording_length_s r;
     recording_length_ms := recording_length_ms r; accumulated_time := accumulated_time r;
     bytes_written := bytes_written r; mi := mi r; mi2 := mi2 r; stop_request := stop_request r;
     stop_pending := stop_pending r; pause_request := pause_request r; pause_pending :=
     pause_pending r; unpause_request := unpause_request r; pcm_buffers := pcm_buffers r; input_rb
     := input_rb r; sf := sf r; sf_samples := sf_samples r; sfinfo_samplerate := sfinfo_samplerate
     r; jack_dataflow_control := jack_dataflow_control r; new_artist_title := new_artist_title r;
     artist := artist r; title := title r; album := album r; artist_title_writes :=
     artist_title_writes r |}.

Definition set_rec_timestamp `{Double} (v : option string) (r : recorder) : recorder :=
  {| numeric_id := numeric_id r; thread_terminate_f := thread_terminate_f r; record_mode :=
     record_mode r; encoder_op := encoder_op r; initial_serial := initial_serial r; final_serial
     := final_serial r; fp := fp r; fpcue := fpcue r; pathname := pathname r; cuepathname :=
     cuepathname r; rec_timestamp := v; first_mp3_header := first_mp3_header r; id3_mode :=
     id3_mode r; include_xing_tag := include_xing_tag r; is_vbr := is_vbr r; oldbitrate :=
     oldbitrate r; oldsamplerate := oldsamplerate r; recording_length_s := recording_length_s r;
     recording_length_ms := recording_length_ms r; accumulated_time := accumulated_time r;
     bytes_written := bytes_written r; mi := mi r; mi2 := mi2 r; stop_request := stop_request r;
     stop_pending := stop_pending r; pause_request := pause_request r; pause_pending :=
     pause_pending r; unpause_request := unpause_request r; pcm_buffers := pcm_buffers r; input_rb
     := input_rb r; sf := sf r; sf_samples := sf_samples r; sfinfo_samplerate := sfinfo_samplerate
     r; jack_dataflow_control := jack_dataflow_control r; new_artist_title := new_artist_title r;
     artist := artist r; title := title r; album := album r; artist_title_writes :=
     artist_title_writes r |}.

Definition set_first_mp3_header `{Double} (v : list Z) (r : recorder) : recorder :=
  {| numeric_id := numeric_id r; thread_terminate_f := thread_terminate_f r; record_mode :=
     record_mode r; encoder_op := encoder_op r; initial_serial := initial_serial r; final_serial
     := final_serial r; fp := fp r; fpcue := fpcue r; pathname := pathname r; cuepathname :=
     cuepathname r; rec_timestamp := rec_timestamp r; first_mp3_header := v; id3_mode := id3_mode
     r; include_xing_tag := include_xing_tag r; is_vbr := is_vbr r; oldbitrate := oldbitrate r;
     oldsamplerate := oldsamplerate r; recording_length_s := recording_length_s r;
     recording_length_ms := recording_length_ms r; accumulated_time := accumulated_time r;
     bytes_written := bytes_written r; mi := mi r; mi2 := mi2 r; stop_request := stop_request r;
     stop_pending := stop_pending r; pause_request := pause_request r; pause_pending :=
     pause_pending r; unpause_request := unpause_request r; pcm_buffers := pcm_buffers r; input_rb
     := input_rb r; sf := sf r; sf_samples := sf_samples r; sfinfo_samplerate := sfinfo_samplerate
     r; jack_dataflow_control := jack_dataflow_control r; new_artist_title := new_artist_title r;
     artist := artist r; title := title r; album := album r; artist_title_writes :=
     artist_title_writes r |}.

Definition set_id3_mode `{Double} (v : bool) (r : recorder) : recorder :=
  {| numeric_id := numeric_id r; thread_terminate_f := thread_terminate_f r; record_mode :=
     record_mode r; encoder_op := encoder_op r; initial_serial := initial_serial r; final_serial
     := final_serial r; fp := fp r; fpcue := fpcue r; pathname := pathname r; cuepathname :=
     cuepathname r; rec_timestamp := rec_timestamp r; first_mp3_header := first_mp3_header r;
     id3_mode := v; include_xing_tag := include_xing_tag r; is_vbr := is_vbr r; oldbitrate :=
     oldbitrate r; oldsamplerate := oldsamplerate r; recording_length_s := recording_length_s r;
     recording_length_ms := recording_length_ms r; accumulated_time := accumulated_time r;
     bytes_written := bytes_written r; mi := mi r; mi2 := mi2 r; stop_request := stop_request r;
     stop_pending := stop_pending r; pause_request := pause_request r; pause_pending :=
     pause_pending r; unpause_request := unpause_request r; pcm_buffers := pcm_buffers r; input_rb
     := input_rb r; sf := sf r; sf_samples := sf_samples r; sfinfo_samplerate := sfinfo_samplerate
     r; jack_dataflow_control := jack_dataflow_control r; new_artist_title := new_artist_title r;
     artist := artist r; title := title r; album := album r; artist_title_writes :=
     artist_title_writes r |}.

Definition set_include_xing_tag `{Double} (v : bool) (r : recorder) : recorder :=
  {| numeric_id := numeric_id r; thread_terminate_f := thread_terminate_f r; record_mode :=
     record_mode r; encoder_op := encoder_op r; initial_serial := initial_serial r; final_serial
     := final_serial r; fp := fp r; fpcue := fpcue r; pathname := pathname r; cuepathname :=
     cuepathname r; rec_timestamp := rec_timestamp r; first_mp3_header := first_mp3_header r;
     id3_mode := id3_mode r; include_xing_tag := v; is_vbr := is_vbr r; oldbitrate := oldbitrate
     r; oldsamplerate := oldsamplerate r; recording_length_s := recording_length_s r;
     recording_length_ms := recording_length_ms r; accumulated_time := accumulated_time r;
     bytes_written := bytes_written r; mi := mi r; mi2 := mi2 r; stop_request := stop_request r;
     stop_pending := stop_pending r; pause_request := pause_request r; pause_pending :=
     pause_pending r; unpause_request := unpause_request r; pcm_buffers := pcm_buffers r; input_rb
     := input_rb r; sf := sf r; sf_samples := sf_samples r; sfinfo_samplerate := sfinfo_samplerate
     r; jack_dataflow_control := jack_dataflow_control r; new_artist_title := new_artist_title r;
     artist := artist r; title := title r; album := album r; artist_title_writes :=
     artist_title_writes r |}.

Definition set_is_vbr `{Double} (v : bool) (r : recorder) : recorder :=
  {| numeric_id := numeric_id r; thread_terminate_f := thread_terminate_f r; record_mode :=
     record_mode r; encoder_op := encoder_op r; initial_serial := initial_serial r; final_serial
     := final_serial r; fp := fp r; fpcue := fpcue r; pathname := pathname r; cuepathname :=
     cuepathname r; rec_timestamp := rec_timestamp r; first_mp3_header := first_mp3_header r;
     id3_mode := id3_mode r; include_xing_tag := include_xing_tag r; is_vbr := v; oldbitrate :=
     oldbitrate r; oldsamplerate := oldsamplerate r; recording_length_s := recording_length_s r;
     recording_length_ms := recording_length_ms r; accumulated_time := accumulated_time r;
     bytes_written := bytes_written r; mi := mi r; mi2 := mi2 r; stop_request := stop_request r;
     stop_pending := stop_pending r; pause_request := pause_request r; pause_pending :=
     pause_pending r; unpause_request := unpause_request r; pcm_buffers := pcm_buffers r; input_rb
     := input_rb r; sf := sf r; sf_samples := sf_samples r; sfinfo_samplerate := sfinfo_samplerate
     r; jack_dataflow_control := jack_dataflow_control r; new_artist_title := new_artist_title r;
     artist := artist r; title := title r; album := album r; artist_title_writes :=
     artist_title_writes r |}.

Definition set_oldbitrate `{Double} (v : Z) (r : recorder) : recorder :=
  {| numeric_id := numeric_id r; thread_terminate_f := thread_terminate_f r; record_mode :=
     record_mode r; encoder_op := encoder_op r; initial_serial := initial_serial r; final_serial
     := final_serial r; fp := fp r; fpcue := fpcue r; pathname := pathname r; cuepathname :=
     cuepathname r; rec_timestamp := rec_timestamp r; first_mp3_header := first_mp3_header r;
     id3_mode := id3_mode r; include_xing_tag := include_xing_tag r; is_vbr := is_vbr r;
     oldbitrate := v; oldsamplerate := oldsamplerate r; recording_length_s := recording_length_s
     r; recording_length_ms := recording_length_ms r; accumulated_time := accumulated_time r;
     bytes_written := bytes_written r; mi := mi r; mi2 := mi2 r; stop_request := stop_request r;
     stop_pending := stop_pending r; pause_request := pause_request r; pause_pending :=
     pause_pending r; unpause_request := unpause_request r; pcm_buffers := pcm_buffers r; input_rb
     := input_rb r; sf := sf r; sf_samples := sf_samples r; sfinfo_samplerate := sfinfo_samplerate
     r; jack_dataflow_control := jack_dataflow_control r; new_artist_title := new_artist_title r;
     artist := artist r; title := title r; album := album r; artist_title_writes :=
     artist_title_writes r |}.

Definition set_oldsamplerate `{Double} (v : Z) (r : recorder) : recorder :=
  {| numeric_id := numeric_id r; thread_terminate_f := thread_terminate_f r; record_mode :=
     record_mode r; encoder_op := encoder_op r; initial_serial := initial_serial r; final_serial
     := final_serial r; fp := fp r; fpcue := fpcue r; pathname := pathname r; cuepathname :=
     cuepathname r; rec_timestamp := rec_timestamp r; first_mp3_header := first_mp3_header r;
     id3_mode := id3_mode r; include_xing_tag := include_xing_tag r; is_vbr := is_vbr r;
     oldbitrate := oldbitrate r; oldsamplerate := v; recording_length_s := recording_length_s r;
     recording_length_ms := recording_length_ms r; accumulated_time := accumulated_time r;
     bytes_written := bytes_written r; mi := mi r; mi2 := mi2 r; stop_request := stop_request r;
     stop_pending := stop_pending r; pause_request := pause_request r; pause_pending :=
     pause_pending r; unpause_request := unpause_request r; pcm_buffers := pcm_buffers r; input_rb
     := input_rb r; sf := sf r; sf_samples := sf_samples r; sfinfo_samplerate := sfinfo_samplerate
     r; jack_dataflow_control := jack_dataflow_control r; new_artist_title := new_artist_title r;
     artist := artist r; title := title r; album := album r; artist_title_writes :=
     artist_title_writes r |}.

Definition set_recording_length_s `{Double} (v : Z) (r : recorder) : recorder :=
  {| numeric_id := numeric_id r; thread_terminate_f := thread_terminate_f r; record_mode :=
     record_mode r; encoder_op := encoder_op r; initial_serial := initial_serial r; final_serial
     := final_serial r; fp := fp r; fpcue := fpcue r; pathname := pathname r; cuepathname :=
     cuepathname r; rec_timestamp := rec_timestamp r; first_mp3_header := first_mp3_header r;
     id3_mode := id3_mode r; include_xing_tag := include_xing_tag r; is_vbr := is_vbr r;
     oldbitrate := oldbitrate r; oldsamplerate := oldsamplerate r; recording_length_s := v;
     recording_length_ms := recording_length_ms r; accumulated_time := accumulated_time r;
     bytes_written := bytes_written r; mi := mi r; mi2 := mi2 r; stop_request := stop_request r;
     stop_pending := stop_pending r; pause_request := pause_request r; pause_pending :=
     pause_pending r; unpause_request := unpause_request r; pcm_buffers := pcm_buffers r; input_rb
     := input_rb r; sf := sf r; sf_samples := sf_samples r; sfinfo_samplerate := sfinfo_samplerate
     r; jack_dataflow_control := jack_dataflow_control r; new_artist_title := new_artist_title r;
     artist := artist r; title := title r; album := album r; artist_title_writes :=
     artist_title_writes r |}.

Definition set_recording_length_ms `{Double} (v : Z) (r : recorder) : recorder :=
  {| numeric_id := numeric_id r; thread_terminate_f := thread_terminate_f r; record_mode :=
     record_mode r; encoder_op := encoder_op r; initial_serial := initial_serial r; final_serial
     := final_serial r; fp := fp r; fpcue := fpcue r; pathname := pathname r; cuepathname :=
     cuepathname r; rec_timestamp := rec_timestamp r; first_mp3_header := first_mp3_header r;
     id3_mode := id3_mode r; include_xing_tag := include_xing_tag r; is_vbr := is_vbr r;
     oldbitrate := oldbitrate r; oldsamplerate := oldsamplerate r; recording_length_s :=
     recording_length_s r; recording_length_ms := v; accumulated_time := accumulated_time r;
     bytes_written := bytes_written r; mi := mi r; mi2 := mi2 r; stop_request := stop_request r;
     stop_pending := stop_pending r; pause_request := pause_request r; pause_pending :=
     pause_pending r; unpause_request := unpause_request r; pcm_buffers := pcm_buffers r; input_rb
     := input_rb r; sf := sf r; sf_samples := sf_samples r; sfinfo_samplerate := sfinfo_samplerate
     r; jack_dataflow_control := jack_dataflow_control r; new_artist_title := new_artist_title r;
     artist := artist r; title := title r; album := album r; artist_title_writes :=
     artist_title_writes r |}.

Definition set_accumulated_time `{Double} (v : double) (r : recorder) : recorder :=
  {| numeric_id := numeric_id r; thread_terminate_f := thread_terminate_f r; record_mode :=
     record_mode r; encoder_op := encoder_op r; initial_serial := initial_serial r; final_serial
     := final_serial r; fp := fp r; fpcue := fpcue r; pathname := pathname r; cuepathname :=
     cuepathname r; rec_timestamp := rec_timestamp r; first_mp3_header := first_mp3_header r;
     id3_mode := id3_mode r; include_xing_tag := include_xing_tag r; is_vbr := is_vbr r;
     oldbitrate := oldbitrate r; oldsamplerate := oldsamplerate r; recording_length_s :=
     recording_length_s r; recording_length_ms := recording_length_ms r; accumulated_time := v;
     bytes_written := bytes_written r; mi := mi r; mi2 := mi2 r; stop_request := stop_request r;
     stop_pending := stop_pending r; pause_request := pause_request r; pause_pending :=
     pause_pending r; unpause_request := unpause_request r; pcm_buffers := pcm_buffers r; input_rb
     := input_rb r; sf := sf r; sf_samples := sf_samples r; sfinfo_samplerate := sfinfo_samplerate
     r; jack_dataflow_control := jack_dataflow_control r; new_artist_title := new_artist_title r;
     artist := artist r; title := title r; album := album r; artist_title_writes :=
     artist_title_writes r |}.

Definition set_bytes_written `{Double} (v : Z) (r : recorder) : recorder :=
  {| numeric_id := numeric_id r; thread_terminate_f := thread_terminate_f r; record_mode :=
     record_mode r; encoder_op := encoder_op r; initial_serial := initial_serial r; final_serial
     := final_serial r; fp := fp r; fpcue := fpcue r; pathname := pathname r; cuepathname :=
     cuepathname r; rec_timestamp := rec_timestamp r; first_mp3_header := first_mp3_header r;
     id3_mode := id3_mode r; include_xing_tag := include_xing_tag r; is_vbr := is_vbr r;
     oldbitrate := oldbitrate r; oldsamplerate := oldsamplerate r; recording_length_s :=
     recording_length_s r; recording_length_ms := recording_length_ms r; accumulated_time :=
     accumulated_time r; bytes_written := v; mi := mi r; mi2 := mi2 r; stop_request :=
     stop_request r; stop_pending := stop_pending r; pause_request := pause_request r;
     pause_pending := pause_pending r; unpause_request := unpause_request r; pcm_buffers :=
     pcm_buffers r; input_rb := input_rb r; sf := sf r; sf_samples := sf_samples r;
     sfinfo_samplerate := sfinfo_samplerate r; jack_dataflow_control := jack_dataflow_control r;
     new_artist_title := new_artist_title r; artist := artist r; title := title r; album := album
     r; artist_title_writes := artist_title_writes r |}.

Definition set_mi `{Double} (v : list metadata_item) (r : recorder) : recorder :=
  {| numeric_id := numeric_id r; thread_terminate_f := thread_terminate_f r; record_mode :=
     record_mode r; encoder_op := encoder_op r; initial_serial := initial_serial r; final_serial
     := final_serial r; fp := fp r; fpcue := fpcue r; pathname := pathname r; cuepathname :=
     cuepathname r; rec_timestamp := rec_timestamp r; first_mp3_header := first_mp3_header r;
     id3_mode := id3_mode r; include_xing_tag := include_xing_tag r; is_vbr := is_vbr r;
     oldbitrate := oldbitrate r; oldsamplerate := oldsamplerate r; recording_length_s :=
     recording_length_s r; recording_length_ms := recording_length_ms r; accumulated_time :=
     accumulated_time r; bytes_written := bytes_written r; mi := v; mi2 := mi2 r; stop_request :=
     stop_request r; stop_pending := stop_pending r; pause_request := pause_request r;
     pause_pending := pause_pending r; unpause_request := unpause_request r; pcm_buffers :=
     pcm_buffers r; input_rb := input_rb r; sf := sf r; sf_samples := sf_samples r;
     sfinfo_samplerate := sfinfo_samplerate r; jack_dataflow_control := jack_dataflow_control r;
     new_artist_title := new_artist_title r; artist := artist r; title := title r; album := album
     r; artist_title_writes := artist_title_writes r |}.

Definition set_mi2 `{Double} (v : list metadata_item2) (r : recorder) : recorder :=
  {| numeric_id := numeric_id r; thread_terminate_f := thread_terminate_f r; record_mode :=
     record_mode r; encoder_op := encoder_op r; initial_serial := initial_serial r; final_serial
     := final_serial r; fp := fp r; fpcue := fpcue r; pathname := pathname r; cuepathname :=
     cuepathname r; rec_timestamp := rec_timestamp r; first_mp3_header := first_mp3_header r;
     id3_mode := id3_mode r; include_xing_tag := include_xing_tag r; is_vbr := is_vbr r;
     oldbitrate := oldbitrate r; oldsamplerate := oldsamplerate r; recording_length_s :=
     recording_length_s r; recording_length_ms := recording_length_ms r; accumulated_time :=
     accumulated_time r; bytes_written := bytes_written r; mi := mi r; mi2 := v; stop_request :=
     stop_request r; stop_pending := stop_pending r; pause_request := pause_request r;
     pause_pending := pause_pending r; unpause_request := unpause_request r; pcm_buffers :=
     pcm_buffers r; input_rb := input_rb r; sf := sf r; sf_samples := sf_samples r;
     sfinfo_samplerate := sfinfo_samplerate r; jack_dataflow_control := jack_dataflow_control r;
     new_artist_title := new_artist_title r; artist := artist r; title := title r; album := album
     r; artist_title_writes := artist_title_writes r |}.

Definition set_stop_request `{Double} (v : bool) (r : recorder) : recorder :=
  {| numeric_id := numeric_id r; thread_terminate_f := thread_terminate_f r; record_mode :=
     record_mode r; encoder_op := encoder_op r; initial_serial := initial_serial r; final_serial
     := final_serial r; fp := fp r; fpcue := fpcue r; pathname := pathname r; cuepathname :=
     cuepathname r; rec_timestamp := rec_timestamp r; first_mp3_header := first_mp3_header r;
     id3_mode := id3_mode r; include_xing_tag := include_xing_tag r; is_vbr := is_vbr r;
     oldbitrate := oldbitrate r; oldsamplerate := oldsamplerate r; recording_length_s :=
     recording_length_s r; recording_length_ms := recording_length_ms r; accumulated_time :=
     accumulated_time r; bytes_written := bytes_written r; mi := mi r; mi2 := mi2 r; stop_request
     := v; stop_pending := stop_pending r; pause_request := pause_request r; pause_pending :=
     pause_pending r; unpause_request := unpause_request r; pcm_buffers := pcm_buffers r; input_rb
     := input_rb r; sf := sf r; sf_samples := sf_samples r; sfinfo_samplerate := sfinfo_samplerate
     r; jack_dataflow_control := jack_dataflow_control r; new_artist_title := new_artist_title r;
     artist := artist r; title := title r; album := album r; artist_title_writes :=
     artist_title_writes r |}.

Definition set_stop_pending `{Double} (v : bool) (r : recorder) : recorder :=
  {| numeric_id := numeric_id r; thread_terminate_f := thread_terminate_f r; record_mode :=
     record_mode r; encoder_op := encoder_op r; initial_serial := initial_serial r; final_serial
     := final_serial r; fp := fp r; fpcue := fpcue r; pathname := pathname r; cuepathname :=
     cuepathname r; rec_timestamp := rec_timestamp r; first_mp3_header := first_mp3_header r;
     id3_mode := id3_mode r; include_xing_tag := include_xing_tag r; is_vbr := is_vbr r;
     oldbitrate := oldbitrate r; oldsamplerate := oldsamplerate r; recording_length_s :=
     recording_length_s r; recording_length_ms := recording_length_ms r; accumulated_time :=
     accumulated_time r; bytes_written := bytes_written r; mi := mi r; mi2 := mi2 r; stop_request
     := stop_request r; stop_pending := v; pause_request := pause_request r; pause_pending :=
     pause_pending r; unpause_request := unpause_request r; pcm_buffers := pcm_buffers r; input_rb
     := input_rb r; sf := sf r; sf_samples := sf_samples r; sfinfo_samplerate := sfinfo_samplerate
     r; jack_dataflow_control := jack_dataflow_control r; new_artist_title := new_artist_title r;
     artist := artist r; title := title r; album := album r; artist_title_writes :=
     artist_title_writes r |}.

Definition set_pause_request `{Double} (v : bool) (r : recorder) : recorder :=
  {| numeric_id := numeric_id r; thread_terminate_f := thread_terminate_f r; record_mode :=
     record_mode r; encoder_op := encoder_op r; initial_serial := initial_serial r; final_serial
     := final_serial r; fp := fp r; fpcue := fpcue r; pathname := pathname r; cuepathname :=
     cuepathname r; rec_timestamp := rec_timestamp r; first_mp3_header := first_mp3_header r;
     id3_mode := id3_mode r; include_xing_tag := include_xing_tag r; is_vbr := is_vbr r;
     oldbitrate := oldbitrate r; oldsamplerate := oldsamplerate r; recording_length_s :=
     recording_length_s r; recording_length_ms := recording_length_ms r; accumulated_time :=
     accumulated_time r; bytes_written := bytes_written r; mi := mi r; mi2 := mi2 r; stop_request
     := stop_request r; stop_pending := stop_pending r; pause_request := v; pause_pending :=
     pause_pending r; unpause_request := unpause_request r; pcm_buffers := pcm_buffers r; input_rb
     := input_rb r; sf := sf r; sf_samples := sf_samples r; sfinfo_samplerate := sfinfo_samplerate
     r; jack_dataflow_control := jack_dataflow_control r; new_artist_title := new_artist_title r;
     artist := artist r; title := title r; album := album r; artist_title_writes :=
     artist_title_writes r |}.

Definition set_pause_pending `{Double} (v : bool) (r : recorder) : recorder :=
  {| numeric_id := numeric_id r; thread_terminate_f := thread_terminate_f r; record_mode :=
     record_mode r; encoder_op := encoder_op r; initial_serial := initial_serial r; final_serial
     := final_serial r; fp := fp r; fpcue := fpcue r; pathname := pathname r; cuepathname :=
     cuepathname r; rec_timestamp := rec_timestamp r; first_mp3_header := first_mp3_header r;
     id3_mode := id3_mode r; include_xing_tag := include_xing_tag r; is_vbr := is_vbr r;
     oldbitrate := oldbitrate r; oldsamplerate := oldsamplerate r; recording_length_s :=
     recording_length_s r; recording_length_ms := recording_length_ms r; accumulated_time :=
     accumulated_time r; bytes_written := bytes_written r; mi := mi r; mi2 := mi2 r; stop_request
     := stop_request r; stop_pending := stop_pending r; pause_request := pause_request r;
     pause_pending := v; unpause_request := unpause_request r; pcm_buffers := pcm_buffers r;
     input_rb := input_rb r; sf := sf r; sf_samples := sf_samples r; sfinfo_samplerate :=
     sfinfo_samplerate r; jack_dataflow_control := jack_dataflow_control r; new_artist_title :=
     new_artist_title r; artist := artist r; title := title r; album := album r;
     artist_title_writes := artist_title_writes r |}.

Definition set_unpause_request `{Double} (v : bool) (r : recorder) : recorder :=
  {| numeric_id := numeric_id r; thread_terminate_f := thread_terminate_f r; record_mode :=
     record_mode r; encoder_op := encoder_op r; initial_serial := initial_serial r; final_serial
     := final_serial r; fp := fp r; fpcue := fpcue r; pathname := pathname r; cuepathname :=
     cuepathname r; rec_timestamp := rec_timestamp r; first_mp3_header := first_mp3_header r;
     id3_mode := id3_mode r; include_xing_tag := include_xing_tag r; is_vbr := is_vbr r;
     oldbitrate := oldbitrate r; oldsamplerate := oldsamplerate r; recording_length_s :=
     recording_length_s r; recording_length_ms := recording_length_ms r; accumulated_time :=
     accumulated_time r; bytes_written := bytes_written r; mi := mi r; mi2 := mi2 r; stop_request
     := stop_request r; stop_pending := stop_pending r; pause_request := pause_request r;
     pause_pending := pause_pending r; unpause_request := v; pcm_buffers := pcm_buffers r;
     input_rb := input_rb r; sf := sf r; sf_samples := sf_samples r; sfinfo_samplerate :=
     sfinfo_samplerate r; jack_dataflow_control := jack_dataflow_control r; new_artist_title :=
     new_artist_title r; artist := artist r; title := title r; album := album r;
     artist_title_writes := artist_title_writes r |}.

Definition set_pcm_buffers `{Double} (v : bool) (r : recorder) : recorder :=
  {| numeric_id := numeric_id r; thread_terminate_f := thread_terminate_f r; record_mode :=
     record_mode r; encoder_op := encoder_op r; initial_serial := initial_serial r; final_serial
     := final_serial r; fp := fp r; fpcue := fpcue r; pathname := pathname r; cuepathname :=
     cuepathname r; rec_timestamp := rec_timestamp r; first_mp3_header := first_mp3_header r;
     id3_mode := id3_mode r; include_xing_tag := include_xing_tag r; is_vbr := is_vbr r;
     oldbitrate := oldbitrate r; oldsamplerate := oldsamplerate r; recording_length_s :=
     recording_length_s r; recording_length_ms := recording_length_ms r; accumulated_time :=
     accumulated_time r; bytes_written := bytes_written r; mi := mi r; mi2 := mi2 r; stop_request
     := stop_request r; stop_pending := stop_pending r; pause_request := pause_request r;
     pause_pending := pause_pending r; unpause_request := unpause_request r; pcm_buffers := v;
     input_rb := input_rb r; sf := sf r; sf_samples := sf_samples r; sfinfo_samplerate :=
     sfinfo_samplerate r; jack_dataflow_control := jack_dataflow_control r; new_artist_title :=
     new_artist_title r; artist := artist r; title := title r; album := album r;
     artist_title_writes := artist_title_writes r |}.

Definition set_input_rb `{Double} (v : bool) (r : recorder) : recorder :=
  {| numeric_id := numeric_id r; thread_terminate_f := thread_terminate_f r; record_mode :=
     record_mode r; encoder_op := encoder_op r; initial_serial := initial_serial r; final_serial
     := final_serial r; fp := fp r; fpcue := fpcue r; pathname := pathname r; cuepathname :=
     cuepathname r; rec_timestamp := rec_timestamp r; first_mp3_header := first_mp3_header r;
     id3_mode := id3_mode r; include_xing_tag := include_xing_tag r; is_vbr := is_vbr r;
     oldbitrate := oldbitrate r; oldsamplerate := oldsamplerate r; recording_length_s :=
     recording_length_s r; recording_length_ms := recording_length_ms r; accumulated_time :=
     accumulated_time r; bytes_written := bytes_written r; mi := mi r; mi2 := mi2 r; stop_request
     := stop_request r; stop_pending := stop_pending r; pause_request := pause_request r;
     pause_pending := pause_pending r; unpause_request := unpause_request r; pcm_buffers :=
     pcm_buffers r; input_rb := v; sf := sf r; sf_samples := sf_samples r; sfinfo_samplerate :=
     sfinfo_samplerate r; jack_dataflow_control := jack_dataflow_control r; new_artist_title :=
     new_artist_title r; artist := artist r; title := title r; album := album r;
     artist_title_writes := artist_title_writes r |}.

Definition set_sf `{Double} (v : bool) (r : recorder) : recorder :=
  {| numeric_id := numeric_id r; thread_terminate_f := thread_terminate_f r; record_mode :=
     record_mode r; encoder_op := encoder_op r; initial_serial := initial_serial r; final_serial
     := final_serial r; fp := fp r; fpcue := fpcue r; pathname := pathname r; cuepathname :=
     cuepathname r; rec_timestamp := rec_timestamp r; first_mp3_header := first_mp3_header r;
     id3_mode := id3_mode r; include_xing_tag := include_xing_tag r; is_vbr := is_vbr r;
     oldbitrate := oldbitrate r; oldsamplerate := oldsamplerate r; recording_length_s :=
     recording_length_s r; recording_length_ms := recording_length_ms r; accumulated_time :=
     accumulated_time r; bytes_written := bytes_written r; mi := mi r; mi2 := mi2 r; stop_request
     := stop_request r; stop_pending := stop_pending r; pause_request := pause_request r;
     pause_pending := pause_pending r; unpause_request := unpause_request r; pcm_buffers :=
     pcm_buffers r; input_rb := input_rb r; sf := v; sf_samples := sf_samples r; sfinfo_samplerate
     := sfinfo_samplerate r; jack_dataflow_control := jack_dataflow_control r; new_artist_title :=
     new_artist_title r; artist := artist r; title := title r; album := album r;
     artist_title_writes := artist_title_writes r |}.

Definition set_sf_samples `{Double} (v : Z) (r : recorder) : recorder :=
  {| numeric_id := numeric_id r; thread_terminate_f := thread_terminate_f r; record_mode :=
     record_mode r; encoder_op := encoder_op r; initial_serial := initial_serial r; final_serial
     := final_serial r; fp := fp r; fpcue := fpcue r; pathname := pathname r; cuepathname :=
     cuepathname r; rec_timestamp := rec_timestamp r; first_mp3_header := first_mp3_header r;
     id3_mode := id3_mode r; include_xing_tag := include_xing_tag r; is_vbr := is_vbr r;
     oldbitrate := oldbitrate r; oldsamplerate := oldsamplerate r; recording_length_s :=
     recording_length_s r; recording_length_ms := recording_length_ms r; accumulated_time :=
     accumulated_time r; bytes_written := bytes_written r; mi := mi r; mi2 := mi2 r; stop_request
     := stop_request r; stop_pending := stop_pending r; pause_request := pause_request r;
     pause_pending := pause_pending r; unpause_request := unpause_request r; pcm_buffers :=
     pcm_buffers r; input_rb := input_rb r; sf := sf r; sf_samples := v; sfinfo_samplerate :=
     sfinfo_samplerate r; jack_dataflow_control := jack_dataflow_control r; new_artist_title :=
     new_artist_title r; artist := artist r; title := title r; album := album r;
     artist_title_writes := artist_title_writes r |}.

Definition set_sfinfo_samplerate `{Double} (v : Z) (r : recorder) : recorder :=
  {| numeric_id := numeric_id r; thread_terminate_f := thread_terminate_f r; record_mode :=
     record_mode r; encoder_op := encoder_op r; initial_serial := initial_serial r; final_serial
     := final_serial r; fp := fp r; fpcue := fpcue r; pathname := pathname r; cuepathname :=
     cuepathname r; rec_timestamp := rec_timestamp r; first_mp3_header := first_mp3_header r;
     id3_mode := id3_mode r; include_xing_tag := include_xing_tag r; is_vbr := is_vbr r;
     oldbitrate := oldbitrate r; oldsamplerate := oldsamplerate r; recording_length_s :=
     recording_length_s r; recording_length_ms := recording_length_ms r; accumulated_time :=
     accumulated_time r; bytes_written := bytes_written r; mi := mi r; mi2 := mi2 r; stop_request
     := stop_request r; stop_pending := stop_pending r; pause_request := pause_request r;
     pause_pending := pause_pending r; unpause_request := unpause_request r; pcm_buffers :=
     pcm_buffers r; input_rb := input_rb r; sf := sf r; sf_samples := sf_samples r;
     sfinfo_samplerate := v; jack_dataflow_control := jack_dataflow_control r; new_artist_title :=
     new_artist_title r; artist := artist r; title := title r; album := album r;
     artist_title_writes := artist_title_writes r |}.

Definition set_jack_dataflow_control `{Double} (v : jack_dataflow) (r : recorder) : recorder :=
  {| numeric_id := numeric_id r; thread_terminate_f := thread_terminate_f r; record_mode :=
     record_mode r; encoder_op := encoder_op r; initial_serial := initial_serial r; final_serial
     := final_serial r; fp := fp r; fpcue := fpcue r; pathname := pathname r; cuepathname :=
     cuepathname r; rec_timestamp := rec_timestamp r; first_mp3_header := first_mp3_header r;
     id3_mode := id3_mode r; include_xing_tag := include_xing_tag r; is_vbr := is_vbr r;
     oldbitrate := oldbitrate r; oldsamplerate := oldsamplerate r; recording_length_s :=
     recording_length_s r; recording_length_ms := recording_length_ms r; accumulated_time :=
     accumulated_time r; bytes_written := bytes_written r; mi := mi r; mi2 := mi2 r; stop_request
     := stop_request r; stop_pending := stop_pending r; pause_request := pause_request r;
     pause_pending := pause_pending r; unpause_request := unpause_request r; pcm_buffers :=
     pcm_buffers r; input_rb := input_rb r; sf := sf r; sf_samples := sf_samples r;
     sfinfo_samplerate := sfinfo_samplerate r; jack_dataflow_control := v; new_artist_title :=
     new_artist_title r; artist := artist r; title := title r; album := album r;
     artist_title_writes := artist_title_writes r |}.

Definition set_new_artist_title `{Double} (v : bool) (r : recorder) : recorder :=
  {| numeric_id := numeric_id r; thread_terminate_f := thread_terminate_f r; record_mode :=
     record_mode r; encoder_op := encoder_op r; initial_serial := initial_serial r; final_serial
     := final_serial r; fp := fp r; fpcue := fpcue r; pathname := pathname r; cuepathname :=
     cuepathname r; rec_timestamp := rec_timestamp r; first_mp3_header := first_mp3_header r;
     id3_mode := id3_mode r; include_xing_tag := include_xing_tag r; is_vbr := is_vbr r;
     oldbitrate := oldbitrate r; oldsamplerate := oldsamplerate r; recording_length_s :=
     recording_length_s r; recording_length_ms := recording_length_ms r; accumulated_time :=
     accumulated_time r; bytes_written := bytes_written r; mi := mi r; mi2 := mi2 r; stop_request
     := stop_request r; stop_pending := stop_pending r; pause_request := pause_request r;
     pause_pending := pause_pending r; unpause_request := unpause_request r; pcm_buffers :=
     pcm_buffers r; input_rb := input_rb r; sf := sf r; sf_samples := sf_samples r;
     sfinfo_samplerate := sfinfo_samplerate r; jack_dataflow_control := jack_dataflow_control r;
     new_artist_title := v; artist := artist r; title := title r; album := album r;
     artist_title_writes := artist_title_writes r |}.

Definition set_artist `{Double} (v : list Z) (r : recorder) : recorder :=
  {| numeric_id := numeric_id r; thread_terminate_f := thread_terminate_f r; record_mode :=
     record_mode r; encoder_op := encoder_op r; initial_serial := initial_serial r; final_serial
     := final_serial r; fp := fp r; fpcue := fpcue r; pathname := pathname r; cuepathname :=
     cuepathname r; rec_timestamp := rec_timestamp r; first_mp3_header := first_mp3_header r;
     id3_mode := id3_mode r; include_xing_tag := include_xing_tag r; is_vbr := is_vbr r;
     oldbitrate := oldbitrate r; oldsamplerate := oldsamplerate r; recording_length_s :=
     recording_length_s r; recording_length_ms := recording_length_ms r; accumulated_time :=
     accumulated_time r; bytes_written := bytes_written r; mi := mi r; mi2 := mi2 r; stop_request
     := stop_request r; stop_pending := stop_pending r; pause_request := pause_request r;
     pause_pending := pause_pending r; unpause_request := unpause_request r; pcm_buffers :=
     pcm_buffers r; input_rb := input_rb r; sf := sf r; sf_samples := sf_samples r;
     sfinfo_samplerate := sfinfo_samplerate r; jack_dataflow_control := jack_dataflow_control r;
     new_artist_title := new_artist_title r; artist := v; title := title r; album := album r;
     artist_title_writes := artist_title_writes r |}.

Definition set_title `{Double} (v : list Z) (r : recorder) : recorder :=
  {| numeric_id := numeric_id r; thread_terminate_f := thread_terminate_f r; record_mode :=
     record_mode r; encoder_op := encoder_op r; initial_serial := initial_serial r; final_serial
     := final_serial r; fp := fp r; fpcue := fpcue r; pathname := pathname r; cuepathname :=
     cuepathname r; rec_timestamp := rec_timestamp r; first_mp3_header := first_mp3_header r;
     id3_mode := id3_mode r; include_xing_tag := include_xing_tag r; is_vbr := is_vbr r;
     oldbitrate := oldbitrate r; oldsamplerate := oldsamplerate r; recording_length_s :=
     recording_length_s r; recording_length_ms := recording_length_ms r; accumulated_time :=
     accumulated_time r; bytes_written := bytes_written r; mi := mi r; mi2 := mi2 r; stop_request
     := stop_request r; stop_pending := stop_pending r; pause_request := pause_request r;
     pause_pending := pause_pending r; unpause_request := unpause_request r; pcm_buffers :=
     pcm_buffers r; input_rb := input_rb r; sf := sf r; sf_samples := sf_samples r;
     sfinfo_samplerate := sfinfo_samplerate r; jack_dataflow_control := jack_dataflow_control r;
     new_artist_title := new_artist_title r; artist := artist r; title := v; album := album r;
     artist_title_writes := artist_title_writes r |}.

Definition set_album `{Double} (v : list Z) (r : recorder) : recorder :=
  {| numeric_id := numeric_id r; thread_terminate_f := thread_terminate_f r; record_mode :=
     record_mode r; encoder_op := encoder_op r; initial_serial := initial_serial r; final_serial
     := final_serial r; fp := fp r; fpcue := fpcue r; pathname := pathname r; cuepathname :=
     cuepathname r; rec_timestamp := rec_timestamp r; first_mp3_header := first_mp3_header r;
     id3_mode := id3_mode r; include_xing_tag := include_xing_tag r; is_vbr := is_vbr r;
     oldbitrate := oldbitrate r; oldsamplerate := oldsamplerate r; recording_length_s :=
     recording_length_s r; recording_length_ms := recording_length_ms r; accumulated_time :=
     accumulated_time r; bytes_written := bytes_written r; mi := mi r; mi2 := mi2 r; stop_request
     := stop_request r; stop_pending := stop_pending r; pause_request := pause_request r;
     pause_pending := pause_pending r; unpause_request := unpause_request r; pcm_buffers :=
     pcm_buffers r; input_rb := input_rb r; sf := sf r; sf_samples := sf_samples r;
     sfinfo_samplerate := sfinfo_samplerate r; jack_dataflow_control := jack_dataflow_control r;
     new_artist_title := new_artist_title r; artist := artist r; title := title r; album := v;
     artist_title_writes := artist_title_writes r |}.

Definition set_artist_title_writes `{Double} (v : Z) (r : recorder) : recorder :=
  {| numeric_id := numeric_id r; thread_terminate_f := thread_terminate_f r; record_mode :=
     record_mode r; encoder_op := encoder_op r; initial_serial := initial_serial r; final_serial
     := final_serial r; fp := fp r; fpcue := fpcue r; pathname := pathname r; cuepathname :=
     cuepathname r; rec_timestamp := rec_timestamp r; first_mp3_header := first_mp3_header r;
     id3_mode := id3_mode r; include_xing_tag := include_xing_tag r; is_vbr := is_vbr r;
     oldbitrate := oldbitrate r; oldsamplerate := oldsamplerate r; recording_length_s :=
     recording_length_s r; recording_length_ms := recording_length_ms r; accumulated_time :=
     accumulated_time r; bytes_written := bytes_written r; mi := mi r; mi2 := mi2 r; stop_request
     := stop_request r; stop_pending := stop_pending r; pause_request := pause_request r;
     pause_pending := pause_pending r; unpause_request := unpause_request r; pcm_buffers :=
     pcm_buffers r; input_rb := input_rb r; sf := sf r; sf_samples := sf_samples r;
     sfinfo_samplerate := sfinfo_samplerate r; jack_dataflow_control := jack_dataflow_control r;
     new_artist_title := new_artist_title r; artist := artist r; title := title r; album := album
     r; artist_title_writes := v |}.


(** ** recorder.c: metadata lists *)

(** Update through the [mi_last] / [mi2_last] pointer. *)
Fixpoint update_last {A : Type} (f : A -> A) (l : list A) : list A :=
  match l with
  | [] => []
  | [x] => [f x]
  | x :: l' => x :: update_last f l'
  end.

(** The token that [strsep] cuts off [s] and what is left ([None]: a null
    [*stringp], no delimiter was found). *)
Fixpoint strsep_cut (delim : list Z) (s : list Z) : list Z * option (list Z) :=
  match s with
  | [] => ([], None)
  | b :: s' =>
      if bool_decide (b ∈ delim) then ([], Some s')
      else let '(tok, rest) := strsep_cut delim s' in (b :: tok, rest)
  end.

(** [strsep(&stringp, delim)] on C strings without their NUL: the token (null
    when [*stringp] is null) and the new [*stringp]. *)
Definition strsep (stringp : option (list Z)) (delim : list Z) : option (list Z) * option (list Z) :=
  match stringp with
  | None => (None, None)
  | Some s => let '(tok, rest) := strsep_cut delim s in (Some tok, rest)
  end.

(** [!strcmp(a, b)] *)
Definition str_equal (a b : list Z) : bool := bool_decide (a = b).

Definition PF_MPEG_KINDS : Z := Z.lor PF_MP3 (Z.lor PF_MP2 (Z.lor PF_AAC PF_AACP2)).
Definition PF_AUDIO_KINDS : Z :=
  Z.lor PF_WEBM (Z.lor PF_OGG (Z.lor PF_MP3 (Z.lor PF_MP2 (Z.lor PF_AAC PF_AACP2)))).

(** A call that polls a condition of the recorder thread: finished with a
    result, stopped by a pass that cannot finish, or still polling when the
    passes given to it are used up. *)
Inductive polled (A : Type) :=
| Returned (a : A)
| Crashed
| Polling.
Arguments Returned {A} a.
Arguments Crashed {A}.
Arguments Polling {A}.

Section Recorder.
Context `{Double}.

(** id3.h is not among the files. [id3_tag_data ms chapters] stands for the
    bytes [id3_compile] leaves in [tag->tag_data] for the tag that
    [recorder_write_id3_tag] builds: a TLEN frame of [ms] and one CHAP frame
    for each entry of [chapters]. *)
Variable id3_tag_data : Z -> list metadata_item -> list Z.

Definition recorder_append_metadata2 (calloc_ok : bool) (self : recorder)
    (packet : option encoder_op_packet) (w : world) : recorder * world :=
  if negb calloc_ok then (self, elog "recorder_append_metadata2: malloc failure" w) else
  let rate (f : encoder_op_packet_header -> Z) : Z :=
    match packet with Some p => f (header p) | None => 0 end in
  let self1 :=
    match mi2 self with
    | [] =>
        self |> set_mi2 [ {| mi2_start_offset_ms := 0; mi2_finish_offset_ms := 0;
                             mi2_byte_offset := 0; mi2_size_bytes := 0;
                             mi2_bit_rate := rate bit_rate; mi2_sample_rate := rate sample_rate |} ]
    | _ :: _ =>
        let new := {| mi2_start_offset_ms := recording_length_ms self; mi2_finish_offset_ms := 0;
                      mi2_byte_offset := bytes_written self; mi2_size_bytes := 0;
                      mi2_bit_rate := rate bit_rate; mi2_sample_rate := rate sample_rate |} in
        let closed :=
          update_last (fun l => l |> set_mi2_finish_offset_ms (mi2_start_offset_ms new)
                                  |> set_mi2_size_bytes (mi2_byte_offset new - mi2_byte_offset l))
                      (mi2 self) in
        self |> set_mi2 (match packet with Some _ => closed ++ [new] | None => closed end)
    end in
  match packet with
  | Some p =>
      if (negb (bit_rate (header p) =? oldbitrate self1)
          || negb (sample_rate (header p) =? oldsamplerate self1))
         && has_flag (flags (header p)) PF_MPEG_KINDS
      then
        let '(self2, w2) :=
          if negb (oldbitrate self1 =? 0) && negb (oldsamplerate self1 =? 0)
          then (self1 |> set_is_vbr true,
                elog "recorder_append_metadata2: the mp3 frame length altered" w)
          else (self1, w) in
        (self2 |> set_oldbitrate (bit_rate (header p))
               |> set_oldsamplerate (sample_rate (header p)), w2)
      else (self1, w)
  | None => (self1, w)
  end.

Definition recorder_free_metadata2 (self : recorder) : recorder := self |> set_mi2 [].

(** The three fields of a metadata packet's text "custom\nartist\ntitle\nalbum";
    a field is [None] where [strsep] returned a null pointer. *)
Definition metadata_fields (packet : option encoder_op_packet)
    : option (list Z) * option (list Z) * option (list Z) :=
  match packet with
  | Some p =>
      let stringp := Some (c_str (data p)) in
      let '(_, stringp) := strsep stringp [10] in
      let '(artist, stringp) := strsep stringp [10] in
      let '(title, stringp) := strsep stringp [10] in
      let '(album, _) := strsep stringp [] in
      (artist, title, album)
  | None => (Some [], Some [], Some [])
  end.

(** The condition of the duplicate test, with C's left-to-right evaluation:
    [None] when [strcmp] is reached with a null argument. *)
Definition is_duplicate (self : recorder) (packet : option encoder_op_packet) : option bool :=
  let '(artist, title, album) := metadata_fields packet in
  match packet, last (mi self) with
  | Some _, Some l =>
      a ← artist;
      if negb (str_equal (mi_artist l) a) then Some false else
      t ← title;
      if negb (str_equal (mi_title l) t) then Some false else
      al ← album;
      Some (str_equal (mi_album l) al)
  | _, _ => Some false
  end.

Definition recorder_append_metadata (calloc_ok : bool) (self : recorder)
    (packet : option encoder_op_packet) (w : world) : option (recorder * world) :=
  let '(artist, title, album) := metadata_fields packet in
  match is_duplicate self packet with
  | None => None
  | Some true =>
    Some (self, elog "recorder_append_metadata: duplicate artist-title, skipping" w)
  | Some false =>
  if negb calloc_ok then
    Some (self, elog "recorder_append_metadata: malloc failure" w)
  else
    a ← artist; t ← title; al ← album;          (* strdup of a null pointer *)
    let new := {| mi_artist := a; mi_title := t; mi_album := al;
                  mi_time_offset := recording_length_ms self;
                  mi_byte_offset := bytes_written self;
                  mi_time_offset_end := 0; mi_byte_offset_end := 0 |} in
    match mi self with
    | [] => Some (self |> set_mi [new], w)
    | _ :: _ =>
        let closed :=
          update_last (fun l => l |> set_mi_time_offset_end (mi_time_offset new)
                                  |> set_mi_byte_offset_end (mi_byte_offset new))
                      (mi self) in
        Some (self |> set_mi (match packet with Some _ => closed ++ [new] | None => closed end), w)
    end
  end.

Definition recorder_free_metadata (self : recorder) : recorder := self |> set_mi [].

(** ** recorder.c: tags and cue sheet of a finished MP3 recording *)

(** [fprintf(fp, ...)] of already formatted bytes; the result is not tested. *)
Definition fprint (text : list Z) (f : FILE) (w : world) : FILE * world :=
  let '(_, f', w') := write_bytes text f w in (f', w').

Fixpoint zeros_str (k : nat) : string :=
  match k with O => EmptyString | S k' => String "0" (zeros_str k') end.

(** printf's [%0<width>d] *)
Definition fmt_0d (width : nat) (n : Z) : string :=
  let digits := pretty (Z.abs n) in
  let sign : string := if n <? 0 then "-" else EmptyString in
  sign +:+ zeros_str (width - String.length sign - String.length digits) +:+ digits.

Definition fmt_02d (n : Z) : string := fmt_0d 2 n.

Definition NL : string := String (ascii_of_nat 10) EmptyString.

Definition CRLF : list Z := [13; 10].
Definition DQUOTE : list Z := [34].

Definition recorder_write_id3_tag (self : recorder) (fp : FILE) (w : world)
    : retcode * FILE * world :=
  let tag_data := id3_tag_data (recording_length_ms self) (mi self) in
  let tag_data_size := Z.of_nat (length tag_data) in
  let '(n, fp, w) := fwrite tag_data 1 tag_data_size fp w in
  if negb (n =? tag_data_size)
  then (FAILED, fp, elog "recorder_write_id3_tag: error writing to file" w)
  else (SUCCEEDED, fp, w).

(** [strrchr(path, '/') + 1]; there is no result when [path] has no slash. *)
Fixpoint after_last_slash (path : list Z) : option (list Z) :=
  match path with
  | [] => None
  | c :: rest =>
      match after_last_slash rest with
      | Some tail => Some tail
      | None => if c =? 47 then Some rest else None
      end
  end.

Definition cue_track (i : Z) (m : metadata_item) : list Z :=
  str_bytes ("  TRACK " +:+ fmt_02d i +:+ " AUDIO") ++ CRLF
  ++ (match mi_title m with [] => [] | _ =>
        str_bytes "    TITLE " ++ DQUOTE ++ mi_title m ++ DQUOTE ++ CRLF end)
  ++ (match mi_artist m with [] => [] | _ =>
        str_bytes "    PERFORMER " ++ DQUOTE ++ mi_artist m ++ DQUOTE ++ CRLF end)
  ++ (match mi_album m with [] => [] | _ =>
        str_bytes "    REM ALBUM " ++ DQUOTE ++ mi_album m ++ DQUOTE ++ CRLF end)
  ++ (let '(mm, ss, ff) :=
        if 1 <? i then
          (Z.quot (mi_time_offset m) 60000,
           Z.rem (Z.quot (mi_time_offset m) 1000) 60,
           Z.quot (Z.rem (mi_time_offset m) 1000 * 75) 1000)
        else (0, 0, 0) in
      str_bytes ("    INDEX 01 " +:+ fmt_02d mm +:+ ":" +:+ fmt_02d ss +:+ ":" +:+ fmt_02d ff)
      ++ CRLF).

Fixpoint cue_tracks (i : Z) (l : list metadata_item) (fp : FILE) (w : world) : FILE * world :=
  match l with
  | [] => (fp, w)
  | m :: rest => let '(fp, w) := fprint (cue_track i m) fp w in cue_tracks (i + 1) rest fp w
  end.

(** [open_ok], [room]: the result of [fopen(self->cuepathname, "wb")]. *)
Definition recorder_create_mp3_cuesheet (open_ok : bool) (room : option Z)
    (self : recorder) (w : world) : option (retcode * world) :=
  cuepath ← cuepathname self;
  match fopen_w cuepath open_ok room w with
  | (None, w) =>
      Some (FAILED,
            elog "recorder_write_mp3_cue_sheet: failed to open cue sheet file for writing" w)
  | (Some fp, w) =>
      ts ← rec_timestamp self;
      path ← pathname self;
      name ← after_last_slash (str_bytes path);
      let '(fp, w) := fprint (str_bytes "TITLE " ++ DQUOTE ++ str_bytes ts ++ DQUOTE ++ CRLF) fp w in
      let '(fp, w) :=
        fprint (str_bytes "PERFORMER " ++ DQUOTE ++ str_bytes "Recorded with IDJC" ++ DQUOTE ++ CRLF)
               fp w in
      let '(fp, w) :=
        fprint (str_bytes "FILE " ++ DQUOTE ++ name ++ DQUOTE ++ str_bytes " MP3" ++ CRLF) fp w in
      let '(_, w) := cue_tracks 1 (mi self) fp w in
      Some (SUCCEEDED, w)
  end.

(** The segment of the seek-table loop: from the current node on, the first
    one that [look_ms] does not lie beyond, with the nodes from it on; [None]
    when the walk reaches the null pointer. *)
Fixpoint seek_segment (look_ms : double) (cur : list metadata_item2)
    : option (metadata_item2 * list metadata_item2) :=
  match cur with
  | [] => None
  | m :: rest =>
      if dgt look_ms (d_of_int (mi2_finish_offset_ms m)) then seek_segment look_ms rest
      else Some (m, cur)
  end.

(** One entry: the value stored through [ptr]. Storing a double in an
    [unsigned char] truncates; the value is reduced modulo 256 where C leaves
    an out-of-range conversion undefined. *)
Definition seek_entry (self : recorder) (look_ms : double) (m : metadata_item2) : Z :=
  let seg_prop :=
    ddiv (dsub look_ms (d_of_int (mi2_start_offset_ms m)))
         (d_of_int (mi2_finish_offset_ms m - mi2_start_offset_ms m)) in
  d_to_int
    (dmul (ddiv (dadd (dmul seg_prop (d_of_int (mi2_size_bytes m)))
                      (d_of_int (mi2_byte_offset m)))
                (d_of_int (bytes_written self)))
          (d_of_int 255)) mod 256.

Inductive seek_outcome :=
| SeekTable (table : list Z)     (* the loop ended; the entries stored so far *)
| SeekBadMetadata                (* the node pointer became null: FAILED *)
| SeekOverrun.                   (* a store beyond seek_table[99] *)

(** The loop [for (seek = 0.0, ...; seek < 1.0; seek += 0.01, ptr++)];
    [room] is the number of entries left in [seek_table]. *)
Fixpoint seek_loop (room : nat) (self : recorder) (seek : double)
    (cur : list metadata_item2) (table : list Z) : seek_outcome :=
  if dlt seek (d_of_int 1) then
    match room with
    | O => SeekOverrun
    | S room' =>
        let look_ms := dmul seek (d_of_int (recording_length_ms self)) in
        match seek_segment look_ms cur with
        | None => SeekBadMetadata
        | Some (m, cur') =>
            seek_loop room' self (dadd seek d_0_01) cur' (table ++ [seek_entry self look_ms m])
        end
    end
  else SeekTable table.

Definition generate_seek_table (self : recorder) : seek_outcome :=
  seek_loop 100 self (d_of_int 0) (mi2 self) [].

(** [for (i = 0; i < n; i++) { fputc(0x00, fp); if (ferror(fp)) return FAILED; }]:
    [false] when the loop returned FAILED. *)
Fixpoint put_zeros_checked (n : nat) (fp : FILE) (w : world) : bool * FILE * world :=
  match n with
  | O => (true, fp, w)
  | S n' =>
      let '(fp, w) := fputc 0 fp w in
      if ferror fp then (false, fp, w) else put_zeros_checked n' fp w
  end.

(** [while (n-- > 0) fputc('\0', fp);] *)
Fixpoint put_zeros (n : nat) (fp : FILE) (w : world) : FILE * world :=
  match n with
  | O => (fp, w)
  | S n' => let '(fp, w) := fputc 0 fp w in put_zeros n' fp w
  end.

(** The four [fputc] calls that store a 32-bit value, most significant byte first. *)
Definition put_be32 (v : Z) (fp : FILE) (w : world) : FILE * world :=
  let '(fp, w) := fputc (Z.land (Z.shiftr v 24) 255) fp w in
  let '(fp, w) := fputc (Z.land (Z.shiftr v 16) 255) fp w in
  let '(fp, w) := fputc (Z.land (Z.shiftr v 8) 255) fp w in
  fputc (Z.land v 255) fp w.

Definition XING_MARKER : list Z := str_bytes "Xing" ++ [0; 0; 0; 7].
Definition INFO_MARKER : list Z := str_bytes "Info" ++ [0; 0; 0; 3].

Definition side_info_table (mpeg1_f mono_f : bool) : Z :=
  match mpeg1_f, mono_f with
  | false, false => 17
  | false, true => 9
  | true, false => 32
  | true, true => 17
  end.

Definition header_byte (self : recorder) (i : nat) : Z := nth i (first_mp3_header self) 0.

(** The part of [recorder_write_xing_tag] after the marker was written. *)
Definition xing_tag_body (self : recorder) (first : metadata_item2)
    (samples_per_frame framelength initial_offset : Z) (fp : FILE) (w : world)
    : option (retcode * FILE * world) :=
  let total_frames :=
    d_to_int (dadd (ddiv (dmul (d_of_int (mi2_sample_rate first))
                               (d_of_int (recording_length_ms self)))
                         (dmul (d_of_int samples_per_frame) (d_of_int 1000)))
                   d_0_5) in
  let '(fp, w) := put_be32 total_frames fp w in
  let '(fp, w) := put_be32 (bytes_written self) fp w in
  let fill (fp : FILE) (w : world) : option (retcode * FILE * world) :=
    let frame_fill := framelength - ftell fp w + initial_offset in
    let '(fp, w) := put_zeros (Z.to_nat frame_fill) fp w in
    if ferror fp then Some (FAILED, fp, w) else Some (SUCCEEDED, fp, w) in
  if is_vbr self then
    let w := elog "recorder_write_xing_tag: creating a seek table" w in
    match generate_seek_table self with
    | SeekOverrun => None
    | SeekBadMetadata =>
        Some (FAILED, fp,
              elog "recorder_write_xing_tag: WARNING: bad metadata, failed creation of seek table" w)
    | SeekTable seek_table =>
        if negb (length seek_table =? 100)%nat then None       (* entries never stored *)
        else
          let '(n, fp, w) := fwrite seek_table 100 1 fp w in
          if n =? 0 then Some (FAILED, fp, w) else
          let '(fp, w) := if nth 99 seek_table 0 =? 255 then fputc 0 fp w else (fp, w) in
          fill fp w
    end
  else fill fp w.

Definition recorder_write_xing_tag (self : recorder) (fp : FILE) (w : world)
    : option (retcode * FILE * world) :=
  if negb (include_xing_tag self) then Some (SUCCEEDED, fp, w) else
  match mi2 self with
  | [] =>
      Some (SUCCEEDED, fp,
            elog "recorder_write_xing_tag: no metadata collected, skipping vbr tag" w)
  | first :: _ =>
      let w := elog "recorder_write_xing_tag: commencing" w in
      let initial_offset := ftell fp w in
      let padding := if has_flag (header_byte self 2) 2 then 1 else 0 in
      let mpeg1_f := Z.land (header_byte self 1) 24 =? 24 in
      let mono_f := Z.land (header_byte self 3) 192 =? 192 in
      let samples_per_frame := if mpeg1_f then 1152 else 576 in
      q ← idiv (Z.quot samples_per_frame 8 * mi2_bit_rate first * 1000) (mi2_sample_rate first);
      let framelength := q + padding in
      let xing_offset := side_info_table mpeg1_f mono_f in
      let '(n, fp, w) := fwrite (first_mp3_header self) 4 1 fp w in
      if n =? 0 then Some (FAILED, fp, w) else
      let '(ok, fp, w) := put_zeros_checked (Z.to_nat xing_offset) fp w in
      if negb ok then Some (FAILED, fp, w) else
      let '(n, fp, w) :=
        if is_vbr self then fwrite XING_MARKER 8 1 fp w else fwrite INFO_MARKER 8 1 fp w in
      if n =? 0 then Some (FAILED, fp, w) else
      xing_tag_body self first samples_per_frame framelength initial_offset fp w
  end.

(** What the environment decides in [recorder_apply_mp3_tags]. *)
Record tag_env := {
  te_malloc_ok : bool;            (* malloc of the temporary name *)
  te_tmp_open_ok : bool;          (* fopen(tmpname, "w+") *)
  te_tmp_room : option Z;         (* bytes the temporary file can take *)
  te_src_open_ok : bool;          (* fopen(self->pathname, "r") *)
  te_rename_ok : bool             (* rename(tmpname, self->pathname) *)
}.

(** The copy loop; [false] when [fwrite] failed. Every round but the last
    reads at least one byte, so [fuel] above the length of the file is never
    used up. *)
Fixpoint copy_loop (fuel : nat) (fpr : RFILE) (fpw : FILE) (w : world) : bool * FILE * world :=
  match fuel with
  | O => (true, fpw, w)
  | S fuel' =>
      let '(buffer, fpr) := fread 2048 fpr w in
      let bytes := Z.of_nat (length buffer) in
      if bytes =? 0 then (true, fpw, w)
      else
        let '(n, fpw, w) := fwrite buffer bytes 1 fpw w in
        if n =? 0 then (false, fpw, w) else copy_loop fuel' fpr fpw w
  end.

Definition recorder_apply_mp3_tags (e : tag_env) (self : recorder) (w : world)
    : option (recorder * world) :=
  path ← pathname self;
  if negb (te_malloc_ok e) then Some (self, elog "recorder_apply_mp3_tags: malloc failure" w) else
  let tmpname := path +:+ ".tmp" in
  match fopen_w tmpname (te_tmp_open_ok e) (te_tmp_room e) w with
  | (None, w) => Some (self, elog "recorder_apply_mp3_tags: failed to open temporary file" w)
  | (Some fpw, w) =>
  match fopen_r path (te_src_open_ok e) w with
  | None =>
      Some (self, w |> elog "recorder_apply_mp3_tags: failed to open the mp3 file"
                    |> unlink tmpname)
  | Some fpr =>
      let '(got, fpr) := fread 4 fpr w in
      let self := self |> set_first_mp3_header (got ++ drop (length got) (first_mp3_header self)) in
      if (length got <? 4)%nat then
        Some (self, w |> elog "failed to obtain the first four bytes of the recording"
                      |> unlink tmpname)
      else
      let fpr := rewind fpr in
      let '(id3_ok, fpw, w) := recorder_write_id3_tag self fpw w in
      '(xing_ok, fpw, w) ←
        (if retcode_true id3_ok then recorder_write_xing_tag self fpw w
         else Some (FAILED, fpw, w));
      if negb (retcode_true id3_ok && retcode_true xing_ok) then
        Some (self, w |> elog "recorder_apply_mp3_tags: failed to tag the mp3 file"
                      |> unlink tmpname)
      else
      let '(copied, fpw, w) := copy_loop (S (length (file_content path w))) fpr fpw w in
      if negb copied then
        Some (self, w |> elog "recorder_apply_mp3_tags: error copying the mp3 file"
                      |> unlink tmpname)
      else
      let '(failed, w) := rename tmpname path (te_rename_ok e) w in
      if failed then
        Some (self, elog "recorder_apply_mp3_tags: failed to rename the temporary file" w)
      else
        Some (self, elog "recorder_apply_mp3_tags: successfully tagged the mp3 file" w)
  end
  end.

(** ** recorder.c: the recorder thread *)

Definition recorder_display_logged_metadata2 (l : list metadata_item2) (w : world) : world :=
  match l with
  | [] => elog "No start position for the stream was logged!" w
  | _ :: _ =>
      foldl (fun w m =>
               elog ("Start(ms): " +:+ fmt_0d 6 (mi2_start_offset_ms m)
                     +:+ "  Finish(ms): " +:+ fmt_0d 6 (mi2_finish_offset_ms m)
                     +:+ "  Byte offset: " +:+ fmt_0d 6 (mi2_byte_offset m)
                     +:+ "  Size(bytes): " +:+ fmt_0d 6 (mi2_size_bytes m)) w)
            (elog "The following metadata was also logged." w) l
  end.

Definition recorder_display_logged_metadata (l : list metadata_item) (w : world) : world :=
  match l with
  | [] => elog "No metadata was logged for the recording." w
  | _ :: _ =>
      foldl (fun w m =>
               w |> elog ("Start(ms): " +:+ fmt_0d 6 (mi_time_offset m)
                          +:+ " Byte: " +:+ fmt_0d 8 (mi_byte_offset m)
                          +:+ " Finish(ms): " +:+ fmt_0d 6 (mi_time_offset_end m)
                          +:+ " Finish byte " +:+ fmt_0d 8 (mi_byte_offset_end m))
                 |> elog ("Artist: " +:+ bytes_str (mi_artist m) +:+ NL
                          +:+ "Title:  " +:+ bytes_str (mi_title m) +:+ NL
                          +:+ "Album:  " +:+ bytes_str (mi_album m) +:+ NL +:+ "---"))
            (elog "The following metadata was logged." w) l
  end.

(** What the environment decides during one pass of the loop of [recorder_main]. *)
Record main_env := {
  env_packet : option encoder_op_packet;   (* encoder_client_get_packet(self->encoder_op) *)
  env_flush_serial : Z;                    (* encoder_client_set_flush(self->encoder_op) *)
  env_rb_reads : list Z;                   (* the non-zero results of the reads of input_rb[1] *)
  env_calloc_ok : bool;                    (* calloc of a list node *)
  env_tags : tag_env;
  env_cue_open_ok : bool;                  (* fopen of the cue sheet of an MP3 recording *)
  env_cue_room : option Z
}.

(** The read loop of the lossless mode; a sample is a 4-byte float. *)
Fixpoint lossless_read_loop (reads : list Z) (self : recorder) : recorder :=
  match reads with
  | [] => self
  | nbytes :: rest =>
      let self := self |> set_sf_samples (sf_samples self + Z.quot nbytes 4) in
      if stop_request self || pause_request self then self else lossless_read_loop rest self
  end.

Definition recording_lossless (env : main_env) (self : recorder) (w : world)
    : option (recorder * world) :=
  let self := lossless_read_loop (env_rb_reads env) self in
  s ← idiv (sf_samples self) (sfinfo_samplerate self);
  ms ← idiv (sf_samples self * 1000) (sfinfo_samplerate self);
  let self := self |> set_recording_length_s s |> set_recording_length_ms ms in
  let self :=
    if stop_request self
    then self |> set_stop_request false |> set_record_mode RM_STOPPING else self in
  let self :=
    if pause_request self
    then self |> set_pause_request false |> set_record_mode RM_PAUSED else self in
  if new_artist_title self then
    fpcue ← fpcue self;
    let n := artist_title_writes self + 1 in
    let self := self |> set_artist_title_writes n in
    let '(fpcue, w) := fprint (str_bytes ("  TRACK " +:+ fmt_02d n +:+ " AUDIO") ++ CRLF) fpcue w in
    let self := self |> set_new_artist_title false in
    let '(fpcue, w) :=
      fprint (str_bytes "    TITLE " ++ DQUOTE ++ title self ++ DQUOTE ++ CRLF) fpcue w in
    let '(fpcue, w) :=
      fprint (str_bytes "    PERFORMER " ++ DQUOTE ++ artist self ++ DQUOTE ++ CRLF) fpcue w in
    let '(fpcue, w) :=
      fprint (str_bytes "    REM ALBUM " ++ DQUOTE ++ album self ++ DQUOTE ++ CRLF) fpcue w in
    let s := Z.rem (recording_length_s self) 60 in
    let m := Z.quot (recording_length_s self) 60 in
    let f := Z.quot (Z.rem (recording_length_ms self) 1000 * 75) 1000 in
    let '(fpcue, w) :=
      fprint (str_bytes ("    INDEX 01 " +:+ fmt_02d m +:+ ":" +:+ fmt_02d s +:+ ":" +:+ fmt_02d f)
              ++ CRLF) fpcue w in
    Some (self |> set_fpcue (Some fpcue), w)
  else Some (self, w).

(** The body of [if (packet->header.serial >= self->initial_serial)]. *)
Definition recorder_accept_packet (env : main_env) (packet : encoder_op_packet)
    (self : recorder) (w : world) : option (recorder * world) :=
  let h := header packet in
  let '(self, w) :=
    if has_flag (flags h) PF_INITIAL && id3_mode self
    then recorder_append_metadata2 (env_calloc_ok env) self (Some packet) w
    else (self, w) in
  '(self, w) ←
    (if has_flag (flags h) PF_AUDIO_KINDS then
       f ← fp self;
       let '(n, f, w) := fwrite (data packet) 1 (data_size h) f w in
       let self := self |> set_fp (Some f) in
       if negb (data_size h =? n) then
         Some (self |> set_record_mode RM_STOPPING,
               elog ("recorder_main: failed writing to file "
                     +:+ default EmptyString (pathname self)) w)
       else
         let t := dadd (accumulated_time self) (timestamp h) in
         Some (self |> set_recording_length_s (d_to_int t)
                    |> set_recording_length_ms (d_to_int (dmul t (d_of_int 1000)))
                    |> set_bytes_written (ftell f w), w)
     else Some (self, w));
  if has_flag (flags h) PF_FINAL then
    let self := self |> set_accumulated_time (dadd (accumulated_time self) (timestamp h)) in
    if pause_pending self && (final_serial self <=? serial h) then
      Some (self |> set_record_mode RM_PAUSED |> set_pause_pending false,
            elog "recorder_main: entering pause mode" w)
    else Some (self, w)
  else Some (self, w).

(** The body of [if ((packet = encoder_client_get_packet(...)))]. *)
Definition recorder_take_packet (env : main_env) (packet : encoder_op_packet)
    (self : recorder) (w : world) : option (recorder * world) :=
  '(self, w) ←
    (if initial_serial self <=? serial (header packet)
     then recorder_accept_packet env packet self w
     else Some (self, w));
  if has_flag (flags (header packet)) PF_METADATA
  then recorder_append_metadata (env_calloc_ok env) self (Some packet) w
  else Some (self, w).

Definition recording_attached (env : main_env) (self : recorder) (w : world)
    : option (recorder * world) :=
  '(self, w) ←
    match env_packet env with
    | Some packet => recorder_take_packet env packet self w
    | None => Some (self, w)
    end;
  let self :=
    if stop_request self
    then self |> set_stop_pending true |> set_pause_request true |> set_stop_request false
    else self in
  let self :=
    if pause_request self
    then self |> set_pause_pending true |> set_final_serial (env_flush_serial env)
              |> set_pause_request false
    else self in
  Some (self, w).

(** The loop of the paused mode that empties the ring buffers:
    [while ((nbytes = jack_ringbuffer_read(self->input_rb[1], self->right, ...)))
       jack_ringbuffer_read(self->input_rb[0], self->left, nbytes);]
    The loop has no guard on [initial_serial]. Only [recorder_start] of a
    lossless recording creates the ring buffers, and the stopping pass frees
    them: without them the first read goes through a null or freed pointer.
    A read that gives bytes stores them through [right], which is null
    without the PCM buffers. What is read is thrown away. *)
Definition drain_ringbuffers (env : main_env) (self : recorder) : option unit :=
  if negb (input_rb self) then None
  else
    match env_rb_reads env with
    | [] => Some ()
    | _ :: _ => if pcm_buffers self then Some () else None
    end.

Definition recorder_paused (env : main_env) (self : recorder) : option recorder :=
  if stop_request self || stop_pending self then Some (self |> set_record_mode RM_STOPPING)
  else
    _ ← drain_ringbuffers env self;
    if unpause_request self then
      let self := self |> set_unpause_request false in
      let self :=
        if negb (initial_serial self =? -1)
        then self |> set_initial_serial (to_int (env_flush_serial env + 1)) else self in
      Some (self |> set_record_mode RM_RECORDING)
    else Some self.

Definition recorder_stopping (env : main_env) (self : recorder) (w : world)
    : option (recorder * world) :=
  '(self, w) ←
    (if initial_serial self =? -1 then
       (* sf_close, fclose(fpcue); the JACK callback answers JD_FLUSH with JD_OFF *)
       Some (self |> set_sf false |> set_fpcue None |> set_jack_dataflow_control JD_OFF
                  |> set_input_rb false |> set_pcm_buffers false |> set_sf_samples 0, w)
     else
       '(self, w) ←
         (if id3_mode self then
            '(self, w) ← recorder_append_metadata (env_calloc_ok env) self None w;
            let '(self, w) := recorder_append_metadata2 (env_calloc_ok env) self None w in
            let w := recorder_display_logged_metadata (mi self) w in
            let w := recorder_display_logged_metadata2 (mi2 self) w in
            '(self, w) ← recorder_apply_mp3_tags (env_tags env) self w;
            '(_, w) ← recorder_create_mp3_cuesheet (env_cue_open_ok env) (env_cue_room env) self w;
            Some (self |> recorder_free_metadata |> recorder_free_metadata2, w)
          else Some (self, w));
       (* encoder_unregister_client(self->encoder_op) *)
       Some (self, w));
  Some (self |> set_fp None
             |> set_first_mp3_header [0; 0; 0; 0]
             |> set_oldbitrate 0
             |> set_oldsamplerate 0
             |> set_id3_mode false
             |> set_include_xing_tag false
             |> set_is_vbr false
             |> set_recording_length_s 0
             |> set_recording_length_ms 0
             |> set_accumulated_time (d_of_int 0)
             |> set_bytes_written 0
             |> set_pathname None
             |> set_cuepathname None
             |> set_rec_timestamp None
             |> set_encoder_op None
             |> set_stop_request false
             |> set_stop_pending false
             |> set_pause_request false
             |> set_pause_pending false
             |> set_record_mode RM_STOPPED, w).

(** One pass of the loop [while (!self->thread_terminate_f)] of
    [recorder_main]. In [RM_STOPPED] the thread waits on [mode_cv]. *)
Definition recorder_main_pass (env : main_env) (self : recorder) (w : world)
    : option (recorder * world) :=
  match record_mode self with
  | RM_STOPPED => Some (self, w)
  | RM_RECORDING =>
      if initial_serial self =? -1 then recording_lossless env self w
      else recording_attached env self w
  | RM_PAUSED => self ← recorder_paused env self; Some (self, w)
  | RM_STOPPING => recorder_stopping env self w
  end.

(** The recorder thread over the environments of its successive passes. *)
Fixpoint recorder_main (envs : list main_env) (self : recorder) (w : world)
    : option (recorder * world) :=
  match envs with
  | [] => Some (self, w)
  | env :: rest =>
      if thread_terminate_f self then Some (self, w)
      else '(self, w) ← recorder_main_pass env self w; recorder_main rest self w
  end.

(** ** recorder.c: the control interface *)

Definition recorder_new_metadata (self : recorder) (new_artist new_title new_album : list Z)
    : retcode * recorder :=
  (SUCCEEDED, self |> set_artist new_artist |> set_title new_title |> set_album new_album
                   |> set_new_artist_title true).

(** [while (cond(self->record_mode)) nanosleep(&ms10, NULL);] with the
    recorder thread making one pass between two tests. *)
Fixpoint poll_while (cond : record_mode_t -> bool) (envs : list main_env)
    (self : recorder) (w : world) : polled (recorder * world) :=
  if cond (record_mode self) then
    match envs with
    | [] => Polling
    | env :: rest =>
        match recorder_main_pass env self w with
        | None => Crashed
        | Some (self, w) => poll_while cond rest self w
        end
    end
  else Returned (self, w).

Definition is_mode (m : record_mode_t) (x : record_mode_t) : bool :=
  match m, x with
  | RM_STOPPED, RM_STOPPED | RM_RECORDING, RM_RECORDING
  | RM_PAUSED, RM_PAUSED | RM_STOPPING, RM_STOPPING => true
  | _, _ => false
  end.

Definition recorder_stop (envs : list main_env) (self : recorder) (w : world)
    : polled (retcode * recorder * world) :=
  if is_mode RM_STOPPED (record_mode self) then
    Returned (FAILED, self,
              elog ("recorder_stop: device " +:+ pretty (numeric_id self)
                    +:+ " is already stopped") w)
  else
    let self := self |> set_stop_request true in
    match poll_while (fun m => negb (is_mode RM_STOPPED m)) envs self w with
    | Returned (self, w) =>
        Returned (SUCCEEDED, self,
                  elog ("recorder_stop: device " +:+ pretty (numeric_id self) +:+ " stopped") w)
    | Crashed => Crashed
    | Polling => Polling
    end.

Definition recorder_pause (envs : list main_env) (self : recorder) (w : world)
    : polled (retcode * recorder * world) :=
  let self := self |> set_unpause_request false |> set_pause_request true in
  if is_mode RM_RECORDING (record_mode self) then
    let w := elog "recorder_pause: waiting for pause mode to be entered" w in
    match poll_while (fun m => negb (is_mode RM_PAUSED m)) envs self w with
    | Returned (self, w) => Returned (SUCCEEDED, self, elog "recorder_pause: in pause mode" w)
    | Crashed => Crashed
    | Polling => Polling
    end
  else if is_mode RM_PAUSED (record_mode self) then
    Returned (FAILED, self, elog "recorder_pause: recorder is already paused" w)
  else Returned (SUCCEEDED, self, elog "recorder_pause: not currenly recording" w).


(** The parameters of a [recorder_start] command ([struct recorder_vars]). *)
Record recorder_vars := {
  record_source : string;
  record_folder : string;
  record_filename : string
}.

(** What the environment decides in [recorder_start]. *)
Record start_env := {
  se_buffers_ok : bool;                  (* malloc of left, right and combined *)
  se_register : option encoder_op_t;     (* encoder_register_client *)
  se_pathname_ok : bool;                 (* malloc of the path name *)
  se_time : string;                      (* strftime of the current time *)
  se_fopen_ok : bool;                    (* fopen(self->pathname, "w") *)
  se_room : option Z;
  se_flush_serial : Z;                   (* encoder_client_set_flush *)
  se_cue_fopen_ok : bool;                (* fopen(self->cuepathname, "w") *)
  se_cue_room : option Z;
  se_sample_rate : Z;                    (* ti->audio_feed->sample_rate *)
  se_sf_open_ok : bool;                  (* sf_open_fd *)
  se_ringbuffers_ok : bool               (* jack_ringbuffer_create, both *)
}.

(** The switch on [df->family] and [df->codec]: the file extension and the
    values stored in [id3_mode] and [include_xing_tag] (kept when [None]). *)
Definition start_format (df : encoder_op_t) : option string * option bool * option bool :=
  match op_family df with
  | ENCODER_FAMILY_OGG =>
      match op_codec df with
      | ENCODER_CODEC_VORBIS | ENCODER_CODEC_FLAC | ENCODER_CODEC_SPEEX | ENCODER_CODEC_OPUS =>
          (Some ".oga", None, None)
      | _ => (None, None, None)
      end
  | ENCODER_FAMILY_MPEG =>
      match op_codec df with
      | ENCODER_CODEC_MP3 => (Some ".mp3", Some true, Some true)
      | ENCODER_CODEC_MP2 => (Some ".mp2", Some true, None)
      | ENCODER_CODEC_AAC | ENCODER_CODEC_AACPLUSV2 => (Some ".aac", Some true, None)
      | _ => (None, None, None)
      end
  | ENCODER_FAMILY_WEBM =>
      match op_codec df with
      | ENCODER_CODEC_VORBIS | ENCODER_CODEC_OPUS => (Some ".webm", None, None)
      | _ => (None, None, None)
      end
  | ENCODER_FAMILY_UNHANDLED => (None, None, None)
  end.

(** The part of [recorder_start] from the allocation of the path name on. *)
Definition recorder_start_open (e : start_env) (rv : recorder_vars) (file_extension : string)
    (self : recorder) (w : world) : option (retcode * recorder * world) :=
  if negb (se_pathname_ok e) then
    Some (FAILED, self |> set_pathname None, elog "recorder_start: malloc failure" w)
  else
  let path := record_folder rv +:+ "/" +:+ record_filename rv +:+ file_extension in
  let self := self |> set_rec_timestamp (Some (se_time e)) |> set_pathname (Some path) in
  let w := elog path w in
  let self :=
    self |> set_cuepathname (Some (record_folder rv +:+ "/" +:+ record_filename rv +:+ ".cue")) in
  match fopen_w path (se_fopen_ok e) (se_room e) w with
  | (None, w) =>
      Some (FAILED, self |> set_fp None,
            elog ("recorder_start: failed to open file " +:+ record_folder rv) w)
  | (Some f, w) =>
      let self := self |> set_fp (Some f) in
      '(self, w) ←
        match encoder_op self with
        | Some _ =>
            let self := self |> set_initial_serial (to_int (se_flush_serial e + 1)) in
            Some (inl self,
                  elog ("recorder_start: awaiting serial " +:+ pretty (initial_serial self)
                        +:+ " to commence") w)
        | None =>
            cuepath ← cuepathname self;
            match fopen_w cuepath (se_cue_fopen_ok e) (se_cue_room e) w with
            | (None, w) =>
                Some (inr (self |> set_fpcue None),
                      elog "recorder_start: failed to open cue file for writing" w)
            | (Some fc, w) =>
                name ← after_last_slash (str_bytes path);
                let '(fc, w) :=
                  fprint (str_bytes "TITLE " ++ DQUOTE ++ str_bytes (se_time e) ++ DQUOTE ++ CRLF)
                         fc w in
                let '(fc, w) :=
                  fprint (str_bytes "PERFORMER " ++ DQUOTE ++ str_bytes "Recorded with IDJC"
                          ++ DQUOTE ++ CRLF) fc w in
                let '(fc, w) :=
                  fprint (str_bytes "FILE " ++ DQUOTE ++ name ++ DQUOTE ++ str_bytes " WAVE" ++ CRLF)
                         fc w in
                let self := self |> set_fpcue (Some fc)
                                 |> set_sfinfo_samplerate (se_sample_rate e) in
                if negb (se_sf_open_ok e) then
                  Some (inr (self |> set_sf false),
                        elog "recorder_start: unable to initialise FLAC encoder" w)
                else
                let self := self |> set_sf true |> set_input_rb (se_ringbuffers_ok e) in
                if negb (se_ringbuffers_ok e) then
                  Some (inr self,
                        w |> elog "encoder_start: jack ringbuffer creation failure"
                          |> elog "recorder_start: failed to create ringbuffers")
                else
                  Some (inl (self |> set_jack_dataflow_control JD_ON
                                  |> set_initial_serial (-1)
                                  |> set_new_artist_title true),
                        elog "recorder_start: in FLAC mode" w)
            end
        end;
      match self with
      | inr self => Some (FAILED, self, w)
      | inl self =>
          let self :=
            if pause_request self then self |> set_record_mode RM_PAUSED
            else self |> set_record_mode RM_RECORDING in
          Some (SUCCEEDED, self,
                elog ("recorder_start: device " +:+ pretty (numeric_id self) +:+ " activated") w)
      end
  end.

Definition recorder_start (e : start_env) (rv : recorder_vars) (self : recorder) (w : world)
    : option (retcode * recorder * world) :=
  if String.eqb (record_source rv) "-1" then
    let self := self |> set_encoder_op None |> set_pcm_buffers (se_buffers_ok e) in
    if negb (se_buffers_ok e) then Some (FAILED, self, elog "recorder_start: malloc failure" w)
    else recorder_start_open e rv ".flac" self w
  else
    let self := self |> set_encoder_op (se_register e) in
    match se_register e with
    | None => Some (FAILED, self, elog "recorder_start: failed to register with encoder" w)
    | Some op =>
        if negb (op_run_request_f op) then
          Some (FAILED, self, elog "recorder_start: encoder is not running" w)
        else
          let '(file_extension, id3, xing) := start_format op in
          let self := match id3 with Some b => self |> set_id3_mode b | None => self end in
          let self := match xing with Some b => self |> set_include_xing_tag b | None => self end in
          match file_extension with
          | None =>
              Some (FAILED, self,
                    elog "recorder_start: data_format is not set to a handled value" w)
          | Some ext => recorder_start_open e rv ext self w
          end
    end.

(** [recorder_init]: the zeroed structure with its three empty strings; the
    thread it creates parks in the stopped mode. *)
Definition recorder_init (numeric_id : Z) : recorder :=
  {| numeric_id := numeric_id; thread_terminate_f := false; record_mode := RM_STOPPED;
     encoder_op := None; initial_serial := 0; final_serial := 0; fp := None; fpcue := None;
     pathname := None; cuepathname := None; rec_timestamp := None;
     first_mp3_header := [0; 0; 0; 0]; id3_mode := false; include_xing_tag := false;
     is_vbr := false; oldbitrate := 0; oldsamplerate := 0; recording_length_s := 0;
     recording_length_ms := 0; accumulated_time := d_of_int 0; bytes_written := 0;
     mi := []; mi2 := []; stop_request := false; stop_pending := false;
     pause_request := false; pause_pending := false; unpause_request := false;
     pcm_buffers := false; input_rb := false; sf := false; sf_samples := 0;
     sfinfo_samplerate := 0; jack_dataflow_control := JD_OFF; new_artist_title := false;
     artist := []; title := []; album := []; artist_title_writes := 0 |}.

End Recorder.

(** ** encoder.h: the encoder, as far as the live back ends use it *)

(** [codec] is [data_format.codec]; [run_encoder] says whether the function
    pointer is set. The private state of a back end ([encoder_private]) is
    kept beside the encoder. *)
Record encoder `{Double} := {
  run_request_f : bool;
  encoder_state : encoder_state_t;
  codec : encoder_codec;
  enc_n_channels : Z;
  bitrate : Z;
  target_samplerate : Z;
  custom_meta : list Z;
  enc_artist : list Z;
  enc_title : list Z;
  enc_album : list Z;
  new_metadata : bool;
  use_metadata : bool;
  flush : bool;
  oggserial : Z;
  enc_timestamp : double;
  run_encoder : bool
}.

Definition set_run_request_f `{Double} (v : bool) (r : encoder) : encoder :=
  {| run_request_f := v; encoder_state := encoder_state r; codec := codec r; enc_n_channels :=
     enc_n_channels r; bitrate := bitrate r; target_samplerate := target_samplerate r; custom_meta
     := custom_meta r; enc_artist := enc_artist r; enc_title := enc_title r; enc_album :=
     enc_album r; new_metadata := new_metadata r; use_metadata := use_metadata r; flush := flush
     r; oggserial := oggserial r; enc_timestamp := enc_timestamp r; run_encoder := run_encoder r
     |}.

Definition set_encoder_state `{Double} (v : encoder_state_t) (r : encoder) : encoder :=
  {| run_request_f := run_request_f r; encoder_state := v; codec := codec r; enc_n_channels :=
     enc_n_channels r; bitrate := bitrate r; target_samplerate := target_samplerate r; custom_meta
     := custom_meta r; enc_artist := enc_artist r; enc_title := enc_title r; enc_album :=
     enc_album r; new_metadata := new_metadata r; use_metadata := use_metadata r; flush := flush
     r; oggserial := oggserial r; enc_timestamp := enc_timestamp r; run_encoder := run_encoder r
     |}.

Definition set_new_metadata `{Double} (v : bool) (r : encoder) : encoder :=
  {| run_request_f := run_request_f r; encoder_state := encoder_state r; codec := codec r;
     enc_n_channels := enc_n_channels r; bitrate := bitrate r; target_samplerate :=
     target_samplerate r; custom_meta := custom_meta r; enc_artist := enc_artist r; enc_title :=
     enc_title r; enc_album := enc_album r; new_metadata := v; use_metadata := use_metadata r;
     flush := flush r; oggserial := oggserial r; enc_timestamp := enc_timestamp r; run_encoder :=
     run_encoder r |}.

Definition set_flush `{Double} (v : bool) (r : encoder) : encoder :=
  {| run_request_f := run_request_f r; encoder_state := encoder_state r; codec := codec r;
     enc_n_channels := enc_n_channels r; bitrate := bitrate r; target_samplerate :=
     target_samplerate r; custom_meta := custom_meta r; enc_artist := enc_artist r; enc_title :=
     enc_title r; enc_album := enc_album r; new_metadata := new_metadata r; use_metadata :=
     use_metadata r; flush := v; oggserial := oggserial r; enc_timestamp := enc_timestamp r;
     run_encoder := run_encoder r |}.

Definition set_oggserial `{Double} (v : Z) (r : encoder) : encoder :=
  {| run_request_f := run_request_f r; encoder_state := encoder_state r; codec := codec r;
     enc_n_channels := enc_n_channels r; bitrate := bitrate r; target_samplerate :=
     target_samplerate r; custom_meta := custom_meta r; enc_artist := enc_artist r; enc_title :=
     enc_title r; enc_album := enc_album r; new_metadata := new_metadata r; use_metadata :=
     use_metadata r; flush := flush r; oggserial := v; enc_timestamp := enc_timestamp r;
     run_encoder := run_encoder r |}.

Definition set_enc_timestamp `{Double} (v : double) (r : encoder) : encoder :=
  {| run_request_f := run_request_f r; encoder_state := encoder_state r; codec := codec r;
     enc_n_channels := enc_n_channels r; bitrate := bitrate r; target_samplerate :=
     target_samplerate r; custom_meta := custom_meta r; enc_artist := enc_artist r; enc_title :=
     enc_title r; enc_album := enc_album r; new_metadata := new_metadata r; use_metadata :=
     use_metadata r; flush := flush r; oggserial := oggserial r; enc_timestamp := v; run_encoder
     := run_encoder r |}.

Definition set_run_encoder `{Double} (v : bool) (r : encoder) : encoder :=
  {| run_request_f := run_request_f r; encoder_state := encoder_state r; codec := codec r;
     enc_n_channels := enc_n_channels r; bitrate := bitrate r; target_samplerate :=
     target_samplerate r; custom_meta := custom_meta r; enc_artist := enc_artist r; enc_title :=
     enc_title r; enc_album := enc_album r; new_metadata := new_metadata r; use_metadata :=
     use_metadata r; flush := flush r; oggserial := oggserial r; enc_timestamp := enc_timestamp r;
     run_encoder := v |}.

(** The objects of libavformat, libavcodec and libswresample that a back end
    holds; a list of them records what is allocated and not yet freed. *)
Inductive av_object :=
| AvFormatContext | AvioBuffer | AvioContext | AvCodecContext
| AvFrame | AvTmpFrame | AvSwrContext | AvPacketObj.

#[export] Instance av_object_eq_dec : EqDecision av_object.
Proof. solve_decision. Defined.

Definition av_alloc (x : av_object) (live : list av_object) : list av_object := x :: live.

Fixpoint av_free (x : av_object) (live : list av_object) : list av_object :=
  match live with
  | [] => []
  | y :: live' => if decide (x = y) then live' else y :: av_free x live'
  end.

(** One packet that [avcodec_receive_packet] delivers: the buffers that
    [av_write_frame] passes to the write callback for it, and whether
    [av_write_frame] succeeds. *)
Record received := {
  rx_bufs : list (list Z);
  rx_ok : bool
}.

(** One pass from the label [go_again] of [write_audio_frame]. *)
Record round := {
  rd_input : bool;                (* encoder_get_input_data gave a buffer *)
  rd_writable_ok : bool;          (* av_frame_make_writable *)
  rd_convert_ok : bool;           (* swr_convert *)
  rd_send_ok : bool;              (* avcodec_send_frame *)
  rd_received : list received
}.

Record frame_env := {
  fe_packet_alloc_ok : bool;      (* av_packet_alloc (AAC) *)
  fe_rounds : list round
}.

Definition quiet_round : round :=
  {| rd_input := false; rd_writable_ok := true; rd_convert_ok := true; rd_send_ok := true;
     rd_received := [] |}.

(** What the environment decides in [setup]. With
    AV_CODEC_CAP_VARIABLE_FRAME_SIZE defined, as in current libavcodec. *)
Record setup_env := {
  su_alloc_context_ok : bool;     (* avformat_alloc_context *)
  su_guess_format_ok : bool;      (* av_guess_format *)
  su_av_malloc_ok : bool;         (* av_malloc of the avio buffer *)
  su_avio_alloc_ok : bool;        (* avio_alloc_context *)
  su_find_encoder_ok : bool;      (* avcodec_find_encoder *)
  su_codec_is_audio : bool;
  su_new_stream_ok : bool;        (* avformat_new_stream *)
  su_alloc_context3_ok : bool;    (* avcodec_alloc_context3 *)
  su_parameters_ok : bool;        (* avcodec_parameters_from_context *)
  su_open2_ok : bool;             (* avcodec_open2 *)
  su_variable_frame_size : bool;
  su_frame_size : Z;              (* c->frame_size *)
  su_frame_ok : bool;             (* alloc_audio_frame for self->frame *)
  su_tmp_frame_ok : bool;         (* alloc_audio_frame for self->tmp_frame *)
  su_swr_alloc_ok : bool;         (* swr_alloc *)
  su_swr_init_ok : bool;          (* swr_init *)
  su_header_ret : Z;              (* avformat_write_header *)
  su_header_bufs : list (list Z)  (* what it passes to the write callback *)
}.

(** What the environment decides during one call of a back end's main function. *)
Record step_env := {
  sp_setup : setup_env;
  sp_metadata_alloc_ok : bool;      (* realloc in packetize_metadata (AAC) *)
  sp_frame : frame_env;
  sp_trailer_ret : Z;               (* av_write_trailer *)
  sp_trailer_bufs : list (list Z);
  sp_retag_header_ret : Z;          (* the header written after a retag (WebM) *)
  sp_retag_header_bufs : list (list Z);
  sp_retag_trailer_bufs : list (list Z);
  sp_flush_header_ret : Z;          (* the header written after a flush (WebM) *)
  sp_flush_header_bufs : list (list Z);
  sp_flush_trailer_bufs : list (list Z)
}.

(** ** live_aac_encoder.c *)

Module Aac.
Section Aac.
Context `{Double}.

(** [struct State]; a pointer to a libav object is [true] when it is not
    null, [nb_samples] is [tmp_frame->nb_samples]. *)
Record State := {
  st : bool;
  next_pts : Z;
  serial_samples : Z;
  samples_count : Z;
  frame : bool;
  tmp_frame : bool;
  nb_samples : Z;
  swr_ctx : bool;
  oc : bool;
  avio_ctx : bool;
  packet_flags : Z;
  const_packet_flags : Z;
  c : bool;
  metadata : option (list Z);
  buf : list Z;
  buf_size : Z;
  sri : Z;
  pkt : bool
}.

Definition set_st (v : bool) (r : State) : State :=
  {| st := v; next_pts := next_pts r; serial_samples := serial_samples r; samples_count :=
     samples_count r; frame := frame r; tmp_frame := tmp_frame r; nb_samples := nb_samples r;
     swr_ctx := swr_ctx r; oc := oc r; avio_ctx := avio_ctx r; packet_flags := packet_flags r;
     const_packet_flags := const_packet_flags r; c := c r; metadata := metadata r; buf := buf r;
     buf_size := buf_size r; sri := sri r; pkt := pkt r |}.

Definition set_next_pts (v : Z) (r : State) : State :=
  {| st := st r; next_pts := v; serial_samples := serial_samples r; samples_count := samples_count
     r; frame := frame r; tmp_frame := tmp_frame r; nb_samples := nb_samples r; swr_ctx := swr_ctx
     r; oc := oc r; avio_ctx := avio_ctx r; packet_flags := packet_flags r; const_packet_flags :=
     const_packet_flags r; c := c r; metadata := metadata r; buf := buf r; buf_size := buf_size r;
     sri := sri r; pkt := pkt r |}.

Definition set_serial_samples (v : Z) (r : State) : State :=
  {| st := st r; next_pts := next_pts r; serial_samples := v; samples_count := samples_count r;
     frame := frame r; tmp_frame := tmp_frame r; nb_samples := nb_samples r; swr_ctx := swr_ctx r;
     oc := oc r; avio_ctx := avio_ctx r; packet_flags := packet_flags r; const_packet_flags :=
     const_packet_flags r; c := c r; metadata := metadata r; buf := buf r; buf_size := buf_size r;
     sri := sri r; pkt := pkt r |}.

Definition set_samples_count (v : Z) (r : State) : State :=
  {| st := st r; next_pts := next_pts r; serial_samples := serial_samples r; samples_count := v;
     frame := frame r; tmp_frame := tmp_frame r; nb_samples := nb_samples r; swr_ctx := swr_ctx r;
     oc := oc r; avio_ctx := avio_ctx r; packet_flags := packet_flags r; const_packet_flags :=
     const_packet_flags r; c := c r; metadata := metadata r; buf := buf r; buf_size := buf_size r;
     sri := sri r; pkt := pkt r |}.

Definition set_frame (v : bool) (r : State) : State :=
  {| st := st r; next_pts := next_pts r; serial_samples := serial_samples r; samples_count :=
     samples_count r; frame := v; tmp_frame := tmp_frame r; nb_samples := nb_samples r; swr_ctx :=
     swr_ctx r; oc := oc r; avio_ctx := avio_ctx r; packet_flags := packet_flags r;
     const_packet_flags := const_packet_flags r; c := c r; metadata := metadata r; buf := buf r;
     buf_size := buf_size r; sri := sri r; pkt := pkt r |}.

Definition set_tmp_frame (v : bool) (r : State) : State :=
  {| st := st r; next_pts := next_pts r; serial_samples := serial_samples r; samples_count :=
     samples_count r; frame := frame r; tmp_frame := v; nb_samples := nb_samples r; swr_ctx :=
     swr_ctx r; oc := oc r; avio_ctx := avio_ctx r; packet_flags := packet_flags r;
     const_packet_flags := const_packet_flags r; c := c r; metadata := metadata r; buf := buf r;
     buf_size := buf_size r; sri := sri r; pkt := pkt r |}.

Definition set_nb_samples (v : Z) (r : State) : State :=
  {| st := st r; next_pts := next_pts r; serial_samples := serial_samples r; samples_count :=
     samples_count r; frame := frame r; tmp_frame := tmp_frame r; nb_samples := v; swr_ctx :=
     swr_ctx r; oc := oc r; avio_ctx := avio_ctx r; packet_flags := packet_flags r;
     const_packet_flags := const_packet_flags r; c := c r; metadata := metadata r; buf := buf r;
     buf_size := buf_size r; sri := sri r; pkt := pkt r |}.

Definition set_swr_ctx (v : bool) (r : State) : State :=
  {| st := st r; next_pts := next_pts r; serial_samples := serial_samples r; samples_count :=
     samples_count r; frame := frame r; tmp_frame := tmp_frame r; nb_samples := nb_samples r;
     swr_ctx := v; oc := oc r; avio_ctx := avio_ctx r; packet_flags := packet_flags r;
     const_packet_flags := const_packet_flags r; c := c r; metadata := metadata r; buf := buf r;
     buf_size := buf_size r; sri := sri r; pkt := pkt r |}.

Definition set_oc (v : bool) (r : State) : State :=
  {| st := st r; next_pts := next_pts r; serial_samples := serial_samples r; samples_count :=
     samples_count r; frame := frame r; tmp_frame := tmp_frame r; nb_samples := nb_samples r;
     swr_ctx := swr_ctx r; oc := v; avio_ctx := avio_ctx r; packet_flags := packet_flags r;
     const_packet_flags := const_packet_flags r; c := c r; metadata := metadata r; buf := buf r;
     buf_size := buf_size r; sri := sri r; pkt := pkt r |}.

Definition set_avio_ctx (v : bool) (r : State) : State :=
  {| st := st r; next_pts := next_pts r; serial_samples := serial_samples r; samples_count :=
     samples_count r; frame := frame r; tmp_frame := tmp_frame r; nb_samples := nb_samples r;
     swr_ctx := swr_ctx r; oc := oc r; avio_ctx := v; packet_flags := packet_flags r;
     const_packet_flags := const_packet_flags r; c := c r; metadata := metadata r; buf := buf r;
     buf_size := buf_size r; sri := sri r; pkt := pkt r |}.

Definition set_packet_flags (v : Z) (r : State) : State :=
  {| st := st r; next_pts := next_pts r; serial_samples := serial_samples r; samples_count :=
     samples_count r; frame := frame r; tmp_frame := tmp_frame r; nb_samples := nb_samples r;
     swr_ctx := swr_ctx r; oc := oc r; avio_ctx := avio_ctx r; packet_flags := v;
     const_packet_flags := const_packet_flags r; c := c r; metadata := metadata r; buf := buf r;
     buf_size := buf_size r; sri := sri r; pkt := pkt r |}.

Definition set_const_packet_flags (v : Z) (r : State) : State :=
  {| st := st r; next_pts := next_pts r; serial_samples := serial_samples r; samples_count :=
     samples_count r; frame := frame r; tmp_frame := tmp_frame r; nb_samples := nb_samples r;
     swr_ctx := swr_ctx r; oc := oc r; avio_ctx := avio_ctx r; packet_flags := packet_flags r;
     const_packet_flags := v; c := c r; metadata := metadata r; buf := buf r; buf_size := buf_size
     r; sri := sri r; pkt := pkt r |}.

Definition set_c (v : bool) (r : State) : State :=
  {| st := st r; next_pts := next_pts r; serial_samples := serial_samples r; samples_count :=
     samples_count r; frame := frame r; tmp_frame := tmp_frame r; nb_samples := nb_samples r;
     swr_ctx := swr_ctx r; oc := oc r; avio_ctx := avio_ctx r; packet_flags := packet_flags r;
     const_packet_flags := const_packet_flags r; c := v; metadata := metadata r; buf := buf r;
     buf_size := buf_size r; sri := sri r; pkt := pkt r |}.

Definition set_metadata (v : option (list Z)) (r : State) : State :=
  {| st := st r; next_pts := next_pts r; serial_samples := serial_samples r; samples_count :=
     samples_count r; frame := frame r; tmp_frame := tmp_frame r; nb_samples := nb_samples r;
     swr_ctx := swr_ctx r; oc := oc r; avio_ctx := avio_ctx r; packet_flags := packet_flags r;
     const_packet_flags := const_packet_flags r; c := c r; metadata := v; buf := buf r; buf_size
     := buf_size r; sri := sri r; pkt := pkt r |}.

Definition set_buf (v : list Z) (r : State) : State :=
  {| st := st r; next_pts := next_pts r; serial_samples := serial_samples r; samples_count :=
     samples_count r; frame := frame r; tmp_frame := tmp_frame r; nb_samples := nb_samples r;
     swr_ctx := swr_ctx r; oc := oc r; avio_ctx := avio_ctx r; packet_flags := packet_flags r;
     const_packet_flags := const_packet_flags r; c := c r; metadata := metadata r; buf := v;
     buf_size := buf_size r; sri := sri r; pkt := pkt r |}.

Definition set_buf_size (v : Z) (r : State) : State :=
  {| st := st r; next_pts := next_pts r; serial_samples := serial_samples r; samples_count :=
     samples_count r; frame := frame r; tmp_frame := tmp_frame r; nb_samples := nb_samples r;
     swr_ctx := swr_ctx r; oc := oc r; avio_ctx := avio_ctx r; packet_flags := packet_flags r;
     const_packet_flags := const_packet_flags r; c := c r; metadata := metadata r; buf := buf r;
     buf_size := v; sri := sri r; pkt := pkt r |}.

Definition set_sri (v : Z) (r : State) : State :=
  {| st := st r; next_pts := next_pts r; serial_samples := serial_samples r; samples_count :=
     samples_count r; frame := frame r; tmp_frame := tmp_frame r; nb_samples := nb_samples r;
     swr_ctx := swr_ctx r; oc := oc r; avio_ctx := avio_ctx r; packet_flags := packet_flags r;
     const_packet_flags := const_packet_flags r; c := c r; metadata := metadata r; buf := buf r;
     buf_size := buf_size r; sri := v; pkt := pkt r |}.

Definition set_pkt (v : bool) (r : State) : State :=
  {| st := st r; next_pts := next_pts r; serial_samples := serial_samples r; samples_count :=
     samples_count r; frame := frame r; tmp_frame := tmp_frame r; nb_samples := nb_samples r;
     swr_ctx := swr_ctx r; oc := oc r; avio_ctx := avio_ctx r; packet_flags := packet_flags r;
     const_packet_flags := const_packet_flags r; c := c r; metadata := metadata r; buf := buf r;
     buf_size := buf_size r; sri := sri r; pkt := v |}.

(** The encoder with its private state, the libav objects that are
    allocated, and the packets handed to [encoder_write_packet_all] so far. *)
Record sys := {
  s_encoder : encoder;
  s_self : State;
  s_live : list av_object;
  s_out : list encoder_op_packet
}.

Definition on_encoder (f : encoder -> encoder) (s : sys) : sys :=
  {| s_encoder := f (s_encoder s); s_self := s_self s; s_live := s_live s; s_out := s_out s |}.
Definition on_self (f : State -> State) (s : sys) : sys :=
  {| s_encoder := s_encoder s; s_self := f (s_self s); s_live := s_live s; s_out := s_out s |}.
Definition on_live (f : list av_object -> list av_object) (s : sys) : sys :=
  {| s_encoder := s_encoder s; s_self := s_self s; s_live := f (s_live s); s_out := s_out s |}.
Definition encoder_write_packet_all (p : encoder_op_packet) (s : sys) : sys :=
  {| s_encoder := s_encoder s; s_self := s_self s; s_live := s_live s; s_out := s_out s ++ [p] |}.

Definition write_packet (buf : list Z) (buf_size : Z) (pf : Z) (s : sys) : sys :=
  let encoder := s_encoder s in
  let self := s_self s in
  let ts := ddiv (d_of_int (serial_samples self)) (d_of_int (target_samplerate encoder)) in
  let packet :=
    {| header := {| bit_rate := bitrate encoder mod 65536;
                    sample_rate := target_samplerate encoder mod 4294967296;
                    n_channels := enc_n_channels encoder mod 65536;
                    flags := Z.lor (Z.lor (const_packet_flags self) (packet_flags self)) pf;
                    serial := oggserial encoder;
                    timestamp := ts;
                    data_size := buf_size |};
       data := buf |} in
  s |> on_encoder (set_enc_timestamp ts)
    |> encoder_write_packet_all packet
    |> on_self (fun self => self |> set_packet_flags (clear_flag (packet_flags self) PF_INITIAL)).

(** The seven bytes written before the frame. *)
Definition adts_header (sri n_channels buf_size : Z) : list Z :=
  let s := 7 + buf_size in
  [ 255; 241; Z.lor 64 sri mod 256;
    Z.lor (Z.shiftl n_channels 6) (Z.shiftr s 11) mod 256;
    Z.land (Z.shiftr s 3) 255;
    Z.lor (Z.land (Z.shiftl s 5) 255) 31;
    252 ].

(** The write callback of the avio context; the reallocation of [self->buf]
    is taken to succeed (the process exits when it does not). *)
Definition write_packet_wrapper (data_in : list Z) (s : sys) : sys :=
  let size_in := Z.of_nat (length data_in) in
  let self := s_self s in
  let total := 7 + size_in in
  let frame_bytes := adts_header (sri self) (enc_n_channels (s_encoder s)) size_in ++ data_in in
  let s :=
    s |> on_self (fun self =>
           self |> set_buf_size (if buf_size self <? total then total else buf_size self)
                |> set_buf (frame_bytes ++ drop (length frame_bytes) (buf self))) in
  write_packet frame_bytes total 0 s.

(** A libavformat call that hands [bufs] to the write callback, one by one. *)
Definition callbacks (bufs : list (list Z)) (s : sys) : sys :=
  foldl (fun s buf => write_packet_wrapper buf s) s bufs.

Definition write_header (ret : Z) (bufs : list (list Z)) (s : sys) : Z * sys :=
  let s := s |> on_encoder (fun e => e |> set_oggserial (to_int (oggserial e + 1)))
             |> on_self (set_serial_samples 0)
             |> on_self (set_packet_flags (Z.lor PF_HEADER PF_INITIAL))
             |> callbacks bufs
             |> on_self (fun self => self |> set_packet_flags (clear_flag (packet_flags self) PF_HEADER)) in
  (ret, s).

Definition write_trailer (ret : Z) (bufs : list (list Z)) (s : sys) : Z * sys :=
  let s := s |> callbacks bufs
             |> on_self (set_packet_flags PF_FINAL)
             |> write_packet [] 0 0
             |> on_self (set_packet_flags 0) in
  (ret, s).

(** The loop over [avcodec_receive_packet]; [false] when [av_write_frame] failed. *)
Fixpoint write_received (l : list received) (s : sys) : bool * sys :=
  match l with
  | [] => (true, s)
  | r :: rest =>
      let s := callbacks (rx_bufs r) s in
      if rx_ok r then write_received rest s else (false, s)
  end.

(** [write_audio_frame] from [go_again] on; without a further round
    [encoder_get_input_data] has no buffer to give. *)
Fixpoint frame_rounds (rounds : list round) (s : sys) : Z * sys :=
  match rounds with
  | [] => (0, s)
  | r :: rest =>
      if negb (rd_input r) then (0, s) else
      let nb := nb_samples (s_self s) in
      let s := s |> on_self (fun self => self |> set_next_pts (next_pts self + nb)
                                              |> set_serial_samples (serial_samples self + nb)) in
      if negb (rd_writable_ok r) then (-1, s) else
      if negb (rd_convert_ok r) then (-1, s) else
      let s := s |> on_self (fun self => self |> set_samples_count (to_int (samples_count self + nb))) in
      if negb (rd_send_ok r) then (-1, s) else
      let '(ok, s) := write_received (rd_received r) s in
      if negb ok then (-1, s) else
      match rd_received r with
      | [] => frame_rounds rest s
      | _ :: _ => (0, s)
      end
  end.

Definition write_audio_frame (fe : frame_env) (final : bool) (s : sys) : Z * sys :=
  if negb (fe_packet_alloc_ok fe) then (-1, s |> on_self (set_pkt false)) else
  let s := s |> on_self (set_pkt true) |> on_live (av_alloc AvPacketObj) in
  if final then
    let r := hd quiet_round (fe_rounds fe) in
    if negb (rd_send_ok r) then (-1, s) else
    let '(ok, s) := write_received (rd_received r) s in
    if negb ok then (-1, s) else (1, s)
  else frame_rounds (fe_rounds fe) s.

(** [av_packet_unref] leaves the allocation of the packet in place. *)
Definition close_stream (s : sys) : sys :=
  let self := s_self s in
  let s := if c self then s |> on_live (av_free AvCodecContext) |> on_self (set_c false) else s in
  let s := if frame self then s |> on_live (av_free AvFrame) |> on_self (set_frame false) else s in
  let s :=
    if tmp_frame self then s |> on_live (av_free AvTmpFrame) |> on_self (set_tmp_frame false)
    else s in
  if swr_ctx self then s |> on_live (av_free AvSwrContext) |> on_self (set_swr_ctx false) else s.

Definition packetize_metadata (alloc_ok : bool) (s : sys) : sys :=
  let e := s_encoder s in
  s |> on_self (set_metadata
                  (if alloc_ok
                   then Some (custom_meta e ++ [10] ++ enc_artist e ++ [10] ++ enc_title e
                              ++ [10] ++ enc_album e)
                   else None))
    |> on_encoder (set_new_metadata false).

(** [false] when [add_stream] returns a null codec. *)
Definition add_stream (e : setup_env) (s : sys) : bool * sys :=
  if negb (su_find_encoder_ok e) then (false, s) else
  if negb (su_codec_is_audio e) then (false, s) else
  let s := s |> on_self (set_st (su_new_stream_ok e)) in
  if negb (su_new_stream_ok e) then (false, s) else
  if negb (su_alloc_context3_ok e) then (false, s) else
  let s := s |> on_live (av_alloc AvCodecContext) in
  if negb (su_parameters_ok e) then (false, s) else
  (true, s |> on_self (set_c true)).

(** [avcodec_safe_close(&c)] on the local copy [c] of [self->c]. *)
Definition avcodec_safe_close_local (s : sys) : sys := s |> on_live (av_free AvCodecContext).

Definition open_stream (e : setup_env) (s : sys) : bool * sys :=
  if negb (su_open2_ok e) then (false, s) else
  let s := s |> on_self (set_nb_samples
                           (if su_variable_frame_size e then 10000 else su_frame_size e)) in
  let s := s |> on_self (set_frame (su_frame_ok e))
             |> on_live (if su_frame_ok e then av_alloc AvFrame else id) in
  let s := s |> on_self (set_tmp_frame (su_tmp_frame_ok e))
             |> on_live (if su_tmp_frame_ok e then av_alloc AvTmpFrame else id) in
  let s := s |> on_self (set_swr_ctx (su_swr_alloc_ok e)) in
  if negb (su_swr_alloc_ok e) then (false, avcodec_safe_close_local s) else
  let s := s |> on_live (av_alloc AvSwrContext) in
  if negb (su_swr_init_ok e) then
    (false, s |> on_live (av_free AvSwrContext) |> on_self (set_swr_ctx false)
              |> avcodec_safe_close_local)
  else (true, s).

(** The switch on [encoder->target_samplerate]. *)
Definition sample_rate_index (rate : Z) : option Z :=
  if rate =? 96000 then Some 0
  else if rate =? 88200 then Some 1
  else if rate =? 64000 then Some 2
  else if rate =? 48000 then Some 3
  else if rate =? 44100 then Some 4
  else if rate =? 32000 then Some 5
  else if rate =? 24000 then Some 6
  else if rate =? 22050 then Some 7
  else if rate =? 16000 then Some 8
  else if rate =? 12000 then Some 9
  else if rate =? 11025 then Some 10
  else if rate =? 8000 then Some 11
  else if rate =? 7350 then Some 12
  else None.

(** The labels at the end of [setup]. *)
Definition fail2 (s : sys) : retcode * sys := (FAILED, s |> on_live (av_free AvFormatContext)).
Definition fail4 (s : sys) : retcode * sys :=
  fail2 (s |> on_live (av_free AvioBuffer) |> on_live (av_free AvioContext)
           |> on_self (set_avio_ctx false)).
Definition fail5 (s : sys) : retcode * sys := fail4 (close_stream s).

(** [setup]; no result where the label [fail3] reads through the null
    [self->avio_ctx]. *)
Definition setup (e : setup_env) (s : sys) : option (retcode * sys) :=
  match (match codec (s_encoder s) with
         | ENCODER_CODEC_AAC => Some PF_AAC
         | ENCODER_CODEC_AACPLUSV2 => Some PF_AACP2
         | _ => None
         end) with
  | None => Some (FAILED, s)
  | Some kind =>
      let s := s |> on_self (set_const_packet_flags kind) in
      let s := s |> on_self (set_oc (su_alloc_context_ok e)) in
      if negb (su_alloc_context_ok e) then Some (FAILED, s) else
      let s := s |> on_live (av_alloc AvFormatContext) in
      if negb (su_guess_format_ok e) then Some (fail2 s) else
      if negb (su_av_malloc_ok e) then Some (fail2 s) else
      let s := s |> on_live (av_alloc AvioBuffer) in
      let s := s |> on_self (set_avio_ctx (su_avio_alloc_ok e)) in
      if negb (su_avio_alloc_ok e) then None else
      let s := s |> on_live (av_alloc AvioContext) in
      let '(ok, s) := add_stream e s in
      if negb ok then Some (fail4 s) else
      let '(ok, s) := open_stream e s in
      if negb ok then Some (fail4 s) else
      let '(ret, s) := write_header (su_header_ret e) (su_header_bufs e) s in
      if ret <? 0 then Some (fail5 s) else
      match sample_rate_index (target_samplerate (s_encoder s)) with
      | None => Some (fail5 s)
      | Some index => Some (SUCCEEDED, s |> on_self (set_sri (Z.shiftl index 2)))
      end
  end.

(** [memset(self, 0, sizeof (State))] *)
Definition zero_State : State :=
  {| st := false; next_pts := 0; serial_samples := 0; samples_count := 0; frame := false;
     tmp_frame := false; nb_samples := 0; swr_ctx := false; oc := false; avio_ctx := false;
     packet_flags := 0; const_packet_flags := 0; c := false; metadata := None; buf := [];
     buf_size := 0; sri := 0; pkt := false |}.

Definition teardown (s : sys) : sys :=
  s |> close_stream
    |> on_live (av_free AvioBuffer) |> on_live (av_free AvioContext)
    |> on_live (av_free AvFormatContext)
    |> on_self (fun _ => zero_State).

(** The label [bailout]; the private state is freed and the encoder has none. *)
Definition bailout (s : sys) : encoder * list av_object * list encoder_op_packet :=
  (s_encoder s |> set_run_request_f false |> set_encoder_state ES_STOPPED
               |> set_run_encoder false |> set_flush false,
   s_live s, s_out s).

(** [live_aac_encoder_main]: the encoder, the private state when the encoder
    still has one, the live libav objects and the packets written. *)
Definition live_aac_encoder_main (e : step_env) (s : sys)
    : option (encoder * option State * list av_object * list encoder_op_packet) :=
  let keep (s : sys) := Some (s_encoder s, Some (s_self s), s_live s, s_out s) in
  let drop_state (s : sys) := let '(enc, live, out) := bailout s in Some (enc, None, live, out) in
  match encoder_state (s_encoder s) with
  | ES_STARTING =>
      '(ret, s) ← setup (sp_setup e) s;
      match ret with
      | FAILED => drop_state s
      | SUCCEEDED =>
          keep (s |> on_encoder (set_encoder_state
                                   (if run_request_f (s_encoder s) then ES_RUNNING
                                    else ES_STOPPING)))
      end
  | ES_RUNNING =>
      let s :=
        if new_metadata (s_encoder s) && use_metadata (s_encoder s)
           && negb (has_flag (packet_flags (s_self s)) (Z.lor PF_INITIAL PF_FINAL))
        then
          let s := packetize_metadata (sp_metadata_alloc_ok e) s in
          match metadata (s_self s) with
          | Some text => write_packet (text ++ [0]) (Z.of_nat (length text) + 1) PF_METADATA s
          | None => s
          end
        else s in
      let final := negb (run_request_f (s_encoder s)) || flush (s_encoder s) in
      let '(ret, s) := write_audio_frame (sp_frame e) final s in
      if ret =? 0 then keep s
      else
        let '(_, s) := write_trailer (sp_trailer_ret e) (sp_trailer_bufs e) s in
        keep (s |> on_encoder (set_encoder_state ES_STOPPING))
  | ES_STOPPING =>
      let s := s |> teardown |> on_encoder (set_flush false) in
      if run_request_f (s_encoder s)
      then keep (s |> on_encoder (set_encoder_state ES_STARTING))
      else drop_state s
  | ES_STOPPED | ES_PAUSED => drop_state s
  end.

End Aac.
End Aac.

(** ** live_webm_encoder.c *)

Module Webm.
Section Webm.
Context `{Double}.

(** [struct WebMState]; [oc_title] is the TITLE entry of [oc->metadata]. *)
Record WebMState := {
  st : bool;
  next_pts : Z;
  serial_samples : Z;
  samples_count : Z;
  frame : bool;
  tmp_frame : bool;
  nb_samples : Z;
  swr_ctx : bool;
  oc : bool;
  avio_ctx : bool;
  packet_flags : Z;
  c : bool;
  oc_title : option (list Z)
}.

Definition set_st (v : bool) (r : WebMState) : WebMState :=
  {| st := v; next_pts := next_pts r; serial_samples := serial_samples r; samples_count :=
     samples_count r; frame := frame r; tmp_frame := tmp_frame r; nb_samples := nb_samples r;
     swr_ctx := swr_ctx r; oc := oc r; avio_ctx := avio_ctx r; packet_flags := packet_flags r; c
     := c r; oc_title := oc_title r |}.

Definition set_next_pts (v : Z) (r : WebMState) : WebMState :=
  {| st := st r; next_pts := v; serial_samples := serial_samples r; samples_count := samples_count
     r; frame := frame r; tmp_frame := tmp_frame r; nb_samples := nb_samples r; swr_ctx := swr_ctx
     r; oc := oc r; avio_ctx := avio_ctx r; packet_flags := packet_flags r; c := c r; oc_title :=
     oc_title r |}.

Definition set_serial_samples (v : Z) (r : WebMState) : WebMState :=
  {| st := st r; next_pts := next_pts r; serial_samples := v; samples_count := samples_count r;
     frame := frame r; tmp_frame := tmp_frame r; nb_samples := nb_samples r; swr_ctx := swr_ctx r;
     oc := oc r; avio_ctx := avio_ctx r; packet_flags := packet_flags r; c := c r; oc_title :=
     oc_title r |}.

Definition set_samples_count (v : Z) (r : WebMState) : WebMState :=
  {| st := st r; next_pts := next_pts r; serial_samples := serial_samples r; samples_count := v;
     frame := frame r; tmp_frame := tmp_frame r; nb_samples := nb_samples r; swr_ctx := swr_ctx r;
     oc := oc r; avio_ctx := avio_ctx r; packet_flags := packet_flags r; c := c r; oc_title :=
     oc_title r |}.

Definition set_frame (v : bool) (r : WebMState) : WebMState :=
  {| st := st r; next_pts := next_pts r; serial_samples := serial_samples r; samples_count :=
     samples_count r; frame := v; tmp_frame := tmp_frame r; nb_samples := nb_samples r; swr_ctx :=
     swr_ctx r; oc := oc r; avio_ctx := avio_ctx r; packet_flags := packet_flags r; c := c r;
     oc_title := oc_title r |}.

Definition set_tmp_frame (v : bool) (r : WebMState) : WebMState :=
  {| st := st r; next_pts := next_pts r; serial_samples := serial_samples r; samples_count :=
     samples_count r; frame := frame r; tmp_frame := v; nb_samples := nb_samples r; swr_ctx :=
     swr_ctx r; oc := oc r; avio_ctx := avio_ctx r; packet_flags := packet_flags r; c := c r;
     oc_title := oc_title r |}.

Definition set_nb_samples (v : Z) (r : WebMState) : WebMState :=
  {| st := st r; next_pts := next_pts r; serial_samples := serial_samples r; samples_count :=
     samples_count r; frame := frame r; tmp_frame := tmp_frame r; nb_samples := v; swr_ctx :=
     swr_ctx r; oc := oc r; avio_ctx := avio_ctx r; packet_flags := packet_flags r; c := c r;
     oc_title := oc_title r |}.

Definition set_swr_ctx (v : bool) (r : WebMState) : WebMState :=
  {| st := st r; next_pts := next_pts r; serial_samples := serial_samples r; samples_count :=
     samples_count r; frame := frame r; tmp_frame := tmp_frame r; nb_samples := nb_samples r;
     swr_ctx := v; oc := oc r; avio_ctx := avio_ctx r; packet_flags := packet_flags r; c := c r;
     oc_title := oc_title r |}.

Definition set_oc (v : bool) (r : WebMState) : WebMState :=
  {| st := st r; next_pts := next_pts r; serial_samples := serial_samples r; samples_count :=
     samples_count r; frame := frame r; tmp_frame := tmp_frame r; nb_samples := nb_samples r;
     swr_ctx := swr_ctx r; oc := v; avio_ctx := avio_ctx r; packet_flags := packet_flags r; c := c
     r; oc_title := oc_title r |}.

Definition set_avio_ctx (v : bool) (r : WebMState) : WebMState :=
  {| st := st r; next_pts := next_pts r; serial_samples := serial_samples r; samples_count :=
     samples_count r; frame := frame r; tmp_frame := tmp_frame r; nb_samples := nb_samples r;
     swr_ctx := swr_ctx r; oc := oc r; avio_ctx := v; packet_flags := packet_flags r; c := c r;
     oc_title := oc_title r |}.

Definition set_packet_flags (v : Z) (r : WebMState) : WebMState :=
  {| st := st r; next_pts := next_pts r; serial_samples := serial_samples r; samples_count :=
     samples_count r; frame := frame r; tmp_frame := tmp_frame r; nb_samples := nb_samples r;
     swr_ctx := swr_ctx r; oc := oc r; avio_ctx := avio_ctx r; packet_flags := v; c := c r;
     oc_title := oc_title r |}.

Definition set_c (v : bool) (r : WebMState) : WebMState :=
  {| st := st r; next_pts := next_pts r; serial_samples := serial_samples r; samples_count :=
     samples_count r; frame := frame r; tmp_frame := tmp_frame r; nb_samples := nb_samples r;
     swr_ctx := swr_ctx r; oc := oc r; avio_ctx := avio_ctx r; packet_flags := packet_flags r; c
     := v; oc_title := oc_title r |}.

Definition set_oc_title (v : option (list Z)) (r : WebMState) : WebMState :=
  {| st := st r; next_pts := next_pts r; serial_samples := serial_samples r; samples_count :=
     samples_count r; frame := frame r; tmp_frame := tmp_frame r; nb_samples := nb_samples r;
     swr_ctx := swr_ctx r; oc := oc r; avio_ctx := avio_ctx r; packet_flags := packet_flags r; c
     := c r; oc_title := v |}.

Record sys := {
  s_encoder : encoder;
  s_self : WebMState;
  s_live : list av_object;
  s_out : list encoder_op_packet
}.

Definition on_encoder (f : encoder -> encoder) (s : sys) : sys :=
  {| s_encoder := f (s_encoder s); s_self := s_self s; s_live := s_live s; s_out := s_out s |}.
Definition on_self (f : WebMState -> WebMState) (s : sys) : sys :=
  {| s_encoder := s_encoder s; s_self := f (s_self s); s_live := s_live s; s_out := s_out s |}.
Definition on_live (f : list av_object -> list av_object) (s : sys) : sys :=
  {| s_encoder := s_encoder s; s_self := s_self s; s_live := f (s_live s); s_out := s_out s |}.
Definition encoder_write_packet_all (p : encoder_op_packet) (s : sys) : sys :=
  {| s_encoder := s_encoder s; s_self := s_self s; s_live := s_live s; s_out := s_out s ++ [p] |}.

(** The write callback of the avio context. *)
Definition write_packet (buf : list Z) (buf_size : Z) (s : sys) : sys :=
  let encoder := s_encoder s in
  let self := s_self s in
  let ts := ddiv (d_of_int (serial_samples self)) (d_of_int (target_samplerate encoder)) in
  let packet :=
    {| header := {| bit_rate := bitrate encoder mod 65536;
                    sample_rate := target_samplerate encoder mod 4294967296;
                    n_channels := enc_n_channels encoder mod 65536;
                    flags := Z.lor PF_WEBM (packet_flags self);
                    serial := oggserial encoder;
                    timestamp := ts;
                    data_size := buf_size |};
       data := buf |} in
  s |> on_encoder (set_enc_timestamp ts)
    |> encoder_write_packet_all packet
    |> on_self (fun self => self |> set_packet_flags (clear_flag (packet_flags self) PF_INITIAL)).

Definition callbacks (bufs : list (list Z)) (s : sys) : sys :=
  foldl (fun s buf => write_packet buf (Z.of_nat (length buf)) s) s bufs.

Definition write_header (ret : Z) (bufs : list (list Z)) (s : sys) : Z * sys :=
  let s := s |> on_encoder (fun e => e |> set_oggserial (to_int (oggserial e + 1)))
             |> on_self (set_serial_samples 0)
             |> on_self (set_packet_flags (Z.lor PF_HEADER PF_INITIAL))
             |> callbacks bufs
             |> on_self (fun self => self |> set_packet_flags (clear_flag (packet_flags self) PF_HEADER)) in
  (ret, s).

Definition write_trailer (ret : Z) (bufs : list (list Z)) (s : sys) : Z * sys :=
  let s := s |> callbacks bufs
             |> on_self (set_packet_flags PF_FINAL)
             |> write_packet [] 0
             |> on_self (set_packet_flags 0) in
  (ret, s).

Fixpoint write_received (l : list received) (s : sys) : bool * sys :=
  match l with
  | [] => (true, s)
  | r :: rest =>
      let s := callbacks (rx_bufs r) s in
      if rx_ok r then write_received rest s else (false, s)
  end.

Fixpoint frame_rounds (rounds : list round) (s : sys) : Z * sys :=
  match rounds with
  | [] => (0, s)
  | r :: rest =>
      if negb (rd_input r) then (0, s) else
      let nb := nb_samples (s_self s) in
      let s := s |> on_self (fun self => self |> set_next_pts (next_pts self + nb)
                                              |> set_serial_samples (serial_samples self + nb)) in
      if negb (rd_writable_ok r) then (-1, s) else
      if negb (rd_convert_ok r) then (-1, s) else
      let s := s |> on_self (fun self => self |> set_samples_count (to_int (samples_count self + nb))) in
      if negb (rd_send_ok r) then (-1, s) else
      let '(ok, s) := write_received (rd_received r) s in
      if negb ok then (-1, s) else
      match rd_received r with
      | [] => frame_rounds rest s
      | _ :: _ => (0, s)
      end
  end.

Definition write_audio_frame (fe : frame_env) (final : bool) (s : sys) : Z * sys :=
  if final then
    let r := hd quiet_round (fe_rounds fe) in
    if negb (rd_send_ok r) then (-1, s) else
    let '(ok, s) := write_received (rd_received r) s in
    if negb ok then (-1, s) else (1, s)
  else frame_rounds (fe_rounds fe) s.

Definition close_stream (s : sys) : sys :=
  let self := s_self s in
  let s := if c self then s |> on_live (av_free AvCodecContext) |> on_self (set_c false) else s in
  let s := if frame self then s |> on_live (av_free AvFrame) |> on_self (set_frame false) else s in
  let s :=
    if tmp_frame self then s |> on_live (av_free AvTmpFrame) |> on_self (set_tmp_frame false)
    else s in
  if swr_ctx self then s |> on_live (av_free AvSwrContext) |> on_self (set_swr_ctx false) else s.

Definition add_stream (e : setup_env) (s : sys) : bool * sys :=
  if negb (su_find_encoder_ok e) then (false, s) else
  if negb (su_codec_is_audio e) then (false, s) else
  let s := s |> on_self (set_st (su_new_stream_ok e)) in
  if negb (su_new_stream_ok e) then (false, s) else
  if negb (su_alloc_context3_ok e) then (false, s) else
  let s := s |> on_live (av_alloc AvCodecContext) in
  if negb (su_parameters_ok e) then (false, s) else
  (true, s |> on_self (set_c true)).

Definition avcodec_safe_close_local (s : sys) : sys := s |> on_live (av_free AvCodecContext).

Definition open_stream (e : setup_env) (s : sys) : bool * sys :=
  if negb (su_open2_ok e) then (false, s) else
  let s := s |> on_self (set_nb_samples
                           (if su_variable_frame_size e then 10000 else su_frame_size e)) in
  let s := s |> on_self (set_frame (su_frame_ok e))
             |> on_live (if su_frame_ok e then av_alloc AvFrame else id) in
  let s := s |> on_self (set_tmp_frame (su_tmp_frame_ok e))
             |> on_live (if su_tmp_frame_ok e then av_alloc AvTmpFrame else id) in
  let s := s |> on_self (set_swr_ctx (su_swr_alloc_ok e)) in
  if negb (su_swr_alloc_ok e) then (false, avcodec_safe_close_local s) else
  let s := s |> on_live (av_alloc AvSwrContext) in
  if negb (su_swr_init_ok e) then
    (false, s |> on_live (av_free AvSwrContext) |> on_self (set_swr_ctx false)
              |> avcodec_safe_close_local)
  else (true, s).

Definition fail2 (s : sys) : retcode * sys := (FAILED, s |> on_live (av_free AvFormatContext)).
Definition fail4 (s : sys) : retcode * sys :=
  fail2 (s |> on_live (av_free AvioBuffer) |> on_live (av_free AvioContext)
           |> on_self (set_avio_ctx false)).
Definition fail5 (s : sys) : retcode * sys := fail4 (close_stream s).

Definition setup (e : setup_env) (s : sys) : option (retcode * sys) :=
  match codec (s_encoder s) with
  | ENCODER_CODEC_VORBIS | ENCODER_CODEC_OPUS =>
      let s := s |> on_self (set_oc (su_alloc_context_ok e)) in
      if negb (su_alloc_context_ok e) then Some (FAILED, s) else
      let s := s |> on_live (av_alloc AvFormatContext) in
      if negb (su_guess_format_ok e) then Some (fail2 s) else
      if negb (su_av_malloc_ok e) then Some (fail2 s) else
      let s := s |> on_live (av_alloc AvioBuffer) in
      let s := s |> on_self (set_avio_ctx (su_avio_alloc_ok e)) in
      if negb (su_avio_alloc_ok e) then None else
      let s := s |> on_live (av_alloc AvioContext) in
      let '(ok, s) := add_stream e s in
      if negb ok then Some (fail4 s) else
      let '(ok, s) := open_stream e s in
      if negb ok then Some (fail4 s) else
      let s :=
        if use_metadata (s_encoder s)
        then s |> on_self (set_oc_title (Some (custom_meta (s_encoder s)))) else s in
      let '(ret, s) := write_header (su_header_ret e) (su_header_bufs e) s in
      if ret <? 0 then Some (fail5 s) else Some (SUCCEEDED, s)
  | _ => Some (FAILED, s)
  end.

Definition zero_State : WebMState :=
  {| st := false; next_pts := 0; serial_samples := 0; samples_count := 0; frame := false;
     tmp_frame := false; nb_samples := 0; swr_ctx := false; oc := false; avio_ctx := false;
     packet_flags := 0; c := false; oc_title := None |}.

Definition teardown (s : sys) : sys :=
  s |> close_stream
    |> on_live (av_free AvioBuffer) |> on_live (av_free AvioContext)
    |> on_live (av_free AvFormatContext)
    |> on_self (fun _ => zero_State).

Definition bailout (s : sys) : encoder * list av_object * list encoder_op_packet :=
  (s_encoder s |> set_run_request_f false |> set_encoder_state ES_STOPPED
               |> set_run_encoder false |> set_flush false,
   s_live s, s_out s).

(** The metadata retag of the running state: trailer, new TITLE, header. *)
Definition retag (e : step_env) (s : sys) : sys :=
  let s := s |> on_encoder (set_new_metadata false) in
  let '(_, s) := write_trailer (sp_trailer_ret e) (sp_retag_trailer_bufs e) s in
  let s := s |> on_self (set_oc_title (Some (custom_meta (s_encoder s)))) in
  let '(_, s) := write_header (sp_retag_header_ret e) (sp_retag_header_bufs e) s in
  s.

Definition live_webm_encoder_main (e : step_env) (s : sys)
    : option (encoder * option WebMState * list av_object * list encoder_op_packet) :=
  let keep (s : sys) := Some (s_encoder s, Some (s_self s), s_live s, s_out s) in
  let drop_state (s : sys) := let '(enc, live, out) := bailout s in Some (enc, None, live, out) in
  match encoder_state (s_encoder s) with
  | ES_STARTING =>
      '(ret, s) ← setup (sp_setup e) s;
      match ret with
      | FAILED => drop_state s
      | SUCCEEDED =>
          keep (s |> on_encoder (set_encoder_state
                                   (if run_request_f (s_encoder s) then ES_RUNNING
                                    else ES_STOPPING)))
      end
  | ES_RUNNING =>
      let s :=
        if new_metadata (s_encoder s) && use_metadata (s_encoder s) then retag e s else s in
      let s :=
        if flush (s_encoder s) then
          let s := s |> on_encoder (set_flush false) in
          let '(_, s) := write_trailer (sp_trailer_ret e) (sp_flush_trailer_bufs e) s in
          let '(_, s) := write_header (sp_flush_header_ret e) (sp_flush_header_bufs e) s in
          s
        else s in
      let '(ret, s) := write_audio_frame (sp_frame e) (negb (run_request_f (s_encoder s))) s in
      if ret =? 0 then keep s
      else
        let '(_, s) := write_trailer (sp_trailer_ret e) (sp_trailer_bufs e) s in
        keep (s |> on_encoder (set_encoder_state ES_STOPPING))
  | ES_STOPPING =>
      let s := s |> teardown |> on_encoder (set_flush false) in
      if run_request_f (s_encoder s)
      then keep (s |> on_encoder (set_encoder_state ES_STARTING))
      else drop_state s
  | ES_STOPPED | ES_PAUSED => drop_state s
  end.

End Webm.
End Webm.

(** * Properties *)

(** Symbolic execution of a hypothesis [H : program = result] along the
    control flow of the program: case analysis on the condition, the matched
    value or the bound option at the head, one step at a time. *)
Ltac exec_head H :=
  lazymatch type of H with
  | None = Some _ => discriminate H
  | mbind _ ?o = _ =>
      let E := fresh "E" in
      destruct o eqn:E; [cbv beta iota delta [mbind option_bind] in H | discriminate H]
  | (if ?c then _ else _) = _ => let E := fresh "E" in destruct c eqn:E
  | (match ?x with _ => _ end) = _ => let E := fresh "E" in destruct x eqn:E
  | (let x := (if ?c then _ else _) in _) = _ => let E := fresh "E" in destruct c eqn:E
  | (let x := (match ?y with _ => _ end) in _) = _ => let E := fresh "E" in destruct y eqn:E
  | (let x := ?v in @?b x) = ?r => change (b v = r) in H; cbv beta in H
  end.
Ltac exec H := repeat exec_head H.
Ltac exec_all := repeat match goal with H : _ = _ |- _ => progress exec_head H end.

Section RecorderProperties.
Context `{Double}.
Variable id3_tag_data : Z -> list metadata_item -> list Z.

Lemma to_int_small z : INT_MIN <= z <= INT_MAX -> to_int z = z.
Proof.
  unfold to_int, INT_MIN, INT_MAX. intros Hz.
  rewrite Z.mod_small by lia. lia.
Qed.

Lemma append_metadata2_frame ok self p w self' w' :
  recorder_append_metadata2 ok self p w = (self', w') ->
  files w' = files w /\ initial_serial self' = initial_serial self /\ mi self' = mi self
  /\ id3_mode self' = id3_mode self /\ fp self' = fp self
  /\ record_mode self' = record_mode self.
Proof.
  intros Heq. cbv delta [recorder_append_metadata2] beta in Heq.
  exec_all; simplify_eq; by repeat split.
Qed.

Lemma append_metadata_frame ok self p w self' w' :
  recorder_append_metadata ok self p w = Some (self', w') ->
  files w' = files w /\ initial_serial self' = initial_serial self
  /\ id3_mode self' = id3_mode self /\ fp self' = fp self
  /\ record_mode self' = record_mode self /\ mi2 self' = mi2 self.
Proof.
  intros Heq. cbv delta [recorder_append_metadata] beta in Heq.
  exec_all; simplify_eq; by repeat split.
Qed.

Lemma accept_packet_initial_serial env p self w self' w' :
  recorder_accept_packet env p self w = Some (self', w') ->
  initial_serial self' = initial_serial self.
Proof.
  intros Heq. cbv delta [recorder_accept_packet] beta in Heq.
  exec_all; simplify_eq;
    repeat match goal with
    | E : recorder_append_metadata2 _ _ _ _ = _ |- _ => apply append_metadata2_frame in E as (_ & E & _)
    end; done.
Qed.

Lemma take_packet_initial_serial env p self w self' w' :
  recorder_take_packet env p self w = Some (self', w') ->
  initial_serial self' = initial_serial self.
Proof.
  intros Heq. cbv delta [recorder_take_packet] beta in Heq.
  exec_all; simplify_eq;
    repeat match goal with
    | E : recorder_accept_packet _ _ _ _ = Some _ |- _ => apply accept_packet_initial_serial in E
    | E : recorder_append_metadata _ _ _ _ = Some _ |- _ => apply append_metadata_frame in E as (_ & E & _)
    end; congruence.
Qed.

Lemma take_packet_below_watermark env p self w self' w' :
  serial (header p) < initial_serial self ->
  recorder_take_packet env p self w = Some (self', w') ->
  files w' = files w.
Proof.
  unfold recorder_take_packet. intros Hlt Heq.
  destruct (initial_serial self <=? serial (header p)) eqn:E; [lia|].
  exec_all; simplify_eq; [|done].
  by apply append_metadata_frame in Heq as (? & _).
Qed.

Lemma recording_attached_initial_serial env self w self' w' :
  recording_attached env self w = Some (self', w') ->
  initial_serial self' = initial_serial self.
Proof.
  intros Heq. cbv delta [recording_attached] beta in Heq.
  exec_all; simplify_eq;
    repeat match goal with
    | E : recorder_take_packet _ _ _ _ = Some _ |- _ => apply take_packet_initial_serial in E
    end; done.
Qed.

Lemma apply_mp3_tags_initial_serial e self w self' w' :
  recorder_apply_mp3_tags id3_tag_data e self w = Some (self', w') ->
  initial_serial self' = initial_serial self.
Proof.
  intros Heq. cbv delta [recorder_apply_mp3_tags] beta in Heq.
  exec_all; simplify_eq; done.
Qed.

Lemma recorder_stopping_initial_serial env self w self' w' :
  recorder_stopping id3_tag_data env self w = Some (self', w') ->
  initial_serial self' = initial_serial self.
Proof.
  intros Heq. cbv delta [recorder_stopping] beta in Heq.
  exec_all; simplify_eq;
    repeat match goal with
    | E : recorder_apply_mp3_tags _ _ _ _ = Some _ |- _ => apply apply_mp3_tags_initial_serial in E
    | E : recorder_append_metadata _ _ _ _ = Some _ |- _ => apply append_metadata_frame in E as (_ & E & _)
    | E : recorder_append_metadata2 _ _ _ _ = _ |- _ => apply append_metadata2_frame in E as (_ & E & _)
    end; simpl; congruence.
Qed.


Lemma recorder_paused_watermark (W0 : Z) env self self' :
  0 <= W0 -> W0 <= initial_serial self ->
  W0 - 1 <= env_flush_serial env < INT_MAX ->
  recorder_paused env self = Some self' ->
  W0 <= initial_serial self'.
Proof.
  intros HW Hinv Hflush. unfold recorder_paused.
  destruct (stop_request self || stop_pending self); [by intros [= <-]|].
  destruct (drain_ringbuffers env self); [|done]. cbn [mbind option_bind].
  destruct (unpause_request self); [|by intros [= <-]].
  intros [= <-]. simpl.
  destruct (negb (initial_serial self =? -1)); simpl; [|done].
  rewrite to_int_small; unfold INT_MIN, INT_MAX in *; lia.
Qed.

Lemma main_pass_watermark (W0 : Z) env self w self' w' :
  0 <= W0 -> W0 <= initial_serial self ->
  W0 - 1 <= env_flush_serial env < INT_MAX ->
  recorder_main_pass id3_tag_data env self w = Some (self', w') ->
  W0 <= initial_serial self'.
Proof.
  intros HW Hinv Hflush Heq. cbv delta [recorder_main_pass] beta in Heq.
  destruct (record_mode self).
  - by simplify_eq.
  - destruct (initial_serial self =? -1) eqn:E; [apply Z.eqb_eq in E; lia|].
    apply recording_attached_initial_serial in Heq. lia.
  - destruct (recorder_paused env self) as [s1|] eqn:E; [|done].
    cbn [mbind option_bind] in Heq. simplify_eq.
    by apply (recorder_paused_watermark W0 env self).
  - apply recorder_stopping_initial_serial in Heq. lia.
Qed.

Lemma recorder_main_watermark (W0 : Z) envs self w self' w' :
  0 <= W0 -> W0 <= initial_serial self ->
  Forall (fun env => W0 - 1 <= env_flush_serial env < INT_MAX) envs ->
  recorder_main id3_tag_data envs self w = Some (self', w') ->
  W0 <= initial_serial self'.
Proof.
  intros HW. revert self w.
  induction envs as [|env envs IH]; intros self w Hinv Hall Heq; simpl in Heq.
  - by simplify_eq.
  - apply Forall_cons in Hall as [Henv Hall].
    destruct (thread_terminate_f self); [by simplify_eq|].
    destruct (recorder_main_pass id3_tag_data env self w) as [[s1 w1]|] eqn:E; [|done].
    simpl in Heq. eapply IH; [|done|done].
    eapply main_pass_watermark; eauto.
Qed.

Lemma recorder_start_open_attached e rv ext self0 w0 self w op :
  encoder_op self0 = Some op ->
  recorder_start_open e rv ext self0 w0 = Some (SUCCEEDED, self, w) ->
  initial_serial self = to_int (se_flush_serial e + 1).
Proof.
  intros Hop Heq. cbv delta [recorder_start_open] beta in Heq.
  exec_all; simplify_eq; try done;
    match goal with E : encoder_op _ = None |- _ => simpl in E; congruence end.
Qed.

Lemma recorder_start_attached e rv self0 w0 self w :
  String.eqb (record_source rv) "-1" = false ->
  recorder_start e rv self0 w0 = Some (SUCCEEDED, self, w) ->
  initial_serial self = to_int (se_flush_serial e + 1).
Proof.
  intros Hsrc Heq. cbv delta [recorder_start] beta in Heq. rewrite Hsrc in Heq.
  exec_all; simplify_eq;
    (eapply recorder_start_open_attached; [|done]); done.
Qed.

Lemma pass_below_watermark env packet self w self' w' :
  record_mode self = RM_RECORDING ->
  initial_serial self <> -1 ->
  env_packet env = Some packet ->
  serial (header packet) < initial_serial self ->
  recorder_main_pass id3_tag_data env self w = Some (self', w') ->
  files w' = files w.
Proof.
  intros Hmode Hatt Hp Hlt Heq. cbv delta [recorder_main_pass] beta in Heq.
  rewrite Hmode in Heq.
  destruct (initial_serial self =? -1) eqn:E; [apply Z.eqb_eq in E; lia|].
  cbv delta [recording_attached] beta in Heq. rewrite Hp in Heq.
  exec_all; simplify_eq; by eapply take_packet_below_watermark.
Qed.

(** C1: [recorder_start] on an encoder stores the encoder's flush serial plus
    one in [initial_serial], and however the recorder thread ran since then
    (the encoder's flush serial never decreasing), a pass that takes a packet
    whose serial is below that watermark writes to no file: the payload of
    such a packet never reaches the recording. *)
Theorem recorder_serial_fence (e : start_env) (rv : recorder_vars) (self0 : recorder)
    (w0 : world) (self : recorder) (w : world) (envs : list main_env) (s1 : recorder)
    (w1 : world) (env : main_env) (packet : encoder_op_packet) (s2 : recorder) (w2 : world) :
  String.eqb (record_source rv) "-1" = false ->
  0 <= se_flush_serial e < INT_MAX ->
  Forall (fun env => se_flush_serial e <= env_flush_serial env < INT_MAX) envs ->
  recorder_start e rv self0 w0 = Some (SUCCEEDED, self, w) ->
  recorder_main id3_tag_data envs self w = Some (s1, w1) ->
  initial_serial self = se_flush_serial e + 1
  /\ (record_mode s1 = RM_RECORDING ->
      env_packet env = Some packet ->
      serial (header packet) <= se_flush_serial e ->
      recorder_main_pass id3_tag_data env s1 w1 = Some (s2, w2) ->
      files w2 = files w1).
Proof.
  intros Hsrc Hflush Hall Hstart Hrun.
  pose proof (recorder_start_attached _ _ _ _ _ _ Hsrc Hstart) as Hw.
  rewrite to_int_small in Hw by (unfold INT_MIN, INT_MAX in *; lia).
  split; [done|]. intros Hmode Hp Hser Hpass.
  assert (se_flush_serial e + 1 <= initial_serial s1) as Hinv.
  { eapply recorder_main_watermark; [| |  |exact Hrun]; [lia|lia|].
    eapply Forall_impl; [exact Hall|]. simpl. intros; lia. }
  eapply pass_below_watermark; eauto; lia.
Qed.

(** C4: [recorder_stop] on a recorder in the stopped mode returns FAILED and
    hands back the recorder as it was: no field is written, no request flag
    is set, and nothing but one line on stderr is produced. *)
Theorem recorder_stop_when_stopped (envs : list main_env) (self : recorder) (w : world) :
  record_mode self = RM_STOPPED ->
  recorder_stop id3_tag_data envs self w =
    Returned (FAILED, self,
              elog ("recorder_stop: device " +:+ pretty (numeric_id self)
                    +:+ " is already stopped") w).
Proof.
  intros Hmode. unfold recorder_stop. by rewrite Hmode.
Qed.

(** The artist, title and album of a chapter entry, as [metadata_fields] gives them. *)
Definition mi_fields (l : metadata_item) : option (list Z) * option (list Z) * option (list Z) :=
  (Some (mi_artist l), Some (mi_title l), Some (mi_album l)).

Lemma str_equal_refl (a : list Z) : str_equal a a = true.
Proof. unfold str_equal. by apply bool_decide_eq_true. Qed.

Lemma str_equal_true (a b : list Z) : str_equal a b = true -> a = b.
Proof. unfold str_equal. by intros ?%bool_decide_eq_true. Qed.

Lemma is_duplicate_same self p l :
  last (mi self) = Some l ->
  metadata_fields (Some p) = mi_fields l ->
  is_duplicate self (Some p) = Some true.
Proof.
  intros Hl Hf. unfold is_duplicate. rewrite Hf, Hl. unfold mi_fields. simpl.
  by rewrite !str_equal_refl.
Qed.

Lemma is_duplicate_true self p :
  is_duplicate self (Some p) = Some true ->
  exists l, last (mi self) = Some l /\ metadata_fields (Some p) = mi_fields l.
Proof.
  unfold is_duplicate. destruct (metadata_fields (Some p)) as [[a t] al].
  destruct (last (mi self)) as [l|]; [|done]. intros Heq.
  destruct a as [a|]; [|done]. simpl in Heq.
  destruct (str_equal (mi_artist l) a) eqn:Ea; [|done]. simpl in Heq.
  destruct t as [t|]; [|done]. simpl in Heq.
  destruct (str_equal (mi_title l) t) eqn:Et; [|done]. simpl in Heq.
  destruct al as [al|]; [|done]. simpl in Heq.
  injection Heq as Hal. apply str_equal_true in Ea, Et, Hal. subst.
  by exists l.
Qed.

Lemma mi_set_mi (x : list metadata_item) (self : recorder) : mi (set_mi x self) = x.
Proof. reflexivity. Qed.

Lemma last_update_last_snoc {A : Type} (f : A -> A) (l : list A) (x : A) :
  last (update_last f l ++ [x]) = Some x.
Proof. by rewrite last_snoc. Qed.

Lemma length_update_last {A : Type} (f : A -> A) (l : list A) :
  length (update_last f l) = length l.
Proof.
  induction l as [|x [|y l'] IH]; simpl in *; [done|done|]. by rewrite IH.
Qed.

(** A successful append of a packet's metadata leaves an entry with the
    packet's fields at the end of the list, and the list at most one longer. *)
Lemma append_metadata_last self p w self' w' :
  recorder_append_metadata true self (Some p) w = Some (self', w') ->
  (exists l, last (mi self') = Some l /\ metadata_fields (Some p) = mi_fields l)
  /\ (length (mi self') <= S (length (mi self)))%nat.
Proof.
  intros Heq. cbv delta [recorder_append_metadata] beta in Heq.
  destruct (metadata_fields (Some p)) as [[a t] al] eqn:Ef.
  destruct (is_duplicate self (Some p)) as [[|]|] eqn:Ed; [| |done].
  - simplify_eq. split; [|lia]. apply is_duplicate_true in Ed as (l & ? & ?).
    exists l. split; [done|congruence].
  - exec_all; simplify_eq; rewrite mi_set_mi.
    + split; [by eexists | simpl; lia].
    + split; [rewrite last_update_last_snoc; by eexists|].
      rewrite length_app, length_update_last. simpl. lia.
Qed.

Lemma accept_packet_mi env p self w self' w' :
  recorder_accept_packet env p self w = Some (self', w') -> mi self' = mi self.
Proof.
  intros Heq. cbv delta [recorder_accept_packet] beta in Heq.
  exec_all; simplify_eq;
    repeat match goal with
    | E : recorder_append_metadata2 _ _ _ _ = _ |- _ =>
        apply append_metadata2_frame in E as (_ & _ & E & _)
    end; done.
Qed.

(** What [recorder_take_packet] does to the chapter list is what
    [recorder_append_metadata] does to it, for a packet with the metadata
    flag, and nothing for another packet. *)
Lemma take_packet_mi env p self w self' w' :
  recorder_take_packet env p self w = Some (self', w') ->
  if has_flag (flags (header p)) PF_METADATA
  then exists s1 w1, mi s1 = mi self
                     /\ recorder_append_metadata (env_calloc_ok env) s1 (Some p) w1 = Some (self', w')
  else mi self' = mi self.
Proof.
  intros Heq. cbv delta [recorder_take_packet] beta in Heq.
  destruct (has_flag (flags (header p)) PF_METADATA) eqn:Em;
    exec_all; simplify_eq;
    repeat match goal with
    | E : recorder_accept_packet _ _ _ _ = Some _ |- _ => apply accept_packet_mi in E
    end; eauto.
Qed.

Lemma append_metadata_duplicate ok self p w l self' w' :
  last (mi self) = Some l ->
  metadata_fields (Some p) = mi_fields l ->
  recorder_append_metadata ok self (Some p) w = Some (self', w') ->
  self' = self.
Proof.
  intros Hl Hf Heq. unfold recorder_append_metadata in Heq.
  rewrite (is_duplicate_same _ _ _ Hl Hf) in Heq.
  destruct (metadata_fields (Some p)) as [[? ?] ?]. by simplify_eq.
Qed.

(** C9: of two metadata packets that the recorder takes one after the other,
    the second adds nothing to the chapter list when its artist, title and
    album are those of the last entry of the list; in particular two
    consecutive packets with identical fields add at most one entry. *)
Theorem consecutive_duplicate_metadata (env1 env2 : main_env) (p1 p2 : encoder_op_packet)
    (self : recorder) (w : world) (self1 : recorder) (w1 : world) (self2 : recorder)
    (w2 : world) :
  has_flag (flags (header p1)) PF_METADATA = true ->
  has_flag (flags (header p2)) PF_METADATA = true ->
  recorder_take_packet env1 p1 self w = Some (self1, w1) ->
  recorder_take_packet env2 p2 self1 w1 = Some (self2, w2) ->
  (forall l, last (mi self1) = Some l -> metadata_fields (Some p2) = mi_fields l ->
             mi self2 = mi self1)
  /\ (env_calloc_ok env1 = true -> metadata_fields (Some p2) = metadata_fields (Some p1) ->
      mi self2 = mi self1 /\ (length (mi self2) <= S (length (mi self)))%nat).
Proof.
  intros Hm1 Hm2 H1 H2.
  apply take_packet_mi in H1, H2. rewrite Hm1 in H1. rewrite Hm2 in H2.
  destruct H1 as (s1 & v1 & Hs1 & H1). destruct H2 as (s2 & v2 & Hs2 & H2).
  assert (forall l, last (mi self1) = Some l -> metadata_fields (Some p2) = mi_fields l ->
                    mi self2 = mi self1) as Hskip.
  { intros l Hl Hf. rewrite <- Hs2 in Hl.
    by rewrite (append_metadata_duplicate _ _ _ _ _ _ _ Hl Hf H2). }
  split; [exact Hskip|]. intros Hok Hsame. rewrite Hok in H1.
  apply append_metadata_last in H1 as ((l & Hl & Hf) & Hlen).
  split; [apply (Hskip l Hl); congruence|].
  rewrite (Hskip l Hl) by congruence. by rewrite <- Hs1.
Qed.

(** The entry that [recorder_append_metadata] makes for the fields [a], [t], [al]. *)
Definition new_chapter (self : recorder) (a t al : list Z) : metadata_item :=
  {| mi_artist := a; mi_title := t; mi_album := al;
     mi_time_offset := recording_length_ms self; mi_byte_offset := bytes_written self;
     mi_time_offset_end := 0; mi_byte_offset_end := 0 |}.

Lemma append_metadata_new self p w a t al :
  metadata_fields (Some p) = (Some a, Some t, Some al) ->
  is_duplicate self (Some p) = Some false ->
  exists self',
    recorder_append_metadata true self (Some p) w = Some (self', w)
    /\ last (mi self') = Some (new_chapter self a t al)
    /\ length (mi self') = S (length (mi self)).
Proof.
  intros Hf Hd. unfold recorder_append_metadata. rewrite Hf, Hd. simpl.
  destruct (mi self) as [|m l] eqn:Em.
  - eexists. split; [reflexivity|]. by rewrite mi_set_mi.
  - eexists. split; [reflexivity|]. rewrite mi_set_mi. split.
    + apply last_update_last_snoc.
    + rewrite length_app, length_update_last. simpl. lia.
Qed.

(** C10: a pass of the recorder thread that takes a packet with the metadata
    flag and a serial below the watermark does to the chapter list exactly
    what [recorder_append_metadata] does for that packet: the serial test
    that guards the audio is not applied. When the fields of the packet
    differ from the last entry, the list gets a new entry for them. *)
Theorem metadata_bypasses_serial_fence (env : main_env) (p : encoder_op_packet)
    (self : recorder) (w : world) :
  record_mode self = RM_RECORDING ->
  initial_serial self <> -1 ->
  env_packet env = Some p ->
  has_flag (flags (header p)) PF_METADATA = true ->
  serial (header p) < initial_serial self ->
  (forall self' w', recorder_main_pass id3_tag_data env self w = Some (self', w') ->
     exists s1, recorder_append_metadata (env_calloc_ok env) self (Some p) w = Some (s1, w')
                /\ mi self' = mi s1)
  /\ (forall a t al,
        metadata_fields (Some p) = (Some a, Some t, Some al) ->
        is_duplicate self (Some p) = Some false ->
        env_calloc_ok env = true ->
        exists self',
          recorder_main_pass id3_tag_data env self w = Some (self', w)
          /\ last (mi self') = Some (new_chapter self a t al)
          /\ length (mi self') = S (length (mi self))).
Proof.
  intros Hmode Hatt Hp Hm Hlt.
  assert (recorder_take_packet env p self w
          = recorder_append_metadata (env_calloc_ok env) self (Some p) w) as Htake.
  { unfold recorder_take_packet.
    destruct (initial_serial self <=? serial (header p)) eqn:E; [lia|].
    simpl. by rewrite Hm. }
  assert (forall self' w', recorder_main_pass id3_tag_data env self w = Some (self', w') ->
     exists s1, recorder_append_metadata (env_calloc_ok env) self (Some p) w = Some (s1, w')
                /\ mi self' = mi s1) as Hpass.
  { intros self' w' Heq. cbv delta [recorder_main_pass] beta in Heq. rewrite Hmode in Heq.
    destruct (initial_serial self =? -1) eqn:E; [lia|].
    cbv delta [recording_attached] beta in Heq. rewrite Hp, Htake in Heq.
    exec_all; simplify_eq; eauto. }
  split; [exact Hpass|]. intros a t al Hf Hd Hok.
  destruct (append_metadata_new self p w a t al Hf Hd) as (s1 & Happ & Hlast & Hlen).
  destruct (recorder_main_pass id3_tag_data env self w) as [[self' w']|] eqn:Heq.
  - destruct (Hpass _ _ eq_refl) as (s1' & Happ' & Hmi).
    rewrite Hok, Happ in Happ'. simplify_eq. exists self'. by rewrite Hmi.
  - exfalso. cbv delta [recorder_main_pass] beta in Heq. rewrite Hmode in Heq.
    destruct (initial_serial self =? -1) eqn:E; [lia|].
    cbv delta [recording_attached] beta in Heq. rewrite Hp, Htake, Hok, Happ in Heq.
    exec_all; simplify_eq.
Qed.

(** ** Variable bit rate detection *)

(** The bit rate and sample rate of a packet's header. *)
Definition rates (p : encoder_op_packet) : Z * Z :=
  (bit_rate (header p), sample_rate (header p)).

Definition rates_differ (a b : Z * Z) : bool :=
  negb (fst a =? fst b) || negb (snd a =? snd b).

(** The packets whose rates the recorder compares: accepted by the serial
    test, flagged INITIAL and of an MPEG kind. *)
Definition opens_segment (watermark : Z) (p : encoder_op_packet) : bool :=
  (watermark <=? serial (header p))
  && has_flag (flags (header p)) PF_INITIAL
  && has_flag (flags (header p)) PF_MPEG_KINDS.

(** Some packet of [l] differs in its rates from the one before it ([prev]
    for the first), the earlier rates being both non-zero. *)
Fixpoint rates_change (prev : Z * Z) (l : list encoder_op_packet) : bool :=
  match l with
  | [] => false
  | p :: rest =>
      rates_differ (rates p) prev && negb (fst prev =? 0) && negb (snd prev =? 0)
      || rates_change (rates p) rest
  end.

(** The recorder thread taking the packets of [l] one after the other. *)
Fixpoint recorder_take_packets (l : list (main_env * encoder_op_packet)) (self : recorder)
    (w : world) : option (recorder * world) :=
  match l with
  | [] => Some (self, w)
  | (env, p) :: rest =>
      '(self, w) ← recorder_take_packet env p self w;
      recorder_take_packets rest self w
  end.

Definition old_rates (self : recorder) : Z * Z := (oldbitrate self, oldsamplerate self).

Lemma rates_differ_false (a b : Z * Z) : rates_differ a b = false -> a = b.
Proof.
  destruct a as [a1 a2], b as [b1 b2]. unfold rates_differ. simpl.
  intros [E1 E2]%orb_false_elim.
  apply negb_false_iff, Z.eqb_eq in E1, E2. by subst.
Qed.

Lemma append_metadata2_rates self p w self' w' :
  recorder_append_metadata2 true self (Some p) w = (self', w') ->
  if has_flag (flags (header p)) PF_MPEG_KINDS
  then is_vbr self' = is_vbr self
                      || rates_differ (rates p) (old_rates self)
                         && negb (oldbitrate self =? 0) && negb (oldsamplerate self =? 0)
       /\ old_rates self' = rates p
  else is_vbr self' = is_vbr self /\ old_rates self' = old_rates self.
Proof.
  unfold recorder_append_metadata2, rates_differ, old_rates, rates. simpl.
  set (s1 := match mi2 self with [] => _ | _ :: _ => _ end).
  assert (is_vbr s1 = is_vbr self /\ oldbitrate s1 = oldbitrate self
          /\ oldsamplerate s1 = oldsamplerate self) as (Hv & Hb & Hs).
  { subst s1. by destruct (mi2 self). }
  rewrite Hb, Hs. clearbody s1.
  destruct (has_flag (flags (header p)) PF_MPEG_KINDS); rewrite ?andb_true_r, ?andb_false_r.
  - destruct (negb (bit_rate (header p) =? oldbitrate self)
              || negb (sample_rate (header p) =? oldsamplerate self)) eqn:Ed.
    + destruct (negb (oldbitrate self =? 0) && negb (oldsamplerate self =? 0)) eqn:E0;
        intros ?; simplify_eq; simpl; rewrite ?Hv.
      * rewrite E0. by rewrite orb_true_r.
      * rewrite E0. by rewrite orb_false_r.
    + intros ?; simplify_eq. rewrite Hv, orb_false_r. split; [done|].
      apply orb_false_elim in Ed as [E1 E2].
      apply negb_false_iff, Z.eqb_eq in E1, E2. by rewrite Hb, Hs, E1, E2.
  - intros ?; simplify_eq. by rewrite Hv, Hb, Hs.
Qed.

(** The change that a packet opening a segment makes to the detection state. *)
Definition rates_step (self self' : recorder) (p : encoder_op_packet) (opens : bool) : Prop :=
  if opens
  then is_vbr self' = is_vbr self
                      || rates_differ (rates p) (old_rates self)
                         && negb (oldbitrate self =? 0) && negb (oldsamplerate self =? 0)
       /\ old_rates self' = rates p
  else is_vbr self' = is_vbr self /\ old_rates self' = old_rates self.

Lemma append_metadata_rates ok self p w self' w' :
  recorder_append_metadata ok self p w = Some (self', w') ->
  is_vbr self' = is_vbr self /\ old_rates self' = old_rates self.
Proof.
  intros Heq. cbv delta [recorder_append_metadata] beta in Heq.
  exec_all; simplify_eq; done.
Qed.

Lemma accept_packet_rates env p self w self' w' :
  env_calloc_ok env = true ->
  id3_mode self = true ->
  recorder_accept_packet env p self w = Some (self', w') ->
  id3_mode self' = true
  /\ rates_step self self' p
       (has_flag (flags (header p)) PF_INITIAL && has_flag (flags (header p)) PF_MPEG_KINDS).
Proof.
  intros Hok Hid3 Heq. cbv delta [recorder_accept_packet] beta zeta in Heq.
  rewrite Hok, Hid3, andb_true_r in Heq.
  destruct (has_flag (flags (header p)) PF_INITIAL) eqn:Ei; simpl.
  - destruct (recorder_append_metadata2 true self (Some p) w) as [s1 v1] eqn:E2.
    pose proof (append_metadata2_frame _ _ _ _ _ _ E2) as (_ & _ & _ & Hid & _).
    apply append_metadata2_rates in E2. unfold rates_step.
    exec_all; simplify_eq;
      (split; [by rewrite <- Hid3, <- Hid|]);
      destruct (has_flag (flags (header p)) PF_MPEG_KINDS); exact E2.
  - unfold rates_step. exec_all; simplify_eq; done.
Qed.

Lemma take_packet_rates env p self w self' w' :
  env_calloc_ok env = true ->
  id3_mode self = true ->
  recorder_take_packet env p self w = Some (self', w') ->
  id3_mode self' = true
  /\ initial_serial self' = initial_serial self
  /\ rates_step self self' p (opens_segment (initial_serial self) p).
Proof.
  intros Hok Hid3 Heq.
  pose proof (take_packet_initial_serial _ _ _ _ _ _ Heq) as Hser.
  cbv delta [recorder_take_packet] beta in Heq. unfold opens_segment.
  destruct (initial_serial self <=? serial (header p)) eqn:Ew; simpl.
  - destruct (recorder_accept_packet env p self w) as [[s1 v1]|] eqn:Ea; [|done].
    apply (accept_packet_rates _ _ _ _ _ _ Hok Hid3) in Ea as [Hid Hstep].
    cbv beta iota delta [mbind option_bind] in Heq.
    destruct (has_flag (flags (header p)) PF_METADATA).
    + pose proof (append_metadata_frame _ _ _ _ _ _ Heq) as (_ & _ & Hid' & _).
      apply append_metadata_rates in Heq as [Hv Ho].
      split; [congruence|]. split; [done|].
      unfold rates_step in *.
      destruct (has_flag (flags (header p)) PF_INITIAL
                && has_flag (flags (header p)) PF_MPEG_KINDS);
        rewrite Hv, Ho; exact Hstep.
    + by simplify_eq.
  - cbv beta iota delta [mbind option_bind] in Heq.
    destruct (has_flag (flags (header p)) PF_METADATA).
    + pose proof (append_metadata_frame _ _ _ _ _ _ Heq) as (_ & _ & Hid' & _).
      apply append_metadata_rates in Heq as [Hv Ho].
      split; [congruence|]. by split.
    + by simplify_eq.
Qed.

Lemma rates_step_change (self self' : recorder) (p : encoder_op_packet) (opens : bool)
    (rest : list encoder_op_packet) :
  rates_step self self' p opens ->
  is_vbr self' || rates_change (old_rates self') rest
  = is_vbr self || rates_change (old_rates self) (if opens then p :: rest else rest).
Proof.
  unfold rates_step. destruct opens.
  - intros [Hv Ho]. rewrite Hv, Ho. simpl. by rewrite <- orb_assoc.
  - intros [Hv Ho]. by rewrite Hv, Ho.
Qed.

(** Over a run of packets, the recording ends up marked variable exactly when
    it was so before or the rates change along the packets that open a segment. *)
Lemma take_packets_is_vbr (l : list (main_env * encoder_op_packet)) (self : recorder)
    (w : world) (self' : recorder) (w' : world) :
  Forall (fun ep => env_calloc_ok ep.1 = true) l ->
  id3_mode self = true ->
  recorder_take_packets l self w = Some (self', w') ->
  is_vbr self'
  = is_vbr self
    || rates_change (old_rates self) (filter (fun p => opens_segment (initial_serial self) p = true)
                                             (l.*2)).
Proof.
  revert self w. induction l as [|[env p] l IH]; intros self w Hall Hid3 Heq; simpl in Heq.
  - simplify_eq. simpl. by rewrite orb_false_r.
  - apply Forall_cons in Hall as [Hok Hall]. simpl in Hok.
    destruct (recorder_take_packet env p self w) as [[s1 v1]|] eqn:E1; [|done].
    simpl in Heq.
    apply (take_packet_rates _ _ _ _ _ _ Hok Hid3) in E1 as (Hid & Hser & Hstep).
    rewrite (IH _ _ Hall Hid Heq), Hser.
    rewrite fmap_cons, filter_cons. simpl.
    rewrite (rates_step_change _ _ _ _ _ Hstep).
    by destruct (opens_segment (initial_serial self) p); simpl.
Qed.

(** ** Writing to a stream that takes everything *)

(** A stream with no limit and no error so far. *)
Definition roomy (f : FILE) : Prop := f_room f = None /\ f_error f = false.

(** [w'] has [bytes] more at the end of the file [path] than [w] has. *)
Definition appended (path : string) (w w' : world) (bytes : list Z) : Prop :=
  file_content path w' = file_content path w ++ bytes.

Lemma appended_nil path w : appended path w w [].
Proof. unfold appended. by rewrite app_nil_r. Qed.

Lemma appended_app path w1 w2 w3 b1 b2 :
  appended path w1 w2 b1 -> appended path w2 w3 b2 -> appended path w1 w3 (b1 ++ b2).
Proof. unfold appended. intros H1 H2. by rewrite H2, H1, app_assoc. Qed.

Lemma appended_elog path msg w w' b :
  appended path (elog msg w) w' b -> appended path w w' b.
Proof. done. Qed.

Lemma appended_elog_r path msg w w' b :
  appended path w w' b -> appended path w (elog msg w') b.
Proof. done. Qed.

Lemma write_bytes_roomy buf f w :
  roomy f ->
  exists w', write_bytes buf f w = (Z.of_nat (length buf), f, w')
             /\ appended (f_path f) w w' buf.
Proof.
  intros [Hroom Herr]. destruct f as [path room err]. simpl in *. subst.
  unfold write_bytes, accepted. simpl. rewrite Z.ltb_irrefl, Nat2Z.id, firstn_all.
  eexists. split; [reflexivity|]. unfold appended, file_content. simpl.
  by rewrite lookup_insert_eq.
Qed.

Lemma fwrite_roomy buf size nmemb f w :
  roomy f -> 0 < size -> Z.of_nat (length buf) = size * nmemb ->
  exists w', fwrite buf size nmemb f w = (nmemb, f, w') /\ appended (f_path f) w w' buf.
Proof.
  intros Hf Hsize Hlen. unfold fwrite.
  rewrite <- Hlen, Nat2Z.id, firstn_all.
  destruct (write_bytes_roomy buf f w Hf) as (w' & -> & Happ).
  exists w'. split; [|done].
  destruct (size =? 0) eqn:E; [lia|]. rewrite Hlen. f_equal. f_equal.
  rewrite Z.mul_comm. apply Z.quot_mul. lia.
Qed.

Lemma fputc_roomy c f w :
  roomy f -> exists w', fputc c f w = (f, w') /\ appended (f_path f) w w' [c mod 256].
Proof.
  intros Hf. unfold fputc.
  destruct (write_bytes_roomy [c mod 256] f w Hf) as (w' & -> & Happ). eauto.
Qed.

Lemma put_zeros_roomy n f w :
  roomy f -> exists w', put_zeros n f w = (f, w') /\ appended (f_path f) w w' (replicate n 0).
Proof.
  intros Hf. revert w. induction n as [|n IH]; intros w; cbn [put_zeros replicate].
  - exists w. split; [done|apply appended_nil].
  - destruct (fputc_roomy 0 f w Hf) as (w1 & -> & H1).
    destruct (IH w1) as (w2 & -> & H2). exists w2. split; [done|].
    change (0 :: replicate n 0) with ([0 mod 256] ++ replicate n 0).
    by eapply appended_app.
Qed.

Lemma put_zeros_checked_roomy n f w :
  roomy f ->
  exists w', put_zeros_checked n f w = (true, f, w')
             /\ appended (f_path f) w w' (replicate n 0).
Proof.
  intros Hf. revert w. induction n as [|n IH]; intros w; cbn [put_zeros_checked replicate].
  - exists w. split; [done|apply appended_nil].
  - destruct (fputc_roomy 0 f w Hf) as (w1 & -> & H1).
    destruct Hf as [Hroom Herr]. unfold ferror. rewrite Herr.
    destruct (IH w1) as (w2 & -> & H2). exists w2. split; [done|].
    change (0 :: replicate n 0) with ([0 mod 256] ++ replicate n 0).
    by eapply appended_app.
Qed.

(** The four bytes of a 32-bit value, most significant first. *)
Definition be32 (v : Z) : list Z :=
  [Z.land (Z.shiftr v 24) 255; Z.land (Z.shiftr v 16) 255; Z.land (Z.shiftr v 8) 255;
   Z.land v 255].

Lemma land_255_byte (x : Z) : Z.land x 255 mod 256 = Z.land x 255.
Proof.
  change 255 with (Z.ones 8). rewrite Z.land_ones by lia.
  change (2 ^ 8) with 256. by rewrite Z.mod_mod.
Qed.

Lemma put_be32_roomy v f w :
  roomy f -> exists w', put_be32 v f w = (f, w') /\ appended (f_path f) w w' (be32 v).
Proof.
  intros Hf. unfold put_be32.
  destruct (fputc_roomy (Z.land (Z.shiftr v 24) 255) f w Hf) as (w1 & -> & H1).
  destruct (fputc_roomy (Z.land (Z.shiftr v 16) 255) f w1 Hf) as (w2 & -> & H2).
  destruct (fputc_roomy (Z.land (Z.shiftr v 8) 255) f w2 Hf) as (w3 & -> & H3).
  destruct (fputc_roomy (Z.land v 255) f w3 Hf) as (w4 & -> & H4).
  exists w4. split; [done|]. rewrite !land_255_byte in *.
  pose proof (appended_app _ _ _ _ _ _ (appended_app _ _ _ _ _ _
                (appended_app _ _ _ _ _ _ H1 H2) H3) H4) as Happ.
  exact Happ.
Qed.

(** ** The first frame written by [recorder_write_xing_tag] *)

Definition xing_mpeg1_f (self : recorder) : bool := Z.land (header_byte self 1) 24 =? 24.
Definition xing_mono_f (self : recorder) : bool := Z.land (header_byte self 3) 192 =? 192.
Definition xing_samples_per_frame (self : recorder) : Z :=
  if xing_mpeg1_f self then 1152 else 576.

(** The frame count stored in the tag. *)
Definition xing_total_frames (self : recorder) (first : metadata_item2) : Z :=
  d_to_int (dadd (ddiv (dmul (d_of_int (mi2_sample_rate first))
                             (d_of_int (recording_length_ms self)))
                       (dmul (d_of_int (xing_samples_per_frame self)) (d_of_int 1000)))
                 d_0_5).

(** What follows the byte count: nothing for a constant bit rate, the seek
    table (and one more zero byte after a last entry of 255) otherwise. *)
Definition xing_seek_bytes (self : recorder) (table : list Z) : list Z :=
  if is_vbr self then table ++ (if nth 99 table 0 =? 255 then [0] else []) else [].

(** The bytes of the frame up to the padding. *)
Definition xing_frame_bytes (self : recorder) (first : metadata_item2) (table : list Z) : list Z :=
  first_mp3_header self
  ++ replicate (Z.to_nat (side_info_table (xing_mpeg1_f self) (xing_mono_f self))) 0
  ++ (if is_vbr self then XING_MARKER else INFO_MARKER)
  ++ be32 (xing_total_frames self first)
  ++ be32 (bytes_written self)
  ++ xing_seek_bytes self table.

(** On a stream that takes everything, with a first segment of non-zero
    sample rate and (for a variable bit rate) a seek table of 100 entries,
    [recorder_write_xing_tag] succeeds and appends the frame: its bytes and
    then zero bytes of padding. *)
Lemma write_xing_tag_roomy (self : recorder) (fp : FILE) (w : world)
    (first : metadata_item2) (rest : list metadata_item2) (table : list Z) :
  roomy fp ->
  include_xing_tag self = true ->
  mi2 self = first :: rest ->
  mi2_sample_rate first <> 0 ->
  length (first_mp3_header self) = 4%nat ->
  (is_vbr self = true -> generate_seek_table self = SeekTable table /\ length table = 100%nat) ->
  exists w' n,
    recorder_write_xing_tag self fp w = Some (SUCCEEDED, fp, w')
    /\ appended (f_path fp) w w' (xing_frame_bytes self first table ++ replicate n 0).
Proof.
  intros Hf Hinc Hmi2 Hsr Hlen Htab.
  unfold recorder_write_xing_tag. rewrite Hinc, Hmi2. simpl negb. cbv iota.
  fold (xing_mpeg1_f self). fold (xing_mono_f self). fold (xing_samples_per_frame self).
  unfold idiv. destruct (mi2_sample_rate first =? 0) eqn:E0; [lia|].
  cbv beta iota delta [mbind option_bind].
  destruct (fwrite_roomy (first_mp3_header self) 4 1 fp
              (elog "recorder_write_xing_tag: commencing" w) Hf) as (w1 & -> & H1);
    [lia | lia |]. cbv iota beta. change (1 =? 0) with false. cbv iota.
  destruct (put_zeros_checked_roomy
              (Z.to_nat (side_info_table (xing_mpeg1_f self) (xing_mono_f self))) fp w1 Hf)
    as (w2 & -> & H2). cbv iota beta. simpl negb. cbv iota.
  assert (exists w3, (if is_vbr self then fwrite XING_MARKER 8 1 fp w2
                      else fwrite INFO_MARKER 8 1 fp w2) = (1, fp, w3)
                     /\ appended (f_path fp) w2 w3
                          (if is_vbr self then XING_MARKER else INFO_MARKER))
    as (w3 & -> & H3).
  { destruct (is_vbr self); apply fwrite_roomy; done. }
  cbv iota beta. change (1 =? 0) with false. cbv iota.
  unfold xing_tag_body. fold (xing_total_frames self first).
  destruct (put_be32_roomy (xing_total_frames self first) fp w3 Hf) as (w4 & -> & H4).
  cbv iota beta.
  destruct (put_be32_roomy (bytes_written self) fp w4 Hf) as (w5 & -> & H5).
  cbv iota beta.
  pose proof (appended_app _ _ _ _ _ _ (appended_app _ _ _ _ _ _ (appended_app _ _ _ _ _ _
                (appended_app _ _ _ _ _ _ H1 H2) H3) H4) H5) as H15.
  apply appended_elog in H15.
  assert (forall k w6 tail, appended (f_path fp) w5 w6 tail ->
            exists w' n,
              (let '(fp0, w0) := put_zeros k fp w6 in
               if ferror fp0 then Some (FAILED, fp0, w0) else Some (SUCCEEDED, fp0, w0))
              = Some (SUCCEEDED, fp, w')
              /\ appended (f_path fp) w5 w' (tail ++ replicate n 0)) as Hfill.
  { intros k w6 tail H6.
    destruct (put_zeros_roomy k fp w6 Hf) as (w7 & -> & H7); exists w7, k.
    destruct Hf as [_ Herr]. unfold ferror. rewrite Herr.
    split; [done|]. by eapply appended_app. }
  unfold xing_frame_bytes, xing_seek_bytes. cbv zeta.
  destruct (is_vbr self) eqn:Ev.
  - destruct (Htab eq_refl) as [-> Hl100].
    rewrite Hl100. simpl negb. cbv iota.
    destruct (fwrite_roomy table 100 1 fp
                (elog "recorder_write_xing_tag: creating a seek table" w5) Hf)
      as (w6 & -> & H6); [lia | lia |].
    cbv iota beta. change (1 =? 0) with false. cbv iota.
    apply appended_elog in H6.
    destruct (nth 99 table 0 =? 255).
    + destruct (fputc_roomy 0 fp w6 Hf) as (w7 & -> & H7). cbv iota beta.
      edestruct Hfill as (w' & n & Heq & Hn); [exact (appended_app _ _ _ _ _ _ H6 H7)|].
      rewrite Heq. exists w', n. split; [done|].
      pose proof (appended_app _ _ _ _ _ _ H15 Hn) as Hall.
      rewrite <- !app_assoc in Hall. rewrite <- !app_assoc. exact Hall.
    + edestruct Hfill as (w' & n & Heq & Hn); [exact H6|].
      rewrite Heq. exists w', n. split; [done|].
      pose proof (appended_app _ _ _ _ _ _ H15 Hn) as Hall.
      rewrite <- !app_assoc in Hall. rewrite <- !app_assoc. exact Hall.
  - edestruct Hfill as (w' & n & Heq & Hn); [exact (appended_nil _ _)|].
    rewrite Heq. exists w', n. split; [done|].
    pose proof (appended_app _ _ _ _ _ _ H15 Hn) as Hall.
    rewrite <- !app_assoc in Hall. rewrite <- !app_assoc. exact Hall.
Qed.

End RecorderProperties.

(** ** Double arithmetic: what the seek table relies on *)

Definition BIG : Z := 2147483647.

Definition dle `{Double} (x y : double) : Prop := dleb x y = true.

(** The iterates of [seek += 0.01] from [0.0]. *)
Fixpoint seek_point `{Double} (k : nat) : double :=
  match k with
  | O => d_of_int 0
  | S k' => dadd (seek_point k') d_0_01
  end.

(** The loop [for (seek = 0.0; seek < 1.0; seek += 0.01)] runs for the
    iterates 0 to 99 and stops at the iterate 100, and the iterates do not
    decrease. *)
Definition seek_points_ok `{Double} : bool :=
  forallb (fun k => dlt (seek_point k) (d_of_int 1)
                    && dleb (d_of_int 0) (seek_point k)
                    && dleb (seek_point k) (seek_point (S k)))
          (seq 0 100)
  && negb (dlt (seek_point 100) (d_of_int 1)).

(** Order and rounding laws on the values between 0 and [BIG]: values that
    compare are totally ordered, conversion of integers is exact and
    monotone, and every operation rounds monotonically and is exact on small
    integers. They hold of round-to-nearest binary64 arithmetic and of exact
    rational arithmetic. *)
Class DoubleLaws (D : Double) : Prop := {
  dle_trans : forall x y z : double, dle x y -> dle y z -> dle x z;
  dle_refl_l : forall x y : double, dle x y -> dle x x;
  dle_refl_r : forall x y : double, dle x y -> dle y y;
  dle_total : forall x y : double, dle x x -> dle y y -> dlt x y = false -> dle y x;
  dlt_dle : forall x y : double, dlt x y = true -> dle x y;
  dle_not_lt : forall x y : double, dle x y -> dlt y x = false;
  of_le : forall a b, 0 <= a <= b -> b <= BIG -> dle (d_of_int a) (d_of_int b);
  of_lt : forall a b, 0 <= a < b -> b <= BIG -> dlt (d_of_int a) (d_of_int b) = true;
  dsub_mono : forall (x y : double) c, 0 <= c <= BIG ->
    dle (d_of_int 0) x -> dle x y -> dle y (d_of_int BIG) ->
    dle (dsub x (d_of_int c)) (dsub y (d_of_int c));
  dsub_int : forall a b, 0 <= b <= a -> a <= BIG ->
    dle (dsub (d_of_int a) (d_of_int b)) (d_of_int (a - b))
    /\ dle (d_of_int (a - b)) (dsub (d_of_int a) (d_of_int b));
  ddiv_mono : forall (x y : double) c, 0 < c <= BIG ->
    dle (d_of_int 0) x -> dle x y -> dle y (d_of_int BIG) ->
    dle (ddiv x (d_of_int c)) (ddiv y (d_of_int c));
  ddiv_self : forall c, 0 < c <= BIG -> dle (ddiv (d_of_int c) (d_of_int c)) (d_of_int 1);
  ddiv_zero : forall c, 0 < c <= BIG -> dle (d_of_int 0) (ddiv (d_of_int 0) (d_of_int c));
  dmul_mono : forall (x y : double) c, 0 <= c <= BIG ->
    dle (d_of_int 0) x -> dle x y -> dle y (d_of_int 1) ->
    dle (dmul x (d_of_int c)) (dmul y (d_of_int c));
  dmul_one : forall c, 0 <= c <= BIG -> dle (dmul (d_of_int 1) (d_of_int c)) (d_of_int c);
  dmul_zero : forall c, 0 <= c <= BIG -> dle (d_of_int 0) (dmul (d_of_int 0) (d_of_int c));
  dadd_mono : forall (x y : double) c, 0 <= c <= BIG ->
    dle (d_of_int 0) x -> dle x y -> dle y (d_of_int BIG) ->
    dle (dadd x (d_of_int c)) (dadd y (d_of_int c));
  dadd_int : forall a b, 0 <= a -> 0 <= b -> a + b <= BIG ->
    dle (dadd (d_of_int a) (d_of_int b)) (d_of_int (a + b))
    /\ dle (d_of_int (a + b)) (dadd (d_of_int a) (d_of_int b));
  d_to_int_mono : forall x y : double,
    dle (d_of_int 0) x -> dle x y -> dle y (d_of_int BIG) -> d_to_int x <= d_to_int y;
  d_to_int_of : forall a, 0 <= a <= BIG -> d_to_int (d_of_int a) = a;
  seek_points_law : seek_points_ok = true
}.

(** Binary64 arithmetic runs the loop of the seek table for exactly 100 entries. *)
Example ieee_seek_points : @seek_points_ok ieee_double = true.
Proof. vm_compute. reflexivity. Qed.

(** Exact rational arithmetic satisfies the laws. *)
Lemma exact_dle (x y : Q) : @dle exact_double x y <-> (x <= y)%Q.
Proof. unfold dle. simpl. apply Qle_bool_iff. Qed.

Lemma exact_dlt (x y : Q) : @dlt exact_double x y = true <-> (x < y)%Q.
Proof.
  simpl. unfold Q_ltb. rewrite negb_true_iff. split.
  - intros Hb. apply Qnot_le_lt. intros Hle. apply Qle_bool_iff in Hle. congruence.
  - intros Hlt. destruct (Qle_bool y x) eqn:E; [|done].
    apply Qle_bool_iff in E. exfalso. by apply (Qlt_not_le x y).
Qed.

Lemma inject_Z_pos (c : Z) : 0 < c -> (0 < inject_Z c)%Q.
Proof. intros Hc. change 0%Q with (inject_Z 0). by rewrite <- Zlt_Qlt. Qed.

Lemma inject_Z_nonneg (c : Z) : 0 <= c -> (0 <= inject_Z c)%Q.
Proof. intros Hc. change 0%Q with (inject_Z 0). by rewrite <- Zle_Qle. Qed.

Lemma Q_trunc_mono (x y : Q) : (0 <= x)%Q -> (x <= y)%Q -> Q_trunc x <= Q_trunc y.
Proof.
  intros H0 Hxy. unfold Q_trunc.
  assert (0 <= y)%Q as Hy by (by eapply Qle_trans).
  apply Qle_bool_iff in H0, Hy. rewrite H0, Hy. by apply Qfloor_resp_le.
Qed.

Lemma exact_seek_points : @seek_points_ok exact_double = true.
Proof. vm_compute. reflexivity. Qed.

#[export] Instance exact_double_laws : DoubleLaws exact_double.
Proof.
  split.
  - intros x y z. rewrite !exact_dle. apply Qle_trans.
  - intros x y _. apply exact_dle, Qle_refl.
  - intros x y _. apply exact_dle, Qle_refl.
  - intros x y _ _ Hlt. apply exact_dle.
    simpl in Hlt. unfold Q_ltb in Hlt. apply negb_false_iff in Hlt. by apply Qle_bool_iff.
  - intros x y Hlt. apply exact_dle, Qlt_le_weak. by apply exact_dlt.
  - intros x y Hle. simpl. unfold Q_ltb. apply negb_false_iff. exact Hle.
  - intros a b Hab _. apply exact_dle. simpl. rewrite <- Zle_Qle. lia.
  - intros a b Hab _. apply exact_dlt. simpl. rewrite <- Zlt_Qlt. lia.
  - intros x y c _ _ Hxy _. rewrite !exact_dle in *. simpl.
    unfold Qminus. by apply Qplus_le_compat; [|apply Qle_refl].
  - intros a b _ _. rewrite !exact_dle. simpl.
    assert (inject_Z a - inject_Z b == inject_Z (a - b))%Q as Heq.
    { unfold Z.sub. rewrite inject_Z_plus, inject_Z_opp. reflexivity. }
    rewrite Heq. split; apply Qle_refl.
  - intros x y c Hc _ Hxy _. rewrite !exact_dle in *. simpl.
    unfold Qdiv. apply Qmult_le_compat_r; [done|].
    apply Qinv_le_0_compat, inject_Z_nonneg. lia.
  - intros c Hc. apply exact_dle. simpl.
    assert (inject_Z c / inject_Z c == inject_Z 1)%Q as Heq.
    { apply Qmult_inv_r. intros Hz. pose proof (inject_Z_pos c (proj1 Hc)) as Hp.
      rewrite Hz in Hp. by apply Qlt_irrefl in Hp. }
    rewrite Heq. apply Qle_refl.
  - intros c Hc. apply exact_dle. simpl.
    assert (inject_Z 0 / inject_Z c == inject_Z 0)%Q as Heq.
    { unfold Qdiv. apply Qmult_0_l. }
    rewrite Heq. apply Qle_refl.
  - intros x y c Hc _ Hxy _. rewrite !exact_dle in *. simpl.
    apply Qmult_le_compat_r; [done|]. apply inject_Z_nonneg. lia.
  - intros c _. apply exact_dle. simpl. rewrite Qmult_1_l. apply Qle_refl.
  - intros c _. apply exact_dle. simpl. rewrite Qmult_0_l. apply Qle_refl.
  - intros x y c _ _ Hxy _. rewrite !exact_dle in *. simpl.
    by apply Qplus_le_compat; [|apply Qle_refl].
  - intros a b _ _ _. rewrite !exact_dle. simpl. rewrite inject_Z_plus.
    split; apply Qle_refl.
  - intros x y H0 Hxy _. rewrite !exact_dle in *. by apply Q_trunc_mono.
  - intros a Ha. simpl. unfold Q_trunc.
    pose proof (inject_Z_nonneg a (proj1 Ha)) as Hn. apply Qle_bool_iff in Hn.
    rewrite Hn. apply Qfloor_Z.
  - exact exact_seek_points.
Qed.

(** ** The seek table of a variable bit rate recording *)

Section SeekTable.
Context `{D : Double} {laws : DoubleLaws D}.




Local Abbreviation fZ := d_of_int.


(** The interpolated byte position of [look_ms] within the segment [m]. *)
Definition seg_prop (look_ms : double) (m : metadata_item2) : double :=
  ddiv (dsub look_ms (fZ (mi2_start_offset_ms m)))
       (fZ (mi2_finish_offset_ms m - mi2_start_offset_ms m)).





























Lemma seek_entry_byte (self : recorder) (look : double) (m : metadata_item2) :
  0 <= seek_entry self look m <= 255.
Proof.
  unfold seek_entry. cbv zeta.
  match goal with |- 0 <= ?a mod 256 <= 255 => pose proof (Z.mod_pos_bound a 256) end. lia.
Qed.


End SeekTable.

Section Marking.
Context `{Double}.

(** C7: while an attached MP3 recording takes the packets [l], the flag
    [is_vbr] is raised exactly when one of the packets that open a segment
    (serial at or above the watermark, flag INITIAL, an MPEG kind) differs in
    bit rate or sample rate from the rates remembered from the earlier such
    packets, those being non-zero. At finalization the flag selects the
    summary frame [recorder_write_xing_tag] writes: with the flag, the marker
    [Xing], the frame and byte counts and the seek table; without it, the
    marker [Info] and the frame and byte counts and no seek table. *)
Theorem vbr_marking_and_summary_tag
    (l : list (main_env * encoder_op_packet)) (self self' : recorder) (w w' : world)
    (fin : recorder) (fp : FILE) (wf : world)
    (first : metadata_item2) (rest : list metadata_item2) (table : list Z) :
  Forall (fun ep => env_calloc_ok ep.1 = true) l ->
  id3_mode self = true ->
  is_vbr self = false ->
  recorder_take_packets l self w = Some (self', w') ->
  roomy fp ->
  include_xing_tag fin = true ->
  mi2 fin = first :: rest ->
  mi2_sample_rate first <> 0 ->
  length (first_mp3_header fin) = 4%nat ->
  (is_vbr fin = true -> generate_seek_table fin = SeekTable table /\ length table = 100%nat) ->
  is_vbr self'
  = rates_change (old_rates self)
                 (filter (fun p => opens_segment (initial_serial self) p = true) (l.*2))
  /\ exists (wf' : world) (n : nat),
       recorder_write_xing_tag fin fp wf = Some (SUCCEEDED, fp, wf')
       /\ appended (f_path fp) wf wf'
            (first_mp3_header fin
             ++ replicate (Z.to_nat (side_info_table (xing_mpeg1_f fin) (xing_mono_f fin))) 0
             ++ (if is_vbr fin
                 then XING_MARKER ++ be32 (xing_total_frames fin first)
                      ++ be32 (bytes_written fin)
                      ++ table ++ (if nth 99 table 0 =? 255 then [0] else [])
                 else INFO_MARKER ++ be32 (xing_total_frames fin first)
                      ++ be32 (bytes_written fin))
             ++ replicate n 0).
Proof.
  intros Hcalloc Hid3 Hcbr Htake Hroomy Hxing Hmi Hrate Hhdr Htable. split.
  - rewrite (take_packets_is_vbr l self w self' w' Hcalloc Hid3 Htake). by rewrite Hcbr.
  - destruct (write_xing_tag_roomy fin fp wf first rest table Hroomy Hxing Hmi Hrate Hhdr Htable)
      as (wf' & n & Hwrite & Happ).
    exists wf', n. split; [done|].
    unfold xing_frame_bytes, xing_seek_bytes in Happ.
    destruct (is_vbr fin); rewrite <- ?app_assoc in Happ; rewrite <- ?app_assoc;
      rewrite ?app_nil_r in Happ; exact Happ.
Qed.

End Marking.
Section Tagging.
Context `{Double}.
Variable id3_tag_data : Z -> list metadata_item -> list Z.

(** The stream [f] writes the file [p], which exists in [w], and every other
    file of [w] is as in [w0]. *)
Definition keeps (p : string) (w0 : world) (f : FILE) (w : world) : Prop :=
  f_path f = p /\ (forall q, q <> p -> files w !! q = files w0 !! q) /\ is_Some (files w !! p).

Lemma keeps_elog p w0 f w msg : keeps p w0 f w -> keeps p w0 f (elog msg w).
Proof. done. Qed.

Lemma write_bytes_keeps p w0 buf f w k f' w' :
  keeps p w0 f w -> write_bytes buf f w = (k, f', w') -> keeps p w0 f' w'.
Proof.
  intros (Hp & Hother & Hsome) Heq. unfold write_bytes in Heq. simplify_eq. simpl.
  split; [done|]. split.
  - intros q Hq. simpl. rewrite lookup_insert_ne; auto.
  - simpl. rewrite lookup_insert_eq. by eexists.
Qed.

Lemma fwrite_keeps p w0 buf size nmemb f w k f' w' :
  keeps p w0 f w -> fwrite buf size nmemb f w = (k, f', w') -> keeps p w0 f' w'.
Proof.
  intros Hk Heq. unfold fwrite in Heq.
  destruct (write_bytes _ f w) as [[k0 f0] w1] eqn:E. simplify_eq.
  by eapply write_bytes_keeps.
Qed.

Lemma fputc_keeps p w0 c f w f' w' :
  keeps p w0 f w -> fputc c f w = (f', w') -> keeps p w0 f' w'.
Proof.
  intros Hk Heq. unfold fputc in Heq.
  destruct (write_bytes _ f w) as [[k0 f0] w1] eqn:E. simplify_eq.
  by eapply write_bytes_keeps.
Qed.

Lemma put_zeros_keeps p w0 n : forall f w f' w',
  keeps p w0 f w -> put_zeros n f w = (f', w') -> keeps p w0 f' w'.
Proof.
  induction n as [|n IH]; intros f w f' w' Hk Heq; cbn [put_zeros] in Heq; [by simplify_eq|].
  destruct (fputc 0 f w) as [f1 w1] eqn:E.
  eapply IH; [|done]. by eapply fputc_keeps.
Qed.

Lemma put_zeros_checked_keeps p w0 n : forall f w ok f' w',
  keeps p w0 f w -> put_zeros_checked n f w = (ok, f', w') -> keeps p w0 f' w'.
Proof.
  induction n as [|n IH]; intros f w ok f' w' Hk Heq; cbn [put_zeros_checked] in Heq;
    [by simplify_eq|].
  destruct (fputc 0 f w) as [f1 w1] eqn:E.
  pose proof (fputc_keeps _ _ _ _ _ _ _ Hk E) as Hk1.
  destruct (ferror f1); [by simplify_eq|]. by eapply IH.
Qed.

Lemma put_be32_keeps p w0 v f w f' w' :
  keeps p w0 f w -> put_be32 v f w = (f', w') -> keeps p w0 f' w'.
Proof.
  intros Hk Heq. unfold put_be32 in Heq.
  destruct (fputc _ f w) as [f1 w1] eqn:E1.
  destruct (fputc _ f1 w1) as [f2 w2] eqn:E2.
  destruct (fputc _ f2 w2) as [f3 w3] eqn:E3.
  eauto using fputc_keeps.
Qed.

Lemma write_id3_tag_keeps p w0 self f w r f' w' :
  keeps p w0 f w -> recorder_write_id3_tag id3_tag_data self f w = (r, f', w') ->
  keeps p w0 f' w'.
Proof.
  intros Hk Heq. unfold recorder_write_id3_tag in Heq. cbv zeta in Heq.
  destruct (fwrite _ _ _ f w) as [[n f1] w1] eqn:E.
  pose proof (fwrite_keeps _ _ _ _ _ _ _ _ _ _ Hk E) as Hk1.
  destruct (negb _); simplify_eq; [by apply keeps_elog | done].
Qed.

Lemma xing_tag_body_keeps p w0 self first spf fl off f w r f' w' :
  keeps p w0 f w -> xing_tag_body self first spf fl off f w = Some (r, f', w') ->
  keeps p w0 f' w'.
Proof.
  intros Hk. unfold xing_tag_body. intros Heq.
  destruct (put_be32 _ f w) as [f1 w1] eqn:E1.
  pose proof (put_be32_keeps _ _ _ _ _ _ _ Hk E1) as Hk1.
  destruct (put_be32 _ f1 w1) as [f2 w2] eqn:E2.
  pose proof (put_be32_keeps _ _ _ _ _ _ _ Hk1 E2) as Hk2.
  assert (forall g v r f' w', keeps p w0 g v ->
            (let '(fp, w) := put_zeros (Z.to_nat (fl - ftell g v + off)) g v in
             if ferror fp then Some (FAILED, fp, w) else Some (SUCCEEDED, fp, w))
            = Some (r, f', w') -> keeps p w0 f' w') as Hfill.
  { intros g v r0 g' v' Hg Hq. destruct (put_zeros _ g v) as [g1 v1] eqn:Ez.
    pose proof (put_zeros_keeps _ _ _ _ _ _ _ Hg Ez). destruct (ferror g1); by simplify_eq. }
  destruct (is_vbr self); [|by eapply Hfill].
  destruct (generate_seek_table self) as [table| |]; [|by simplify_eq|done].
  destruct (negb _); [done|].
  destruct (fwrite table 100 1 f2 _) as [[n f3] w3] eqn:E3.
  pose proof (fwrite_keeps _ _ _ _ _ _ _ _ _ _ (keeps_elog _ _ _ _ _ Hk2) E3) as Hk3.
  destruct (n =? 0); [by simplify_eq|].
  destruct (nth 99 table 0 =? 255).
  - destruct (fputc 0 f3 w3) as [f4 w4] eqn:E4.
    pose proof (fputc_keeps _ _ _ _ _ _ _ Hk3 E4). by eapply Hfill.
  - by eapply Hfill.
Qed.

Lemma write_xing_tag_keeps p w0 self f w r f' w' :
  keeps p w0 f w -> recorder_write_xing_tag self f w = Some (r, f', w') ->
  keeps p w0 f' w'.
Proof.
  intros Hk. cbv delta [recorder_write_xing_tag] beta. intros Heq.
  destruct (negb (include_xing_tag self)); [by simplify_eq|].
  destruct (mi2 self) as [|first rest]; [by simplify_eq|]. cbv zeta in Heq.
  destruct (idiv _ _) as [q|]; [|done]. cbv beta iota delta [mbind option_bind] in Heq.
  destruct (fwrite (first_mp3_header self) 4 1 f _) as [[n f1] w1] eqn:E1.
  pose proof (fwrite_keeps _ _ _ _ _ _ _ _ _ _ (keeps_elog _ _ _ _ _ Hk) E1) as Hk1.
  destruct (n =? 0); [by simplify_eq|].
  destruct (put_zeros_checked _ f1 w1) as [[ok f2] w2] eqn:E2.
  pose proof (put_zeros_checked_keeps _ _ _ _ _ _ _ _ Hk1 E2) as Hk2.
  destruct (negb ok); [by simplify_eq|].
  destruct (if is_vbr self then _ else _) as [[n3 f3] w3] eqn:E3.
  assert (keeps p w0 f3 w3) as Hk3.
  { destruct (is_vbr self); by eapply fwrite_keeps. }
  destruct (n3 =? 0); [by simplify_eq|]. by eapply xing_tag_body_keeps.
Qed.

Lemma copy_loop_keeps p w0 fuel : forall fpr f w ok f' w',
  keeps p w0 f w -> copy_loop fuel fpr f w = (ok, f', w') -> keeps p w0 f' w'.
Proof.
  induction fuel as [|fuel IH]; intros fpr f w ok f' w' Hk Heq; cbn [copy_loop] in Heq;
    [by simplify_eq|].
  destruct (fread 2048 fpr w) as [buffer fpr1] eqn:Er.
  destruct (_ =? 0); [by simplify_eq|].
  destruct (fwrite buffer _ 1 f w) as [[n f1] w1] eqn:E1.
  pose proof (fwrite_keeps _ _ _ _ _ _ _ _ _ _ Hk E1) as Hk1.
  destruct (n =? 0); [by simplify_eq|]. by eapply IH.
Qed.


Lemma length_append (a b : string) :
  String.length (a +:+ b) = (String.length a + String.length b)%nat.
Proof. induction a as [|c a IH]; simpl; [done|]. by rewrite IH. Qed.

Lemma tmpname_fresh (path : string) : path +:+ ".tmp" <> path.
Proof.
  intros Heq. apply (f_equal String.length) in Heq. rewrite length_append in Heq.
  simpl in Heq. lia.
Qed.

(** What [recorder_apply_mp3_tags] prints when it gives up before a
    temporary file exists, ... *)
Definition tag_failures_early : list string :=
  [ "recorder_apply_mp3_tags: malloc failure";
    "recorder_apply_mp3_tags: failed to open temporary file" ].

(** ... when it gives up on the way to a complete temporary file, ... *)
Definition tag_failures_midway : list string :=
  [ "recorder_apply_mp3_tags: failed to open the mp3 file";
    "failed to obtain the first four bytes of the recording";
    "recorder_apply_mp3_tags: failed to tag the mp3 file";
    "recorder_apply_mp3_tags: error copying the mp3 file" ].

(** ... when the complete temporary file could not be renamed, and when all went well. *)
Definition tag_failure_rename : string :=
  "recorder_apply_mp3_tags: failed to rename the temporary file".
Definition tag_success : string :=
  "recorder_apply_mp3_tags: successfully tagged the mp3 file".

Ltac listed := repeat first [apply list_elem_of_here | apply list_elem_of_further].

(** C3: every run of [recorder_apply_mp3_tags] that does not end in success
    prints a failure message last and leaves the recorded file as it was.
    Before the temporary file is opened no file changes; a failure to open
    the recording, to read its first four bytes, to write the tags or to
    copy the data removes the temporary file; a failure of the final
    [rename] leaves the temporary file in place. *)
Theorem apply_mp3_tags_failure (e : tag_env) (self self' : recorder) (w w' : world)
    (path : string) :
  pathname self = Some path ->
  recorder_apply_mp3_tags id3_tag_data e self w = Some (self', w') ->
  last (stderr w') <> Some tag_success ->
  files w' !! path = files w !! path
  /\ exists msg : string,
       last (stderr w') = Some msg
       /\ ((msg ∈ tag_failures_early /\ files w' = files w)
           \/ (msg ∈ tag_failures_midway /\ files w' !! (path +:+ ".tmp") = None)
           \/ (msg = tag_failure_rename /\ te_rename_ok e = false
               /\ is_Some (files w' !! (path +:+ ".tmp")))).
Proof.
  intros Hpath Heq Hfail.
  pose proof (tmpname_fresh path) as Hfresh.
  assert (path <> path +:+ ".tmp") as Hfresh' by done.
  cbv delta [recorder_apply_mp3_tags] beta in Heq. rewrite Hpath in Heq.
  cbv beta iota delta [mbind option_bind] in Heq.
  destruct (negb (te_malloc_ok e)).
  { simplify_eq. split; [done|]. eexists. split; [apply last_snoc|]. left. split; [listed|done]. }
  cbv zeta in Heq. unfold fopen_w in Heq.
  destruct (te_tmp_open_ok e); cycle 1.
  { simplify_eq. split; [done|]. eexists. split; [apply last_snoc|]. left. split; [listed|done]. }
  set (w1 := {| files := <[path +:+ ".tmp" := []]> (files w); stderr := stderr w |}) in Heq.
  set (fpw := {| f_path := path +:+ ".tmp"; f_room := te_tmp_room e; f_error := false |}) in Heq.
  assert (keeps (path +:+ ".tmp") w fpw w1) as Hk.
  { split; [done|]. split.
    - intros q Hq. simpl. by rewrite lookup_insert_ne.
    - simpl. rewrite lookup_insert_eq. by eexists. }
  assert (forall msg g v, keeps (path +:+ ".tmp") w g v -> msg ∈ tag_failures_midway ->
            let w' := unlink (path +:+ ".tmp") (elog msg v) in
            files w' !! path = files w !! path
            /\ exists msg : string,
                 last (stderr w') = Some msg
                 /\ ((msg ∈ tag_failures_early /\ files w' = files w)
                     \/ (msg ∈ tag_failures_midway /\ files w' !! (path +:+ ".tmp") = None)
                     \/ (msg = tag_failure_rename /\ te_rename_ok e = false
                         /\ is_Some (files w' !! (path +:+ ".tmp"))))) as Hmid.
  { intros msg g v (_ & Hother & _) Hin. simpl. split.
    - rewrite lookup_delete_ne; [|done]. by apply Hother.
    - exists msg. split; [apply last_snoc|]. right. left. split; [done|].
      apply lookup_delete_eq. }
  clearbody w1 fpw.
  destruct (fopen_r path (te_src_open_ok e) w1) as [fpr|]; cycle 1.
  { simplify_eq. apply (Hmid _ fpw w1 Hk). listed. }
  destruct (fread 4 fpr w1) as [got fpr1] eqn:Eread.
  destruct (length got <? 4)%nat.
  { simplify_eq. apply (Hmid _ fpw w1 Hk). listed. }
  destruct (recorder_write_id3_tag _ _ fpw w1) as [[id3_ok fpw2] w2] eqn:Eid3.
  pose proof (write_id3_tag_keeps _ _ _ _ _ _ _ _ Hk Eid3) as Hk2.
  destruct (if retcode_true id3_ok then _ else _) as [[[xing_ok fpw3] w3]|] eqn:Exing; [|done].
  assert (keeps (path +:+ ".tmp") w fpw3 w3) as Hk3.
  { destruct (retcode_true id3_ok); [by eapply write_xing_tag_keeps | by simplify_eq]. }
  destruct (negb (retcode_true id3_ok && retcode_true xing_ok)).
  { simplify_eq. apply (Hmid _ fpw3 w3 Hk3). listed. }
  destruct (copy_loop _ _ fpw3 w3) as [[copied fpw4] w4] eqn:Ecopy.
  pose proof (copy_loop_keeps _ _ _ _ _ _ _ _ _ Hk3 Ecopy) as Hk4.
  destruct (negb copied).
  { simplify_eq. apply (Hmid _ fpw4 w4 Hk4). listed. }
  destruct Hk4 as (_ & Hother & Hsome).
  unfold rename in Heq. destruct Hsome as [c Hc]. rewrite Hc in Heq.
  destruct (te_rename_ok e).
  - simplify_eq. exfalso. apply Hfail. apply last_snoc.
  - simplify_eq. simpl. split; [by apply Hother|].
    eexists. split; [apply last_snoc|]. right. right. split; [done|]. split; [done|].
    by eexists.
Qed.

End Tagging.

(** * The AAC back end *)

Module AacProperties.
Import Aac.
Section AacProperties.
Context `{Double}.

(** The rates of the switch in [setup], in the order of their indices. *)
Definition aac_rates : list Z :=
  [96000; 88200; 64000; 48000; 44100; 32000; 24000; 22050; 16000; 12000; 11025; 8000; 7350].

Lemma sample_rate_index_table (i : nat) (rate : Z) :
  aac_rates !! i = Some rate -> sample_rate_index rate = Some (Z.of_nat i).
Proof.
  intros Hi. do 13 (destruct i as [|i]; [by injection Hi as <-|]). done.
Qed.

Lemma sample_rate_index_Some (rate index : Z) :
  sample_rate_index rate = Some index -> aac_rates !! Z.to_nat index = Some rate.
Proof.
  unfold sample_rate_index. intros Heq.
  repeat match type of Heq with
         | (if ?r =? ?k then _ else _) = _ =>
             destruct (Z.eqb_spec r k); [by simplify_eq|]
         end.
  done.
Qed.

Lemma sample_rate_index_None (rate : Z) :
  rate ∉ aac_rates -> sample_rate_index rate = None.
Proof.
  intros Hout. destruct (sample_rate_index rate) as [index|] eqn:E; [|done].
  exfalso. apply Hout. apply sample_rate_index_Some in E. by eapply list_elem_of_lookup_2.
Qed.

(** Every call of libavformat, libavcodec and libswresample in [setup] succeeds. *)
Definition setup_calls_ok (e : setup_env) : Prop :=
  su_alloc_context_ok e = true /\ su_guess_format_ok e = true /\ su_av_malloc_ok e = true
  /\ su_avio_alloc_ok e = true /\ su_find_encoder_ok e = true /\ su_codec_is_audio e = true
  /\ su_new_stream_ok e = true /\ su_alloc_context3_ok e = true /\ su_parameters_ok e = true
  /\ su_open2_ok e = true /\ su_frame_ok e = true /\ su_tmp_frame_ok e = true
  /\ su_swr_alloc_ok e = true /\ su_swr_init_ok e = true /\ 0 <= su_header_ret e.

Definition is_aac (s : sys) : Prop :=
  codec (s_encoder s) = ENCODER_CODEC_AAC \/ codec (s_encoder s) = ENCODER_CODEC_AACPLUSV2.

(** The pointers of the private state that [close_stream] and the labels of
    [setup] set to null. *)
Definition stream_pointers (s : sys) : list bool :=
  [c (s_self s); frame (s_self s); tmp_frame (s_self s); swr_ctx (s_self s);
   avio_ctx (s_self s)].

Lemma write_packet_wrapper_keeps (buf : list Z) (s : sys) :
  s_live (write_packet_wrapper buf s) = s_live s
  /\ stream_pointers (write_packet_wrapper buf s) = stream_pointers s
  /\ target_samplerate (s_encoder (write_packet_wrapper buf s)) = target_samplerate (s_encoder s).
Proof. done. Qed.

Lemma callbacks_keeps (bufs : list (list Z)) : forall s : sys,
  s_live (callbacks bufs s) = s_live s
  /\ stream_pointers (callbacks bufs s) = stream_pointers s
  /\ target_samplerate (s_encoder (callbacks bufs s)) = target_samplerate (s_encoder s).
Proof.
  induction bufs as [|buf bufs IH]; intros s; [done|].
  change (callbacks (buf :: bufs) s) with (callbacks bufs (write_packet_wrapper buf s)).
  destruct (IH (write_packet_wrapper buf s)) as (-> & -> & ->).
  apply write_packet_wrapper_keeps.
Qed.

Lemma close_stream_live (s : sys) :
  stream_pointers s = [true; true; true; true; true] ->
  s_live (close_stream s)
  = av_free AvSwrContext (av_free AvTmpFrame (av_free AvFrame (av_free AvCodecContext (s_live s))))
  /\ stream_pointers (close_stream s) = [false; false; false; false; true].
Proof.
  unfold stream_pointers. intros Hp. injection Hp as Hc Hf Ht Hs Ha.
  unfold close_stream. cbv zeta. rewrite Hc, Hf, Ht, Hs. simpl. by rewrite Ha.
Qed.

(** The state in which [setup] reaches its switch on the sample rate. *)
Lemma setup_reaches_switch (e : setup_env) (s : sys) :
  setup_calls_ok e -> is_aac s ->
  exists s1 : sys,
    setup e s
    = match sample_rate_index (target_samplerate (s_encoder s)) with
      | None => Some (fail5 s1)
      | Some index => Some (SUCCEEDED, on_self (set_sri (Z.shiftl index 2)) s1)
      end
    /\ s_live s1
       = [AvSwrContext; AvTmpFrame; AvFrame; AvCodecContext; AvioContext; AvioBuffer;
          AvFormatContext] ++ s_live s
    /\ stream_pointers s1 = [true; true; true; true; true].
Proof.
  intros (H1 & H2 & H3 & H4 & H5 & H6 & H7 & H8 & H9 & H10 & H11 & H12 & H13 & H14 & Hret)
         Hcodec.
  assert ((su_header_ret e <? 0) = false) as Hret' by lia.
  unfold setup, add_stream, open_stream, write_header.
  rewrite H1, H2, H3, H4, H5, H6, H7, H8, H9, H10, H11, H12, H13, H14.
  cbn [negb].
  destruct Hcodec as [Hc | Hc]; rewrite Hc; cbv beta iota zeta; rewrite Hret';
    match goal with
    | |- context [callbacks (su_header_bufs e) ?s0] =>
        pose proof (callbacks_keeps (su_header_bufs e) s0) as (Hlive & Hptrs & Hrate)
    end;
    (eexists; split; [simpl; rewrite Hrate; reflexivity|]);
    (split; [exact Hlive | exact Hptrs]).
Qed.

Lemma fail5_torn_down (s1 : sys) (live : list av_object) :
  s_live s1
  = [AvSwrContext; AvTmpFrame; AvFrame; AvCodecContext; AvioContext; AvioBuffer;
     AvFormatContext] ++ live ->
  stream_pointers s1 = [true; true; true; true; true] ->
  exists s' : sys,
    fail5 s1 = (FAILED, s') /\ s_live s' = live
    /\ stream_pointers s' = [false; false; false; false; false].
Proof.
  intros Hlive Hptrs. destruct (close_stream_live s1 Hptrs) as [Hl Hp].
  eexists. split; [reflexivity|]. split.
  - simpl. rewrite Hl, Hlive. reflexivity.
  - unfold stream_pointers in *. simpl. by injection Hp as -> -> -> -> _.
Qed.

(** Whatever the library calls do, [setup] does not succeed for a rate that
    is not in the table. *)
Lemma setup_unknown_rate_fails (e : setup_env) (s : sys) (r : retcode) (s' : sys) :
  target_samplerate (s_encoder s) ∉ aac_rates ->
  setup e s = Some (r, s') -> r = FAILED.
Proof.
  intros Hout Heq. cbv delta [setup fail5 fail4 fail2] beta in Heq.
  destruct (match codec (s_encoder s) with
            | ENCODER_CODEC_AAC => Some PF_AAC
            | ENCODER_CODEC_AACPLUSV2 => Some PF_AACP2
            | _ => None
            end) as [kind|]; [|by simplify_eq].
  cbv zeta in Heq.
  destruct (negb (su_alloc_context_ok e)); [by simplify_eq|].
  destruct (negb (su_guess_format_ok e)); [by simplify_eq|].
  destruct (negb (su_av_malloc_ok e)); [by simplify_eq|].
  destruct (negb (su_avio_alloc_ok e)); [done|].
  destruct (add_stream e _) as [ok1 s1] eqn:E1.
  destruct (negb ok1); [by simplify_eq|].
  destruct (open_stream e s1) as [ok2 s2] eqn:E2.
  destruct (negb ok2); [by simplify_eq|].
  destruct (write_header _ _ s2) as [ret s3] eqn:E3.
  destruct (ret <? 0); [by simplify_eq|].
  assert (target_samplerate (s_encoder s3) = target_samplerate (s_encoder s)) as Hrate.
  { unfold write_header in E3. injection E3 as _ <-.
    match goal with
    | |- context [callbacks ?bufs ?s0] =>
        pose proof (callbacks_keeps bufs s0) as (_ & _ & Hrate)
    end.
    simpl. rewrite Hrate. simpl.
    unfold open_stream in E2. unfold add_stream in E1.
    repeat match type of E2 with
           | (if ?b then _ else _) = _ => destruct b
           end; simplify_eq; simpl;
    repeat match type of E1 with
           | (if ?b then _ else _) = _ => destruct b
           end; by simplify_eq. }
  rewrite Hrate, (sample_rate_index_None _ Hout) in Heq. by simplify_eq.
Qed.

(** C5: the switch of [setup] maps exactly the 13 rates 96000, 88200, 64000,
    48000, 44100, 32000, 24000, 22050, 16000, 12000, 11025, 8000 and 7350 to
    the indices 0 to 12. With every library call succeeding, a target rate
    that is the [i]-th of the table makes [setup] succeed with the index
    stored shifted (the third byte of each ADTS header is then [0x40 | i << 2]);
    a target rate outside the table makes [setup] return FAILED with the
    objects it allocated freed, and that step of [live_aac_encoder_main]
    leaves the encoder stopped without its private state. Whatever the
    library calls do, [setup] does not succeed for a rate outside the table. *)
Theorem aac_setup_sample_rate (e : step_env) (s : sys) :
  setup_calls_ok (sp_setup e) -> is_aac s ->
  length aac_rates = 13%nat
  /\ (forall (i : nat) (rate : Z),
        aac_rates !! i = Some rate -> sample_rate_index rate = Some (Z.of_nat i))
  /\ (forall i : nat,
        aac_rates !! i = Some (target_samplerate (s_encoder s)) ->
        exists s' : sys,
          setup (sp_setup e) s = Some (SUCCEEDED, s')
          /\ sri (s_self s') = Z.shiftl (Z.of_nat i) 2
          /\ forall n_channels size,
               adts_header (sri (s_self s')) n_channels size !! 2%nat
               = Some (Z.lor 64 (Z.shiftl (Z.of_nat i) 2)))
  /\ (target_samplerate (s_encoder s) ∉ aac_rates ->
        (exists s' : sys,
           setup (sp_setup e) s = Some (FAILED, s')
           /\ s_live s' = s_live s
           /\ stream_pointers s' = [false; false; false; false; false])
        /\ (forall (e0 : setup_env) (r : retcode) (s' : sys),
              setup e0 s = Some (r, s') -> r = FAILED)
        /\ (encoder_state (s_encoder s) = ES_STARTING ->
            exists (enc : encoder) (out : list encoder_op_packet),
              live_aac_encoder_main e s = Some (enc, None, s_live s, out)
              /\ encoder_state enc = ES_STOPPED
              /\ run_request_f enc = false
              /\ run_encoder enc = false)).
Proof.
  intros Hok Hcodec.
  destruct (setup_reaches_switch (sp_setup e) s Hok Hcodec) as (s1 & Hsetup & Hlive & Hptrs).
  split; [done|]. split; [apply sample_rate_index_table|]. split.
  - intros i Hi. rewrite (sample_rate_index_table _ _ Hi) in Hsetup.
    eexists. split; [exact Hsetup|]. split; [done|].
    intros n_channels size. cbn [s_self on_self sri set_sri adts_header].
    cbv zeta. cbn [lookup list_lookup]. f_equal.
    apply lookup_lt_Some in Hi. change (length aac_rates) with 13%nat in Hi.
    do 13 (destruct i as [|i]; [reflexivity|]). lia.
  - intros Hout. rewrite (sample_rate_index_None _ Hout) in Hsetup.
    destruct (fail5_torn_down s1 (s_live s) Hlive Hptrs) as (s' & Hfail & Hl & Hp).
    rewrite Hfail in Hsetup. split; [by exists s'|]. split.
    + intros e0 r s0. by apply setup_unknown_rate_fails.
    + intros Hstate. unfold live_aac_encoder_main. rewrite Hstate, Hsetup.
      cbn [mbind option_bind]. cbv beta iota zeta. unfold bailout. rewrite Hl.
      by do 2 eexists.
Qed.

End AacProperties.
End AacProperties.

(** * The packet streams of the live back ends *)

Section Flags.

Lemma clear_flag_idem (fl mask : Z) : clear_flag (clear_flag fl mask) mask = clear_flag fl mask.
Proof.
  unfold clear_flag. apply Z.bits_inj'. intros n Hn.
  rewrite !Z.ldiff_spec. destruct (Z.testbit fl n), (Z.testbit mask n); done.
Qed.

Lemma to_int_succ (z : Z) : INT_MIN <= z < INT_MAX -> to_int (z + 1) = z + 1.
Proof. unfold INT_MIN, INT_MAX, to_int. intros Hz. rewrite Z.mod_small; lia. Qed.

End Flags.


(** ** Segments of a packet stream *)

Section Segments.
Context `{Double}.

Definition flagged (mask : Z) (p : encoder_op_packet) : bool :=
  has_flag (flags (header p)) mask.

(** [p] may come after [prev] in a packet stream. [p] opens a segment when
    its serial number is above the one before; otherwise it continues the
    segment of [prev], which FINAL has not closed. The flag INITIAL is on the
    packet that opens a segment, unless that packet is the FINAL one, and on
    no other; HEADER packets come first in their segment; a FINAL packet has
    no payload. *)
Definition follows (prev : option encoder_op_packet) (p : encoder_op_packet) : bool :=
  let opens :=
    match prev with
    | None => true
    | Some q => serial (header q) <? serial (header p)
    end in
  let continues :=
    match prev with
    | None => false
    | Some q => (serial (header q) =? serial (header p)) && negb (flagged PF_FINAL q)
    end in
  let after_header :=
    match prev with
    | None => false
    | Some q => flagged PF_HEADER q
    end in
  (opens || continues)
  && (if opens then flagged PF_INITIAL p || flagged PF_FINAL p else negb (flagged PF_INITIAL p))
  && (if flagged PF_HEADER p then opens || after_header else true)
  && (if flagged PF_FINAL p then data_size (header p) =? 0 else true).

Fixpoint segments_ok (prev : option encoder_op_packet) (l : list encoder_op_packet) : bool :=
  match l with
  | [] => true
  | p :: rest => follows prev p && segments_ok (Some p) rest
  end.

Lemma segments_ok_snoc (l : list encoder_op_packet) (p : encoder_op_packet) :
  forall prev,
    segments_ok prev (l ++ [p])
    = segments_ok prev l && follows (match last l with Some q => Some q | None => prev end) p.
Proof.
  induction l as [|q l IH]; intros prev.
  - simpl. by rewrite andb_true_r.
  - change ((q :: l) ++ [p]) with (q :: (l ++ [p])). cbn [segments_ok].
    rewrite IH, andb_assoc. do 2 f_equal.
    destruct l as [|q' l]; [done|]. rewrite last_cons_cons.
    by destruct (last (q' :: l)) eqn:E; [|apply last_None in E].
Qed.

(** What a back end knows of its stream: the serial number, the flags of the
    next packet and the packets written. *)
Record view := {
  v_state : encoder_state_t;
  v_serial : Z;
  v_kind : Z;
  v_flags : Z;
  v_out : list encoder_op_packet
}.

(** Flags of the codec, which are none of INITIAL, HEADER and FINAL. *)
Definition plain (kind : Z) : Prop :=
  has_flag kind PF_INITIAL = false /\ has_flag kind PF_HEADER = false
  /\ has_flag kind PF_FINAL = false.

(** No packet of the stream has a serial number above the current one [n]. *)
Definition settled (n : Z) (v : view) : Prop :=
  v_serial v = n
  /\ segments_ok None (v_out v) = true
  /\ forall q, last (v_out v) = Some q -> serial (header q) <= n.

(** Inside [avformat_write_header] the flags are HEADER and INITIAL until a
    first packet goes out and HEADER from then on; after it they are INITIAL
    until a first packet goes out and none from then on. *)
Inductive stage := Heading | Open.

Definition stage_flags (g : stage) (fresh : bool) : Z :=
  match g, fresh with
  | Heading, true => Z.lor PF_HEADER PF_INITIAL
  | Heading, false => PF_HEADER
  | Open, true => PF_INITIAL
  | Open, false => 0
  end.

(** The stream of a back end in the state [st] whose segment [n] is under way. *)
Definition streaming (g : stage) (st : encoder_state_t) (n : Z) (v : view) : Prop :=
  v_state v = st
  /\ v_serial v = n
  /\ segments_ok None (v_out v) = true
  /\ plain (v_kind v)
  /\ ((v_flags v = stage_flags g true
       /\ forall q, last (v_out v) = Some q -> serial (header q) < n)
      \/ (v_flags v = stage_flags g false
          /\ exists q, last (v_out v) = Some q
                       /\ serial (header q) = n
                       /\ flagged PF_FINAL q = false
                       /\ (g = Heading -> flagged PF_HEADER q = true))).

Lemma streaming_settled (g : stage) (st : encoder_state_t) (n : Z) (v : view) :
  streaming g st n v -> settled n v.
Proof.
  intros (_ & Hn & Hok & _ & [(_ & Hfresh) | (_ & q & Hlast & Hq & _)]);
    (split; [done|]); (split; [done|]).
  - intros q Hq. apply Hfresh in Hq. lia.
  - intros q' Hq'. simplify_eq. lia.
Qed.

Lemma has_flag_lor (a b mask : Z) :
  has_flag (Z.lor a b) mask = has_flag a mask || has_flag b mask.
Proof.
  unfold has_flag. rewrite Z.land_lor_distr_l.
  destruct (Z.eqb_spec (Z.land a mask) 0) as [-> | Ha]; simpl.
  - done.
  - apply negb_true_iff, Z.eqb_neq. intros Hz. apply Z.lor_eq_0_iff in Hz. by destruct Hz.
Qed.

Lemma streaming_flags (g : stage) (st : encoder_state_t) (n : Z) (v : view) :
  streaming g st n v -> v_flags v = stage_flags g true \/ v_flags v = stage_flags g false.
Proof. intros (_ & _ & _ & _ & [(-> & _) | (-> & _)]); auto. Qed.

Lemma streaming_no_final (g : stage) (st : encoder_state_t) (n : Z) (v : view) :
  streaming g st n v -> has_flag (v_flags v) PF_FINAL = false.
Proof. intros Hs. destruct (streaming_flags _ _ _ _ Hs) as [-> | ->]; by destruct g. Qed.

(** A packet with the flags of the view, those of the codec and [extra]
    ones keeps the stream. *)
Lemma streaming_emit (g : stage) (st : encoder_state_t) (n : Z) (v : view)
    (p : encoder_op_packet) (extra : Z) :
  streaming g st n v ->
  serial (header p) = v_serial v ->
  flags (header p) = Z.lor (Z.lor (v_kind v) (v_flags v)) extra ->
  plain extra ->
  streaming g st n {| v_state := v_state v; v_serial := v_serial v; v_kind := v_kind v;
                      v_flags := clear_flag (v_flags v) PF_INITIAL;
                      v_out := v_out v ++ [p] |}.
Proof.
  intros Hstr Hser Hflags (Hx1 & Hx2 & Hx3).
  pose proof (streaming_no_final g st n v Hstr) as Hnf.
  destruct Hstr as (Hst & Hn & Hok & Hkind & Hcase). pose proof Hkind as (Hk1 & Hk2 & Hk3).
  rewrite Hn in Hser.
  assert (flagged PF_INITIAL p = has_flag (v_flags v) PF_INITIAL) as Hinit.
  { unfold flagged. by rewrite Hflags, !has_flag_lor, Hk1, Hx1, orb_false_r. }
  assert (flagged PF_HEADER p = has_flag (v_flags v) PF_HEADER) as Hhead.
  { unfold flagged. by rewrite Hflags, !has_flag_lor, Hk2, Hx2, orb_false_r. }
  assert (flagged PF_FINAL p = false) as Hfin.
  { unfold flagged. by rewrite Hflags, !has_flag_lor, Hk3, Hx3, Hnf. }
  unfold streaming. cbn [v_out v_flags v_serial v_kind v_state].
  rewrite segments_ok_snoc, Hok, last_snoc. cbn [andb].
  assert (follows (last (v_out v)) p = true
          /\ clear_flag (v_flags v) PF_INITIAL = stage_flags g false
          /\ (g = Heading -> flagged PF_HEADER p = true)) as (Hf & Hfl & Hh).
  { destruct Hcase as [(Hfv & Hfresh) | (Hfv & q & Hlast & Hq & Hqf & Hqh)].
    - rewrite Hfv in *. unfold follows. rewrite Hfin.
      assert (match last (v_out v) with
              | Some q => serial (header q) <? serial (header p)
              | None => true
              end = true) as ->.
      { destruct (last (v_out v)) as [q|]; [|done]. specialize (Hfresh q eq_refl). lia. }
      destruct g; rewrite Hinit, Hhead; by vm_compute.
    - rewrite Hfv in *. unfold follows. rewrite Hlast, Hfin, Hqf, Hq, Hser.
      rewrite Z.ltb_irrefl, Z.eqb_refl.
      destruct g; rewrite Hinit, Hhead; [rewrite (Hqh eq_refl)|]; by vm_compute. }
  destruct (last (v_out v)) eqn:Elast; rewrite Hf;
    (split; [done|]); (split; [done|]); (split; [done|]); (split; [done|]);
    right; (split; [done|]); by exists p.
Qed.

(** The [write_header] of a back end opens the stage of the header ... *)
Lemma settled_heading (n : Z) (v : view) (st : encoder_state_t) :
  settled n v -> plain (v_kind v) -> INT_MIN <= n < INT_MAX ->
  streaming Heading st (n + 1)
    {| v_state := st; v_serial := to_int (v_serial v + 1); v_kind := v_kind v;
       v_flags := Z.lor PF_HEADER PF_INITIAL;
       v_out := v_out v |}.
Proof.
  intros (Hn & Hok & Hle) Hkind Hrange.
  assert (to_int (v_serial v + 1) = n + 1) as Hsucc.
  { rewrite Hn. unfold to_int, INT_MIN, INT_MAX in *. rewrite Z.mod_small; lia. }
  split; [done|]. split; [done|]. split; [done|]. split; [done|]. left. split; [done|].
  intros q Hq. apply Hle in Hq. lia.
Qed.

(** ... and leaves a stream that is open. *)
Lemma heading_open (st : encoder_state_t) (n : Z) (v : view) :
  streaming Heading st n v ->
  streaming Open st n {| v_state := v_state v; v_serial := v_serial v; v_kind := v_kind v;
                         v_flags := clear_flag (v_flags v) PF_HEADER;
                         v_out := v_out v |}.
Proof.
  intros (Hst & Hn & Hok & Hkind & [(Hflags & Hfresh) | (Hflags & q & Hlast & Hq & Hqf & _)]);
    (split; [done|]); (split; [done|]); (split; [done|]); (split; [done|]);
    cbn [v_flags v_out v_serial]; rewrite Hflags.
  - by left.
  - right. split; [done|]. by exists q.
Qed.

(** The FINAL packet of [write_trailer] closes the segment. *)
Lemma streaming_final (g : stage) (st st' : encoder_state_t) (n : Z) (v : view)
    (p : encoder_op_packet) (pf : Z) :
  streaming g st n v ->
  serial (header p) = v_serial v ->
  flags (header p) = Z.lor (Z.lor (v_kind v) PF_FINAL) 0 ->
  data_size (header p) = 0 ->
  settled n {| v_state := st'; v_serial := v_serial v; v_kind := v_kind v; v_flags := pf;
               v_out := v_out v ++ [p] |}.
Proof.
  intros (Hst & Hn & Hok & (Hk1 & Hk2 & Hk3) & Hcase) Hser Hflags Hsize. unfold settled.
  rewrite Hn in Hser.
  assert (flagged PF_INITIAL p = false) as Hinit.
  { unfold flagged. by rewrite Hflags, !has_flag_lor, Hk1. }
  assert (flagged PF_HEADER p = false) as Hhead.
  { unfold flagged. by rewrite Hflags, !has_flag_lor, Hk2. }
  assert (flagged PF_FINAL p = true) as Hfin.
  { unfold flagged. by rewrite Hflags, !has_flag_lor, Hk3. }
  cbn [v_out v_flags v_serial]. rewrite segments_ok_snoc, Hok, last_snoc. cbn [andb].
  split; [done|]. split; [|intros q Hq; simplify_eq; lia].
  unfold follows. rewrite Hinit, Hhead, Hfin, Hsize.
  destruct Hcase as [(_ & Hfresh) | (_ & q & Hlast & Hq & Hqf & _)].
  - destruct (last (v_out v)) as [q|]; [|done].
    specialize (Hfresh q eq_refl).
    assert ((serial (header q) <? serial (header p)) = true) as -> by lia. done.
  - rewrite Hlast, Hqf, Hq, Hser, Z.ltb_irrefl, Z.eqb_refl. done.
Qed.

Lemma plain_0 : plain 0.
Proof. done. Qed.

Lemma streaming_restate (g : stage) (st st' : encoder_state_t) (n : Z) (v : view) :
  streaming g st n v ->
  streaming g st' n {| v_state := st'; v_serial := v_serial v; v_kind := v_kind v;
                       v_flags := v_flags v; v_out := v_out v |}.
Proof. intros (_ & Hrest). by split. Qed.

(** Between two calls of its main function a back end has a settled stream,
    and an open one while it is running. *)
Definition session_invariant (v : view) : Prop :=
  settled (v_serial v) v /\ (v_state v = ES_RUNNING -> streaming Open ES_RUNNING (v_serial v) v).

End Segments.
Module WebmStream.
Import Webm.
Section WebmStream.
Context `{Double}.

(** The packet [write_packet] sends while [self->packet_flags] is [pf]. *)
Definition stamp (s : sys) (pf : Z) (buf : list Z) : encoder_op_packet :=
  {| header := {| bit_rate := bitrate (s_encoder s) mod 65536;
                  sample_rate := target_samplerate (s_encoder s) mod 4294967296;
                  n_channels := enc_n_channels (s_encoder s) mod 65536;
                  flags := Z.lor PF_WEBM pf;
                  serial := oggserial (s_encoder s);
                  timestamp := ddiv (d_of_int (serial_samples (s_self s)))
                                    (d_of_int (target_samplerate (s_encoder s)));
                  data_size := Z.of_nat (length buf) |};
     data := buf |}.

(** The packets of one libavformat call that hands [bufs] to [write_packet]:
    the flag INITIAL goes out with the first of them only. *)
Definition stamps (s : sys) (bufs : list (list Z)) : list encoder_op_packet :=
  match bufs with
  | [] => []
  | buf :: rest =>
      stamp s (packet_flags (s_self s)) buf
      :: map (stamp s (clear_flag (packet_flags (s_self s)) PF_INITIAL)) rest
  end.

(** [s'] is [s] but for the packet flags, the time stamp and the packets written. *)
Definition same_stream (s s' : sys) : Prop :=
  s_live s' = s_live s
  /\ (forall pf, set_packet_flags pf (s_self s') = set_packet_flags pf (s_self s))
  /\ (forall ts, set_enc_timestamp ts (s_encoder s') = set_enc_timestamp ts (s_encoder s)).

Lemma webm_same_stream_self {A} (f : WebMState -> A) (s s' : sys) :
  same_stream s s' ->
  (forall pf x, f (set_packet_flags pf x) = f x) -> f (s_self s') = f (s_self s).
Proof.
  intros (_ & Hself & _) Hf. by rewrite <- (Hf 0 (s_self s')), Hself, Hf.
Qed.

Lemma webm_same_stream_encoder {A} (f : encoder -> A) (s s' : sys) :
  same_stream s s' ->
  (forall ts x, f (set_enc_timestamp ts x) = f x) -> f (s_encoder s') = f (s_encoder s).
Proof.
  intros (_ & _ & Henc) Hf.
  by rewrite <- (Hf (d_of_int 0) (s_encoder s')), Henc, Hf.
Qed.

Lemma webm_same_stream_stamp (s s' : sys) (pf : Z) (buf : list Z) :
  same_stream s s' -> stamp s' pf buf = stamp s pf buf.
Proof.
  intros Hsame. unfold stamp.
  rewrite (webm_same_stream_encoder bitrate s s' Hsame), (webm_same_stream_encoder target_samplerate s s' Hsame),
    (webm_same_stream_encoder enc_n_channels s s' Hsame), (webm_same_stream_encoder oggserial s s' Hsame),
    (webm_same_stream_self serial_samples s s' Hsame); done.
Qed.

Lemma webm_same_stream_refl (s : sys) : same_stream s s.
Proof. done. Qed.

Lemma webm_same_stream_trans (s1 s2 s3 : sys) :
  same_stream s1 s2 -> same_stream s2 s3 -> same_stream s1 s3.
Proof.
  intros (Hl & Hs & He) (Hl' & Hs' & He'). split; [congruence|].
  split; intros; [rewrite Hs' | rewrite He']; auto.
Qed.

Lemma webm_write_packet_spec (buf : list Z) (s : sys) :
  same_stream s (write_packet buf (Z.of_nat (length buf)) s)
  /\ s_out (write_packet buf (Z.of_nat (length buf)) s)
     = s_out s ++ [stamp s (packet_flags (s_self s)) buf]
  /\ packet_flags (s_self (write_packet buf (Z.of_nat (length buf)) s))
     = clear_flag (packet_flags (s_self s)) PF_INITIAL.
Proof. done. Qed.

Lemma webm_callbacks_spec (bufs : list (list Z)) : forall s : sys,
  same_stream s (callbacks bufs s)
  /\ s_out (callbacks bufs s) = s_out s ++ stamps s bufs
  /\ packet_flags (s_self (callbacks bufs s))
     = match bufs with
       | [] => packet_flags (s_self s)
       | _ :: _ => clear_flag (packet_flags (s_self s)) PF_INITIAL
       end.
Proof.
  induction bufs as [|buf bufs IH]; intros s.
  - split; [done|]. split; [|done]. simpl. by rewrite app_nil_r.
  - change (callbacks (buf :: bufs) s)
      with (callbacks bufs (write_packet buf (Z.of_nat (length buf)) s)).
    destruct (webm_write_packet_spec buf s) as (Hsame & Hout & Hpf).
    destruct (IH (write_packet buf (Z.of_nat (length buf)) s)) as (Hsame' & Hout' & Hpf').
    split; [by eapply webm_same_stream_trans|]. split.
    + rewrite Hout', Hout, <- app_assoc. f_equal. simpl. f_equal.
      destruct bufs as [|buf2 bufs]; [done|]. unfold stamps. rewrite Hpf, clear_flag_idem.
      change (?a :: map ?f bufs) with (map f (buf2 :: bufs)).
      apply map_ext. intros b. by apply webm_same_stream_stamp.
    + rewrite Hpf'. destruct bufs; [done|]. by rewrite Hpf, clear_flag_idem.
Qed.


Lemma webm_stamps_serial (s : sys) (bufs : list (list Z)) :
  Forall (fun q => serial (header q) = oggserial (s_encoder s)) (stamps s bufs).
Proof.
  destruct bufs as [|buf rest]; [done|]. apply Forall_cons. split; [done|].
  apply Forall_map. by apply Forall_true.
Qed.



(** *** The stream of the WebM back end *)

Definition view_of (s : sys) : view :=
  {| v_state := encoder_state (s_encoder s); v_serial := oggserial (s_encoder s);
     v_kind := PF_WEBM; v_flags := packet_flags (s_self s); v_out := s_out s |}.

Lemma webm_plain_webm : plain PF_WEBM.
Proof. done. Qed.

Lemma webm_write_packet_streaming g st n (buf : list Z) (size : Z) (s : sys) :
  streaming g st n (view_of s) -> streaming g st n (view_of (write_packet buf size s)).
Proof.
  intros Hs.
  refine (streaming_emit g st n (view_of s)
            {| header := {| bit_rate := bitrate (s_encoder s) mod 65536;
                            sample_rate := target_samplerate (s_encoder s) mod 4294967296;
                            n_channels := enc_n_channels (s_encoder s) mod 65536;
                            flags := Z.lor PF_WEBM (packet_flags (s_self s));
                            serial := oggserial (s_encoder s);
                            timestamp := ddiv (d_of_int (serial_samples (s_self s)))
                                              (d_of_int (target_samplerate (s_encoder s)));
                            data_size := size |};
               data := buf |} 0 Hs _ _ plain_0); [done|].
  symmetry. apply Z.lor_0_r.
Qed.

Lemma webm_callbacks_streaming g st n (bufs : list (list Z)) : forall s : sys,
  streaming g st n (view_of s) -> streaming g st n (view_of (callbacks bufs s)).
Proof.
  induction bufs as [|buf bufs IH]; intros s Hs; [done|].
  change (callbacks (buf :: bufs) s)
    with (callbacks bufs (write_packet buf (Z.of_nat (length buf)) s)).
  by apply IH, webm_write_packet_streaming.
Qed.

Lemma webm_write_received_streaming g st n (l : list received) : forall s : sys,
  streaming g st n (view_of s) -> streaming g st n (view_of (write_received l s).2).
Proof.
  induction l as [|r l IH]; intros s Hs; [done|]. cbn [write_received]. cbv zeta.
  pose proof (webm_callbacks_streaming g st n (rx_bufs r) s Hs) as Hs1.
  destruct (rx_ok r); [by apply IH | done].
Qed.

Lemma webm_frame_rounds_streaming g st n (rounds : list round) : forall s : sys,
  streaming g st n (view_of s) -> streaming g st n (view_of (frame_rounds rounds s).2).
Proof.
  induction rounds as [|r rounds IH]; intros s Hs; [done|]. cbn [frame_rounds].
  destruct (negb (rd_input r)); [done|]. cbv zeta.
  destruct (negb (rd_writable_ok r)); [done|].
  destruct (negb (rd_convert_ok r)); [done|].
  destruct (negb (rd_send_ok r)); [done|].
  match goal with
  | |- context [write_received (rd_received r) ?s1] =>
      pose proof (webm_write_received_streaming g st n (rd_received r) s1 Hs) as Hs1;
      destruct (write_received (rd_received r) s1) as [ok s2]
  end.
  destruct (negb ok); [done|]. destruct (rd_received r); [by apply IH | done].
Qed.

Lemma webm_write_audio_frame_streaming g st n (fe : frame_env) (final : bool) (s : sys) :
  streaming g st n (view_of s) ->
  streaming g st n (view_of (write_audio_frame fe final s).2).
Proof.
  intros Hs. unfold write_audio_frame. destruct final; [|by apply webm_frame_rounds_streaming].
  cbv zeta. destruct (negb (rd_send_ok _)); [done|].
  pose proof (webm_write_received_streaming g st n (rd_received (hd quiet_round (fe_rounds fe))) s Hs)
    as Hs1.
  destruct (write_received _ s) as [ok s2]. by destruct (negb ok).
Qed.

Lemma webm_write_header_open st n (ret : Z) (bufs : list (list Z)) (s : sys) :
  settled n (view_of s) -> encoder_state (s_encoder s) = st -> INT_MIN <= n < INT_MAX ->
  streaming Open st (n + 1) (view_of (write_header ret bufs s).2).
Proof.
  intros Hs Hst Hrange. unfold write_header. cbv zeta. cbn [snd].
  pose proof (settled_heading n (view_of s) st Hs webm_plain_webm Hrange) as Hh.
  match goal with
  | |- context [callbacks bufs ?s1] =>
      pose proof (webm_callbacks_streaming Heading st (n + 1) bufs s1) as Hc
  end.
  apply heading_open in Hc; [exact Hc|]. rewrite <- Hst in Hh |- *. exact Hh.
Qed.

Lemma webm_write_trailer_settled g st n (ret : Z) (bufs : list (list Z)) (s : sys) :
  streaming g st n (view_of s) ->
  settled n (view_of (write_trailer ret bufs s).2)
  /\ encoder_state (s_encoder (write_trailer ret bufs s).2) = st.
Proof.
  intros Hs. unfold write_trailer. cbv zeta. cbn [snd].
  pose proof (webm_callbacks_streaming g st n bufs s Hs) as Hc.
  set (s1 := callbacks bufs s) in *.
  split; [|by destruct Hc as [Hst _]].
  refine (streaming_final g st st n (view_of s1)
            {| header := {| bit_rate := bitrate (s_encoder s1) mod 65536;
                            sample_rate := target_samplerate (s_encoder s1) mod 4294967296;
                            n_channels := enc_n_channels (s_encoder s1) mod 65536;
                            flags := Z.lor PF_WEBM PF_FINAL;
                            serial := oggserial (s_encoder s1);
                            timestamp := ddiv (d_of_int (serial_samples (s_self s1)))
                                              (d_of_int (target_samplerate (s_encoder s1)));
                            data_size := 0 |};
               data := [] |} 0 Hc _ _ _); done.
Qed.


Lemma webm_close_stream_view (s : sys) : view_of (close_stream s) = view_of s.
Proof.
  unfold close_stream. cbv zeta.
  by destruct (c (s_self s)), (frame (s_self s)), (tmp_frame (s_self s)), (swr_ctx (s_self s)).
Qed.

Lemma webm_add_stream_view (e : setup_env) (s : sys) : view_of (add_stream e s).2 = view_of s.
Proof.
  unfold add_stream.
  by destruct (su_find_encoder_ok e), (su_codec_is_audio e), (su_new_stream_ok e),
    (su_alloc_context3_ok e), (su_parameters_ok e).
Qed.

Lemma webm_open_stream_view (e : setup_env) (s : sys) : view_of (open_stream e s).2 = view_of s.
Proof.
  unfold open_stream.
  by destruct (su_open2_ok e), (su_swr_alloc_ok e), (su_swr_init_ok e).
Qed.

Lemma webm_fail2_spec (s : sys) : exists s', fail2 s = (FAILED, s') /\ view_of s' = view_of s.
Proof. by eexists. Qed.

Lemma webm_fail4_spec (s : sys) : exists s', fail4 s = (FAILED, s') /\ view_of s' = view_of s.
Proof. by eexists. Qed.

Lemma webm_fail5_spec (s : sys) : exists s', fail5 s = (FAILED, s') /\ view_of s' = view_of s.
Proof.
  unfold fail5. destruct (webm_fail4_spec (close_stream s)) as (s' & Heq & Hv).
  exists s'. split; [done|]. by rewrite Hv, webm_close_stream_view.
Qed.

Lemma webm_teardown_settled n (s : sys) :
  settled n (view_of s) -> settled n (view_of (teardown s)).
Proof.
  intros Hs. unfold teardown.
  change (settled n (view_of (close_stream s))). by rewrite webm_close_stream_view.
Qed.

(** [setup] leaves a settled stream, and an open one when it succeeds. *)
Lemma webm_setup_stream st n (e : setup_env) (s : sys) (r : retcode) (s' : sys) :
  settled n (view_of s) -> encoder_state (s_encoder s) = st -> INT_MIN <= n < INT_MAX ->
  setup e s = Some (r, s') ->
  match r with
  | SUCCEEDED => streaming Open st (n + 1) (view_of s')
  | FAILED => settled n (view_of s') \/ settled (n + 1) (view_of s')
  end.
Proof.
  intros Hs Hst Hrange Heq. cbv delta [setup] beta in Heq.
  assert (forall x : sys, view_of x = view_of s -> settled n (view_of x)) as Hsame.
  { intros x ->. exact Hs. }
  destruct (codec (s_encoder s)); try (simplify_eq; cbv beta iota; left; done).
  all: cbv zeta in Heq.
  all: destruct (negb (su_alloc_context_ok e));
         [simplify_eq; cbv beta iota; left; by apply Hsame|].
  all: destruct (negb (su_guess_format_ok e));
         [match type of Heq with
          | Some (fail2 ?x) = _ => destruct (webm_fail2_spec x) as (s0 & Ef & Hv)
          end; rewrite Ef in Heq; injection Heq as <- <-; cbv beta iota; left; apply Hsame;
          by rewrite Hv|].
  all: destruct (negb (su_av_malloc_ok e));
         [match type of Heq with
          | Some (fail2 ?x) = _ => destruct (webm_fail2_spec x) as (s0 & Ef & Hv)
          end; rewrite Ef in Heq; injection Heq as <- <-; cbv beta iota; left; apply Hsame;
          by rewrite Hv|].
  all: destruct (negb (su_avio_alloc_ok e)); [done|].
  all: match type of Heq with
       | context [add_stream ?e0 ?s0] =>
           pose proof (webm_add_stream_view e0 s0) as Hv1;
           destruct (add_stream e0 s0) as [ok1 s1]
       end.
  all: cbn [snd] in Hv1.
  all: destruct (negb ok1);
         [destruct (webm_fail4_spec s1) as (s0 & Ef & Hv); rewrite Ef in Heq; injection Heq as <- <-;
          cbv beta iota; left; apply Hsame; by rewrite Hv, Hv1|].
  all: pose proof (webm_open_stream_view e s1) as Hv2; destruct (open_stream e s1) as [ok2 s2].
  all: cbn [snd] in Hv2.
  all: destruct (negb ok2);
         [destruct (webm_fail4_spec s2) as (s0 & Ef & Hv); rewrite Ef in Heq; injection Heq as <- <-;
          cbv beta iota; left; apply Hsame; by rewrite Hv, Hv2, Hv1|].
  all: match type of Heq with
       | context [write_header ?ret ?bufs ?s3] =>
           pose proof (webm_write_header_open st n ret bufs s3) as Hopen;
           destruct (write_header ret bufs s3) as [ret' s4]
       end.
  all: cbn [snd] in Hopen.
  all: assert (streaming Open st (n + 1) (view_of s4)) as Hs4.
  1, 3: apply Hopen; [apply Hsame | |done].
  1, 3: destruct (use_metadata (s_encoder s2)); change (view_of s2 = view_of s);
          rewrite Hv2; exact Hv1.
  1, 2: destruct (use_metadata (s_encoder s2)); rewrite <- Hst;
          change (v_state (view_of s2) = v_state (view_of s)); by rewrite Hv2, Hv1.
  all: destruct (ret' <? 0); [|by simplify_eq].
  all: destruct (webm_fail5_spec s4) as (s0 & Ef & Hv); rewrite Ef in Heq; injection Heq as <- <-.
  all: cbv beta iota; right; rewrite Hv; by eapply streaming_settled.
Qed.

Lemma webm_retag_streaming st n (e : step_env) (s : sys) :
  streaming Open st n (view_of s) -> INT_MIN <= n < INT_MAX ->
  streaming Open st (n + 1) (view_of (retag e s)).
Proof.
  intros Hs Hrange. unfold retag. cbv zeta.
  match goal with
  | |- context [write_trailer ?ret ?bufs ?s0] =>
      destruct (webm_write_trailer_settled Open st n ret bufs s0 Hs) as [Hset Hst];
      destruct (write_trailer ret bufs s0) as [ret1 s1]
  end.
  match goal with
  | |- context [write_header ?ret ?bufs ?s2] =>
      pose proof (webm_write_header_open st n ret bufs s2 Hset Hst Hrange) as Hopen;
      destruct (write_header ret bufs s2) as [ret2 s3]
  end.
  exact Hopen.
Qed.

Lemma webm_flush_streaming st n (e : step_env) (s : sys) :
  streaming Open st n (view_of s) -> INT_MIN <= n < INT_MAX ->
  streaming Open st (n + 1)
    (view_of (let s := s |> on_encoder (set_flush false) in
              let '(_, s) := write_trailer (sp_trailer_ret e) (sp_flush_trailer_bufs e) s in
              let '(_, s) := write_header (sp_flush_header_ret e) (sp_flush_header_bufs e) s in
              s)).
Proof.
  intros Hs Hrange. cbv zeta.
  match goal with
  | |- context [write_trailer ?ret ?bufs ?s0] =>
      destruct (webm_write_trailer_settled Open st n ret bufs s0 Hs) as [Hset Hst];
      destruct (write_trailer ret bufs s0) as [ret1 s1]
  end.
  match goal with
  | |- context [write_header ?ret ?bufs ?s2] =>
      pose proof (webm_write_header_open st n ret bufs s2 Hset Hst Hrange) as Hopen;
      destruct (write_header ret bufs s2) as [ret2 s3]
  end.
  exact Hopen.
Qed.


(** What a call of the main function returns is fine: the invariant holds of
    a back end that keeps its private state, and the stream is well formed
    when the back end stopped. *)
Definition result_ok
    (r : encoder * option WebMState * list av_object * list encoder_op_packet) : Prop :=
  match r with
  | (enc, Some self, live, out) =>
      session_invariant
        (view_of {| s_encoder := enc; s_self := self; s_live := live; s_out := out |})
  | (_, None, _, out) => segments_ok None out = true
  end.

Lemma webm_keep_ok (x : sys) :
  session_invariant (view_of x) -> result_ok (s_encoder x, Some (s_self x), s_live x, s_out x).
Proof. done. Qed.

Lemma webm_streaming_invariant n (x : sys) (st0 st : encoder_state_t) :
  streaming Open st0 n (view_of x) ->
  session_invariant (view_of (on_encoder (set_encoder_state st) x)).
Proof.
  intros Hs. pose proof Hs as (_ & Hn & _).
  pose proof (streaming_restate Open st0 st n (view_of x) Hs) as Hs'.
  split.
  - change (settled (v_serial (view_of x)) (view_of x)). rewrite Hn.
    by eapply streaming_settled.
  - intros Hst. cbn [v_state view_of on_encoder s_encoder] in Hst.
    change (encoder_state (set_encoder_state st (s_encoder x))) with st in Hst. subst st.
    change (v_serial _) with (v_serial (view_of x)). rewrite Hn. exact Hs'.
Qed.

Lemma webm_settled_invariant n (x : sys) (st : encoder_state_t) :
  settled n (view_of x) -> st <> ES_RUNNING ->
  session_invariant (view_of (on_encoder (set_encoder_state st) x)).
Proof.
  intros Hs Hst. pose proof Hs as (Hn & _). split.
  - change (settled (v_serial (view_of x)) (view_of x)). by rewrite Hn.
  - intros Hrun. by destruct Hst.
Qed.

Lemma webm_main_invariant (e : step_env) (s : sys)
    (r : encoder * option WebMState * list av_object * list encoder_op_packet) :
  session_invariant (view_of s) ->
  INT_MIN <= oggserial (s_encoder s) < INT_MAX - 1 ->
  live_webm_encoder_main e s = Some r ->
  result_ok r.
Proof.
  intros [Hset Hrun] Hrange Heq. cbn [v_serial v_state view_of] in Hset, Hrun.
  set (n := oggserial (s_encoder s)) in *.
  cbv delta [live_webm_encoder_main bailout] beta zeta in Heq.
  destruct (encoder_state (s_encoder s)) eqn:Est.
  - injection Heq as <-. by destruct Hset as (_ & Hok & _).
  - destruct (setup (sp_setup e) s) as [[ret s']|] eqn:Esetup; [|done].
    cbv beta iota delta [mbind option_bind] in Heq.
    pose proof (webm_setup_stream ES_STARTING n (sp_setup e) s ret s' Hset Est) as Hsetup.
    destruct ret.
    + injection Heq as <-.
      assert (streaming Open ES_STARTING (n + 1) (view_of s')) as Hs'
        by (apply Hsetup; [unfold INT_MAX in *; lia | done]).
      apply (webm_keep_ok (on_encoder (set_encoder_state (if run_request_f (s_encoder s')
                                                     then ES_RUNNING else ES_STOPPING)) s')).
      by apply (webm_streaming_invariant (n + 1) s' ES_STARTING).
    + injection Heq as <-. simpl.
      destruct Hsetup as [(_ & Hok & _) | (_ & Hok & _)];
        [unfold INT_MAX in *; lia | done | done | done].
  - specialize (Hrun eq_refl).
    set (s1 := if new_metadata (s_encoder s) && use_metadata (s_encoder s)
               then retag e s else s) in Heq.
    assert (exists n1, streaming Open ES_RUNNING n1 (view_of s1) /\ n <= n1 <= n + 1)
      as (n1 & Hs1 & Hn1).
    { subst s1. destruct (_ && _).
      - exists (n + 1). split; [|lia]. apply webm_retag_streaming; [done|].
        unfold INT_MAX in *. lia.
      - exists n. split; [done | lia]. }
    clearbody s1.
    match type of Heq with
    | context [write_audio_frame ?fe ?final ?s2] =>
        assert (exists n2, streaming Open ES_RUNNING n2 (view_of s2)) as (n2 & Hs2);
        [|pose proof (webm_write_audio_frame_streaming Open ES_RUNNING n2 fe final s2 Hs2) as Hs3;
          destruct (write_audio_frame fe final s2) as [ret s3]]
    end.
    { destruct (flush (s_encoder s1)); [|by exists n1].
      exists (n1 + 1). apply (webm_flush_streaming ES_RUNNING n1 e s1 Hs1).
      unfold INT_MAX in *. lia. }
    cbn [snd] in Hs3. destruct (ret =? 0).
    + injection Heq as <-. apply (webm_keep_ok s3).
      pose proof Hs3 as (_ & Hn3 & _). unfold session_invariant. rewrite Hn3.
      split; [by eapply streaming_settled | done].
    + match type of Heq with
      | context [write_trailer ?ret ?bufs s3] =>
          destruct (webm_write_trailer_settled Open ES_RUNNING n2 ret bufs s3 Hs3) as [Hs4 _];
          destruct (write_trailer ret bufs s3) as [ret4 s4]
      end.
      injection Heq as <-.
      by apply (webm_keep_ok (on_encoder (set_encoder_state ES_STOPPING) s4)),
        (webm_settled_invariant n2).
  - pose proof (webm_teardown_settled n s Hset) as Hs1.
    destruct (run_request_f _).
    + injection Heq as <-.
      by apply (webm_keep_ok (on_encoder (set_encoder_state ES_STARTING)
                           (on_encoder (set_flush false) (teardown s)))),
        (webm_settled_invariant n).
    + injection Heq as <-. by destruct Hs1 as (_ & Hok & _).
  - injection Heq as <-. by destruct Hset as (_ & Hok & _).
Qed.

(** The states of a session: a back end is started with nothing written;
    other threads change the requests of the encoder but neither its state
    nor its serial number; the encoder thread calls the main function. *)
Inductive session : sys -> Prop :=
| session_start (s : sys) :
    s_out s = [] -> encoder_state (s_encoder s) = ES_STARTING -> session s
| session_request (s : sys) (enc : encoder) :
    session s ->
    encoder_state enc = encoder_state (s_encoder s) ->
    oggserial enc = oggserial (s_encoder s) ->
    session {| s_encoder := enc; s_self := s_self s; s_live := s_live s; s_out := s_out s |}
| session_step (e : step_env) (s : sys) (enc : encoder) (self : WebMState)
    (live : list av_object) (out : list encoder_op_packet) :
    session s ->
    INT_MIN <= oggserial (s_encoder s) < INT_MAX - 1 ->
    live_webm_encoder_main e s = Some (enc, Some self, live, out) ->
    session {| s_encoder := enc; s_self := self; s_live := live; s_out := out |}.

Lemma webm_session_holds (s : sys) : session s -> session_invariant (view_of s).
Proof.
  induction 1 as [s Hout Hst | s enc _ IH Hst Hser | e s enc self live out _ IH Hrange Hmain].
  - split.
    + split; [done|]. cbn [v_out view_of]. rewrite Hout. by split.
    + cbn [v_state view_of]. by rewrite Hst.
  - destruct IH as [Hset Hrun]. unfold session_invariant, view_of in *.
    cbn [v_serial v_state s_encoder s_self s_out] in *. rewrite Hser, Hst.
    by split.
  - exact (webm_main_invariant e s _ IH Hrange Hmain).
Qed.

(** The packets a session has written by some point. *)
Definition session_output (out : list encoder_op_packet) : Prop :=
  exists s : sys,
    session s
    /\ (out = s_out s
        \/ exists e enc live,
             INT_MIN <= oggserial (s_encoder s) < INT_MAX - 1
             /\ live_webm_encoder_main e s = Some (enc, None, live, out)).

Lemma webm_session_output_ok (out : list encoder_op_packet) :
  session_output out -> segments_ok None out = true.
Proof.
  intros (s & Hs & [-> | (e & enc & live & Hrange & Hmain)]).
  - by destruct (webm_session_holds s Hs) as [(_ & Hok & _) _].
  - exact (webm_main_invariant e s _ (webm_session_holds s Hs) Hrange Hmain).
Qed.

(** The packets of [write_header] when libavformat hands over at least one
    buffer: the first is flagged HEADER and INITIAL, the others HEADER, all
    with the next serial number. *)
Lemma webm_write_header_packets (ret : Z) (buf : list Z) (rest : list (list Z)) (s : sys) :
  INT_MIN <= oggserial (s_encoder s) < INT_MAX ->
  exists (hdr : encoder_op_packet) (hdrs : list encoder_op_packet),
    s_out (write_header ret (buf :: rest) s).2 = s_out s ++ hdr :: hdrs
    /\ flags (header hdr) = Z.lor PF_WEBM (Z.lor PF_HEADER PF_INITIAL)
    /\ serial (header hdr) = oggserial (s_encoder s) + 1
    /\ Forall (fun q => flags (header q) = Z.lor PF_WEBM PF_HEADER
                        /\ serial (header q) = oggserial (s_encoder s) + 1) hdrs.
Proof.
  intros Hrange. unfold write_header. cbv zeta. cbn [snd].
  set (s2 := on_self (set_packet_flags (Z.lor PF_HEADER PF_INITIAL))
               (on_self (set_serial_samples 0)
                  (on_encoder (fun e0 => set_oggserial (to_int (oggserial e0 + 1)) e0) s))).
  destruct (webm_callbacks_spec (buf :: rest) s2) as (_ & Hout & _).
  assert (oggserial (s_encoder s2) = oggserial (s_encoder s) + 1) as Hser
    by (by apply to_int_succ).
  exists (stamp s2 (Z.lor PF_HEADER PF_INITIAL) buf), (map (stamp s2 PF_HEADER) rest).
  split; [exact Hout|]. split; [done|]. split; [exact Hser|].
  apply Forall_map, Forall_true. intros b. split; [done | exact Hser].
Qed.

End WebmStream.
End WebmStream.

Module AacStream.
Import Aac.
Section AacStream.
Context `{Double}.

(** *** The stream of the AAC back end *)

Definition view_of (s : sys) : view :=
  {| v_state := encoder_state (s_encoder s); v_serial := oggserial (s_encoder s);
     v_kind := const_packet_flags (s_self s); v_flags := packet_flags (s_self s);
     v_out := s_out s |}.

Lemma aac_plain_metadata : plain PF_METADATA.
Proof. done. Qed.

Lemma aac_write_packet_streaming g st n (buf : list Z) (size pf : Z) (s : sys) :
  plain pf ->
  streaming g st n (view_of s) -> streaming g st n (view_of (write_packet buf size pf s)).
Proof.
  intros Hpf Hs.
  refine (streaming_emit g st n (view_of s)
            {| header := {| bit_rate := bitrate (s_encoder s) mod 65536;
                            sample_rate := target_samplerate (s_encoder s) mod 4294967296;
                            n_channels := enc_n_channels (s_encoder s) mod 65536;
                            flags := Z.lor (Z.lor (const_packet_flags (s_self s))
                                                  (packet_flags (s_self s))) pf;
                            serial := oggserial (s_encoder s);
                            timestamp := ddiv (d_of_int (serial_samples (s_self s)))
                                              (d_of_int (target_samplerate (s_encoder s)));
                            data_size := size |};
               data := buf |} pf Hs _ _ Hpf); done.
Qed.

Lemma aac_write_packet_wrapper_streaming g st n (buf : list Z) (s : sys) :
  streaming g st n (view_of s) -> streaming g st n (view_of (write_packet_wrapper buf s)).
Proof.
  intros Hs. unfold write_packet_wrapper. cbv zeta.
  by apply aac_write_packet_streaming; [apply plain_0|].
Qed.

Lemma aac_callbacks_streaming g st n (bufs : list (list Z)) : forall s : sys,
  streaming g st n (view_of s) -> streaming g st n (view_of (callbacks bufs s)).
Proof.
  induction bufs as [|buf bufs IH]; intros s Hs; [done|].
  change (callbacks (buf :: bufs) s) with (callbacks bufs (write_packet_wrapper buf s)).
  by apply IH, aac_write_packet_wrapper_streaming.
Qed.

Lemma aac_write_received_streaming g st n (l : list received) : forall s : sys,
  streaming g st n (view_of s) -> streaming g st n (view_of (write_received l s).2).
Proof.
  induction l as [|r l IH]; intros s Hs; [done|]. cbn [write_received]. cbv zeta.
  pose proof (aac_callbacks_streaming g st n (rx_bufs r) s Hs) as Hs1.
  destruct (rx_ok r); [by apply IH | done].
Qed.

Lemma aac_frame_rounds_streaming g st n (rounds : list round) : forall s : sys,
  streaming g st n (view_of s) -> streaming g st n (view_of (frame_rounds rounds s).2).
Proof.
  induction rounds as [|r rounds IH]; intros s Hs; [done|]. cbn [frame_rounds].
  destruct (negb (rd_input r)); [done|]. cbv zeta.
  destruct (negb (rd_writable_ok r)); [done|].
  destruct (negb (rd_convert_ok r)); [done|].
  destruct (negb (rd_send_ok r)); [done|].
  match goal with
  | |- context [write_received (rd_received r) ?s1] =>
      pose proof (aac_write_received_streaming g st n (rd_received r) s1 Hs) as Hs1;
      destruct (write_received (rd_received r) s1) as [ok s2]
  end.
  destruct (negb ok); [done|]. destruct (rd_received r); [by apply IH | done].
Qed.

Lemma aac_write_audio_frame_streaming g st n (fe : frame_env) (final : bool) (s : sys) :
  streaming g st n (view_of s) ->
  streaming g st n (view_of (write_audio_frame fe final s).2).
Proof.
  intros Hs. unfold write_audio_frame. destruct (negb (fe_packet_alloc_ok fe)); [done|].
  cbv zeta. destruct final; [|by apply aac_frame_rounds_streaming].
  destruct (negb (rd_send_ok _)); [done|].
  match goal with
  | |- context [write_received ?l ?s1] =>
      pose proof (aac_write_received_streaming g st n l s1 Hs) as Hs1;
      destruct (write_received l s1) as [ok s2]
  end.
  by destruct (negb ok).
Qed.

Lemma aac_write_header_open st n (ret : Z) (bufs : list (list Z)) (s : sys) :
  settled n (view_of s) -> plain (const_packet_flags (s_self s)) ->
  encoder_state (s_encoder s) = st -> INT_MIN <= n < INT_MAX ->
  streaming Open st (n + 1) (view_of (write_header ret bufs s).2).
Proof.
  intros Hs Hkind Hst Hrange. unfold write_header. cbv zeta. cbn [snd].
  pose proof (settled_heading n (view_of s) st Hs Hkind Hrange) as Hh.
  match goal with
  | |- context [callbacks bufs ?s1] =>
      pose proof (aac_callbacks_streaming Heading st (n + 1) bufs s1) as Hc
  end.
  apply heading_open in Hc; [exact Hc|]. rewrite <- Hst in Hh |- *. exact Hh.
Qed.

Lemma aac_write_trailer_settled g st n (ret : Z) (bufs : list (list Z)) (s : sys) :
  streaming g st n (view_of s) ->
  settled n (view_of (write_trailer ret bufs s).2)
  /\ encoder_state (s_encoder (write_trailer ret bufs s).2) = st.
Proof.
  intros Hs. unfold write_trailer. cbv zeta. cbn [snd].
  pose proof (aac_callbacks_streaming g st n bufs s Hs) as Hc.
  set (s1 := callbacks bufs s) in *.
  split; [|by destruct Hc as [Hst _]].
  refine (streaming_final g st st n (view_of s1)
            {| header := {| bit_rate := bitrate (s_encoder s1) mod 65536;
                            sample_rate := target_samplerate (s_encoder s1) mod 4294967296;
                            n_channels := enc_n_channels (s_encoder s1) mod 65536;
                            flags := Z.lor (Z.lor (const_packet_flags (s_self s1)) PF_FINAL) 0;
                            serial := oggserial (s_encoder s1);
                            timestamp := ddiv (d_of_int (serial_samples (s_self s1)))
                                              (d_of_int (target_samplerate (s_encoder s1)));
                            data_size := 0 |};
               data := [] |} 0 Hc _ _ _); done.
Qed.

Lemma aac_close_stream_view (s : sys) : view_of (close_stream s) = view_of s.
Proof.
  unfold close_stream. cbv zeta.
  by destruct (c (s_self s)), (frame (s_self s)), (tmp_frame (s_self s)), (swr_ctx (s_self s)).
Qed.

Lemma aac_add_stream_view (e : setup_env) (s : sys) : view_of (add_stream e s).2 = view_of s.
Proof.
  unfold add_stream.
  by destruct (su_find_encoder_ok e), (su_codec_is_audio e), (su_new_stream_ok e),
    (su_alloc_context3_ok e), (su_parameters_ok e).
Qed.

Lemma aac_open_stream_view (e : setup_env) (s : sys) : view_of (open_stream e s).2 = view_of s.
Proof.
  unfold open_stream.
  by destruct (su_open2_ok e), (su_swr_alloc_ok e), (su_swr_init_ok e).
Qed.

Lemma aac_fail2_spec (s : sys) : exists s', fail2 s = (FAILED, s') /\ view_of s' = view_of s.
Proof. by eexists. Qed.

Lemma aac_fail4_spec (s : sys) : exists s', fail4 s = (FAILED, s') /\ view_of s' = view_of s.
Proof. by eexists. Qed.

Lemma aac_fail5_spec (s : sys) : exists s', fail5 s = (FAILED, s') /\ view_of s' = view_of s.
Proof.
  unfold fail5. destruct (aac_fail4_spec (close_stream s)) as (s' & Heq & Hv).
  exists s'. split; [done|]. by rewrite Hv, aac_close_stream_view.
Qed.

Lemma aac_teardown_settled n (s : sys) :
  settled n (view_of s) -> settled n (view_of (teardown s)).
Proof.
  intros (Hn & Hok & Hle). unfold teardown.
  pose proof (aac_close_stream_view s) as Hv.
  apply (f_equal v_serial) in Hv as Hv1. apply (f_equal v_out) in Hv as Hv2.
  cbn [v_serial v_out view_of] in Hv1, Hv2.
  split; [|split]; cbn [v_serial v_out view_of on_self on_live s_encoder s_out];
    rewrite ?Hv1, ?Hv2; done.
Qed.

(** [setup] leaves a settled stream, and an open one when it succeeds. *)
Lemma aac_setup_stream st n (e : setup_env) (s : sys) (r : retcode) (s' : sys) :
  settled n (view_of s) -> encoder_state (s_encoder s) = st -> INT_MIN <= n < INT_MAX ->
  setup e s = Some (r, s') ->
  match r with
  | SUCCEEDED => streaming Open st (n + 1) (view_of s')
  | FAILED => settled n (view_of s') \/ settled (n + 1) (view_of s')
  end.
Proof.
  intros Hs Hst Hrange Heq. cbv delta [setup] beta in Heq.
  destruct (match codec (s_encoder s) with
            | ENCODER_CODEC_AAC => Some PF_AAC
            | ENCODER_CODEC_AACPLUSV2 => Some PF_AACP2
            | _ => None
            end) as [kind|] eqn:Ekind; [|injection Heq as <- <-; cbv beta iota; by left].
  assert (plain kind) as Hkind.
  { destruct (codec (s_encoder s)); by simplify_eq. }
  cbv zeta in Heq.
  set (s0 := on_self (set_const_packet_flags kind) s) in *.
  assert (settled n (view_of s0)) as Hs0 by exact Hs.
  assert (forall x : sys, view_of x = view_of s0 -> settled n (view_of x)) as Hsame.
  { intros x ->. exact Hs0. }
  assert (v_kind (view_of s0) = kind) as Hk0 by done.
  assert (v_state (view_of s0) = st) as Hst0 by exact Hst.
  clearbody s0.
  destruct (negb (su_alloc_context_ok e));
    [injection Heq as <- <-; cbv beta iota; left; by apply Hsame|].
  destruct (negb (su_guess_format_ok e));
    [match type of Heq with
     | Some (fail2 ?x) = _ => destruct (aac_fail2_spec x) as (s1 & Ef & Hv)
     end; rewrite Ef in Heq; injection Heq as <- <-; cbv beta iota; left; apply Hsame;
     by rewrite Hv|].
  destruct (negb (su_av_malloc_ok e));
    [match type of Heq with
     | Some (fail2 ?x) = _ => destruct (aac_fail2_spec x) as (s1 & Ef & Hv)
     end; rewrite Ef in Heq; injection Heq as <- <-; cbv beta iota; left; apply Hsame;
     by rewrite Hv|].
  destruct (negb (su_avio_alloc_ok e)); [done|].
  match type of Heq with
  | context [add_stream ?e0 ?x] =>
      pose proof (aac_add_stream_view e0 x) as Hv1;
      destruct (add_stream e0 x) as [ok1 s1]
  end.
  cbn [snd] in Hv1.
  destruct (negb ok1);
    [destruct (aac_fail4_spec s1) as (s9 & Ef & Hv); rewrite Ef in Heq; injection Heq as <- <-;
     cbv beta iota; left; apply Hsame; by rewrite Hv, Hv1|].
  pose proof (aac_open_stream_view e s1) as Hv2; destruct (open_stream e s1) as [ok2 s2].
  cbn [snd] in Hv2.
  destruct (negb ok2);
    [destruct (aac_fail4_spec s2) as (s9 & Ef & Hv); rewrite Ef in Heq; injection Heq as <- <-;
     cbv beta iota; left; apply Hsame; by rewrite Hv, Hv2, Hv1|].
  assert (view_of s2 = view_of s0) as Hv3 by (rewrite Hv2; exact Hv1).
  pose proof (aac_write_header_open st n (su_header_ret e) (su_header_bufs e) s2) as Hopen.
  destruct (write_header (su_header_ret e) (su_header_bufs e) s2) as [ret' s4].
  cbn [snd] in Hopen.
  assert (streaming Open st (n + 1) (view_of s4)) as Hs4.
  { apply Hopen; [by apply Hsame | | |done].
    - change (plain (v_kind (view_of s2))). by rewrite Hv3, Hk0.
    - change (v_state (view_of s2) = st). by rewrite Hv3. }
  destruct (ret' <? 0).
  { destruct (aac_fail5_spec s4) as (s9 & Ef & Hv); rewrite Ef in Heq; injection Heq as <- <-.
    cbv beta iota; right; rewrite Hv; by eapply streaming_settled. }
  destruct (sample_rate_index _).
  - by injection Heq as <- <-.
  - destruct (aac_fail5_spec s4) as (s9 & Ef & Hv); rewrite Ef in Heq; injection Heq as <- <-.
    cbv beta iota; right; rewrite Hv; by eapply streaming_settled.
Qed.


(** What a call of the main function returns is fine: the invariant holds of
    a back end that keeps its private state, and the stream is well formed
    when the back end stopped. *)
Definition result_ok
    (r : encoder * option State * list av_object * list encoder_op_packet) : Prop :=
  match r with
  | (enc, Some self, live, out) =>
      session_invariant
        (view_of {| s_encoder := enc; s_self := self; s_live := live; s_out := out |})
  | (_, None, _, out) => segments_ok None out = true
  end.

Lemma aac_keep_ok (x : sys) :
  session_invariant (view_of x) -> result_ok (s_encoder x, Some (s_self x), s_live x, s_out x).
Proof. done. Qed.

Lemma aac_streaming_invariant n (x : sys) (st0 st : encoder_state_t) :
  streaming Open st0 n (view_of x) ->
  session_invariant (view_of (on_encoder (set_encoder_state st) x)).
Proof.
  intros Hs. pose proof Hs as (_ & Hn & _).
  pose proof (streaming_restate Open st0 st n (view_of x) Hs) as Hs'.
  split.
  - change (settled (v_serial (view_of x)) (view_of x)). rewrite Hn.
    by eapply streaming_settled.
  - intros Hst. cbn [v_state view_of on_encoder s_encoder] in Hst.
    change (encoder_state (set_encoder_state st (s_encoder x))) with st in Hst. subst st.
    change (v_serial _) with (v_serial (view_of x)). rewrite Hn. exact Hs'.
Qed.

Lemma aac_settled_invariant n (x : sys) (st : encoder_state_t) :
  settled n (view_of x) -> st <> ES_RUNNING ->
  session_invariant (view_of (on_encoder (set_encoder_state st) x)).
Proof.
  intros Hs Hst. pose proof Hs as (Hn & _). split.
  - change (settled (v_serial (view_of x)) (view_of x)). by rewrite Hn.
  - intros Hrun. by destruct Hst.
Qed.

(** The metadata packet of the running state. *)
Lemma aac_metadata_streaming st n (e : step_env) (s : sys) :
  streaming Open st n (view_of s) ->
  streaming Open st n
    (view_of (let s := packetize_metadata (sp_metadata_alloc_ok e) s in
              match metadata (s_self s) with
              | Some text => write_packet (text ++ [0]) (Z.of_nat (length text) + 1) PF_METADATA s
              | None => s
              end)).
Proof.
  intros Hs. cbv zeta.
  destruct (metadata (s_self (packetize_metadata (sp_metadata_alloc_ok e) s))); [|done].
  by apply aac_write_packet_streaming; [apply aac_plain_metadata|].
Qed.

Lemma aac_main_invariant (e : step_env) (s : sys)
    (r : encoder * option State * list av_object * list encoder_op_packet) :
  session_invariant (view_of s) ->
  INT_MIN <= oggserial (s_encoder s) < INT_MAX - 1 ->
  live_aac_encoder_main e s = Some r ->
  result_ok r.
Proof.
  intros [Hset Hrun] Hrange Heq. cbn [v_serial v_state view_of] in Hset, Hrun.
  set (n := oggserial (s_encoder s)) in *.
  cbv delta [live_aac_encoder_main bailout] beta zeta in Heq.
  destruct (encoder_state (s_encoder s)) eqn:Est.
  - injection Heq as <-. by destruct Hset as (_ & Hok & _).
  - destruct (setup (sp_setup e) s) as [[ret s']|] eqn:Esetup; [|done].
    cbv beta iota delta [mbind option_bind] in Heq.
    pose proof (aac_setup_stream ES_STARTING n (sp_setup e) s ret s' Hset Est) as Hsetup.
    destruct ret.
    + injection Heq as <-.
      assert (streaming Open ES_STARTING (n + 1) (view_of s')) as Hs'
        by (apply Hsetup; [unfold INT_MAX in *; lia | done]).
      apply (aac_keep_ok (on_encoder (set_encoder_state (if run_request_f (s_encoder s')
                                                     then ES_RUNNING else ES_STOPPING)) s')).
      by apply (aac_streaming_invariant (n + 1) s' ES_STARTING).
    + injection Heq as <-. simpl.
      destruct Hsetup as [(_ & Hok & _) | (_ & Hok & _)];
        [unfold INT_MAX in *; lia | done | done | done].
  - specialize (Hrun eq_refl).
    match type of Heq with
    | context [write_audio_frame ?fe ?final ?s2] =>
        assert (streaming Open ES_RUNNING n (view_of s2)) as Hs2;
        [|pose proof (aac_write_audio_frame_streaming Open ES_RUNNING n fe final s2 Hs2) as Hs3;
          destruct (write_audio_frame fe final s2) as [ret s3]]
    end.
    { destruct (_ && _); [|done]. by apply (aac_metadata_streaming ES_RUNNING n e s). }
    cbn [snd] in Hs3. destruct (ret =? 0).
    + injection Heq as <-. apply (aac_keep_ok s3).
      pose proof Hs3 as (_ & Hn3 & _). unfold session_invariant. rewrite Hn3.
      split; [by eapply streaming_settled | done].
    + match type of Heq with
      | context [write_trailer ?ret ?bufs s3] =>
          destruct (aac_write_trailer_settled Open ES_RUNNING n ret bufs s3 Hs3) as [Hs4 _];
          destruct (write_trailer ret bufs s3) as [ret4 s4]
      end.
      injection Heq as <-.
      by apply (aac_keep_ok (on_encoder (set_encoder_state ES_STOPPING) s4)),
        (aac_settled_invariant n).
  - pose proof (aac_teardown_settled n s Hset) as Hs1.
    destruct (run_request_f _).
    + injection Heq as <-.
      by apply (aac_keep_ok (on_encoder (set_encoder_state ES_STARTING)
                           (on_encoder (set_flush false) (teardown s)))),
        (aac_settled_invariant n).
    + injection Heq as <-. by destruct Hs1 as (_ & Hok & _).
  - injection Heq as <-. by destruct Hset as (_ & Hok & _).
Qed.

(** The states of a session: a back end is started with nothing written;
    other threads change the requests of the encoder but neither its state
    nor its serial number; the encoder thread calls the main function. *)
Inductive session : sys -> Prop :=
| session_start (s : sys) :
    s_out s = [] -> encoder_state (s_encoder s) = ES_STARTING -> session s
| session_request (s : sys) (enc : encoder) :
    session s ->
    encoder_state enc = encoder_state (s_encoder s) ->
    oggserial enc = oggserial (s_encoder s) ->
    session {| s_encoder := enc; s_self := s_self s; s_live := s_live s; s_out := s_out s |}
| session_step (e : step_env) (s : sys) (enc : encoder) (self : State)
    (live : list av_object) (out : list encoder_op_packet) :
    session s ->
    INT_MIN <= oggserial (s_encoder s) < INT_MAX - 1 ->
    live_aac_encoder_main e s = Some (enc, Some self, live, out) ->
    session {| s_encoder := enc; s_self := self; s_live := live; s_out := out |}.

Lemma aac_session_holds (s : sys) : session s -> session_invariant (view_of s).
Proof.
  induction 1 as [s Hout Hst | s enc _ IH Hst Hser | e s enc self live out _ IH Hrange Hmain].
  - split.
    + split; [done|]. cbn [v_out view_of]. rewrite Hout. by split.
    + cbn [v_state view_of]. by rewrite Hst.
  - destruct IH as [Hset Hrun]. unfold session_invariant, view_of in *.
    cbn [v_serial v_state s_encoder s_self s_out] in *. rewrite Hser, Hst.
    by split.
  - exact (aac_main_invariant e s _ IH Hrange Hmain).
Qed.

(** The packets a session has written by some point. *)
Definition session_output (out : list encoder_op_packet) : Prop :=
  exists s : sys,
    session s
    /\ (out = s_out s
        \/ exists e enc live,
             INT_MIN <= oggserial (s_encoder s) < INT_MAX - 1
             /\ live_aac_encoder_main e s = Some (enc, None, live, out)).

Lemma aac_session_output_ok (out : list encoder_op_packet) :
  session_output out -> segments_ok None out = true.
Proof.
  intros (s & Hs & [-> | (e & enc & live & Hrange & Hmain)]).
  - by destruct (aac_session_holds s Hs) as [(_ & Hok & _) _].
  - exact (aac_main_invariant e s _ (aac_session_holds s Hs) Hrange Hmain).
Qed.

(** New metadata in the running state, on a pass that has no audio to
    encode: one METADATA packet goes out in the current segment. *)
Lemma aac_metadata_step (e : step_env) (s : sys) :
  encoder_state (s_encoder s) = ES_RUNNING ->
  new_metadata (s_encoder s) = true -> use_metadata (s_encoder s) = true ->
  run_request_f (s_encoder s) = true -> flush (s_encoder s) = false ->
  packet_flags (s_self s) = 0 ->
  sp_metadata_alloc_ok e = true ->
  fe_packet_alloc_ok (sp_frame e) = true -> fe_rounds (sp_frame e) = [] ->
  exists (enc : encoder) (self : State) (live : list av_object) (m : encoder_op_packet),
    live_aac_encoder_main e s = Some (enc, Some self, live, s_out s ++ [m])
    /\ flags (header m) = Z.lor (const_packet_flags (s_self s)) PF_METADATA
    /\ serial (header m) = oggserial (s_encoder s)
    /\ data m = custom_meta (s_encoder s) ++ [10] ++ enc_artist (s_encoder s) ++ [10]
                 ++ enc_title (s_encoder s) ++ [10] ++ enc_album (s_encoder s) ++ [0]
    /\ oggserial enc = oggserial (s_encoder s)
    /\ encoder_state enc = ES_RUNNING
    /\ new_metadata enc = false
    /\ next_pts self = next_pts (s_self s)
    /\ samples_count self = samples_count (s_self s)
    /\ serial_samples self = serial_samples (s_self s).
Proof.
  intros Hst Hnew Huse Hrun Hflush Hpf Halloc Hpkt Hrounds.
  unfold live_aac_encoder_main. cbv zeta. rewrite Hst, Hnew, Huse, Hpf.
  change (has_flag 0 (Z.lor PF_INITIAL PF_FINAL)) with false. cbn [andb negb].
  unfold packetize_metadata. rewrite Halloc.
  cbn [metadata s_self on_self on_encoder set_metadata].
  unfold write_audio_frame. rewrite Hpkt. cbn [negb].
  cbn [run_request_f flush s_encoder write_packet on_encoder on_self encoder_write_packet_all
       set_enc_timestamp set_new_metadata]. rewrite Hrun, Hflush. cbn [negb orb].
  rewrite Hrounds. cbn [frame_rounds Z.eqb].
  do 4 eexists. split; [reflexivity|]. cbn. rewrite Hpf, Z.lor_0_r, Hst.
  repeat split.
  by repeat (rewrite <- app_assoc || rewrite <- app_comm_cons).
Qed.

End AacStream.
End AacStream.

Section Streams.
Context `{Double}.

(** C2: the packets a session of the AAC or of the WebM back end has
    written, as long as the serial number does not overflow, form segments
    ([segments_ok]): serial numbers never decrease; the packet that opens a
    segment carries INITIAL unless it is the FINAL packet itself, and no
    other packet carries INITIAL; HEADER packets come first in their
    segment; a FINAL packet has payload size 0 and nothing follows it in its
    segment. When libavformat hands the WebM [write_header] at least one
    buffer, the first packet of the new segment carries HEADER and INITIAL
    and the further header packets HEADER only. *)
Theorem session_packets_in_segments
    (aac_out webm_out : list encoder_op_packet)
    (ret : Z) (buf : list Z) (rest : list (list Z)) (s : Webm.sys) :
  AacStream.session_output aac_out ->
  WebmStream.session_output webm_out ->
  INT_MIN <= oggserial (Webm.s_encoder s) < INT_MAX ->
  segments_ok None aac_out = true
  /\ segments_ok None webm_out = true
  /\ exists (hdr : encoder_op_packet) (hdrs : list encoder_op_packet),
       Webm.s_out (Webm.write_header ret (buf :: rest) s).2 = Webm.s_out s ++ hdr :: hdrs
       /\ flags (header hdr) = Z.lor PF_WEBM (Z.lor PF_HEADER PF_INITIAL)
       /\ serial (header hdr) = oggserial (Webm.s_encoder s) + 1
       /\ Forall (fun q => flags (header q) = Z.lor PF_WEBM PF_HEADER
                           /\ serial (header q) = oggserial (Webm.s_encoder s) + 1) hdrs.
Proof.
  intros Haac Hwebm Hrange.
  split; [by apply AacStream.aac_session_output_ok|].
  split; [by apply WebmStream.webm_session_output_ok|].
  by apply WebmStream.webm_write_header_packets.
Qed.


End Streams.

(** * Concrete runs *)

(** The scenarios below run the embedding on binary64 arithmetic, with a
    stand-in for the tag that the id3 library produces. *)

Definition ex_id3 (length_ms : Z) (chapters : list metadata_item) : list Z := [73; 68; 51].

Definition ex_world : world := {| files := ∅; stderr := [] |}.

Definition ex_mp3_op : encoder_op_t :=
  {| op_run_request_f := true; op_family := ENCODER_FAMILY_MPEG; op_codec := ENCODER_CODEC_MP3 |}.

(** An MP3 encoder whose flush serial is 4 when the recorder attaches. *)
Definition ex_start : start_env :=
  {| se_buffers_ok := true; se_register := Some ex_mp3_op; se_pathname_ok := true;
     se_time := "[2020]"; se_fopen_ok := true; se_room := None; se_flush_serial := 4;
     se_cue_fopen_ok := true; se_cue_room := None; se_sample_rate := 44100;
     se_sf_open_ok := true; se_ringbuffers_ok := true |}.

Definition ex_vars : recorder_vars :=
  {| record_source := "0"; record_folder := "/tmp"; record_filename := "a" |}.

Definition ex_packet (fl ser br : Z) (ts : float) (d : list Z) : encoder_op_packet :=
  {| header := {| bit_rate := br; sample_rate := 44100; n_channels := 2; flags := fl;
                  serial := ser; timestamp := ts; data_size := Z.of_nat (length d) |};
     data := d |}.

Definition ex_tags (rename_ok : bool) : tag_env :=
  {| te_malloc_ok := true; te_tmp_open_ok := true; te_tmp_room := None;
     te_src_open_ok := true; te_rename_ok := rename_ok |}.

Definition ex_env (p : option encoder_op_packet) : main_env :=
  {| env_packet := p; env_flush_serial := 5; env_rb_reads := []; env_calloc_ok := true;
     env_tags := ex_tags true; env_cue_open_ok := true; env_cue_room := None |}.

Definition ex_metadata (artist title album : string) : list Z :=
  str_bytes "c" ++ [10] ++ str_bytes artist ++ [10] ++ str_bytes title ++ [10]
  ++ str_bytes album ++ [0].

(** The recorder started on the encoder, and a state to fall back on. *)
Definition ex_started : recorder * world :=
  Eval vm_compute in
    match recorder_start ex_start ex_vars (recorder_init 0) ex_world with
    | Some (_, self, w) => (self, w)
    | None => (recorder_init 0, ex_world)
    end.

Definition ex_after (envs : list main_env) (sw : recorder * world) : recorder * world :=
  default sw (recorder_main ex_id3 envs sw.1 sw.2).

(** The recorder after the first packets of the segment with serial 5. *)
Definition ex_recording : recorder * world :=
  Eval vm_compute in
    ex_after [ex_env (Some (ex_packet 9 5 128 0 [255; 251; 144; 0; 5; 6]));
              ex_env (Some (ex_packet 8 5 128 1 [7; 8]))] ex_started.

(** A packet from before the attachment: audio with serial 4. *)
Definition ex_early : encoder_op_packet := ex_packet 8 4 128 1 [1; 2; 3].

Definition ex_after_early : recorder * world :=
  Eval vm_compute in
    default ex_recording
            (recorder_main_pass ex_id3 (ex_env (Some ex_early)) ex_recording.1 ex_recording.2).

Lemma recorder_serial_fence_witness :
  initial_serial ex_started.1 = 4 + 1
  /\ (record_mode ex_recording.1 = RM_RECORDING ->
      env_packet (ex_env (Some ex_early)) = Some ex_early ->
      serial (header ex_early) <= 4 ->
      recorder_main_pass ex_id3 (ex_env (Some ex_early)) ex_recording.1 ex_recording.2
      = Some ex_after_early ->
      files ex_after_early.2 = files ex_recording.2).
Proof.
  apply (recorder_serial_fence ex_id3 ex_start ex_vars (recorder_init 0) ex_world
           ex_started.1 ex_started.2
           [ex_env (Some (ex_packet 9 5 128 0 [255; 251; 144; 0; 5; 6]));
            ex_env (Some (ex_packet 8 5 128 1 [7; 8]))]).
  - reflexivity.
  - simpl. unfold INT_MAX. lia.
  - repeat constructor; simpl; unfold INT_MAX; lia.
  - reflexivity.
  - reflexivity.
Defined.

Lemma recorder_stop_when_stopped_witness :
  recorder_stop ex_id3 [] (recorder_init 3) ex_world
  = Returned (FAILED, recorder_init 3,
              elog ("recorder_stop: device " +:+ pretty (numeric_id (recorder_init 3))
                    +:+ " is already stopped") ex_world).
Proof. apply (recorder_stop_when_stopped ex_id3 [] (recorder_init 3) ex_world). reflexivity. Defined.

(** Two metadata packets with the same fields, and one from before the
    attachment (serial 3, below the watermark 5). *)
Definition ex_chapter : encoder_op_packet :=
  ex_packet 16 5 128 1 (ex_metadata "Art" "Tit" "Alb").

Definition ex_old_chapter : encoder_op_packet :=
  ex_packet 16 3 128 1 (ex_metadata "Old" "Song" "Alb").

Definition ex_take (p : encoder_op_packet) (sw : recorder * world) : recorder * world :=
  default sw (recorder_take_packet (ex_env (Some p)) p sw.1 sw.2).

Definition ex_chapter_1 : recorder * world := Eval vm_compute in ex_take ex_chapter ex_recording.
Definition ex_chapter_2 : recorder * world := Eval vm_compute in ex_take ex_chapter ex_chapter_1.

Lemma consecutive_duplicate_metadata_witness :
  (forall l, last (mi ex_chapter_1.1) = Some l ->
             metadata_fields (Some ex_chapter) = mi_fields l ->
             mi ex_chapter_2.1 = mi ex_chapter_1.1)
  /\ (env_calloc_ok (ex_env (Some ex_chapter)) = true ->
      metadata_fields (Some ex_chapter) = metadata_fields (Some ex_chapter) ->
      mi ex_chapter_2.1 = mi ex_chapter_1.1
      /\ (length (mi ex_chapter_2.1) <= S (length (mi ex_recording.1)))%nat).
Proof.
  apply (consecutive_duplicate_metadata (ex_env (Some ex_chapter)) (ex_env (Some ex_chapter))
           ex_chapter ex_chapter ex_recording.1 ex_recording.2
           ex_chapter_1.1 ex_chapter_1.2 ex_chapter_2.1 ex_chapter_2.2);
    reflexivity.
Defined.

Lemma metadata_bypasses_serial_fence_witness :
  (forall self' w',
     recorder_main_pass ex_id3 (ex_env (Some ex_old_chapter)) ex_recording.1 ex_recording.2
     = Some (self', w') ->
     exists s1,
       recorder_append_metadata (env_calloc_ok (ex_env (Some ex_old_chapter))) ex_recording.1
         (Some ex_old_chapter) ex_recording.2 = Some (s1, w')
       /\ mi self' = mi s1)
  /\ (forall a t al,
        metadata_fields (Some ex_old_chapter) = (Some a, Some t, Some al) ->
        is_duplicate ex_recording.1 (Some ex_old_chapter) = Some false ->
        env_calloc_ok (ex_env (Some ex_old_chapter)) = true ->
        exists self',
          recorder_main_pass ex_id3 (ex_env (Some ex_old_chapter)) ex_recording.1
            ex_recording.2 = Some (self', ex_recording.2)
          /\ last (mi self') = Some (new_chapter ex_recording.1 a t al)
          /\ length (mi self') = S (length (mi ex_recording.1))).
Proof.
  apply (metadata_bypasses_serial_fence ex_id3 (ex_env (Some ex_old_chapter)) ex_old_chapter
           ex_recording.1 ex_recording.2).
  - reflexivity.
  - simpl. lia.
  - reflexivity.
  - reflexivity.
  - simpl. lia.
Defined.

(** A recording whose second segment has another bit rate: packets of the
    segment with serial 5 at 128 kb/s, then of the segment with serial 6 at
    192 kb/s. *)
Definition ex_vbr_packets : list (main_env * encoder_op_packet) :=
  map (fun p => (ex_env (Some p), p))
      [ex_packet 9 5 128 0 [255; 251; 144; 0; 5; 6];
       ex_packet 8 5 128 1 [7; 8];
       ex_packet 10 5 128 2 [];
       ex_packet 9 6 192 0 [9; 9; 9; 9];
       ex_packet 8 6 192 3 [10; 10; 10; 10; 10; 10]].

Definition ex_vbr : recorder * world :=
  Eval vm_compute in
    default ex_started (recorder_take_packets ex_vbr_packets ex_started.1 ex_started.2).

(** The recorder as [recorder_stopping] hands it to the tagging: the last
    segment closed, the first four bytes of the recording read back. *)
Definition ex_finished : recorder :=
  Eval vm_compute in
    (recorder_append_metadata2 true ex_vbr.1 None ex_vbr.2).1
      |> set_first_mp3_header [255; 251; 144; 0].

Definition ex_table : list Z :=
  Eval vm_compute in
    match generate_seek_table ex_finished with
    | SeekTable table => table
    | _ => []
    end.

Definition ex_stream : FILE := {| f_path := "/tmp/a.mp3.tmp"; f_room := None; f_error := false |}.

Definition ex_first : metadata_item2 :=
  Eval vm_compute in
    default {| mi2_start_offset_ms := 0; mi2_finish_offset_ms := 0; mi2_byte_offset := 0;
               mi2_size_bytes := 0; mi2_bit_rate := 0; mi2_sample_rate := 0 |}
            (head (mi2 ex_finished)).

Lemma vbr_marking_and_summary_tag_witness :
  is_vbr ex_vbr.1
  = rates_change (old_rates ex_started.1)
                 (filter (fun p => opens_segment (initial_serial ex_started.1) p = true)
                         (ex_vbr_packets.*2))
  /\ exists (wf' : world) (n : nat),
       recorder_write_xing_tag ex_finished ex_stream ex_vbr.2 = Some (SUCCEEDED, ex_stream, wf')
       /\ appended (f_path ex_stream) ex_vbr.2 wf'
            (first_mp3_header ex_finished
             ++ replicate (Z.to_nat (side_info_table (xing_mpeg1_f ex_finished)
                                                     (xing_mono_f ex_finished))) 0
             ++ (if is_vbr ex_finished
                 then XING_MARKER ++ be32 (xing_total_frames ex_finished ex_first)
                      ++ be32 (bytes_written ex_finished)
                      ++ ex_table ++ (if nth 99 ex_table 0 =? 255 then [0] else [])
                 else INFO_MARKER ++ be32 (xing_total_frames ex_finished ex_first)
                      ++ be32 (bytes_written ex_finished))
             ++ replicate n 0).
Proof.
  apply (vbr_marking_and_summary_tag ex_vbr_packets ex_started.1 ex_vbr.1 ex_started.2 ex_vbr.2
           ex_finished ex_stream ex_vbr.2 ex_first (tail (mi2 ex_finished)) ex_table).
  - repeat constructor.
  - reflexivity.
  - reflexivity.
  - reflexivity.
  - split; reflexivity.
  - reflexivity.
  - reflexivity.
  - simpl. lia.
  - reflexivity.
  - intros _. split; reflexivity.
Defined.

(** On binary64 arithmetic the run above is marked and gets a table of 100
    entries that do not decrease. *)
Example ieee_vbr_seek_table :
  is_vbr ex_vbr.1 = true
  /\ generate_seek_table ex_finished = SeekTable ex_table
  /\ length ex_table = 100%nat
  /\ forallb (fun ab => ab.1 <=? ab.2) (zip ex_table (tail ex_table)) = true.
Proof. repeat split; reflexivity. Qed.

(** Two consecutive audio packets of one segment that differ in bit rate:
    the first opens the segment (INITIAL, MP3), the second is plain MP3. *)
Definition ex_unmarked_packets : list (main_env * encoder_op_packet) :=
  map (fun p => (ex_env (Some p), p))
      [ex_packet 9 5 128 0 [255; 251; 144; 0; 5; 6];
       ex_packet 8 5 192 1 [7; 8]].

Definition ex_unmarked : recorder * world :=
  Eval vm_compute in
    default ex_started (recorder_take_packets ex_unmarked_packets ex_started.1 ex_started.2).

Lemma consecutive_rates_unmarked :
  Forall (fun p => has_flag (flags (header p)) PF_MP3 = true
                   /\ initial_serial ex_started.1 <= serial (header p))
         (ex_unmarked_packets.*2)
  /\ (rates <$> ex_unmarked_packets.*2) = [(128, 44100); (192, 44100)]
  /\ id3_mode ex_started.1 = true
  /\ recorder_take_packets ex_unmarked_packets ex_started.1 ex_started.2 = Some ex_unmarked
  /\ is_vbr ex_unmarked.1 = false.
Proof.
  split; [repeat constructor; simpl; lia|]. repeat split; reflexivity.
Qed.

(** The tagging of the finished recording when the final [rename] fails. *)
Definition ex_rename_failed : recorder * world :=
  Eval vm_compute in
    default (ex_finished, ex_vbr.2)
            (recorder_apply_mp3_tags ex_id3 (ex_tags false) ex_finished ex_vbr.2).

Lemma apply_mp3_tags_failure_witness :
  files ex_rename_failed.2 !! "/tmp/a.mp3" = files ex_vbr.2 !! "/tmp/a.mp3"
  /\ exists msg : string,
       last (stderr ex_rename_failed.2) = Some msg
       /\ ((msg ∈ tag_failures_early /\ files ex_rename_failed.2 = files ex_vbr.2)
           \/ (msg ∈ tag_failures_midway
               /\ files ex_rename_failed.2 !! ("/tmp/a.mp3" +:+ ".tmp") = None)
           \/ (msg = tag_failure_rename /\ te_rename_ok (ex_tags false) = false
               /\ is_Some (files ex_rename_failed.2 !! ("/tmp/a.mp3" +:+ ".tmp")))).
Proof.
  apply (apply_mp3_tags_failure ex_id3 (ex_tags false) ex_finished ex_rename_failed.1
           ex_vbr.2 ex_rename_failed.2 "/tmp/a.mp3").
  - reflexivity.
  - reflexivity.
  - discriminate.
Defined.

(** After the failed [rename] the recording is as it was and the temporary
    file, a complete tagged copy, is still there. *)
Example rename_failure_leaves_temporary_file :
  last (stderr ex_rename_failed.2) = Some tag_failure_rename
  /\ files ex_rename_failed.2 !! "/tmp/a.mp3" = files ex_vbr.2 !! "/tmp/a.mp3"
  /\ exists tagged : list Z,
       files ex_rename_failed.2 !! "/tmp/a.mp3.tmp" = Some tagged
       /\ take 3 tagged = ex_id3 0 []
       /\ drop (length tagged - length (file_content "/tmp/a.mp3" ex_vbr.2)) tagged
          = file_content "/tmp/a.mp3" ex_vbr.2.
Proof.
  split; [reflexivity|]. split; [reflexivity|].
  eexists. split; [reflexivity|]. split; reflexivity.
Qed.




(** An encoder as [encoder_start] leaves it for a back end, about to start. *)
Definition ex_encoder (kind : encoder_codec) (rate : Z) (run : bool) : encoder :=
  {| run_request_f := run; encoder_state := ES_STARTING; codec := kind; enc_n_channels := 2;
     bitrate := 128; target_samplerate := rate; custom_meta := str_bytes "Tit";
     enc_artist := str_bytes "Art"; enc_title := str_bytes "Tit"; enc_album := str_bytes "Alb";
     new_metadata := false; use_metadata := true; flush := false; oggserial := 7;
     enc_timestamp := d_of_int 0; run_encoder := true |}.

(** Every library call succeeds; [header] is what the muxer hands to the
    write callback for its header. *)
Definition ex_setup (header : list (list Z)) : setup_env :=
  {| su_alloc_context_ok := true; su_guess_format_ok := true; su_av_malloc_ok := true;
     su_avio_alloc_ok := true; su_find_encoder_ok := true; su_codec_is_audio := true;
     su_new_stream_ok := true; su_alloc_context3_ok := true; su_parameters_ok := true;
     su_open2_ok := true; su_variable_frame_size := false; su_frame_size := 1024;
     su_frame_ok := true; su_tmp_frame_ok := true; su_swr_alloc_ok := true;
     su_swr_init_ok := true; su_header_ret := 0; su_header_bufs := header |}.

(** A pass in which no audio is waiting and the muxer writes no trailer. *)
Definition ex_step (header : list (list Z)) : step_env :=
  {| sp_setup := ex_setup header; sp_metadata_alloc_ok := true;
     sp_frame := {| fe_packet_alloc_ok := true; fe_rounds := [] |};
     sp_trailer_ret := 0; sp_trailer_bufs := [];
     sp_retag_header_ret := 0; sp_retag_header_bufs := header; sp_retag_trailer_bufs := [];
     sp_flush_header_ret := 0; sp_flush_header_bufs := header; sp_flush_trailer_bufs := [] |}.

Definition ex_aac (rate : Z) : Aac.sys :=
  {| Aac.s_encoder := ex_encoder ENCODER_CODEC_AAC rate true; Aac.s_self := Aac.zero_State;
     Aac.s_live := []; Aac.s_out := [] |}.

Lemma aac_setup_sample_rate_witness :
  length AacProperties.aac_rates = 13%nat
  /\ (forall (i : nat) (rate : Z),
        AacProperties.aac_rates !! i = Some rate ->
        Aac.sample_rate_index rate = Some (Z.of_nat i))
  /\ (forall i : nat,
        AacProperties.aac_rates !! i = Some (target_samplerate (Aac.s_encoder (ex_aac 50000))) ->
        exists s' : Aac.sys,
          Aac.setup (sp_setup (ex_step [])) (ex_aac 50000) = Some (SUCCEEDED, s')
          /\ Aac.sri (Aac.s_self s') = Z.shiftl (Z.of_nat i) 2
          /\ forall n_channels size,
               Aac.adts_header (Aac.sri (Aac.s_self s')) n_channels size !! 2%nat
               = Some (Z.lor 64 (Z.shiftl (Z.of_nat i) 2)))
  /\ (target_samplerate (Aac.s_encoder (ex_aac 50000)) ∉ AacProperties.aac_rates ->
        (exists s' : Aac.sys,
           Aac.setup (sp_setup (ex_step [])) (ex_aac 50000) = Some (FAILED, s')
           /\ Aac.s_live s' = Aac.s_live (ex_aac 50000)
           /\ AacProperties.stream_pointers s' = [false; false; false; false; false])
        /\ (forall (e0 : setup_env) (r : retcode) (s' : Aac.sys),
              Aac.setup e0 (ex_aac 50000) = Some (r, s') -> r = FAILED)
        /\ (encoder_state (Aac.s_encoder (ex_aac 50000)) = ES_STARTING ->
            exists (enc : encoder) (out : list encoder_op_packet),
              Aac.live_aac_encoder_main (ex_step []) (ex_aac 50000)
              = Some (enc, None, Aac.s_live (ex_aac 50000), out)
              /\ encoder_state enc = ES_STOPPED
              /\ run_request_f enc = false
              /\ run_encoder enc = false)).
Proof.
  apply (AacProperties.aac_setup_sample_rate (ex_step []) (ex_aac 50000)).
  - unfold AacProperties.setup_calls_ok. simpl. repeat split; try reflexivity; lia.
  - left. reflexivity.
Defined.

(** The state of a back end after a call of its main function that left it
    with its private state; the state before when the call did not. *)
Definition ex_aac_next (e : step_env) (s : Aac.sys) : Aac.sys :=
  match Aac.live_aac_encoder_main e s with
  | Some (enc, Some self, live, out) =>
      {| Aac.s_encoder := enc; Aac.s_self := self; Aac.s_live := live; Aac.s_out := out |}
  | _ => s
  end.

Definition ex_webm_next (e : step_env) (s : Webm.sys) : Webm.sys :=
  match Webm.live_webm_encoder_main e s with
  | Some (enc, Some self, live, out) =>
      {| Webm.s_encoder := enc; Webm.s_self := self; Webm.s_live := live; Webm.s_out := out |}
  | _ => s
  end.

(** An AAC session that is stopped before any audio arrives: the muxer has
    no header to write, the encoder nothing to flush. *)
Definition ex_aac_running : Aac.sys := Eval vm_compute in ex_aac_next (ex_step []) (ex_aac 44100).

Definition ex_aac_stop_request : Aac.sys :=
  Eval vm_compute in Aac.on_encoder (set_run_request_f false) ex_aac_running.

Definition ex_aac_stopping : Aac.sys :=
  Eval vm_compute in ex_aac_next (ex_step []) ex_aac_stop_request.

Lemma ex_aac_session : AacStream.session ex_aac_stopping.
Proof.
  apply (AacStream.session_step (ex_step []) ex_aac_stop_request
           (Aac.s_encoder ex_aac_stopping) (Aac.s_self ex_aac_stopping)
           (Aac.s_live ex_aac_stopping) (Aac.s_out ex_aac_stopping));
    [|simpl; unfold INT_MIN, INT_MAX; lia | reflexivity].
  apply (AacStream.session_request ex_aac_running (Aac.s_encoder ex_aac_stop_request));
    [|reflexivity | reflexivity].
  apply (AacStream.session_step (ex_step []) (ex_aac 44100)
           (Aac.s_encoder ex_aac_running) (Aac.s_self ex_aac_running)
           (Aac.s_live ex_aac_running) (Aac.s_out ex_aac_running));
    [|simpl; unfold INT_MIN, INT_MAX; lia | reflexivity].
  by apply AacStream.session_start.
Defined.

(** A WebM session that is asked to stop while it starts: [setup] writes the
    header, and the stopping state tears down without a trailer. *)
Definition ex_webm_header : list (list Z) := [[26; 69; 223; 163]; [24; 83; 128; 103]].

Definition ex_webm (run : bool) : Webm.sys :=
  {| Webm.s_encoder := ex_encoder ENCODER_CODEC_OPUS 48000 run;
     Webm.s_self := Webm.zero_State; Webm.s_live := []; Webm.s_out := [] |}.

Definition ex_webm_stopping : Webm.sys :=
  Eval vm_compute in ex_webm_next (ex_step ex_webm_header) (ex_webm false).

Definition ex_webm_stopped_out : list encoder_op_packet :=
  Eval vm_compute in
    match Webm.live_webm_encoder_main (ex_step ex_webm_header) ex_webm_stopping with
    | Some (_, _, _, out) => out
    | None => []
    end.

Lemma ex_webm_session : WebmStream.session ex_webm_stopping.
Proof.
  apply (WebmStream.session_step (ex_step ex_webm_header) (ex_webm false)
           (Webm.s_encoder ex_webm_stopping) (Webm.s_self ex_webm_stopping)
           (Webm.s_live ex_webm_stopping) (Webm.s_out ex_webm_stopping));
    [|simpl; unfold INT_MIN, INT_MAX; lia | reflexivity].
  by apply WebmStream.session_start.
Defined.

Lemma ex_webm_session_output : WebmStream.session_output ex_webm_stopped_out.
Proof.
  exists ex_webm_stopping. split; [exact ex_webm_session|]. right.
  exists (ex_step ex_webm_header),
    (ex_encoder ENCODER_CODEC_OPUS 48000 false
       |> set_oggserial 8 |> set_encoder_state ES_STOPPED |> set_run_encoder false),
    [].
  split; [simpl; unfold INT_MIN, INT_MAX; lia | reflexivity].
Defined.

Lemma session_packets_in_segments_witness :
  segments_ok None (Aac.s_out ex_aac_stopping) = true
  /\ segments_ok None ex_webm_stopped_out = true
  /\ exists (hdr : encoder_op_packet) (hdrs : list encoder_op_packet),
       Webm.s_out (Webm.write_header 0 ([26; 69; 223; 163] :: [[24; 83; 128; 103]])
                     (ex_webm true)).2
       = Webm.s_out (ex_webm true) ++ hdr :: hdrs
       /\ flags (header hdr) = Z.lor PF_WEBM (Z.lor PF_HEADER PF_INITIAL)
       /\ serial (header hdr) = oggserial (Webm.s_encoder (ex_webm true)) + 1
       /\ Forall (fun q => flags (header q) = Z.lor PF_WEBM PF_HEADER
                           /\ serial (header q) = oggserial (Webm.s_encoder (ex_webm true)) + 1)
                 hdrs.
Proof.
  apply (session_packets_in_segments (Aac.s_out ex_aac_stopping) ex_webm_stopped_out
           0 [26; 69; 223; 163] [[24; 83; 128; 103]] (ex_webm true)).
  - exists ex_aac_stopping. split; [exact ex_aac_session | by left].
  - exact ex_webm_session_output.
  - simpl. unfold INT_MIN, INT_MAX. lia.
Defined.

(** The AAC session above wrote one packet, the FINAL one, which opens its
    segment without INITIAL; the WebM session wrote its two header packets
    and stopped without a FINAL packet. *)
Lemma segments_without_initial_or_final :
  AacStream.session_output (Aac.s_out ex_aac_stopping)
  /\ map (fun p => (serial (header p), flags (header p), data_size (header p)))
         (Aac.s_out ex_aac_stopping)
     = [(8, Z.lor PF_AAC PF_FINAL, 0)]
  /\ map (flagged PF_INITIAL) (Aac.s_out ex_aac_stopping) = [false]
  /\ WebmStream.session_output ex_webm_stopped_out
  /\ map (fun p => (serial (header p), flags (header p))) ex_webm_stopped_out
     = [(8, Z.lor PF_WEBM (Z.lor PF_HEADER PF_INITIAL)); (8, Z.lor PF_WEBM PF_HEADER)]
  /\ map (flagged PF_FINAL) ex_webm_stopped_out = [false; false]
  /\ (exists enc live,
        Webm.live_webm_encoder_main (ex_step ex_webm_header) ex_webm_stopping
        = Some (enc, None, live, ex_webm_stopped_out)
        /\ encoder_state enc = ES_STOPPED).
Proof.
  split; [exists ex_aac_stopping; split; [exact ex_aac_session | by left]|].
  split; [reflexivity|]. split; [reflexivity|].
  split; [exact ex_webm_session_output|].
  split; [reflexivity|]. split; [reflexivity|].
  by do 2 eexists.
Qed.

(** A running WebM encoder, and a running AAC encoder that has written one
    audio frame and is then given new metadata. *)
Definition ex_webm_running : Webm.sys :=
  Eval vm_compute in ex_webm_next (ex_step ex_webm_header) (ex_webm true).

Definition ex_audio_step : step_env :=
  {| sp_setup := ex_setup []; sp_metadata_alloc_ok := true;
     sp_frame := {| fe_packet_alloc_ok := true;
                    fe_rounds := [ {| rd_input := true; rd_writable_ok := true;
                                      rd_convert_ok := true; rd_send_ok := true;
                                      rd_received := [ {| rx_bufs := [[33; 16; 4]];
                                                          rx_ok := true |} ] |} ] |};
     sp_trailer_ret := 0; sp_trailer_bufs := [];
     sp_retag_header_ret := 0; sp_retag_header_bufs := []; sp_retag_trailer_bufs := [];
     sp_flush_header_ret := 0; sp_flush_header_bufs := []; sp_flush_trailer_bufs := [] |}.

Definition ex_aac_retag : Aac.sys :=
  Eval vm_compute in
    Aac.on_encoder (set_new_metadata true) (ex_aac_next ex_audio_step ex_aac_running).




(** * Further properties of the recorder *)

Section Recording.
Context `{Double}.

(** The packets whose payload the recorder thread writes: accepted by the
    serial test and of an audio kind. *)
Definition recorded (watermark : Z) (p : encoder_op_packet) : bool :=
  (watermark <=? serial (header p)) && has_flag (flags (header p)) PF_AUDIO_KINDS.

(** A packet whose [data_size] is the size of its payload. *)
Definition sized (p : encoder_op_packet) : Prop :=
  data_size (header p) = Z.of_nat (length (data p)).

(** [bytes_written] is the length of the recording. *)
Definition counted (f : FILE) (self : recorder) (w : world) : Prop :=
  bytes_written self = Z.of_nat (length (file_content (f_path f) w)).

Lemma accept_packet_file (env : main_env) (p : encoder_op_packet) (self : recorder)
    (w : world) (f : FILE) :
  fp self = Some f -> roomy f -> sized p ->
  exists self' w',
    recorder_accept_packet env p self w = Some (self', w')
    /\ fp self' = Some f
    /\ appended (f_path f) w w'
         (if has_flag (flags (header p)) PF_AUDIO_KINDS then data p else [])
    /\ (counted f self w -> counted f self' w').
Proof.
  intros Hfp Hroomy Hsize. cbv delta [recorder_accept_packet] beta zeta.
  assert (exists s1 w1,
            (if has_flag (flags (header p)) PF_INITIAL && id3_mode self
             then recorder_append_metadata2 (env_calloc_ok env) self (Some p) w
             else (self, w)) = (s1, w1)
            /\ fp s1 = Some f /\ files w1 = files w
            /\ bytes_written s1 = bytes_written self) as (s1 & w1 & -> & Hfp1 & Hfiles & Hbw).
  { destruct (_ && _); [|by exists self, w].
    destruct (recorder_append_metadata2 _ self (Some p) w) as [s1 w1] eqn:E1.
    destruct (append_metadata2_frame _ _ _ _ _ _ E1) as (Hfiles & _ & _ & _ & Hfp1 & _).
    exists s1, w1. split; [done|]. split; [by rewrite Hfp1|]. split; [done|].
    revert E1. unfold recorder_append_metadata2.
    destruct (negb _); [by intros [= <- _]|]. cbv zeta.
    destruct (mi2 self); destruct (_ && _); try destruct (_ && _);
      by intros [= <- _]. }
  cbv beta iota.
  assert (forall w2 tail, appended (f_path f) w1 w2 tail -> appended (f_path f) w w2 tail)
    as Hfrom.
  { intros w2 tail. unfold appended, file_content. by rewrite Hfiles. }
  destruct (has_flag (flags (header p)) PF_AUDIO_KINDS).
  - rewrite Hfp1. cbv beta iota delta [mbind option_bind].
    destruct (fwrite_roomy (data p) 1 (data_size (header p)) f w1 Hroomy)
      as (w2 & -> & Happ); [lia | unfold sized in Hsize; lia |].
    rewrite Z.eqb_refl. cbv beta iota delta [negb].
    destruct (has_flag (flags (header p)) PF_FINAL);
      [match goal with |- context [if ?c then _ else _] => destruct c end|];
      do 2 eexists; (split; [reflexivity|]); (split; [done|]);
      (split; [first [by apply Hfrom | by apply appended_elog_r, Hfrom]|]);
      intros _; reflexivity.
  - cbv beta iota delta [mbind option_bind].
    assert (counted f self w -> counted f s1 w1) as Hc.
    { unfold counted, file_content. by rewrite Hbw, Hfiles. }
    destruct (has_flag (flags (header p)) PF_FINAL);
      [match goal with |- context [if ?c then _ else _] => destruct c end|];
      do 2 eexists; (split; [reflexivity|]); (split; [done|]);
      (split; [first [apply Hfrom, appended_nil | apply appended_elog_r, Hfrom, appended_nil]
              | intros Hx; apply Hc in Hx; exact Hx]).
Qed.

Lemma append_metadata_bytes_written ok self p w self' w' :
  recorder_append_metadata ok self p w = Some (self', w') ->
  bytes_written self' = bytes_written self.
Proof.
  unfold recorder_append_metadata.
  destruct (metadata_fields p) as [[artist title] album].
  destruct (is_duplicate self p) as [[|]|]; [by intros [= <- _] | | done].
  destruct (negb ok); [by intros [= <- _]|].
  destruct artist as [a|]; [|done]. destruct title as [t|]; [|done].
  destruct album as [al|]; [|done]. cbn [mbind option_bind]. cbv zeta.
  destruct (mi self); by intros [= <- _].
Qed.

Lemma take_packet_file (env : main_env) (p : encoder_op_packet) (self : recorder)
    (w : world) (f : FILE) (self' : recorder) (w' : world) :
  fp self = Some f -> roomy f -> sized p ->
  recorder_take_packet env p self w = Some (self', w') ->
  fp self' = Some f
  /\ appended (f_path f) w w' (if recorded (initial_serial self) p then data p else [])
  /\ (counted f self w -> counted f self' w').
Proof.
  intros Hfp Hroomy Hsize. unfold recorder_take_packet, recorded.
  assert (exists s1 w1,
            (if initial_serial self <=? serial (header p)
             then recorder_accept_packet env p self w else Some (self, w)) = Some (s1, w1)
            /\ fp s1 = Some f
            /\ appended (f_path f) w w1
                 (if (initial_serial self <=? serial (header p))
                     && has_flag (flags (header p)) PF_AUDIO_KINDS then data p else [])
            /\ (counted f self w -> counted f s1 w1))
    as (s1 & w1 & -> & Hfp1 & Happ & Hc).
  { destruct (initial_serial self <=? serial (header p)).
    - apply (accept_packet_file env p self w f Hfp Hroomy Hsize).
    - exists self, w. split; [done|]. split; [done|]. split; [apply appended_nil | done]. }
  cbn [mbind option_bind]. cbv beta iota.
  destruct (has_flag (flags (header p)) PF_METADATA); [|by intros [= <- <-]].
  intros Heq. pose proof (append_metadata_bytes_written _ _ _ _ _ _ Heq) as Hbw.
  destruct (append_metadata_frame _ _ _ _ _ _ Heq) as (Hfiles & _ & _ & Hfp2 & _).
  split; [by rewrite Hfp2|]. split.
  - unfold appended, file_content in *. by rewrite Hfiles.
  - intros Hx. apply Hc in Hx. unfold counted, file_content in *. by rewrite Hbw, Hfiles.
Qed.

(** X1: the recording made of the packets [l] by an attached recorder whose
    file takes everything: the file grows by exactly the payloads, in order,
    of the packets of an audio kind with a serial at or above the watermark,
    and [bytes_written] goes on counting its bytes. *)
Theorem recording_is_accepted_payloads (l : list (main_env * encoder_op_packet))
    (self : recorder) (w : world) (f : FILE) (self' : recorder) (w' : world) :
  fp self = Some f -> roomy f -> Forall sized (l.*2) ->
  recorder_take_packets l self w = Some (self', w') ->
  file_content (f_path f) w'
  = file_content (f_path f) w
    ++ concat (data <$> filter (fun p => recorded (initial_serial self) p = true) (l.*2))
  /\ fp self' = Some f
  /\ (counted f self w -> counted f self' w').
Proof.
  revert self w. induction l as [|[env p] l IH]; intros self w Hfp Hroomy Hsized Heq.
  - injection Heq as <- <-. simpl. by rewrite app_nil_r.
  - cbn [recorder_take_packets] in Heq.
    destruct (recorder_take_packet env p self w) as [[s1 w1]|] eqn:E1; [|done].
    cbn [mbind option_bind] in Heq.
    rewrite fmap_cons in Hsized. apply Forall_cons in Hsized as [Hp Hl].
    destruct (take_packet_file env p self w f s1 w1 Hfp Hroomy Hp E1) as (Hfp1 & Happ & Hc).
    destruct (IH s1 w1 Hfp1 Hroomy Hl Heq) as (Hfile & Hfp' & Hc').
    rewrite (take_packet_initial_serial _ _ _ _ _ _ E1) in Hfile.
    split; [|split; [done | auto]].
    rewrite Hfile, Happ, <- app_assoc. f_equal.
    rewrite fmap_cons. cbn [snd]. rewrite filter_cons.
    destruct (recorded (initial_serial self) p) eqn:Er.
    + rewrite decide_True by done. by rewrite fmap_cons.
    + rewrite decide_False by (by intros ?). done.
Qed.

End Recording.

(** * A recording that the device stops taking *)

Section ShortWrite.
Context `{Double}.

(** What [recorder_append_metadata2] leaves alone. *)
Lemma append_metadata2_counters ok self p w self' w' :
  recorder_append_metadata2 ok self p w = (self', w') ->
  bytes_written self' = bytes_written self
  /\ recording_length_ms self' = recording_length_ms self
  /\ recording_length_s self' = recording_length_s self
  /\ pause_pending self' = pause_pending self
  /\ final_serial self' = final_serial self
  /\ pathname self' = pathname self
  /\ accumulated_time self' = accumulated_time self
  /\ (forall msg, msg ∈ stderr w -> msg ∈ stderr w').
Proof.
  unfold recorder_append_metadata2.
  destruct (negb _).
  { intros [= <- <-]. repeat split. intros msg Hm. simpl. apply elem_of_app. by left. }
  cbv zeta.
  destruct p as [p|]; destruct (mi2 self);
    repeat match goal with |- context [if ?c then _ else _] => destruct c end;
    intros [= <- <-]; repeat split; try done;
    intros msg Hm; simpl; apply elem_of_app; by left.
Qed.

Lemma fwrite_short (buf : list Z) (n room : Z) (f : FILE) (w : world) :
  f_room f = Some room -> 0 <= room < n -> Z.of_nat (length buf) = n ->
  exists f' w',
    fwrite buf 1 n f w = (room, f', w')
    /\ appended (f_path f) w w' (take (Z.to_nat room) buf)
    /\ stderr w' = stderr w.
Proof.
  intros Hroom Hr Hlen. unfold fwrite, write_bytes, accepted. rewrite Hroom.
  rewrite Z.mul_1_l, <- Hlen, Nat2Z.id, firstn_all.
  replace (Z.min (Z.of_nat (length buf)) (Z.max 0 room)) with room by lia.
  do 2 eexists. split; [|split].
  - cbn [Z.eqb]. by rewrite Z.quot_1_r.
  - unfold appended, file_content. simpl. by rewrite lookup_insert_eq.
  - done.
Qed.

Definition write_failure (self : recorder) : string :=
  "recorder_main: failed writing to file " +:+ default EmptyString (pathname self).

(** The mode after a write that fell short: stopping, unless the packet is
    the final one that a pending pause waits for. *)
Definition mode_after_short_write (self : recorder) (p : encoder_op_packet) : record_mode_t :=
  if has_flag (flags (header p)) PF_FINAL && pause_pending self
     && (final_serial self <=? serial (header p))
  then RM_PAUSED else RM_STOPPING.

Lemma accept_packet_short_write (env : main_env) (p : encoder_op_packet) (self : recorder)
    (w : world) (f : FILE) (room : Z) :
  fp self = Some f -> f_room f = Some room -> 0 <= room < data_size (header p) ->
  sized p -> has_flag (flags (header p)) PF_AUDIO_KINDS = true ->
  exists self' w',
    recorder_accept_packet env p self w = Some (self', w')
    /\ record_mode self' = mode_after_short_write self p
    /\ bytes_written self' = bytes_written self
    /\ recording_length_ms self' = recording_length_ms self
    /\ appended (f_path f) w w' (take (Z.to_nat room) (data p))
    /\ (write_failure self ∈ stderr w').
Proof.
  intros Hfp Hroom Hr Hsize Haudio. unfold mode_after_short_write, write_failure.
  cbv delta [recorder_accept_packet] beta zeta.
  assert (exists s1 w1,
            (if has_flag (flags (header p)) PF_INITIAL && id3_mode self
             then recorder_append_metadata2 (env_calloc_ok env) self (Some p) w
             else (self, w)) = (s1, w1)
            /\ fp s1 = Some f /\ files w1 = files w
            /\ bytes_written s1 = bytes_written self
            /\ recording_length_ms s1 = recording_length_ms self
            /\ pause_pending s1 = pause_pending self
            /\ final_serial s1 = final_serial self
            /\ pathname s1 = pathname self)
    as (s1 & w1 & -> & Hfp1 & Hfiles & Hbw & Hms & Hpp & Hfs & Hpath).
  { destruct (_ && _); [|by exists self, w].
    destruct (recorder_append_metadata2 _ self (Some p) w) as [s1 w1] eqn:E1.
    destruct (append_metadata2_frame _ _ _ _ _ _ E1) as (Hfiles & _ & _ & _ & Hfp1 & _).
    destruct (append_metadata2_counters _ _ _ _ _ _ E1)
      as (Hbw & Hms & _ & Hpp & Hfs & Hpath & _).
    exists s1, w1. rewrite Hfp1. by repeat split. }
  cbv beta iota. rewrite Haudio, Hfp1. cbv beta iota delta [mbind option_bind].
  destruct (fwrite_short (data p) (data_size (header p)) room f w1 Hroom Hr)
    as (f' & w2 & -> & Happ & Herr); [by symmetry|].
  assert ((data_size (header p) =? room) = false) as -> by lia.
  cbv beta iota delta [negb]. rewrite <- Hpp, <- Hfs, <- Hpath.
  assert (appended (f_path f) w w2 (take (Z.to_nat room) (data p))) as Happ'.
  { revert Happ. unfold appended, file_content. by rewrite Hfiles. }
  destruct (has_flag (flags (header p)) PF_FINAL); cbn [andb].
  - match goal with |- context [if ?c then _ else _] => destruct c eqn:Ec end;
      simpl in Ec; rewrite Ec;
      do 2 eexists; (split; [reflexivity|]); simpl; repeat split; try done.
    + rewrite Herr. apply elem_of_app. left. apply elem_of_app. right. apply list_elem_of_here.
    + rewrite Herr. apply elem_of_app. right. apply list_elem_of_here.
  - do 2 eexists. split; [reflexivity|]. simpl. repeat split; try done.
    rewrite Herr. apply elem_of_app. right. apply list_elem_of_here.
Qed.

(** X2: a pass of the recorder thread whose write falls short (the device
    takes only [room] bytes of the packet): the part that was taken is in the
    file, the failure is reported, the counters of the recording stay, and the
    recorder goes on to stop, or to pause when this was the final packet that
    a pending pause was waiting for. *)
Theorem short_write_ends_recording (id3 : Z -> list metadata_item -> list Z)
    (env : main_env) (p : encoder_op_packet) (self : recorder) (w : world)
    (f : FILE) (room : Z) :
  record_mode self = RM_RECORDING -> initial_serial self <> -1 ->
  env_packet env = Some p -> initial_serial self <= serial (header p) ->
  has_flag (flags (header p)) PF_AUDIO_KINDS = true ->
  has_flag (flags (header p)) PF_METADATA = false ->
  sized p ->
  fp self = Some f -> f_room f = Some room -> 0 <= room < data_size (header p) ->
  exists self' w',
    recorder_main_pass id3 env self w = Some (self', w')
    /\ record_mode self' = mode_after_short_write self p
    /\ bytes_written self' = bytes_written self
    /\ recording_length_ms self' = recording_length_ms self
    /\ file_content (f_path f) w' = file_content (f_path f) w ++ take (Z.to_nat room) (data p)
    /\ (write_failure self ∈ stderr w').
Proof.
  intros Hmode Hser Hpacket Hfence Haudio Hmeta Hsize Hfp Hroom Hr.
  destruct (accept_packet_short_write env p self w f room Hfp Hroom Hr Hsize Haudio)
    as (s1 & w1 & Eacc & Hm1 & Hbw & Hms & Happ & Hmsg).
  unfold recorder_main_pass. rewrite Hmode.
  assert ((initial_serial self =? -1) = false) as -> by lia.
  unfold recording_attached. rewrite Hpacket. unfold recorder_take_packet.
  assert ((initial_serial self <=? serial (header p)) = true) as -> by lia.
  rewrite Eacc. cbn [mbind option_bind]. cbv beta iota. rewrite Hmeta.
  cbn [mbind option_bind]. cbv beta iota zeta.
  do 2 eexists. split; [reflexivity|].
  destruct (stop_request s1), (pause_request s1); simpl; by repeat split.
Qed.

End ShortWrite.

(** * The segment list of an MP3 recording *)

Section SegmentList.
Context `{Double}.


















End SegmentList.

(** * Stopping, pausing and starting *)

Section Control.
Context `{Double}.
Variable id3_tag_data : Z -> list metadata_item -> list Z.

Lemma recorder_start_open_mi e rv ext self w r self' w' :
  recorder_start_open e rv ext self w = Some (r, self', w') -> mi self' = mi self.
Proof.
  cbv delta [recorder_start_open] beta zeta.
  destruct (negb (se_pathname_ok e)); [by intros [= _ <- _]|].
  destruct (fopen_w _ _ _ _) as [[f|] w1]; [|by intros [= _ <- _]].
  cbv beta iota.
  match goal with |- context [encoder_op ?s] => destruct (encoder_op s) end.
  { cbn [mbind option_bind]. cbv beta iota.
    match goal with |- context [if ?c then _ else _] => destruct c end;
      by intros [= _ <- _]. }
  match goal with |- context [cuepathname ?s] => destruct (cuepathname s) end; [|done].
  cbn [mbind option_bind].
  destruct (fopen_w _ _ _ _) as [[fc|] w2].
  2:{ cbn [mbind option_bind]. cbv beta iota. by intros [= _ <- _]. }
  destruct (after_last_slash _); [|done]. cbn [mbind option_bind].
  repeat match goal with |- context [fprint ?a ?b ?c] => destruct (fprint a b c) end.
  repeat match goal with |- context [if ?c then _ else _] => destruct c end;
    cbn [mbind option_bind]; cbv beta iota;
    repeat match goal with |- context [if ?c then _ else _] => destruct c end;
    by intros [= _ <- _].
Qed.

Lemma recorder_start_mi e rv self w r self' w' :
  recorder_start e rv self w = Some (r, self', w') -> mi self' = mi self.
Proof.
  unfold recorder_start.
  destruct (String.eqb _ _).
  - destruct (negb _); [by intros [= _ <- _]|].
    intros Heq. by rewrite (recorder_start_open_mi _ _ _ _ _ _ _ _ Heq).
  - destruct (se_register e) as [op|]; [|by intros [= _ <- _]].
    destruct (negb _); [by intros [= _ <- _]|].
    destruct (start_format op) as [[[ext|] id3] xing];
      destruct id3 as [?|], xing as [?|]; try (by intros [= _ <- _]);
      intros Heq; by rewrite (recorder_start_open_mi _ _ _ _ _ _ _ _ Heq).
Qed.

(** X4: the chapter list outlives a recording that is not in id3 mode. The
    stopping pass of such a recording (Ogg, WebM) ends in the stopped mode
    without touching the list, and a later [recorder_start] does not clear it
    either: the next recording starts with the chapters of this one. *)
Theorem chapters_outlive_recording (env : main_env) (self : recorder) (w : world) :
  record_mode self = RM_STOPPING -> initial_serial self <> -1 -> id3_mode self = false ->
  exists self1,
    recorder_main_pass id3_tag_data env self w = Some (self1, w)
    /\ record_mode self1 = RM_STOPPED
    /\ fp self1 = None
    /\ mi self1 = mi self
    /\ forall e rv r self2 w2,
         recorder_start e rv self1 w = Some (r, self2, w2) -> mi self2 = mi self.
Proof.
  intros Hmode Hser Hid3. unfold recorder_main_pass. rewrite Hmode.
  unfold recorder_stopping.
  assert ((initial_serial self =? -1) = false) as -> by lia.
  rewrite Hid3. cbn [mbind option_bind]. cbv beta iota.
  eexists. split; [reflexivity|]. split; [done|]. split; [done|]. split; [done|].
  intros e rv r self2 w2 Heq. by rewrite (recorder_start_mi _ _ _ _ _ _ _ Heq).
Qed.

Lemma recorder_start_open_mode e rv ext self w self' w' :
  recorder_start_open e rv ext self w = Some (SUCCEEDED, self', w') ->
  record_mode self' = (if pause_request self then RM_PAUSED else RM_RECORDING)
  /\ is_Some (fp self').
Proof.
  cbv delta [recorder_start_open] beta zeta.
  destruct (negb (se_pathname_ok e)); [done|].
  destruct (fopen_w _ _ _ _) as [[f|] w1]; [|done].
  cbv beta iota.
  match goal with |- context [encoder_op ?s] => destruct (encoder_op s) end.
  { cbn [mbind option_bind]. cbv beta iota.
    match goal with |- context [if ?c then _ else _] => destruct c eqn:Ec end;
      simpl in Ec; rewrite Ec; by intros [= <- _]. }
  match goal with |- context [cuepathname ?s] => destruct (cuepathname s) end; [|done].
  cbn [mbind option_bind].
  destruct (fopen_w _ _ _ _) as [[fc|] w2]; [|done].
  destruct (after_last_slash _); [|done]. cbn [mbind option_bind].
  repeat match goal with |- context [fprint ?a ?b ?c] => destruct (fprint a b c) end.
  destruct (negb (se_sf_open_ok e)); [done|].
  destruct (negb (se_ringbuffers_ok e)); [done|].
  cbn [mbind option_bind]. cbv beta iota.
  match goal with |- context [if ?c then _ else _] => destruct c eqn:Ec end;
    simpl in Ec; rewrite Ec; by intros [= <- _].
Qed.

Lemma recorder_start_mode e rv self w self' w' :
  recorder_start e rv self w = Some (SUCCEEDED, self', w') ->
  record_mode self' = (if pause_request self then RM_PAUSED else RM_RECORDING)
  /\ is_Some (fp self').
Proof.
  unfold recorder_start.
  destruct (String.eqb _ _).
  - destruct (negb _); [done|].
    intros Heq. by apply recorder_start_open_mode in Heq.
  - destruct (se_register e) as [op|]; [|done].
    destruct (negb _); [done|].
    destruct (start_format op) as [[[ext|] id3] xing];
      destruct id3 as [?|], xing as [?|]; try done;
      intros Heq; by apply recorder_start_open_mode in Heq.
Qed.

(** X5: a pause asked of a stopped recorder succeeds at once and leaves the
    request standing: the next successful [recorder_start] enters the paused
    mode, not the recording mode. *)
Theorem pause_before_start (envs : list main_env) (self : recorder) (w : world) :
  record_mode self = RM_STOPPED ->
  exists self1 w1,
    recorder_pause id3_tag_data envs self w = Returned (SUCCEEDED, self1, w1)
    /\ record_mode self1 = RM_STOPPED
    /\ files w1 = files w
    /\ forall e rv self2 w2,
         recorder_start e rv self1 w1 = Some (SUCCEEDED, self2, w2) ->
         record_mode self2 = RM_PAUSED.
Proof.
  intros Hmode. unfold recorder_pause. cbv zeta.
  change (record_mode (set_pause_request true (set_unpause_request false self)))
    with (record_mode self).
  rewrite Hmode. cbn [is_mode]. do 2 eexists. split; [reflexivity|].
  split; [done|]. split; [done|].
  intros e rv self2 w2 Heq. by apply recorder_start_mode in Heq as [-> _].
Qed.




End Control.

(** * The pause and stop protocols of an attached recorder *)

Section Protocols.
Context `{Double}.
Variable id3_tag_data : Z -> list metadata_item -> list Z.

Lemma append_metadata2_control ok self p w self' w' :
  recorder_append_metadata2 ok self p w = (self', w') ->
  stop_request self' = stop_request self
  /\ stop_pending self' = stop_pending self
  /\ pause_request self' = pause_request self
  /\ unpause_request self' = unpause_request self.
Proof.
  unfold recorder_append_metadata2.
  destruct (negb _); [by intros [= <- _]|]. cbv zeta.
  destruct p as [p|]; destruct (mi2 self);
    repeat match goal with |- context [if ?c then _ else _] => destruct c end;
    by intros [= <- _].
Qed.

(** The payload that a packet adds to the recording. *)
Definition payload (p : encoder_op_packet) : list Z :=
  if has_flag (flags (header p)) PF_AUDIO_KINDS then data p else [].

(** The recorder waits, with a pause pending, for a final packet. *)
Record awaiting_final (self : recorder) (f : FILE) : Prop := {
  af_mode : record_mode self = RM_RECORDING;
  af_attached : initial_serial self <> -1;
  af_pending : pause_pending self = true;
  af_no_stop : stop_request self = false;
  af_no_pause : pause_request self = false;
  af_fp : fp self = Some f;
  af_roomy : roomy f
}.

(** The final packet of the stream that the pause waits for. *)
Record closes_stream (self : recorder) (p : encoder_op_packet) : Prop := {
  cs_final : has_flag (flags (header p)) PF_FINAL = true;
  cs_plain : has_flag (flags (header p)) PF_METADATA = false;
  cs_accepted : initial_serial self <= serial (header p);
  cs_flushed : final_serial self <= serial (header p);
  cs_sized : sized p
}.

Lemma take_final_packet (env : main_env) (p : encoder_op_packet) (self : recorder)
    (w : world) (f : FILE) :
  awaiting_final self f -> closes_stream self p ->
  exists self' w',
    recorder_take_packet env p self w = Some (self', w')
    /\ record_mode self' = RM_PAUSED
    /\ pause_pending self' = false
    /\ stop_request self' = false
    /\ pause_request self' = false
    /\ stop_pending self' = stop_pending self
    /\ id3_mode self' = id3_mode self
    /\ initial_serial self' = initial_serial self
    /\ fp self' = Some f
    /\ appended (f_path f) w w' (payload p).
Proof.
  intros [Hmode Hser Hpp Hstop Hpause Hfp Hroomy] [Hfinal Hmeta Hacc Hflush Hsize].
  unfold recorder_take_packet.
  assert ((initial_serial self <=? serial (header p)) = true) as -> by lia.
  rewrite Hmeta. cbv delta [recorder_accept_packet] beta zeta.
  assert (exists s1 w1,
            (if has_flag (flags (header p)) PF_INITIAL && id3_mode self
             then recorder_append_metadata2 (env_calloc_ok env) self (Some p) w
             else (self, w)) = (s1, w1)
            /\ fp s1 = Some f /\ files w1 = files w
            /\ pause_pending s1 = true /\ final_serial s1 = final_serial self
            /\ stop_request s1 = false /\ pause_request s1 = false
            /\ stop_pending s1 = stop_pending self /\ id3_mode s1 = id3_mode self
            /\ initial_serial s1 = initial_serial self)
    as (s1 & w1 & -> & Hfp1 & Hfiles & Hpp1 & Hfs1 & Hstop1 & Hpause1 & Hsp1 & Hid1 & Hser1).
  { destruct (_ && _); [|by exists self, w].
    destruct (recorder_append_metadata2 _ self (Some p) w) as [s1 w1] eqn:E1.
    destruct (append_metadata2_frame _ _ _ _ _ _ E1) as (Hfiles & Hser1 & _ & Hid1 & Hfp1 & _).
    destruct (append_metadata2_counters _ _ _ _ _ _ E1) as (_ & _ & _ & Hpp1 & Hfs1 & _).
    destruct (append_metadata2_control _ _ _ _ _ _ E1) as (Hstop1 & Hsp1 & Hpause1 & _).
    exists s1, w1. rewrite Hfp1, Hpp1, Hstop1, Hpause1. by repeat split. }
  cbv beta iota. rewrite Hfinal. unfold payload.
  assert (forall w2 tail, appended (f_path f) w1 w2 tail -> appended (f_path f) w w2 tail)
    as Hfrom.
  { intros w2 tail. unfold appended, file_content. by rewrite Hfiles. }
  assert ((final_serial s1 <=? serial (header p)) = true) as Hle by lia.
  destruct (has_flag (flags (header p)) PF_AUDIO_KINDS).
  - rewrite Hfp1. cbv beta iota delta [mbind option_bind].
    destruct (fwrite_roomy (data p) 1 (data_size (header p)) f w1 Hroomy)
      as (w2 & -> & Happ); [lia | unfold sized in Hsize; lia |].
    rewrite Z.eqb_refl. cbv beta iota delta [negb].
    match goal with |- context [if ?c then _ else _] =>
      assert (c = true) as -> by (simpl; by rewrite Hpp1, Hle) end.
    do 2 eexists. split; [reflexivity|]. simpl. repeat split; try done.
    by apply appended_elog_r, Hfrom.
  - cbv beta iota delta [mbind option_bind].
    match goal with |- context [if ?c then _ else _] =>
      assert (c = true) as -> by (simpl; by rewrite Hpp1, Hle) end.
    do 2 eexists. split; [reflexivity|]. simpl. repeat split; try done.
    apply appended_elog_r, Hfrom, appended_nil.
Qed.

Lemma final_packet_pauses (env : main_env) (p : encoder_op_packet) (self : recorder)
    (w : world) (f : FILE) :
  awaiting_final self f -> closes_stream self p -> env_packet env = Some p ->
  exists self' w',
    recorder_main_pass id3_tag_data env self w = Some (self', w')
    /\ record_mode self' = RM_PAUSED
    /\ pause_pending self' = false
    /\ stop_request self' = false
    /\ stop_pending self' = stop_pending self
    /\ id3_mode self' = id3_mode self
    /\ initial_serial self' = initial_serial self
    /\ fp self' = Some f
    /\ appended (f_path f) w w' (payload p).
Proof.
  intros Hwait Hcloses Hpacket.
  destruct (take_final_packet env p self w f Hwait Hcloses)
    as (s1 & w1 & Etake & Hm & Hpp & Hstop & Hpause & Hsp & Hid & Hser & Hfp & Happ).
  destruct Hwait as [Hmode Hatt _ _ _ _ _].
  unfold recorder_main_pass. rewrite Hmode.
  assert ((initial_serial self =? -1) = false) as -> by lia.
  unfold recording_attached. rewrite Hpacket, Etake. cbn [mbind option_bind].
  cbv beta iota zeta. rewrite Hstop. cbv iota. rewrite Hpause. cbv iota.
  by exists s1, w1.
Qed.

(** The pass in which the recorder thread takes up a request. *)
Lemma attached_request_pass (env : main_env) (self : recorder) (w : world) :
  record_mode self = RM_RECORDING -> initial_serial self <> -1 -> env_packet env = None ->
  stop_request self || pause_request self = true ->
  exists self',
    recorder_main_pass id3_tag_data env self w = Some (self', w)
    /\ record_mode self' = RM_RECORDING
    /\ initial_serial self' = initial_serial self
    /\ pause_pending self' = true
    /\ stop_request self' = false
    /\ pause_request self' = false
    /\ stop_pending self' = stop_request self || stop_pending self
    /\ final_serial self' = env_flush_serial env
    /\ id3_mode self' = id3_mode self
    /\ fp self' = fp self.
Proof.
  intros Hmode Hser Hpacket Hreq. unfold recorder_main_pass. rewrite Hmode.
  assert ((initial_serial self =? -1) = false) as -> by lia.
  unfold recording_attached. rewrite Hpacket. cbn [mbind option_bind]. cbv beta iota zeta.
  destruct (stop_request self) eqn:Es.
  - eexists. split; [reflexivity|]. simpl. by repeat split.
  - simpl in Hreq. rewrite Hreq. eexists. split; [reflexivity|]. simpl. by repeat split.
Qed.

(** X7: [recorder_pause] on a recorder attached to an encoder. The thread
    takes up the request, asks the encoder to flush, and goes on recording
    until the final packet of the flushed stream has been written; then the
    call returns with the recorder paused. *)
Theorem pause_completes_on_final_packet (e1 e2 : main_env) (envs : list main_env)
    (p : encoder_op_packet) (self : recorder) (w : world) (f : FILE) :
  record_mode self = RM_RECORDING -> initial_serial self <> -1 ->
  stop_request self = false -> fp self = Some f -> roomy f ->
  env_packet e1 = None -> env_packet e2 = Some p ->
  has_flag (flags (header p)) PF_FINAL = true ->
  has_flag (flags (header p)) PF_METADATA = false ->
  initial_serial self <= serial (header p) ->
  env_flush_serial e1 <= serial (header p) ->
  sized p ->
  exists self' w',
    recorder_pause id3_tag_data (e1 :: e2 :: envs) self w = Returned (SUCCEEDED, self', w')
    /\ record_mode self' = RM_PAUSED
    /\ pause_pending self' = false
    /\ fp self' = Some f
    /\ file_content (f_path f) w' = file_content (f_path f) w ++ payload p.
Proof.
  intros Hmode Hser Hstop Hfp Hroomy Hp1 Hp2 Hfinal Hmeta Hacc Hflush Hsize.
  unfold recorder_pause. cbv zeta.
  set (self0 := set_pause_request true (set_unpause_request false self)).
  set (w0 := elog "recorder_pause: waiting for pause mode to be entered" w).
  assert (record_mode self0 = RM_RECORDING) as Hmode0 by done.
  destruct (attached_request_pass e1 self0 w0 Hmode0 Hser Hp1)
    as (s1 & E1 & Hm1 & Hser1 & Hpp1 & Hstop1 & Hpause1 & _ & Hfs1 & _ & Hfp1).
  { unfold self0. simpl. by rewrite Hstop. }
  assert (awaiting_final s1 f) as Hwait.
  { split; try done. - by rewrite Hser1. - by rewrite Hfp1. }
  assert (closes_stream s1 p) as Hcloses.
  { split; try done. - by rewrite Hser1. - by rewrite Hfs1. }
  destruct (final_packet_pauses e2 p s1 w0 f Hwait Hcloses Hp2)
    as (s2 & w2 & E2 & Hm2 & Hpp2 & _ & _ & _ & _ & Hfp2 & Happ).
  rewrite Hmode0. cbn [is_mode poll_while]. rewrite Hmode0. cbn [is_mode negb].
  rewrite E1, Hm1. cbn [is_mode negb]. rewrite E2.
  match goal with |- context [poll_while _ ?c envs s2 w2] =>
    assert (poll_while id3_tag_data c envs s2 w2 = Returned (s2, w2)) as ->
      by (destruct envs; cbn [poll_while]; by rewrite Hm2)
  end.
  by exists s2, (elog "recorder_pause: in pause mode" w2).
Qed.

(** X8: [recorder_stop] on a recording, not in id3 mode, of an attached
    recorder. The stop becomes a pending pause; the recording goes on until
    the final packet of the flushed stream is written; the paused recorder
    then closes the recording, and the call returns with the recorder stopped
    and the file holding what it held plus the payload of the final packet. *)
Theorem stop_completes_on_final_packet (e1 e2 e3 e4 : main_env) (envs : list main_env)
    (p : encoder_op_packet) (self : recorder) (w : world) (f : FILE) :
  record_mode self = RM_RECORDING -> initial_serial self <> -1 -> id3_mode self = false ->
  fp self = Some f -> roomy f ->
  env_packet e1 = None -> env_packet e2 = Some p ->
  has_flag (flags (header p)) PF_FINAL = true ->
  has_flag (flags (header p)) PF_METADATA = false ->
  initial_serial self <= serial (header p) ->
  env_flush_serial e1 <= serial (header p) ->
  sized p ->
  exists self' w',
    recorder_stop id3_tag_data (e1 :: e2 :: e3 :: e4 :: envs) self w
    = Returned (SUCCEEDED, self', w')
    /\ record_mode self' = RM_STOPPED
    /\ fp self' = None
    /\ stop_request self' = false /\ stop_pending self' = false
    /\ pause_request self' = false /\ pause_pending self' = false
    /\ file_content (f_path f) w' = file_content (f_path f) w ++ payload p.
Proof.
  intros Hmode Hser Hid3 Hfp Hroomy Hp1 Hp2 Hfinal Hmeta Hacc Hflush Hsize.
  unfold recorder_stop. rewrite Hmode. cbn [is_mode].
  set (self0 := set_stop_request true self).
  assert (record_mode self0 = RM_RECORDING) as Hmode0 by done.
  destruct (attached_request_pass e1 self0 w Hmode0 Hser Hp1)
    as (s1 & E1 & Hm1 & Hser1 & Hpp1 & Hstop1 & Hpause1 & Hsp1 & Hfs1 & Hid1 & Hfp1); [done|].
  assert (awaiting_final s1 f) as Hwait.
  { split; try done. - by rewrite Hser1. - by rewrite Hfp1. }
  assert (closes_stream s1 p) as Hcloses.
  { split; try done. - by rewrite Hser1. - by rewrite Hfs1. }
  destruct (final_packet_pauses e2 p s1 w f Hwait Hcloses Hp2)
    as (s2 & w2 & E2 & Hm2 & Hpp2 & Hstop2 & Hsp2 & Hid2 & Hser2 & Hfp2 & Happ).
  cbn [poll_while]. rewrite Hmode0. cbn [is_mode negb].
  rewrite E1, Hm1. cbn [is_mode negb]. rewrite E2, Hm2. cbn [is_mode negb].
  unfold recorder_main_pass at 1. rewrite Hm2. unfold recorder_paused.
  assert (stop_pending s1 = true) as Hsp1' by (by rewrite Hsp1).
  rewrite Hstop2, Hsp2, Hsp1'. cbn [orb mbind option_bind record_mode set_record_mode].
  cbn [is_mode negb].
  unfold recorder_main_pass at 1. cbn [record_mode set_record_mode].
  unfold recorder_stopping.
  change (initial_serial (set_record_mode RM_STOPPING s2)) with (initial_serial s2).
  change (id3_mode (set_record_mode RM_STOPPING s2)) with (id3_mode s2).
  rewrite Hser2, Hser1.
  assert ((initial_serial self0 =? -1) = false) as -> by (unfold self0; simpl; lia).
  rewrite Hid2, Hid1. change (id3_mode self0) with (id3_mode self). rewrite Hid3.
  cbn [mbind option_bind]. cbv beta iota.
  match goal with |- context [poll_while _ ?c envs ?s ?w] =>
    assert (poll_while id3_tag_data c envs s w = Returned (s, w)) as -> by (by destruct envs)
  end.
  do 2 eexists. split; [reflexivity|]. simpl. by repeat split.
Qed.

End Protocols.

(** * The tagged MP3 file *)

Section TaggedFile.
Context `{Double}.
Variable id3_tag_data : Z -> list metadata_item -> list Z.

Lemma seek_loop_header (h : list Z) (self : recorder) (room : nat) :
  forall seek cur table,
    seek_loop room (set_first_mp3_header h self) seek cur table = seek_loop room self seek cur table.
Proof.
  induction room as [|room IH]; intros seek cur table; cbn [seek_loop]; [done|].
  destruct (dlt seek (d_of_int 1)); [|done].
  change (recording_length_ms (set_first_mp3_header h self)) with (recording_length_ms self).
  destruct (seek_segment _ cur) as [[m cur']|]; [|done]. by rewrite IH.
Qed.

Lemma take_nil_inv {A : Type} (n : nat) (l : list A) : (0 < n)%nat -> take n l = [] -> l = [].
Proof. intros Hn. destruct n; [lia|]. by destruct l. Qed.

Lemma fwrite_stderr buf size nmemb f w k f' w' :
  fwrite buf size nmemb f w = (k, f', w') -> stderr w' = stderr w.
Proof. unfold fwrite, write_bytes. cbv zeta. by intros [= _ _ <-]. Qed.

(** The copy loop on a stream that takes everything copies the rest of the
    source file and touches no other file. *)
Lemma copy_loop_copies (p : string) (w0 : world) (src : string) (fpw : FILE) (fuel : nat) :
  roomy fpw -> src <> p ->
  forall pos w,
    keeps p w0 fpw w ->
    (length (drop pos (file_content src w0)) < fuel)%nat ->
    exists w',
      copy_loop fuel {| rf_path := src; rf_pos := pos |} fpw w = (true, fpw, w')
      /\ appended p w w' (drop pos (file_content src w0))
      /\ keeps p w0 fpw w'
      /\ stderr w' = stderr w.
Proof.
  intros Hroomy Hsrc. induction fuel as [|fuel IH]; intros pos w Hk Hfuel; [lia|].
  cbn [copy_loop]. unfold fread. cbn [rf_path rf_pos].
  assert (file_content src w = file_content src w0) as ->.
  { destruct Hk as (_ & Hother & _). unfold file_content. by rewrite Hother. }
  set (l := drop pos (file_content src w0)) in *.
  destruct (take 2048 l) as [|b buffer] eqn:Ebuf.
  - apply take_nil_inv in Ebuf; [|lia]. rewrite Ebuf. cbn [length Z.of_nat Z.eqb].
    exists w. split; [done|]. split; [apply appended_nil|]. done.
  - destruct Hk as (Hp & Hother & Hsome).
    destruct (fwrite_roomy (b :: buffer) (Z.of_nat (length (b :: buffer))) 1 fpw w Hroomy)
      as (w1 & Ew & Happ); [cbn [length]; lia | lia |].
    assert (keeps p w0 fpw w1) as Hk1.
    { eapply fwrite_keeps; [|exact Ew]. done. }
    assert ((Z.of_nat (length (b :: buffer)) =? 0) = false) as ->
      by (apply Z.eqb_neq; cbn [length]; lia).
    rewrite Ew. change (1 =? 0) with false. cbv iota.
    destruct (IH (pos + length (b :: buffer))%nat w1 Hk1) as (w2 & -> & Happ2 & Hk2 & Herr2).
    { rewrite <- drop_drop. fold l. rewrite length_drop.
      assert (length (b :: buffer) <= length l)%nat.
      { rewrite <- Ebuf, length_take. lia. }
      cbn [length] in *. lia. }
    exists w2. split; [done|]. split; [|split; [done|]].
    + rewrite Hp in Happ. pose proof (appended_app _ _ _ _ _ _ Happ Happ2) as Hall.
      rewrite <- drop_drop in Hall. fold l in Hall.
      assert (drop (length (b :: buffer)) l = drop 2048 l) as Hd.
      { rewrite <- Ebuf, length_take. destruct (decide (2048 <= length l)%nat).
        - by rewrite Nat.min_l.
        - rewrite Nat.min_r by lia. rewrite !drop_ge; [done|lia|lia]. }
      rewrite Hd, <- Ebuf, take_drop in Hall. exact Hall.
    + rewrite Herr2. by apply fwrite_stderr in Ew.
Qed.

Lemma write_id3_tag_roomy (self : recorder) (f : FILE) (w : world) :
  roomy f ->
  exists w',
    recorder_write_id3_tag id3_tag_data self f w = (SUCCEEDED, f, w')
    /\ appended (f_path f) w w' (id3_tag_data (recording_length_ms self) (mi self))
    /\ stderr w' = stderr w.
Proof.
  intros Hf. unfold recorder_write_id3_tag. cbv zeta.
  set (tag := id3_tag_data (recording_length_ms self) (mi self)).
  destruct (fwrite_roomy tag 1 (Z.of_nat (length tag)) f w Hf) as (w' & Ew & Happ);
    [lia | lia |].
  rewrite Ew, Z.eqb_refl. cbn [negb]. exists w'. split; [done|]. split; [done|].
  by apply fwrite_stderr in Ew.
Qed.

(** X9: a successful run of [recorder_apply_mp3_tags] on an MP3 recording
    [c] of at least four bytes, with a temporary file that takes everything.
    The recording is replaced by the id3 tag, the Xing/Info frame with its
    padding, and then [c] itself, byte for byte; the temporary file is gone
    and no other file has changed. *)
Theorem apply_mp3_tags_layout (e : tag_env) (self : recorder) (w : world) (path : string)
    (c : list Z) (first : metadata_item2) (rest : list metadata_item2) (table : list Z) :
  pathname self = Some path -> files w !! path = Some c -> (4 <= length c)%nat ->
  te_malloc_ok e = true -> te_tmp_open_ok e = true -> te_tmp_room e = None ->
  te_src_open_ok e = true -> te_rename_ok e = true ->
  include_xing_tag self = true -> mi2 self = first :: rest -> mi2_sample_rate first <> 0 ->
  length (first_mp3_header self) = 4%nat ->
  (is_vbr self = true -> generate_seek_table self = SeekTable table /\ length table = 100%nat) ->
  exists self' w' n,
    recorder_apply_mp3_tags id3_tag_data e self w = Some (self', w')
    /\ self' = set_first_mp3_header (take 4 c) self
    /\ files w' !! path
       = Some (id3_tag_data (recording_length_ms self) (mi self)
               ++ xing_frame_bytes self' first table ++ replicate n 0 ++ c)
    /\ files w' !! (path +:+ ".tmp") = None
    /\ (forall q, q <> path -> q <> path +:+ ".tmp" -> files w' !! q = files w !! q)
    /\ last (stderr w') = Some tag_success.
Proof.
  intros Hpath Hc Hlen Hmalloc Hopen Hroom Hsrc Hrename Hinc Hmi2 Hsr Hhdr Htab.
  pose proof (tmpname_fresh path) as Hfresh.
  assert (path <> path +:+ ".tmp") as Hfresh' by done.
  cbv delta [recorder_apply_mp3_tags] beta. rewrite Hpath.
  cbv beta iota delta [mbind option_bind]. rewrite Hmalloc. cbn [negb]. cbv zeta.
  unfold fopen_w. rewrite Hopen, Hroom.
  set (w1 := {| files := <[path +:+ ".tmp" := []]> (files w); stderr := stderr w |}).
  set (fpw := {| f_path := path +:+ ".tmp"; f_room := None; f_error := false |}).
  assert (roomy fpw) as Hroomy by done.
  assert (keeps (path +:+ ".tmp") w fpw w1) as Hk.
  { split; [done|]. split.
    - intros q Hq. simpl. by rewrite lookup_insert_ne.
    - simpl. rewrite lookup_insert_eq. by eexists. }
  assert (file_content (path +:+ ".tmp") w1 = []) as Hempty.
  { unfold file_content, w1. simpl. by rewrite lookup_insert_eq. }
  assert (files w1 !! path = Some c) as Hc1.
  { unfold w1. simpl. by rewrite lookup_insert_ne. }
  assert (file_content path w = c) as Hfc by (unfold file_content; by rewrite Hc).
  assert (file_content path w1 = c) as Hfc1 by (unfold file_content; by rewrite Hc1).
  unfold fopen_r. rewrite Hc1, Hsrc. unfold fread. cbn [rf_path rf_pos].
  rewrite Hfc1, drop_0.
  assert (length (take 4 c) = 4%nat) as Hgot by (rewrite length_take; lia).
  assert (drop 4 (first_mp3_header self) = []) as Hdrop by (apply drop_ge; lia).
  rewrite Hgot, Hdrop, app_nil_r.
  change (4 <? 4)%nat with false. cbv iota.
  set (self1 := set_first_mp3_header (take 4 c) self).
  destruct (write_id3_tag_roomy self1 fpw w1 Hroomy) as (w2 & Eid3 & Happ2 & Herr2).
  rewrite Eid3. cbn [retcode_true].
  pose proof (write_id3_tag_keeps id3_tag_data _ _ _ _ _ _ _ _ Hk Eid3) as Hk2.
  destruct (write_xing_tag_roomy self1 fpw w2 first rest table Hroomy Hinc Hmi2 Hsr)
    as (w3 & n & Exing & Happ3).
  { unfold self1. cbn [first_mp3_header set_first_mp3_header]. exact Hgot. }
  { intros Hv. unfold generate_seek_table, self1. rewrite seek_loop_header. by apply Htab. }
  rewrite Exing. cbn [retcode_true andb negb]. cbv beta iota.
  pose proof (write_xing_tag_keeps _ _ _ _ _ _ _ _ Hk2 Exing) as Hk3.
  unfold rewind. cbn [rf_path].
  assert (file_content path w3 = c) as Hc3.
  { destruct Hk3 as (_ & Hother & _). unfold file_content. by rewrite Hother, Hc. }
  rewrite Hc3.
  destruct (copy_loop_copies (path +:+ ".tmp") w path fpw (S (length c)) Hroomy Hfresh'
              0%nat w3 Hk3) as (w4 & Ecopy & Happ4 & Hk4 & Herr4).
  { rewrite Hfc, drop_0. lia. }
  rewrite Ecopy. cbn [negb]. cbv beta iota.
  assert (file_content (path +:+ ".tmp") w4
          = id3_tag_data (recording_length_ms self) (mi self)
            ++ xing_frame_bytes self1 first table ++ replicate n 0 ++ c) as Hall.
  { pose proof (appended_app _ _ _ _ _ _ (appended_app _ _ _ _ _ _ Happ2 Happ3) Happ4) as Ha.
    unfold appended in Ha. change (f_path fpw) with (path +:+ ".tmp") in Ha.
    rewrite Hempty, Hfc, drop_0 in Ha. rewrite Ha. cbn [app].
    by rewrite <- !app_assoc. }
  destruct Hk4 as (_ & Hother & [c4 Hc4]).
  unfold rename. rewrite Hc4, Hrename.
  assert (c4 = file_content (path +:+ ".tmp") w4) as -> by (unfold file_content; by rewrite Hc4).
  exists self1. eexists. exists n. split; [reflexivity|]. split; [done|].
  cbn [files stderr elog]. split; [|split; [|split]].
  - by rewrite lookup_insert_eq, Hall.
  - rewrite lookup_insert_ne by done. apply lookup_delete_eq.
  - intros q Hq Hq'. rewrite lookup_insert_ne by done. rewrite lookup_delete_ne by done.
    by apply Hother.
  - apply last_snoc.
Qed.

End TaggedFile.

(** * Stopping an MP3 recording that has no segment *)

Section EmptySegments.
Context `{Double}.
Variable id3_tag_data : Z -> list metadata_item -> list Z.







End EmptySegments.

(** * Cue sheets *)

Section CueSheets.
Context `{Double}.
Variable id3_tag_data : Z -> list metadata_item -> list Z.

Lemma after_last_slash_none (name : list Z) : 47 ∉ name -> after_last_slash name = None.
Proof.
  induction name as [|b name IH]; intros Hn; cbn [after_last_slash]; [done|].
  rewrite IH by (intros Hin; apply Hn; by apply list_elem_of_further).
  destruct (Z.eqb_spec b 47) as [->|_]; [|done]. exfalso. apply Hn, list_elem_of_here.
Qed.

Lemma after_last_slash_app (pre name : list Z) :
  47 ∉ name -> after_last_slash (pre ++ 47 :: name) = Some name.
Proof.
  intros Hn. induction pre as [|b pre IH]; cbn [app after_last_slash].
  - by rewrite (after_last_slash_none name Hn).
  - by rewrite IH.
Qed.

Lemma str_bytes_app (a b : string) : str_bytes (a +:+ b) = str_bytes a ++ str_bytes b.
Proof. induction a as [|ch a IH]; simpl; [done|]. by rewrite IH. Qed.

(** [w'] differs from [w] in that the file [path] has [bytes] more at its end. *)
Definition extended (path : string) (w w' : world) (bytes : list Z) : Prop :=
  appended path w w' bytes
  /\ (forall q, q <> path -> files w' !! q = files w !! q)
  /\ stderr w' = stderr w.

Lemma extended_nil path w : extended path w w [].
Proof. split; [apply appended_nil | done]. Qed.

Lemma extended_app path w1 w2 w3 b1 b2 :
  extended path w1 w2 b1 -> extended path w2 w3 b2 -> extended path w1 w3 (b1 ++ b2).
Proof.
  intros (Ha1 & Ho1 & He1) (Ha2 & Ho2 & He2). split; [by eapply appended_app|]. split.
  - intros q Hq. by rewrite Ho2, Ho1.
  - by rewrite He2.
Qed.

Lemma write_bytes_frame (buf : list Z) (f : FILE) (w : world) k f' w' :
  write_bytes buf f w = (k, f', w') ->
  (forall q, q <> f_path f -> files w' !! q = files w !! q) /\ stderr w' = stderr w.
Proof.
  unfold write_bytes. cbv zeta. intros [= _ _ <-]. split; [|reflexivity].
  intros q Hq. simpl. by rewrite lookup_insert_ne.
Qed.

Lemma fprint_roomy (text : list Z) (f : FILE) (w : world) :
  roomy f -> exists w', fprint text f w = (f, w') /\ extended (f_path f) w w' text.
Proof.
  intros Hf. unfold fprint.
  destruct (write_bytes_roomy text f w Hf) as (w' & Ew & Happ). rewrite Ew.
  exists w'. split; [reflexivity|]. split; [exact Happ|].
  by apply write_bytes_frame in Ew.
Qed.

(** The tracks of a cue sheet, numbered from [i]. *)
Fixpoint cue_track_bytes (i : Z) (l : list metadata_item) : list Z :=
  match l with
  | [] => []
  | m :: rest => cue_track i m ++ cue_track_bytes (i + 1) rest
  end.

Lemma cue_tracks_roomy (l : list metadata_item) (f : FILE) : roomy f ->
  forall i w, exists w',
    cue_tracks i l f w = (f, w') /\ extended (f_path f) w w' (cue_track_bytes i l).
Proof.
  intros Hf. induction l as [|m l IH]; intros i w; cbn [cue_tracks cue_track_bytes].
  - exists w. split; [done|apply extended_nil].
  - destruct (fprint_roomy (cue_track i m) f w Hf) as (w1 & -> & H1).
    destruct (IH (i + 1) w1) as (w2 & -> & H2). exists w2. split; [done|].
    by eapply extended_app.
Qed.

(** The three lines at the head of a cue sheet. *)
Definition cue_head (ts : string) (name : list Z) (kind : string) : list Z :=
  (str_bytes "TITLE " ++ DQUOTE ++ str_bytes ts ++ DQUOTE ++ CRLF)
  ++ (str_bytes "PERFORMER " ++ DQUOTE ++ str_bytes "Recorded with IDJC" ++ DQUOTE ++ CRLF)
  ++ (str_bytes "FILE " ++ DQUOTE ++ name ++ DQUOTE ++ str_bytes kind ++ CRLF).

(** X11: the cue sheet of an MP3 recording. When the cue file opens and
    takes everything, [recorder_create_mp3_cuesheet] leaves in it the title
    line with the time stamp, the performer line, the FILE line with the name
    of the recording after its last slash, and one track for every logged
    chapter, numbered from 1 in the order of the list. *)
Theorem mp3_cuesheet_content (self : recorder) (w : world)
    (cuepath ts dir name : string) :
  cuepathname self = Some cuepath -> rec_timestamp self = Some ts ->
  pathname self = Some (dir +:+ "/" +:+ name) -> 47 ∉ str_bytes name ->
  exists w',
    recorder_create_mp3_cuesheet true None self w = Some (SUCCEEDED, w')
    /\ file_content cuepath w'
       = cue_head ts (str_bytes name) " MP3" ++ cue_track_bytes 1 (mi self)
    /\ (forall q, q <> cuepath -> files w' !! q = files w !! q)
    /\ stderr w' = stderr w.
Proof.
  intros Hcue Hts Hpath Hname. unfold recorder_create_mp3_cuesheet.
  rewrite Hcue, Hts, Hpath. cbn [mbind option_bind]. unfold fopen_w.
  rewrite !str_bytes_app. change (str_bytes "/") with [47]. cbn [app].
  rewrite (after_last_slash_app _ _ Hname). cbn [mbind option_bind]. cbv beta iota.
  set (f := {| f_path := cuepath; f_room := None; f_error := false |}).
  set (w0 := {| files := <[cuepath := []]> (files w); stderr := stderr w |}).
  assert (roomy f) as Hf by done.
  destruct (fprint_roomy (str_bytes "TITLE " ++ DQUOTE ++ str_bytes ts ++ DQUOTE ++ CRLF)
              f w0 Hf) as (w1 & E1 & H1).
  rewrite E1.
  destruct (fprint_roomy (str_bytes "PERFORMER " ++ DQUOTE ++ str_bytes "Recorded with IDJC"
              ++ DQUOTE ++ CRLF) f w1 Hf) as (w2 & E2 & H2).
  rewrite E2.
  destruct (fprint_roomy (str_bytes "FILE " ++ DQUOTE ++ str_bytes name ++ DQUOTE
              ++ str_bytes " MP3" ++ CRLF) f w2 Hf) as (w3 & E3 & H3).
  rewrite E3.
  destruct (cue_tracks_roomy (mi self) f Hf 1 w3) as (w4 & E4 & H4).
  rewrite E4. exists w4. split; [done|].
  destruct (extended_app _ _ _ _ _ _ (extended_app _ _ _ _ _ _
              (extended_app _ _ _ _ _ _ H1 H2) H3) H4) as (Hall & Hother & Herr).
  unfold appended in Hall. change (f_path f) with cuepath in *.
  assert (file_content cuepath w0 = []) as Hempty.
  { unfold file_content, w0. simpl. by rewrite lookup_insert_eq. }
  rewrite Hempty in Hall. split.
  { rewrite Hall. unfold cue_head. cbn [app]. by rewrite <- !app_assoc. }
  split; [|done].
  intros q Hq. rewrite Hother by done. unfold w0. simpl. by rewrite lookup_insert_ne.
Qed.

(** The read loop of the lossless mode only counts samples. *)
Lemma lossless_read_loop_frame (reads : list Z) : forall self : recorder,
  let self' := lossless_read_loop reads self in
  fpcue self' = fpcue self /\ new_artist_title self' = new_artist_title self
  /\ title self' = title self /\ artist self' = artist self /\ album self' = album self
  /\ sfinfo_samplerate self' = sfinfo_samplerate self
  /\ artist_title_writes self' = artist_title_writes self
  /\ stop_request self' = stop_request self /\ pause_request self' = pause_request self.
Proof.
  induction reads as [|n reads IH]; intros self; cbn [lossless_read_loop]; [done|].
  cbv zeta. destruct (_ || _); [done|].
  specialize (IH (set_sf_samples (sf_samples self + Z.quot n 4) self)). cbv zeta in IH.
  exact IH.
Qed.

(** The entry that a lossless recording writes to its cue sheet for new
    metadata: track [n], with the index at the current length. *)
Definition lossless_track (self : recorder) (n : Z) : list Z :=
  (str_bytes ("  TRACK " +:+ fmt_02d n +:+ " AUDIO") ++ CRLF)
  ++ (str_bytes "    TITLE " ++ DQUOTE ++ title self ++ DQUOTE ++ CRLF)
  ++ (str_bytes "    PERFORMER " ++ DQUOTE ++ artist self ++ DQUOTE ++ CRLF)
  ++ (str_bytes "    REM ALBUM " ++ DQUOTE ++ album self ++ DQUOTE ++ CRLF)
  ++ (str_bytes ("    INDEX 01 " +:+ fmt_02d (Z.quot (recording_length_s self) 60) +:+ ":"
                 +:+ fmt_02d (Z.rem (recording_length_s self) 60) +:+ ":"
                 +:+ fmt_02d (Z.quot (Z.rem (recording_length_ms self) 1000 * 75) 1000))
      ++ CRLF).

(** X12: new metadata in a lossless recording. The pass of the recorder
    thread that finds [new_artist_title] set writes one track to the cue
    sheet, numbered one above the tracks written so far, with the title,
    artist and album of the recorder and the index at the length reached, and
    clears the flag; a pass that finds the flag clear writes nothing. *)
Theorem lossless_cue_track (env : main_env) (self : recorder) (w : world) (fc : FILE) :
  record_mode self = RM_RECORDING -> initial_serial self = -1 ->
  sfinfo_samplerate self <> 0 -> fpcue self = Some fc -> roomy fc ->
  exists self' w',
    recorder_main_pass id3_tag_data env self w = Some (self', w')
    /\ new_artist_title self' = false
    /\ artist_title_writes self'
       = artist_title_writes self + (if new_artist_title self then 1 else 0)
    /\ recording_length_s self' = Z.quot (sf_samples self') (sfinfo_samplerate self)
    /\ recording_length_ms self' = Z.quot (sf_samples self' * 1000) (sfinfo_samplerate self)
    /\ extended (f_path fc) w w'
         (if new_artist_title self
          then lossless_track self' (artist_title_writes self + 1) else []).
Proof.
  intros Hmode Hser Hrate Hcue Hroomy. unfold recorder_main_pass. rewrite Hmode, Hser.
  cbn [Z.eqb Pos.eqb]. unfold recording_lossless. cbv zeta.
  pose proof (lossless_read_loop_frame (env_rb_reads env) self) as Hframe. cbv zeta in Hframe.
  set (s1 := lossless_read_loop (env_rb_reads env) self) in *.
  destruct Hframe as (Hfc & Hnew & Ht & Ha & Hal & Hr & Hw & _ & _). clearbody s1.
  unfold idiv. rewrite Hr.
  assert ((sfinfo_samplerate self =? 0) = false) as -> by lia.
  cbn [mbind option_bind].
  set (s2 := set_recording_length_ms _ (set_recording_length_s _ s1)).
  set (s3 := if stop_request s2 then _ else s2).
  set (s4 := if pause_request s3 then _ else s3).
  assert (fpcue s4 = Some fc /\ new_artist_title s4 = new_artist_title self
          /\ title s4 = title s1 /\ artist s4 = artist s1 /\ album s4 = album s1
          /\ artist_title_writes s4 = artist_title_writes self
          /\ sf_samples s4 = sf_samples s1
          /\ recording_length_s s4 = Z.quot (sf_samples s1) (sfinfo_samplerate self)
          /\ recording_length_ms s4 = Z.quot (sf_samples s1 * 1000) (sfinfo_samplerate self))
    as (H4c & H4n & H4t & H4a & H4al & H4w & H4s & H4ls & H4lms).
  { unfold s4, s3. destruct (stop_request s2), (pause_request _); simpl;
      rewrite ?Hfc, ?Hcue, ?Hnew, ?Hw; by repeat split. }
  clearbody s4. clear s3 s2. rewrite H4n.
  destruct (new_artist_title self).
  - rewrite H4c. cbn [mbind option_bind]. rewrite H4w.
    match goal with |- context [fprint ?t fc w] =>
      destruct (fprint_roomy t fc w Hroomy) as (w1 & E1 & X1); rewrite E1; clear E1 end.
    match goal with |- context [fprint ?t fc w1] =>
      destruct (fprint_roomy t fc w1 Hroomy) as (w2 & E2 & X2); rewrite E2; clear E2 end.
    match goal with |- context [fprint ?t fc w2] =>
      destruct (fprint_roomy t fc w2 Hroomy) as (w3 & E3 & X3); rewrite E3; clear E3 end.
    match goal with |- context [fprint ?t fc w3] =>
      destruct (fprint_roomy t fc w3 Hroomy) as (w4 & E4 & X4); rewrite E4; clear E4 end.
    match goal with |- context [fprint ?t fc w4] =>
      destruct (fprint_roomy t fc w4 Hroomy) as (w5 & E5 & X5); rewrite E5; clear E5 end.
    do 2 eexists. split; [reflexivity|].
    split; [done|]. split; [simpl; lia|]. split; [simpl; congruence|].
    split; [simpl; congruence|].
    exact (extended_app _ _ _ _ _ _ X1 (extended_app _ _ _ _ _ _ X2
             (extended_app _ _ _ _ _ _ X3 (extended_app _ _ _ _ _ _ X4 X5)))).
  - do 2 eexists. split; [reflexivity|].
    split; [done|]. split; [lia|]. split; [congruence|]. split; [congruence|].
    apply extended_nil.
Qed.

End CueSheets.

(** * From the encoder's metadata to the recorder's chapters *)

Section MetadataRoundTrip.
Context `{Double}.

Lemma strsep_cut_delim (d : Z) (a rest : list Z) :
  d ∉ a -> strsep_cut [d] (a ++ d :: rest) = (a, Some rest).
Proof.
  induction a as [|b a IH]; intros Hd; cbn [app strsep_cut].
  - rewrite bool_decide_eq_true_2; [done|]. apply list_elem_of_here.
  - rewrite bool_decide_eq_false_2.
    + rewrite IH; [done|]. intros Hin. apply Hd. by apply list_elem_of_further.
    + intros Hin. apply list_elem_of_singleton in Hin. subst b. apply Hd, list_elem_of_here.
Qed.

Lemma strsep_cut_no_delim (a : list Z) : strsep_cut [] a = (a, None).
Proof.
  induction a as [|b a IH]; cbn [strsep_cut]; [done|].
  rewrite bool_decide_eq_false_2 by apply not_elem_of_nil. by rewrite IH.
Qed.

Lemma c_str_terminated (l rest : list Z) : 0 ∉ l -> c_str (l ++ 0 :: rest) = l.
Proof.
  induction l as [|b l IH]; intros Hz; cbn [app c_str]; [done|].
  destruct (Z.eqb_spec b 0) as [->|_].
  - exfalso. apply Hz, list_elem_of_here.
  - rewrite IH; [done|]. intros Hin. apply Hz. by apply list_elem_of_further.
Qed.

(** A C string: no NUL in it. A field: a C string without a line feed. *)
Definition text (l : list Z) : Prop := 0 ∉ l.
Definition field (l : list Z) : Prop := (0 ∉ l) /\ (10 ∉ l).

Lemma metadata_fields_packetized (custom artist title album : list Z) (p : encoder_op_packet) :
  field custom -> field artist -> field title -> text album ->
  data p = custom ++ [10] ++ artist ++ [10] ++ title ++ [10] ++ album ++ [0] ->
  metadata_fields (Some p) = (Some artist, Some title, Some album).
Proof.
  intros [Hc0 Hc] [Ha0 Ha] [Ht0 Ht] Hal Hdata. unfold metadata_fields. rewrite Hdata.
  replace (custom ++ [10] ++ artist ++ [10] ++ title ++ [10] ++ album ++ [0])
    with ((custom ++ [10] ++ artist ++ [10] ++ title ++ [10] ++ album) ++ 0 :: [])
    by (by repeat (rewrite <- app_assoc || rewrite <- app_comm_cons)).
  rewrite c_str_terminated.
  2:{ rewrite !not_elem_of_app. repeat split; try done;
        intros Hin; by apply list_elem_of_singleton in Hin. }
  unfold strsep.
  change (custom ++ [10] ++ artist ++ [10] ++ title ++ [10] ++ album)
    with (custom ++ 10 :: (artist ++ 10 :: (title ++ 10 :: album))).
  rewrite (strsep_cut_delim 10 custom _ Hc).
  rewrite (strsep_cut_delim 10 artist _ Ha).
  rewrite (strsep_cut_delim 10 title _ Ht).
  by rewrite strsep_cut_no_delim.
Qed.

(** X13: the metadata packet that the running AAC encoder sends carries the
    encoder's artist, title and album so that the recorder reads the same
    three fields back, provided the custom text, the artist and the title
    hold no line feed; a recorder that takes the packet with another last
    chapter logs a chapter with exactly these fields. *)
Theorem aac_metadata_round_trip (e : step_env) (s : Aac.sys) (self : recorder) (w : world) :
  encoder_state (Aac.s_encoder s) = ES_RUNNING ->
  new_metadata (Aac.s_encoder s) = true -> use_metadata (Aac.s_encoder s) = true ->
  run_request_f (Aac.s_encoder s) = true -> flush (Aac.s_encoder s) = false ->
  Aac.packet_flags (Aac.s_self s) = 0 ->
  sp_metadata_alloc_ok e = true ->
  fe_packet_alloc_ok (sp_frame e) = true -> fe_rounds (sp_frame e) = [] ->
  field (custom_meta (Aac.s_encoder s)) -> field (enc_artist (Aac.s_encoder s)) ->
  field (enc_title (Aac.s_encoder s)) -> text (enc_album (Aac.s_encoder s)) ->
  exists (enc : encoder) (st : Aac.State) (live : list av_object) (m : encoder_op_packet),
    Aac.live_aac_encoder_main e s = Some (enc, Some st, live, Aac.s_out s ++ [m])
    /\ metadata_fields (Some m)
       = (Some (enc_artist (Aac.s_encoder s)), Some (enc_title (Aac.s_encoder s)),
          Some (enc_album (Aac.s_encoder s)))
    /\ (is_duplicate self (Some m) = Some false ->
        exists self',
          recorder_append_metadata true self (Some m) w = Some (self', w)
          /\ last (mi self')
             = Some (new_chapter self (enc_artist (Aac.s_encoder s))
                       (enc_title (Aac.s_encoder s)) (enc_album (Aac.s_encoder s)))).
Proof.
  intros Hst Hnew Huse Hrun Hflush Hpf Halloc Hpkt Hrounds Hc Ha Ht Hal.
  destruct (AacStream.aac_metadata_step e s Hst Hnew Huse Hrun Hflush Hpf Halloc Hpkt Hrounds)
    as (enc & st & live & m & Hmain & _ & _ & Hdata & _).
  pose proof (metadata_fields_packetized _ _ _ _ m Hc Ha Ht Hal Hdata) as Hfields.
  exists enc, st, live, m. split; [done|]. split; [done|].
  intros Hdup. destruct (append_metadata_new self m w _ _ _ Hfields Hdup) as (self' & ? & ? & _).
  by exists self'.
Qed.

End MetadataRoundTrip.

(** * The ADTS header of an AAC frame *)

Section AdtsHeader.

(** The fields of the seven-byte ADTS header [h], as a reader of the stream
    takes them: the 13-bit frame length, the 3-bit channel configuration and
    the 4-bit sampling frequency index. *)
Definition adts_frame_length (h : list Z) : Z :=
  Z.lor (Z.lor (Z.shiftl (Z.land (nth 3 h 0) 3) 11) (Z.shiftl (nth 4 h 0) 3))
        (Z.shiftr (nth 5 h 0) 5).

Definition adts_channels (h : list Z) : Z :=
  Z.lor (Z.shiftl (Z.land (nth 2 h 0) 1) 2) (Z.shiftr (nth 3 h 0) 6).

Definition adts_rate_index (h : list Z) : Z := Z.land (Z.shiftr (nth 2 h 0) 2) 15.

Ltac bits :=
  repeat first
    [ rewrite Z.testbit_neg_r by lia
    | rewrite Z.lor_spec | rewrite Z.land_spec
    | rewrite Z.testbit_mod_pow2 by lia
    | rewrite Z.testbit_ones by lia
    | rewrite Z.shiftl_spec by lia
    | rewrite Z.shiftr_spec by lia ].

Ltac compare_all :=
  repeat match goal with
         | |- context [?a <? ?b] => destruct (Z.ltb_spec a b); try lia
         | |- context [?a <=? ?b] => destruct (Z.leb_spec a b); try lia
         end.

Ltac settle :=
  bits; compare_all; cbn [andb orb];
  rewrite ?andb_false_r, ?andb_true_r, ?orb_false_r, ?andb_false_l;
  try reflexivity; try (f_equal; lia).

Lemma adts_length_bits (n s : Z) :
  Z.lor (Z.lor (Z.shiftl (Z.land (Z.lor (Z.shiftl n 6) (Z.shiftr s 11) mod 256) 3) 11)
               (Z.shiftl (Z.land (Z.shiftr s 3) 255) 3))
        (Z.shiftr (Z.lor (Z.land (Z.shiftl s 5) 255) 31) 5)
  = s mod 8192.
Proof.
  change 256 with (2 ^ 8). change 8192 with (2 ^ 13).
  change 3 with (Z.ones 2) at 1. change 255 with (Z.ones 8). change 31 with (Z.ones 5) at 1.
  apply Z.bits_inj'. intros i Hi.
  assert (i < 3 \/ 3 <= i < 11 \/ 11 <= i < 13 \/ 13 <= i) as [?|[?|[?|?]]] by lia; settle.
Qed.

Lemma adts_channel_bits (n s index : Z) :
  0 <= n < 4 -> 0 <= s < 8192 ->
  Z.lor (Z.shiftl (Z.land (Z.lor 64 (Z.shiftl index 2) mod 256) 1) 2)
        (Z.shiftr (Z.lor (Z.shiftl n 6) (Z.shiftr s 11) mod 256) 6)
  = n.
Proof.
  intros Hn Hs.
  rewrite <- (Z.mod_small n (2 ^ 2)) at 2 by lia.
  rewrite <- (Z.mod_small s (2 ^ 13)) by lia.
  change 256 with (2 ^ 8). change 1 with (Z.ones 1). change 64 with (Z.shiftl (Z.ones 1) 6).
  apply Z.bits_inj'. intros i Hi.
  assert (i < 2 \/ i = 2 \/ 3 <= i) as [?|[?|?]] by lia; settle.
Qed.

Lemma adts_rate_bits (index : Z) :
  0 <= index < 16 ->
  Z.land (Z.shiftr (Z.lor 64 (Z.shiftl index 2) mod 256) 2) 15 = index.
Proof.
  intros Hi.
  rewrite <- (Z.mod_small index (2 ^ 4)) by lia.
  change 256 with (2 ^ 8). change 15 with (Z.ones 4). change 64 with (Z.shiftl (Z.ones 1) 6).
  apply Z.bits_inj'. intros i Hi'.
  assert (i < 4 \/ 4 <= i) as [?|?] by lia; settle.
Qed.

Lemma lor_byte (a : Z) : 0 <= Z.lor (Z.land a 255) 31 < 256.
Proof.
  assert (Z.lor (Z.land a 255) 31 = Z.lor (Z.land a 255) 31 mod 2 ^ 8) as ->.
  { change 255 with (Z.ones 8). change 31 with (Z.ones 5).
    apply Z.bits_inj'. intros i Hi.
    assert (i < 5 \/ 5 <= i < 8 \/ 8 <= i) as [?|[?|?]] by lia; settle. }
  apply Z.mod_pos_bound. lia.
Qed.

(** The header that [write_packet_wrapper] builds reads back as the code's
    inputs: the frame length field holds 7 + [size] modulo 8192. *)
Lemma adts_header_fields (index n_channels size : Z) :
  0 <= index < 16 ->
  let h := Aac.adts_header (Z.shiftl index 2) n_channels size in
  length h = 7%nat
  /\ Forall (fun b => 0 <= b < 256) h
  /\ adts_frame_length h = (7 + size) mod 8192
  /\ adts_rate_index h = index
  /\ (0 <= n_channels < 4 -> 0 <= size < 8185 ->
      adts_frame_length h = 7 + size /\ adts_channels h = n_channels).
Proof.
  intros Hindex h. subst h. unfold Aac.adts_header. cbv zeta.
  split; [done|]. split; [|split; [|split]].
  - repeat apply Forall_cons_2; try apply Forall_nil_2;
      first [ lia | apply Z.mod_pos_bound; lia | apply lor_byte | idtac ].
    change 255 with (Z.ones 8). rewrite Z.land_ones by lia. apply Z.mod_pos_bound. lia.
  - unfold adts_frame_length. cbn [nth]. apply adts_length_bits.
  - unfold adts_rate_index. cbn [nth]. by apply adts_rate_bits.
  - intros Hn Hsize. split.
    + unfold adts_frame_length. cbn [nth]. rewrite adts_length_bits.
      apply Z.mod_small. lia.
    + unfold adts_channels. cbn [nth]. apply adts_channel_bits; lia.
Qed.

(** X14: the packet that [write_packet_wrapper] sends for a frame [buf] of
    the encoder: seven bytes of ADTS header and then the frame. With the
    sampling frequency index as [setup] stored it, one to three channels and
    a packet below 8192 bytes, the header reads back, as a decoder takes it,
    the size of the whole packet, the channel count and the index; a longer
    frame wraps the length field, which then holds the size modulo 8192. *)
Theorem adts_frame_packet `{Double} (buf : list Z) (s : Aac.sys) (index : Z) :
  0 <= index < 16 -> Aac.sri (Aac.s_self s) = Z.shiftl index 2 ->
  exists p : encoder_op_packet,
    Aac.s_out (Aac.write_packet_wrapper buf s) = Aac.s_out s ++ [p]
    /\ drop 7 (data p) = buf
    /\ data_size (header p) = Z.of_nat (length (data p))
    /\ Forall (fun b => 0 <= b < 256) (take 7 (data p))
    /\ adts_rate_index (take 7 (data p)) = index
    /\ adts_frame_length (take 7 (data p)) = data_size (header p) mod 8192
    /\ (0 <= enc_n_channels (Aac.s_encoder s) < 4 -> Z.of_nat (length buf) < 8185 ->
        adts_frame_length (take 7 (data p)) = data_size (header p)
        /\ adts_channels (take 7 (data p)) = enc_n_channels (Aac.s_encoder s)).
Proof.
  intros Hindex Hsri.
  destruct (adts_header_fields index (enc_n_channels (Aac.s_encoder s))
              (Z.of_nat (length buf)) Hindex) as (Hlen & Hbytes & Hfl & Hri & Hsmall).
  eexists. split; [reflexivity|].
  cbn [data header data_size]. rewrite Hsri.
  set (h := Aac.adts_header _ _ _) in *.
  assert (take 7 (h ++ buf) = h) as Htake by (by rewrite take_app_length' ).
  rewrite Htake. split; [by rewrite drop_app_length'|].
  split; [rewrite length_app, Hlen; lia|]. split; [done|]. split; [done|]. split; [done|].
  intros Hn Hb. apply Hsmall; lia.
Qed.

End AdtsHeader.

(** * What a WebM stream allocates and frees *)

Module WebmResources.
Import Webm.
Section WebmResources.
Context `{Double}.

(** The objects that [teardown] frees for the state [s], in the order in
    which [setup] allocated them last. *)
Definition owed (s : sys) : list av_object :=
  (if swr_ctx (s_self s) then [AvSwrContext] else [])
  ++ (if tmp_frame (s_self s) then [AvTmpFrame] else [])
  ++ (if frame (s_self s) then [AvFrame] else [])
  ++ (if c (s_self s) then [AvCodecContext] else [])
  ++ [AvioContext; AvioBuffer; AvFormatContext].

(** What the running state must not lose: the allocated objects and the
    pointers to them. *)
Definition resources (s : sys) : list av_object * list bool :=
  (s_live s, [swr_ctx (s_self s); tmp_frame (s_self s); frame (s_self s); c (s_self s)]).

Lemma webm_resources_owed (s s' : sys) : resources s' = resources s -> owed s' = owed s.
Proof. unfold resources, owed. by intros [= _ -> -> -> ->]. Qed.

Lemma webm_write_packet_resources (buf : list Z) (size : Z) (s : sys) :
  resources (write_packet buf size s) = resources s.
Proof. done. Qed.

Lemma webm_callbacks_resources (bufs : list (list Z)) : forall s : sys,
  resources (callbacks bufs s) = resources s.
Proof.
  induction bufs as [|buf bufs IH]; intros s; [done|].
  change (callbacks (buf :: bufs) s)
    with (callbacks bufs (write_packet buf (Z.of_nat (length buf)) s)).
  by rewrite IH.
Qed.

Lemma webm_write_header_resources (ret : Z) (bufs : list (list Z)) (s : sys) :
  resources (write_header ret bufs s).2 = resources s.
Proof.
  unfold write_header. cbn [snd].
  match goal with |- context [callbacks bufs ?s0] =>
    pose proof (webm_callbacks_resources bufs s0) as Hc end.
  unfold resources in *. cbn [s_live s_self on_self on_encoder swr_ctx tmp_frame frame c
    set_packet_flags] in *. exact Hc.
Qed.

Lemma webm_write_trailer_resources (ret : Z) (bufs : list (list Z)) (s : sys) :
  resources (write_trailer ret bufs s).2 = resources s.
Proof.
  unfold write_trailer. cbn [snd].
  pose proof (webm_callbacks_resources bufs s) as Hc.
  unfold resources in *. cbn [s_live s_self on_self on_encoder swr_ctx tmp_frame frame c
    set_packet_flags write_packet encoder_write_packet_all] in *. exact Hc.
Qed.

Lemma webm_write_received_resources (l : list received) : forall s : sys,
  resources (write_received l s).2 = resources s.
Proof.
  induction l as [|r l IH]; intros s; cbn [write_received]; [done|].
  destruct (rx_ok r); [rewrite IH|]; apply webm_callbacks_resources.
Qed.

Lemma webm_frame_rounds_resources (rounds : list round) : forall s : sys,
  resources (frame_rounds rounds s).2 = resources s.
Proof.
  induction rounds as [|r rounds IH]; intros s; cbn [frame_rounds]; [done|].
  destruct (negb (rd_input r)); [done|]. cbv zeta.
  destruct (negb (rd_writable_ok r)); [done|].
  destruct (negb (rd_convert_ok r)); [done|].
  destruct (negb (rd_send_ok r)); [done|].
  match goal with |- context [write_received (rd_received r) ?s0] =>
    pose proof (webm_write_received_resources (rd_received r) s0) as Hw;
    destruct (write_received (rd_received r) s0) as [ok s1] end.
  cbn [snd] in Hw. destruct (negb ok); [exact Hw|].
  destruct (rd_received r); [by rewrite IH | exact Hw].
Qed.

Lemma webm_write_audio_frame_resources (fe : frame_env) (final : bool) (s : sys) :
  resources (write_audio_frame fe final s).2 = resources s.
Proof.
  unfold write_audio_frame. destruct final; [|apply webm_frame_rounds_resources].
  cbv zeta. destruct (negb _); [done|].
  pose proof (webm_write_received_resources (rd_received (hd quiet_round (fe_rounds fe))) s) as Hw.
  destruct (write_received _ s) as [ok s1]. by destruct (negb ok).
Qed.

Lemma webm_setup_owes (e : setup_env) (s s1 : sys) :
  setup e s = Some (SUCCEEDED, s1) -> s_live s1 = owed s1 ++ s_live s.
Proof.
  unfold setup, add_stream, open_stream.
  destruct (codec (s_encoder s)); try done;
    (cbv zeta;
     destruct (su_alloc_context_ok e); cbn [negb]; [|done];
     destruct (su_guess_format_ok e); cbn [negb]; [|done];
     destruct (su_av_malloc_ok e); cbn [negb]; [|done];
     destruct (su_avio_alloc_ok e); cbn [negb]; [|done];
     destruct (su_find_encoder_ok e); cbn [negb]; [|done];
     destruct (su_codec_is_audio e); cbn [negb]; [|done];
     destruct (su_new_stream_ok e); cbn [negb]; [|done];
     destruct (su_alloc_context3_ok e); cbn [negb]; [|done];
     destruct (su_parameters_ok e); cbn [negb]; [|done];
     destruct (su_open2_ok e); cbn [negb]; [|done];
     destruct (su_swr_alloc_ok e); cbn [negb]; [|done];
     destruct (su_swr_init_ok e); cbn [negb]; [|done];
     match goal with |- context [write_header ?r ?b ?s0] =>
       pose proof (webm_write_header_resources r b s0) as Hh;
       destruct (write_header r b s0) as [ret s2] end;
     cbn [snd] in Hh; destruct (ret <? 0); [done|];
     intros [= <-]; injection Hh as Hl Hswr Htmp Hframe Hc;
     unfold owed; rewrite Hl, Hswr, Htmp, Hframe, Hc;
     destruct (use_metadata _), (su_frame_ok e), (su_tmp_frame_ok e); reflexivity).
Qed.

Lemma webm_teardown_frees (s : sys) (live0 : list av_object) :
  s_live s = owed s ++ live0 ->
  s_live (teardown s) = live0 /\ s_self (teardown s) = zero_State.
Proof.
  unfold owed, teardown, close_stream. intros Hlive. split; [|done]. cbv zeta.
  destruct (swr_ctx (s_self s)), (tmp_frame (s_self s)), (frame (s_self s)), (c (s_self s));
    cbn [s_live s_self on_live on_self c frame tmp_frame swr_ctx set_c set_frame set_tmp_frame
         set_swr_ctx]; rewrite Hlive; reflexivity.
Qed.

(** The system that a pass of the back end leaves when the encoder keeps
    its private state. *)
Definition after (enc : encoder) (st : WebMState) (live : list av_object)
    (out : list encoder_op_packet) : sys :=
  {| s_encoder := enc; s_self := st; s_live := live; s_out := out |}.

(** X15: a WebM stream gives back what it took. A successful [setup] leaves
    allocated, on top of what was there, exactly the objects that [teardown]
    will free for the state it leaves; the passes of the running state change
    neither the allocated objects nor the pointers to them; and the pass of
    the stopping state frees these objects, so that what is allocated is
    again what was there before [setup]. *)
Theorem webm_stream_gives_back (e : step_env) (s : sys) (live0 : list av_object) :
  (forall s1, setup (sp_setup e) s = Some (SUCCEEDED, s1) -> s_live s1 = owed s1 ++ s_live s)
  /\ (encoder_state (s_encoder s) = ES_RUNNING ->
      exists enc st live out,
        live_webm_encoder_main e s = Some (enc, Some st, live, out)
        /\ resources (after enc st live out) = resources s)
  /\ (encoder_state (s_encoder s) = ES_STOPPING -> s_live s = owed s ++ live0 ->
      exists enc st out, live_webm_encoder_main e s = Some (enc, st, live0, out)).
Proof.
  split; [intros s1; apply webm_setup_owes|]. split.
  - intros Hst. unfold live_webm_encoder_main. rewrite Hst. cbv zeta.
    set (s1 := if new_metadata (s_encoder s) && use_metadata (s_encoder s)
               then retag e s else s).
    assert (resources s1 = resources s) as H1.
    { unfold s1. destruct (_ && _); [|done]. unfold retag. cbv zeta.
      pose proof (webm_write_trailer_resources (sp_trailer_ret e) (sp_retag_trailer_bufs e)
                    (on_encoder (set_new_metadata false) s)) as Ht.
      destruct (write_trailer _ _ _) as [r1 t1]. cbn [snd] in Ht.
      match goal with |- context [write_header ?r ?b ?s0] =>
        pose proof (webm_write_header_resources r b s0) as Hh;
        destruct (write_header r b s0) as [r2 t2] end.
      cbn [snd] in Hh. by rewrite Hh. }
    clearbody s1.
    set (s2 := if flush (s_encoder s1) then _ else s1).
    assert (resources s2 = resources s1) as H2.
    { unfold s2. destruct (flush (s_encoder s1)); [|done].
      pose proof (webm_write_trailer_resources (sp_trailer_ret e) (sp_flush_trailer_bufs e)
                    (on_encoder (set_flush false) s1)) as Ht.
      destruct (write_trailer _ _ _) as [r1 t1]. cbn [snd] in Ht.
      pose proof (webm_write_header_resources (sp_flush_header_ret e) (sp_flush_header_bufs e) t1)
        as Hh.
      destruct (write_header _ _ t1) as [r2 t2]. cbn [snd] in Hh. by rewrite Hh. }
    clearbody s2.
    pose proof (webm_write_audio_frame_resources (sp_frame e)
                  (negb (run_request_f (s_encoder s2))) s2) as H3.
    destruct (write_audio_frame _ _ s2) as [ret s3]. cbn [snd] in H3.
    destruct (ret =? 0).
    + do 4 eexists. split; [reflexivity|]. by rewrite <- H1, <- H2, <- H3.
    + pose proof (webm_write_trailer_resources (sp_trailer_ret e) (sp_trailer_bufs e) s3) as H4.
      destruct (write_trailer _ _ s3) as [r4 s4]. cbn [snd] in H4.
      do 4 eexists. split; [reflexivity|]. by rewrite <- H1, <- H2, <- H3, <- H4.
  - intros Hst Hlive. unfold live_webm_encoder_main. rewrite Hst. cbv zeta.
    destruct (webm_teardown_frees s live0 Hlive) as [Hfree _].
    destruct (run_request_f _).
    + do 3 eexists. cbn [s_live on_encoder]. by rewrite Hfree.
    + unfold bailout. do 3 eexists. cbn [s_live on_encoder]. by rewrite Hfree.
Qed.

End WebmResources.
End WebmResources.

(** * What the AAC back end allocates and does not free *)

Module AacResources.
Import Aac.
Section AacResources.
Context `{Double}.

(** The number of packets ([av_packet_alloc]) among the allocated objects. *)
Definition packets (live : list av_object) : nat := count_occ av_object_eq_dec live AvPacketObj.

Lemma aac_packets_free (x : av_object) (live : list av_object) :
  x <> AvPacketObj -> packets (av_free x live) = packets live.
Proof.
  intros Hx. unfold packets. induction live as [|y live IH]; [done|]. cbn [av_free].
  destruct (decide (x = y)) as [<-|Hxy].
  - by rewrite count_occ_cons_neq.
  - cbn [count_occ]. by rewrite IH.
Qed.

Lemma aac_callbacks_live (bufs : list (list Z)) (s : sys) : s_live (callbacks bufs s) = s_live s.
Proof. by destruct (AacProperties.callbacks_keeps bufs s) as (-> & _). Qed.

Lemma aac_write_received_live (l : list received) : forall s : sys,
  s_live (write_received l s).2 = s_live s.
Proof.
  induction l as [|r l IH]; intros s; cbn [write_received]; [done|].
  destruct (rx_ok r); [rewrite IH|]; apply aac_callbacks_live.
Qed.

Lemma aac_frame_rounds_live (rounds : list round) : forall s : sys,
  s_live (frame_rounds rounds s).2 = s_live s.
Proof.
  induction rounds as [|r rounds IH]; intros s; cbn [frame_rounds]; [done|].
  destruct (negb (rd_input r)); [done|]. cbv zeta.
  destruct (negb (rd_writable_ok r)); [done|].
  destruct (negb (rd_convert_ok r)); [done|].
  destruct (negb (rd_send_ok r)); [done|].
  match goal with |- context [write_received (rd_received r) ?s0] =>
    pose proof (aac_write_received_live (rd_received r) s0) as Hw;
    destruct (write_received (rd_received r) s0) as [ok s1] end.
  cbn [snd] in Hw. destruct (negb ok); [exact Hw|].
  destruct (rd_received r); [by rewrite IH | exact Hw].
Qed.

Lemma aac_write_audio_frame_live (fe : frame_env) (final : bool) (s : sys) :
  s_live (write_audio_frame fe final s).2
  = if fe_packet_alloc_ok fe then AvPacketObj :: s_live s else s_live s.
Proof.
  unfold write_audio_frame. destruct (fe_packet_alloc_ok fe); cbn [negb]; [|done].
  cbv zeta. destruct final.
  - destruct (negb _); [done|].
    match goal with |- context [write_received ?l ?s0] =>
      pose proof (aac_write_received_live l s0) as Hw;
      destruct (write_received l s0) as [ok s1] end.
    cbn [snd] in Hw. by destruct (negb ok).
  - by rewrite aac_frame_rounds_live.
Qed.

Lemma aac_write_trailer_live (ret : Z) (bufs : list (list Z)) (s : sys) :
  s_live (write_trailer ret bufs s).2 = s_live s.
Proof. unfold write_trailer. cbn. apply aac_callbacks_live. Qed.

Lemma aac_close_stream_packets (s : sys) : packets (s_live (close_stream s)) = packets (s_live s).
Proof.
  unfold close_stream. cbv zeta.
  destruct (c (s_self s)), (frame (s_self s)), (tmp_frame (s_self s)), (swr_ctx (s_self s));
    cbn [s_live s_self on_live on_self c frame tmp_frame swr_ctx set_c set_frame set_tmp_frame
         set_swr_ctx]; by rewrite ?aac_packets_free.
Qed.

(** What [setup] leaves allocated when it fails. *)
Definition leaked (e : setup_env) : list av_object :=
  if negb (su_alloc_context_ok e && su_guess_format_ok e && su_av_malloc_ok e
           && su_find_encoder_ok e && su_codec_is_audio e && su_new_stream_ok e
           && su_alloc_context3_ok e)
  then []
  else if negb (su_parameters_ok e && su_open2_ok e) then [AvCodecContext]
  else if negb (su_swr_alloc_ok e && su_swr_init_ok e)
  then (if su_tmp_frame_ok e then [AvTmpFrame] else [])
       ++ (if su_frame_ok e then [AvFrame] else [])
  else [].

(** What a successful [setup] has allocated. *)
Definition taken (e : setup_env) : list av_object :=
  [AvSwrContext] ++ (if su_tmp_frame_ok e then [AvTmpFrame] else [])
  ++ (if su_frame_ok e then [AvFrame] else [])
  ++ [AvCodecContext; AvioContext; AvioBuffer; AvFormatContext].

Definition setup_holds (e : setup_env) (r : retcode) : list av_object :=
  match r with SUCCEEDED => taken e | FAILED => leaked e end.

Lemma aac_setup_holds_no_packet (e : setup_env) (r : retcode) : packets (setup_holds e r) = 0%nat.
Proof.
  unfold setup_holds, taken, leaked. destruct r.
  - by destruct (su_tmp_frame_ok e), (su_frame_ok e).
  - repeat match goal with |- context [if ?c then _ else _] => destruct c end; done.
Qed.

Ltac setup_step flag :=
  destruct flag; cbn [negb andb];
  [| try (intros [= <- <-]; cbn; reflexivity); try done].

Lemma aac_setup_live (e : setup_env) (s : sys) (r : retcode) (s1 : sys) :
  AacProperties.is_aac s ->
  setup e s = Some (r, s1) -> s_live s1 = setup_holds e r ++ s_live s.
Proof.
  intros Haac.
  unfold setup, add_stream, open_stream, write_header, setup_holds, taken, leaked, fail5, fail4,
    fail2, close_stream, avcodec_safe_close_local.
  destruct Haac as [-> | ->]; cbv zeta.
  all: setup_step (su_alloc_context_ok e).
  all: setup_step (su_guess_format_ok e).
  all: setup_step (su_av_malloc_ok e).
  all: setup_step (su_avio_alloc_ok e).
  all: setup_step (su_find_encoder_ok e).
  all: setup_step (su_codec_is_audio e).
  all: setup_step (su_new_stream_ok e).
  all: setup_step (su_alloc_context3_ok e).
  all: setup_step (su_parameters_ok e).
  all: setup_step (su_open2_ok e).
  all: destruct (su_frame_ok e), (su_tmp_frame_ok e).
  all: setup_step (su_swr_alloc_ok e).
  all: setup_step (su_swr_init_ok e).
  all: match goal with |- context [callbacks ?b ?s0] =>
         pose proof (AacProperties.callbacks_keeps b s0) as (Hlive & Hptrs & Hrate);
         unfold AacProperties.stream_pointers in Hptrs;
         injection Hptrs as Hc Hf Ht Hs Ha
       end.
  all: cbn [s_self on_self c frame tmp_frame swr_ctx set_packet_flags] in *.
  all: rewrite ?Hc, ?Hf, ?Ht, ?Hs.
  all: cbn [s_self s_live on_self on_live on_encoder c frame tmp_frame swr_ctx set_c set_frame
            set_tmp_frame set_swr_ctx set_avio_ctx set_packet_flags] in *.
  all: destruct (su_header_ret e <? 0);
       [| destruct (sample_rate_index _)];
       intros [= <- <-];
       cbn [s_self s_live on_self on_live on_encoder c frame tmp_frame swr_ctx set_c set_frame
            set_tmp_frame set_swr_ctx set_avio_ctx set_packet_flags set_sri];
       rewrite Hlive; reflexivity.
Qed.

Lemma aac_packets_app (l1 l2 : list av_object) : packets (l1 ++ l2) = (packets l1 + packets l2)%nat.
Proof. apply count_occ_app. Qed.

(** X16: the AAC back end never frees a packet. Every pass of the running
    state in which [av_packet_alloc] succeeds leaves one more packet
    allocated than there was; no pass of any state leaves fewer. *)
Theorem aac_packets_never_freed (e : step_env) (s : sys) (enc : encoder)
    (st : option State) (live : list av_object) (out : list encoder_op_packet) :
  AacProperties.is_aac s ->
  live_aac_encoder_main e s = Some (enc, st, live, out) ->
  packets live
  = (packets (s_live s)
     + match encoder_state (s_encoder s) with
       | ES_RUNNING => if fe_packet_alloc_ok (sp_frame e) then 1 else 0
       | _ => 0
       end)%nat.
Proof.
  intros Haac. unfold live_aac_encoder_main. cbv zeta.
  destruct (encoder_state (s_encoder s)).
  - unfold bailout. intros [= _ _ <- _]. lia.
  - destruct (setup (sp_setup e) s) as [[r s1]|] eqn:Es; [|done].
    apply (aac_setup_live _ _ _ _ Haac) in Es. cbn [mbind option_bind]. cbv beta iota.
    destruct r; unfold bailout; intros [= _ _ <- _]; cbn [s_live on_encoder];
      rewrite Es, aac_packets_app, aac_setup_holds_no_packet; lia.
  - match goal with |- context [write_audio_frame _ _ ?x] => set (s1 := x) end.
    assert (s_live s1 = s_live s) as H1.
    { unfold s1. destruct (_ && _); [|done]. unfold packetize_metadata.
      cbn [metadata s_self on_self on_encoder set_metadata].
      by destruct (sp_metadata_alloc_ok e). }
    clearbody s1.
    pose proof (aac_write_audio_frame_live (sp_frame e)
                  (negb (run_request_f (s_encoder s1)) || flush (s_encoder s1)) s1) as H2.
    destruct (write_audio_frame _ _ s1) as [ret s2]. cbn [snd] in H2.
    assert (packets (s_live s2)
            = (packets (s_live s) + (if fe_packet_alloc_ok (sp_frame e) then 1 else 0))%nat) as H3.
    { rewrite H2, <- H1. destruct (fe_packet_alloc_ok (sp_frame e)); [|lia].
      unfold packets. rewrite count_occ_cons_eq by done. lia. }
    destruct (ret =? 0); [by intros [= _ _ <- _]|].
    pose proof (aac_write_trailer_live (sp_trailer_ret e) (sp_trailer_bufs e) s2) as H4.
    destruct (write_trailer _ _ s2) as [r4 s4]. cbn [snd] in H4.
    intros [= _ _ <- _]. cbn [s_live on_encoder]. by rewrite H4.
  - destruct (run_request_f _); unfold bailout; intros [= _ _ <- _];
      cbn [s_live on_encoder]; rewrite !aac_packets_free, aac_close_stream_packets by done; lia.
  - unfold bailout. intros [= _ _ <- _]. lia.
Qed.

(** X17: what a failed [setup] of the AAC back end leaves allocated. The
    labels free the format context and the avio objects, and [fail5] closes
    the stream; but a failure of [avcodec_parameters_from_context] or of
    [avcodec_open2] leaves the codec context, and a failure of [swr_alloc] or
    [swr_init] leaves the frames. The pass of the starting state then stops
    the encoder and drops its private state with these objects still
    allocated. *)
Theorem aac_setup_failure_leaks (e : step_env) (s s1 : sys) :
  AacProperties.is_aac s ->
  encoder_state (s_encoder s) = ES_STARTING ->
  setup (sp_setup e) s = Some (FAILED, s1) ->
  s_live s1 = leaked (sp_setup e) ++ s_live s
  /\ exists enc out,
       live_aac_encoder_main e s = Some (enc, None, leaked (sp_setup e) ++ s_live s, out)
       /\ encoder_state enc = ES_STOPPED.
Proof.
  intros Haac Hst Hsetup. pose proof (aac_setup_live _ _ _ _ Haac Hsetup) as Hlive.
  split; [exact Hlive|]. unfold live_aac_encoder_main. rewrite Hst, Hsetup.
  cbn [mbind option_bind]. cbv beta iota zeta. unfold bailout. rewrite Hlive.
  by do 2 eexists.
Qed.

End AacResources.
End AacResources.

(** * main.c: the watchdog *)

Section Watchdog.

(** The fields of [struct globs] that the alarm handler uses. *)
Record globs := {
  app_shutdown : bool;
  mixer_up : bool;
  jack_timeout : Z;
  main_timeout : Z;
  has_head : Z
}.

Definition set_app_shutdown (v : bool) (g : globs) : globs :=
  {| app_shutdown := v; mixer_up := mixer_up g; jack_timeout := jack_timeout g;
     main_timeout := main_timeout g; has_head := has_head g |}.

Definition set_jack_timeout (v : Z) (g : globs) : globs :=
  {| app_shutdown := app_shutdown g; mixer_up := mixer_up g; jack_timeout := v;
     main_timeout := main_timeout g; has_head := has_head g |}.

Definition set_main_timeout (v : Z) (g : globs) : globs :=
  {| app_shutdown := app_shutdown g; mixer_up := mixer_up g; jack_timeout := jack_timeout g;
     main_timeout := v; has_head := has_head g |}.

(** [alarm_handler]; [healthy] is the result of [mixer_healthcheck()], called
    only when the mixer is up. No result: the handler called [exit(5)].
    Otherwise the alarm is set again, one second ahead. *)
Definition alarm_handler (healthy : bool) (g : globs) : option globs :=
  if app_shutdown g then None else
  let g := if mixer_up g && negb healthy then g |> set_app_shutdown true else g in
  let g :=
    let old := jack_timeout g in
    let g := g |> set_jack_timeout (to_int (old + 1)) in
    if 9 <? old then g |> set_app_shutdown true else g in
  let g :=
    if negb (has_head g =? 0) then
      let old := main_timeout g in
      let g := g |> set_main_timeout (to_int (old + 1)) in
      if 9 <? old then g |> set_app_shutdown true else g
    else g in
  Some g.

(** The end of [main_process_audio]: [rv] is what the two process callbacks gave. *)
Definition main_process_audio (rv : Z) (g : globs) : Z * globs :=
  (rv, if rv =? 0 then g |> set_jack_timeout 0 else g).

(** The alarms that go off with no JACK process callback and no command
    between them; [healthy] for each one. *)
Fixpoint alarms (healthy : list bool) (g : globs) : option globs :=
  match healthy with
  | [] => Some g
  | h :: rest => g' ← alarm_handler h g; alarms rest g'
  end.

Lemma alarms_count (n : nat) : forall g : globs,
  app_shutdown g = false -> 0 <= jack_timeout g -> jack_timeout g + Z.of_nat n <= 10 ->
  has_head g = 0 \/ (0 <= main_timeout g /\ main_timeout g + Z.of_nat n <= 10) ->
  exists g',
    alarms (replicate n true) g = Some g'
    /\ app_shutdown g' = false
    /\ jack_timeout g' = jack_timeout g + Z.of_nat n
    /\ has_head g' = has_head g
    /\ mixer_up g' = mixer_up g
    /\ (has_head g <> 0 -> main_timeout g' = main_timeout g + Z.of_nat n).
Proof.
  induction n as [|n IH]; intros g Hs Hj Hjn Hm.
  - exists g. cbn [replicate alarms]. repeat split; try done; lia.
  - cbn [replicate alarms]. unfold alarm_handler. rewrite Hs. rewrite andb_false_r. cbv zeta.
    assert ((9 <? jack_timeout g) = false) as -> by lia.
    cbn [has_head set_jack_timeout].
    assert (to_int (jack_timeout g + 1) = jack_timeout g + 1) as Hjt.
    { unfold to_int. rewrite Z.mod_small by lia. lia. }
    destruct (Z.eqb_spec (has_head g) 0) as [Hh|Hh]; cbn [negb mbind option_bind].
    + destruct (IH (set_jack_timeout (to_int (jack_timeout g + 1)) g))
        as (g' & -> & Hs' & Hj' & Hh' & Hu' & Hm');
        [done | cbn; lia | cbn; lia | by left |].
      exists g'. cbn in *. repeat split; try done; lia.
    + destruct Hm as [?|[Hm0 Hmn]]; [done|].
      cbn [main_timeout set_jack_timeout].
      assert ((9 <? main_timeout g) = false) as -> by lia.
      assert (to_int (main_timeout g + 1) = main_timeout g + 1) as Hmt.
      { unfold to_int. rewrite Z.mod_small by lia. lia. }
      destruct (IH (set_main_timeout (to_int (main_timeout g + 1))
                      (set_jack_timeout (to_int (jack_timeout g + 1)) g)))
        as (g' & -> & Hs' & Hj' & Hh' & Hu' & Hm');
        [done | cbn; lia | cbn; lia | right; cbn; lia |].
      exists g'. cbn in *.
      repeat split; try done; lia.
Qed.

(** X18: the watchdog of the backend. With the mixer well, from a JACK
    process callback that returned 0 (it resets [jack_timeout]) ten alarms
    pass without a shutdown; the eleventh alarm in a row asks for the
    shutdown, and the alarm after that ends the process. *)
Theorem watchdog_grace (g : globs) :
  app_shutdown g = false -> has_head g = 0 ->
  let g0 := (main_process_audio 0 g).2 in
  (forall n : nat, (n <= 10)%nat ->
     exists g', alarms (replicate n true) g0 = Some g'
                /\ app_shutdown g' = false /\ jack_timeout g' = Z.of_nat n)
  /\ (exists g', alarms (replicate 11 true) g0 = Some g' /\ app_shutdown g' = true)
  /\ alarms (replicate 12 true) g0 = None.
Proof.
  intros Hs Hh g0.
  assert (app_shutdown g0 = false /\ jack_timeout g0 = 0 /\ has_head g0 = 0)
    as (Hs0 & Hj0 & Hh0) by done.
  clearbody g0.
  assert (forall n : nat, (n <= 10)%nat ->
            exists g', alarms (replicate n true) g0 = Some g'
                       /\ app_shutdown g' = false /\ jack_timeout g' = Z.of_nat n
                       /\ has_head g' = 0) as Hfirst.
  { intros n Hn. destruct (alarms_count n g0) as (g' & Ha & Hs' & Hj' & Hh' & _);
      [done | lia | lia | by left |].
    exists g'. rewrite Hj0 in Hj'. rewrite Hh0 in Hh'. by repeat split. }
  split.
  { intros n Hn. destruct (Hfirst n Hn) as (g' & ? & ? & ? & _). by exists g'. }
  destruct (Hfirst 10%nat ltac:(lia)) as (g10 & H10 & Hs10 & Hj10 & Hh10).
  assert (exists g11, alarm_handler true g10 = Some g11 /\ app_shutdown g11 = true)
    as (g11 & H11 & Hs11).
  { unfold alarm_handler. rewrite Hs10, andb_false_r. cbv zeta. rewrite Hj10.
    change (9 <? Z.of_nat 10) with true. cbv iota.
    cbn [has_head set_app_shutdown set_jack_timeout]. rewrite Hh10. cbn [Z.eqb negb].
    by eexists. }
  assert (forall n l g, alarms (replicate n true) g0 = Some g ->
            alarms (replicate n true ++ l) g0 = alarms l g) as Happ.
  { intros n. generalize g0. induction n as [|n IH]; intros gg l g'; cbn [replicate app alarms].
    - by intros [= ->].
    - destruct (alarm_handler true gg) as [g1|]; [|done]. cbn [mbind option_bind]. apply IH. }
  split.
  - exists g11. split; [|done].
    change (replicate 11 true) with (replicate 10 true ++ [true]).
    rewrite (Happ _ _ _ H10). cbn [alarms]. by rewrite H11.
  - change (replicate 12 true) with (replicate 10 true ++ [true; true]).
    rewrite (Happ _ _ _ H10). cbn [alarms]. rewrite H11. cbn [mbind option_bind].
    unfold alarm_handler. by rewrite Hs11.
Qed.

End Watchdog.

(** * Concrete runs of the further properties *)

(** A run with a packet from before the attachment, two audio packets and a
    chapter between them. *)
Definition ex_mixed_packets : list (main_env * encoder_op_packet) :=
  map (fun p => (ex_env (Some p), p))
      [ex_early;
       ex_packet 9 5 128 0 [255; 251; 144; 0; 5; 6];
       ex_chapter;
       ex_packet 8 5 128 1 [7; 8]].

Definition ex_mixed : recorder * world :=
  Eval vm_compute in
    default ex_started (recorder_take_packets ex_mixed_packets ex_started.1 ex_started.2).

Definition ex_file : FILE := {| f_path := "/tmp/a.mp3"; f_room := None; f_error := false |}.

Lemma recording_is_accepted_payloads_witness :
  file_content (f_path ex_file) ex_mixed.2
  = file_content (f_path ex_file) ex_started.2
    ++ concat (data <$> filter (fun p => recorded (initial_serial ex_started.1) p = true)
                               (ex_mixed_packets.*2))
  /\ fp ex_mixed.1 = Some ex_file
  /\ (counted ex_file ex_started.1 ex_started.2 -> counted ex_file ex_mixed.1 ex_mixed.2).
Proof.
  apply (recording_is_accepted_payloads ex_mixed_packets ex_started.1 ex_started.2 ex_file
           ex_mixed.1 ex_mixed.2).
  - reflexivity.
  - split; reflexivity.
  - repeat constructor.
  - reflexivity.
Defined.

Example mixed_run_content :
  file_content "/tmp/a.mp3" ex_mixed.2 = [255; 251; 144; 0; 5; 6; 7; 8]
  /\ bytes_written ex_mixed.1 = 8.
Proof. split; reflexivity. Qed.

(** The recorder started on a device that takes four bytes. *)
Definition ex_small_start : start_env :=
  {| se_buffers_ok := true; se_register := Some ex_mp3_op; se_pathname_ok := true;
     se_time := "[2020]"; se_fopen_ok := true; se_room := Some 4; se_flush_serial := 4;
     se_cue_fopen_ok := true; se_cue_room := None; se_sample_rate := 44100;
     se_sf_open_ok := true; se_ringbuffers_ok := true |}.

Definition ex_small : recorder * world :=
  Eval vm_compute in
    match recorder_start ex_small_start ex_vars (recorder_init 0) ex_world with
    | Some (_, self, w) => (self, w)
    | None => (recorder_init 0, ex_world)
    end.

Definition ex_small_file : FILE := {| f_path := "/tmp/a.mp3"; f_room := Some 4; f_error := false |}.

Definition ex_six : encoder_op_packet := ex_packet 9 5 128 0 [255; 251; 144; 0; 5; 6].

Lemma short_write_ends_recording_witness :
  exists self' w',
    recorder_main_pass ex_id3 (ex_env (Some ex_six)) ex_small.1 ex_small.2 = Some (self', w')
    /\ record_mode self' = mode_after_short_write ex_small.1 ex_six
    /\ bytes_written self' = bytes_written ex_small.1
    /\ recording_length_ms self' = recording_length_ms ex_small.1
    /\ file_content (f_path ex_small_file) w'
       = file_content (f_path ex_small_file) ex_small.2 ++ take (Z.to_nat 4) (data ex_six)
    /\ (write_failure ex_small.1 ∈ stderr w').
Proof.
  apply (short_write_ends_recording ex_id3 (ex_env (Some ex_six)) ex_six ex_small.1 ex_small.2
           ex_small_file 4); try reflexivity; simpl; lia.
Defined.

(** The segment list of the two-segment run, closed as at the stop. *)
Definition ex_closed : recorder * world :=
  Eval vm_compute in recorder_append_metadata2 true ex_vbr.1 None ex_vbr.2.


(** An Ogg recording with one chapter, as it is when the stop reaches it. *)
Definition ex_ogg_op : encoder_op_t :=
  {| op_run_request_f := true; op_family := ENCODER_FAMILY_OGG; op_codec := ENCODER_CODEC_VORBIS |}.

Definition ex_ogg_start : start_env :=
  {| se_buffers_ok := true; se_register := Some ex_ogg_op; se_pathname_ok := true;
     se_time := "[2020]"; se_fopen_ok := true; se_room := None; se_flush_serial := 4;
     se_cue_fopen_ok := true; se_cue_room := None; se_sample_rate := 44100;
     se_sf_open_ok := true; se_ringbuffers_ok := true |}.

Definition ex_ogg_started : recorder * world :=
  Eval vm_compute in
    match recorder_start ex_ogg_start ex_vars (recorder_init 0) ex_world with
    | Some (_, self, w) => (self, w)
    | None => (recorder_init 0, ex_world)
    end.

Definition ex_ogg : recorder * world :=
  Eval vm_compute in
    ex_take ex_chapter (ex_take (ex_packet 5 5 128 0 [79; 103; 103; 83]) ex_ogg_started).

Definition ex_ogg_file : FILE := {| f_path := "/tmp/a.oga"; f_room := None; f_error := false |}.

Definition ex_ogg_stopping : recorder := set_record_mode RM_STOPPING ex_ogg.1.

Lemma chapters_outlive_recording_witness :
  exists self1,
    recorder_main_pass ex_id3 (ex_env None) ex_ogg_stopping ex_ogg.2 = Some (self1, ex_ogg.2)
    /\ record_mode self1 = RM_STOPPED
    /\ fp self1 = None
    /\ mi self1 = mi ex_ogg_stopping
    /\ forall e rv r self2 w2,
         recorder_start e rv self1 ex_ogg.2 = Some (r, self2, w2) -> mi self2 = mi ex_ogg_stopping.
Proof.
  apply (chapters_outlive_recording ex_id3 (ex_env None) ex_ogg_stopping ex_ogg.2).
  - reflexivity.
  - simpl. lia.
  - reflexivity.
Defined.

(** The list that outlives the Ogg recording has its chapter. *)
Example ogg_chapter_logged : length (mi ex_ogg_stopping) = 1%nat.
Proof. reflexivity. Qed.

Lemma pause_before_start_witness :
  exists self1 w1,
    recorder_pause ex_id3 [] (recorder_init 0) ex_world = Returned (SUCCEEDED, self1, w1)
    /\ record_mode self1 = RM_STOPPED
    /\ files w1 = files ex_world
    /\ forall e rv self2 w2,
         recorder_start e rv self1 w1 = Some (SUCCEEDED, self2, w2) ->
         record_mode self2 = RM_PAUSED.
Proof. apply (pause_before_start ex_id3 [] (recorder_init 0) ex_world). reflexivity. Defined.

(** The final packet of the segment with serial 5. *)
Definition ex_final : encoder_op_packet := ex_packet 10 5 128 2 [].


Lemma pause_completes_on_final_packet_witness :
  exists self' w',
    recorder_pause ex_id3 [ex_env None; ex_env (Some ex_final)] ex_recording.1 ex_recording.2
    = Returned (SUCCEEDED, self', w')
    /\ record_mode self' = RM_PAUSED
    /\ pause_pending self' = false
    /\ fp self' = Some ex_file
    /\ file_content (f_path ex_file) w'
       = file_content (f_path ex_file) ex_recording.2 ++ payload ex_final.
Proof.
  apply (pause_completes_on_final_packet ex_id3 (ex_env None) (ex_env (Some ex_final)) []
           ex_final ex_recording.1 ex_recording.2 ex_file); try reflexivity.
  - simpl. lia.
  - split; reflexivity.
Defined.


Definition ex_ogg_final : encoder_op_packet := ex_packet 6 5 128 2 [].

Lemma stop_completes_on_final_packet_witness :
  exists self' w',
    recorder_stop ex_id3 [ex_env None; ex_env (Some ex_ogg_final); ex_env None; ex_env None]
      ex_ogg.1 ex_ogg.2
    = Returned (SUCCEEDED, self', w')
    /\ record_mode self' = RM_STOPPED
    /\ fp self' = None
    /\ stop_request self' = false /\ stop_pending self' = false
    /\ pause_request self' = false /\ pause_pending self' = false
    /\ file_content (f_path ex_ogg_file) w'
       = file_content (f_path ex_ogg_file) ex_ogg.2 ++ payload ex_ogg_final.
Proof.
  apply (stop_completes_on_final_packet ex_id3 (ex_env None) (ex_env (Some ex_ogg_final))
           (ex_env None) (ex_env None) [] ex_ogg_final ex_ogg.1 ex_ogg.2 ex_ogg_file);
    try reflexivity.
  - simpl. lia.
  - split; reflexivity.
Defined.

Definition ex_audio : list Z :=
  Eval vm_compute in file_content "/tmp/a.mp3" ex_closed.2.

Lemma apply_mp3_tags_layout_witness :
  exists self' w' n,
    recorder_apply_mp3_tags ex_id3 (ex_tags true) ex_closed.1 ex_closed.2 = Some (self', w')
    /\ self' = set_first_mp3_header (take 4 ex_audio) ex_closed.1
    /\ files w' !! "/tmp/a.mp3"
       = Some (ex_id3 (recording_length_ms ex_closed.1) (mi ex_closed.1)
               ++ xing_frame_bytes self' ex_first ex_table ++ replicate n 0 ++ ex_audio)
    /\ files w' !! ("/tmp/a.mp3" +:+ ".tmp") = None
    /\ (forall q, q <> "/tmp/a.mp3" -> q <> "/tmp/a.mp3" +:+ ".tmp" ->
                  files w' !! q = files ex_closed.2 !! q)
    /\ last (stderr w') = Some tag_success.
Proof.
  apply (apply_mp3_tags_layout ex_id3 (ex_tags true) ex_closed.1 ex_closed.2 "/tmp/a.mp3"
           ex_audio ex_first (tail (mi2 ex_closed.1)) ex_table); try reflexivity.
  - simpl. lia.
  - discriminate.
  - intros _. split; reflexivity.
Defined.




Lemma mp3_cuesheet_content_witness :
  exists w',
    recorder_create_mp3_cuesheet true None ex_chapter_1.1 ex_chapter_1.2 = Some (SUCCEEDED, w')
    /\ file_content "/tmp/a.cue" w'
       = cue_head "[2020]" (str_bytes "a.mp3") " MP3" ++ cue_track_bytes 1 (mi ex_chapter_1.1)
    /\ (forall q, q <> "/tmp/a.cue" -> files w' !! q = files ex_chapter_1.2 !! q)
    /\ stderr w' = stderr ex_chapter_1.2.
Proof.
  apply (mp3_cuesheet_content ex_chapter_1.1 ex_chapter_1.2 "/tmp/a.cue" "[2020]" "/tmp" "a.mp3");
    try reflexivity.
  apply (bool_decide_unpack _). vm_compute. exact I.
Defined.

(** A lossless recording, started with two blocks of samples waiting. *)
Definition ex_lossless_vars : recorder_vars :=
  {| record_source := "-1"; record_folder := "/tmp"; record_filename := "a" |}.

Definition ex_lossless : recorder * world :=
  Eval vm_compute in
    match recorder_start ex_start ex_lossless_vars (recorder_init 0) ex_world with
    | Some (_, self, w) => (self, w)
    | None => (recorder_init 0, ex_world)
    end.

Definition ex_lossless_env : main_env :=
  {| env_packet := None; env_flush_serial := 5; env_rb_reads := [4096; 4096];
     env_calloc_ok := true; env_tags := ex_tags true; env_cue_open_ok := true;
     env_cue_room := None |}.

Definition ex_cue_file : FILE := {| f_path := "/tmp/a.cue"; f_room := None; f_error := false |}.

Lemma lossless_cue_track_witness :
  exists self' w',
    recorder_main_pass ex_id3 ex_lossless_env ex_lossless.1 ex_lossless.2 = Some (self', w')
    /\ new_artist_title self' = false
    /\ artist_title_writes self'
       = artist_title_writes ex_lossless.1 + (if new_artist_title ex_lossless.1 then 1 else 0)
    /\ recording_length_s self' = Z.quot (sf_samples self') (sfinfo_samplerate ex_lossless.1)
    /\ recording_length_ms self'
       = Z.quot (sf_samples self' * 1000) (sfinfo_samplerate ex_lossless.1)
    /\ extended (f_path ex_cue_file) ex_lossless.2 w'
         (if new_artist_title ex_lossless.1
          then lossless_track self' (artist_title_writes ex_lossless.1 + 1) else []).
Proof.
  apply (lossless_cue_track ex_id3 ex_lossless_env ex_lossless.1 ex_lossless.2 ex_cue_file);
    try reflexivity.
  - simpl. lia.
  - split; reflexivity.
Defined.

Lemma aac_metadata_round_trip_witness :
  exists (enc : encoder) (st : Aac.State) (live : list av_object) (m : encoder_op_packet),
    Aac.live_aac_encoder_main (ex_step []) ex_aac_retag
    = Some (enc, Some st, live, Aac.s_out ex_aac_retag ++ [m])
    /\ metadata_fields (Some m)
       = (Some (enc_artist (Aac.s_encoder ex_aac_retag)),
          Some (enc_title (Aac.s_encoder ex_aac_retag)),
          Some (enc_album (Aac.s_encoder ex_aac_retag)))
    /\ (is_duplicate ex_recording.1 (Some m) = Some false ->
        exists self',
          recorder_append_metadata true ex_recording.1 (Some m) ex_recording.2
          = Some (self', ex_recording.2)
          /\ last (mi self')
             = Some (new_chapter ex_recording.1 (enc_artist (Aac.s_encoder ex_aac_retag))
                       (enc_title (Aac.s_encoder ex_aac_retag))
                       (enc_album (Aac.s_encoder ex_aac_retag)))).
Proof.
  apply (aac_metadata_round_trip (ex_step []) ex_aac_retag ex_recording.1 ex_recording.2);
    try reflexivity;
    repeat split; apply (bool_decide_unpack _); vm_compute; exact I.
Defined.

Lemma adts_frame_packet_witness :
  exists p : encoder_op_packet,
    Aac.s_out (Aac.write_packet_wrapper [33; 16; 4] ex_aac_running)
    = Aac.s_out ex_aac_running ++ [p]
    /\ drop 7 (data p) = [33; 16; 4]
    /\ data_size (header p) = Z.of_nat (length (data p))
    /\ Forall (fun b => 0 <= b < 256) (take 7 (data p))
    /\ adts_rate_index (take 7 (data p)) = 4
    /\ adts_frame_length (take 7 (data p)) = data_size (header p) mod 8192
    /\ (0 <= enc_n_channels (Aac.s_encoder ex_aac_running) < 4 ->
        Z.of_nat (length [33; 16; 4]) < 8185 ->
        adts_frame_length (take 7 (data p)) = data_size (header p)
        /\ adts_channels (take 7 (data p)) = enc_n_channels (Aac.s_encoder ex_aac_running)).
Proof.
  apply (adts_frame_packet [33; 16; 4] ex_aac_running 4).
  - lia.
  - reflexivity.
Defined.

(** The running WebM encoder asked to stop, and the pass that tears it down. *)
Definition ex_webm_halting : Webm.sys :=
  Eval vm_compute in
    ex_webm_next (ex_step ex_webm_header)
      (Webm.on_encoder (set_run_request_f false) ex_webm_running).

Lemma webm_stream_gives_back_witness :
  (exists enc st live out,
     Webm.live_webm_encoder_main (ex_step ex_webm_header) ex_webm_running
     = Some (enc, Some st, live, out)
     /\ WebmResources.resources (WebmResources.after enc st live out)
        = WebmResources.resources ex_webm_running)
  /\ (exists enc st out,
        Webm.live_webm_encoder_main (ex_step ex_webm_header) ex_webm_halting
        = Some (enc, st, [], out)).
Proof.
  split.
  - apply (WebmResources.webm_stream_gives_back (ex_step ex_webm_header) ex_webm_running []).
    reflexivity.
  - apply (WebmResources.webm_stream_gives_back (ex_step ex_webm_header) ex_webm_halting []);
      reflexivity.
Defined.

(** The running AAC encoder after a pass that encoded a frame. *)
Definition ex_aac_audio : Aac.sys :=
  Eval vm_compute in ex_aac_next ex_audio_step ex_aac_running.

Lemma aac_packets_never_freed_witness :
  AacResources.packets (Aac.s_live ex_aac_audio)
  = (AacResources.packets (Aac.s_live ex_aac_running)
     + match encoder_state (Aac.s_encoder ex_aac_running) with
       | ES_RUNNING => if fe_packet_alloc_ok (sp_frame ex_audio_step) then 1 else 0
       | _ => 0
       end)%nat.
Proof.
  apply (AacResources.aac_packets_never_freed ex_audio_step ex_aac_running
           (Aac.s_encoder ex_aac_audio) (Some (Aac.s_self ex_aac_audio))
           (Aac.s_live ex_aac_audio) (Aac.s_out ex_aac_audio)).
  - left. reflexivity.
  - reflexivity.
Defined.

(** A start in which [avcodec_open2] fails. *)
Definition ex_open2_fails : step_env :=
  {| sp_setup :=
       {| su_alloc_context_ok := true; su_guess_format_ok := true; su_av_malloc_ok := true;
          su_avio_alloc_ok := true; su_find_encoder_ok := true; su_codec_is_audio := true;
          su_new_stream_ok := true; su_alloc_context3_ok := true; su_parameters_ok := true;
          su_open2_ok := false; su_variable_frame_size := false; su_frame_size := 1024;
          su_frame_ok := true; su_tmp_frame_ok := true; su_swr_alloc_ok := true;
          su_swr_init_ok := true; su_header_ret := 0; su_header_bufs := [] |};
     sp_metadata_alloc_ok := true;
     sp_frame := {| fe_packet_alloc_ok := true; fe_rounds := [] |};
     sp_trailer_ret := 0; sp_trailer_bufs := [];
     sp_retag_header_ret := 0; sp_retag_header_bufs := []; sp_retag_trailer_bufs := [];
     sp_flush_header_ret := 0; sp_flush_header_bufs := []; sp_flush_trailer_bufs := [] |}.

Definition ex_aac_unopened : Aac.sys :=
  Eval vm_compute in
    match Aac.setup (sp_setup ex_open2_fails) (ex_aac 44100) with
    | Some (_, s) => s
    | None => ex_aac 44100
    end.

Lemma aac_setup_failure_leaks_witness :
  Aac.s_live ex_aac_unopened
  = AacResources.leaked (sp_setup ex_open2_fails) ++ Aac.s_live (ex_aac 44100)
  /\ exists enc out,
       Aac.live_aac_encoder_main ex_open2_fails (ex_aac 44100)
       = Some (enc, None,
               AacResources.leaked (sp_setup ex_open2_fails) ++ Aac.s_live (ex_aac 44100), out)
       /\ encoder_state enc = ES_STOPPED.
Proof.
  apply (AacResources.aac_setup_failure_leaks ex_open2_fails (ex_aac 44100) ex_aac_unopened).
  - left. reflexivity.
  - reflexivity.
  - reflexivity.
Defined.

(** The codec context is what this failed start leaves allocated. *)
Example open2_failure_leaks_codec_context :
  AacResources.leaked (sp_setup ex_open2_fails) = [AvCodecContext]
  /\ Aac.s_live ex_aac_unopened = [AvCodecContext].
Proof. split; reflexivity. Qed.

Definition ex_globs : globs :=
  {| app_shutdown := false; mixer_up := true; jack_timeout := 7; main_timeout := 0;
     has_head := 0 |}.

Lemma watchdog_grace_witness :
  let g0 := (main_process_audio 0 ex_globs).2 in
  (forall n : nat, (n <= 10)%nat ->
     exists g', alarms (replicate n true) g0 = Some g'
                /\ app_shutdown g' = false /\ jack_timeout g' = Z.of_nat n)
  /\ (exists g', alarms (replicate 11 true) g0 = Some g' /\ app_shutdown g' = true)
  /\ alarms (replicate 12 true) g0 = None.
Proof. apply (watchdog_grace ex_globs); reflexivity. Defined.
